(* ===== verification/_CoqProject ===== *)
-Q . S2P
Prelude.v
PyStr.v
PyDict.v
Itertools.v
Arrays.v
Params.v
Mixin.v
Interpolate.v
Marginals.v
FitBands.v
Patterned.v
Identity.v
Pipeline.v
Derivative.v
HotPool.v
KFermi.v
Tarpes.v
EffectiveMass.v
Bootstrap.v
Maestro.v
Methods.v
Jupyter.v
FitTool.v
