(* ===== verification/Prelude.v ===== *)
(** * Verification of the PyARPES analysis toolkit

    The repository is a Python toolkit for angle-resolved photoemission
    data.  Its algorithmic core is the band pipeline of
    [src/arpes/analysis/band_analysis.py]: the marginals of an
    N-dimensional spectrum are enumerated ([_iterate_marginals]), a
    composite peak model is fitted on each of them ([fit_bands],
    [fit_patterned_bands]) through the adapter of
    [src/arpes/fits/fit_models/x_model_mixin.py], the fitted components
    are relabelled so that a band keeps its identity across the sweep and
    the relabelled parameters are collected per band
    ([unpack_bands_from_fit]).  Around it stand analysis functions that do
    not depend on it: derivatives and curvature
    ([analysis/derivative.py]), time-resolved spectra
    ([analysis/tarpes.py]), the Fermi momentum of a series of fits
    ([analysis/kfermi.py]), a keep-alive process pool
    ([fits/hot_pool.py]), the statistical bootstraps of
    [src/arpes/bootstrap.py], the loader of the MAESTRO endstations
    ([endstations/plugin/MAESTRO.py]), the helpers that ask a running
    notebook for its name, history and logs ([utilities/jupyter.py])
    and, under [legacy_files], the Qt tool that shows the fits of a
    dataset under a cursor ([plotting/qt/fit_tool/__init__.py]).

    ** Files, in dependency order

    - [Prelude] (this file): the numeric interface [ScalarOps] with its
      order laws [ScalarOrder] and the instance for exact rationals;
      Python exceptions as the result type [pyres] with its bind, [pymap]
      and [pyfold]; generators; slices; the loop [argmin_loop] that keeps
      the first strict minimum, which [unpack_bands_from_fit] runs twice;
      [np_mean], [zip_strict] and the constants of numpy (class
      [Constants]); the tactics and the hint database [arpes].
    - [PyStr]: the operations on [str] the sources use ([in],
      [startswith], [split], [join], [replace], [lower]).
    - [PyDict]: Python's insertion-ordered [dict] as an association list
      ([dict_get], [dict_set], [dict_update]), its invariant [dict_wf],
      the equality of Python, which forgets the order ([dict_equiv],
      with the operations as morphisms of it), and the refinement to
      stdpp's [gmap].
    - [Itertools]: [itertools.permutations], [product], [pairwise] and
      [enumerate] in the order CPython yields them.
    - [Arrays]: the part of [xarray.DataArray] the sources use, as the
      record [Grid] of dimension names, ticks and cells in row-major
      order, with [sel], [loc] assignment, [sum], [mean], [transpose]
      ([xr_transpose]) and [enumerate_dataarray].
    - [Params]: lmfit's parameters, models and results; [param_getter]
      and [param_stderr_getter] of [analysis/band_analysis_utils.py];
      [__add__] and [__mul__] of the mixin.
    - [Mixin]: the rest of [x_model_mixin.py]: [_prep_parameters],
      [guess_fit], [xguess], the conversions from labelled arrays and the
      [guess] of the three composite models.  lmfit itself is the class
      [Lmfit].
    - [Interpolate]: [_is_between] and
      [_interpolate_intersecting_fragments].
    - [Marginals]: [_iterate_marginals].
    - [FitBands]: [fit_bands]: the initial fits on the residual and the
      sweep with its cache of parameters, as folds of [initial_step] and
      [sweep_step] over the states [InitState] and [SweepState]; the
      invariant of the sweep on the cells it has filled ([filled_by]).
    - [Patterned]: [fit_patterned_bands] with [_build_params] and
      [_instantiate_band]: the sweep over the slices as a fold of
      [patterned_step] over [PatternedState], in which the parameter
      dictionary of each band, which the code mutates and shares, is
      threaded from one slice to the next.
    - [Identity]: [unpack_bands_from_fit]: [as_vector], the search of
      the reference, the matrix of distances, the permutation search and
      the extraction of the bands; the loop is a fold of [unpack_step]
      over [State].
    - [Pipeline]: the two halves chained as a caller chains them: what
      the unpacking asks of a fitter ([complete_fitter]), that the grid
      of [fit_bands] meets what [unpack_bands_from_fit] asks, and the
      sweeps whose grids are not unpacked.
    - [Derivative]: every function of [derivative.py]; the values of
      an array of two dimensions or more are rows of columns of blocks
      and an assignment to a block broadcasts as numpy does; xarray's [differentiate] is the class
      [Calculus].
    - [HotPool]: the object of [hot_pool.py] on configurations that also
      record the pools created and closed; its runs are sequences of
      steps of the relation [step], its contract the machine
      [spec_step].
    - [KFermi]: [kfermi_from_mdcs].
    - [Tarpes]: every function of [tarpes.py]; [normalize_dim] is the
      class [Preparation].
    - [EffectiveMass]: [fit_for_effective_mass] of [band_analysis.py]:
      the choice of the axis, the branch for data in momentum, which
      calls [guess_fit] of [Mixin] on the centres [F_p] of [KFermi]
      reads, and the branch for data in angles; the package around it
      ([broadcast_model], the conversion to momentum space, the
      nearest-neighbour selection) is the class [Fits].
    - [Bootstrap]: every function of [bootstrap.py].  The random numbers
      come from a source, the class [Sampler], whose state the functions
      thread in the order in which the code draws: a computation that
      draws is a function from that state to a result and the next
      state, or to an exception (the monad [rand]).  The accessors of
      the package are the classes [SpectrumTools], [ArrayLike] and
      [Sarpes].
    - [Maestro]: the two endstations of [MAESTRO.py]: the tables of
      names, the transforms of [START_T] and [SF_SLITN], [load],
      [update_hierarchical_coordinates], [unwind_serptentine] and
      [postprocess_final].  A scan is the record of its coordinates,
      variables and attributes; the reading of the file is the class
      [BaseEndstation], [int] and [float] of a string the class
      [Parsers], [np.pi] and [np.nan] the class [Constants].
    - [Methods]: methods of an object that outlives an exception, as
      functions from the state to a result and the state afterwards
      (the type [ui], with [let# x := m in k] for the sequence of two
      statements), and the judgements [keeps], [returns] and [raises]
      with their rules and tactics.
    - [Jupyter]: every function of [jupyter.py] but [wrap_tqdm], which
      is in [Patterned].  What the functions read of the machine (the
      imports, the connection file, the servers and their answers, the
      shell and its history, the configuration, the files, the clock)
      is the class [Jupyter]; what they change (the warnings, the
      number of readings of the clock) is the record [World], and the
      functions that change it are methods on it.  The answer of a
      server is untyped JSON ([json]), of which [SessionInfo] is the
      declared type as a predicate; the servers and the tail of the
      history are an [iterable], a sequence or an iterator.
    - [FitTool]: every method of [FitTool] and of [FitToolWindow], and
      [_fit_tool].  A method is a function from the application to a
      result and the application afterwards (the type [ui] of
      [Methods]), because Qt
      goes on with the next event after an exception and the state the
      exception left is the state the next handler meets.  The
      application is the record [FitTool] of the attributes the code
      assigns, with a store of widgets and of cursor lines that the
      views, the reactive records and the registered cursors refer to by
      number, so that what the code shares is shared.  The events of
      the window (key presses, a drag of a cursor line, the button of
      the information tab) are the type [event]; [handle] runs the
      handler of one event as Qt does, and [reachable] is the set of
      windows a sequence of events leads to.  The contract of the
      window is a machine on cursors alone ([cursor_step],
      [cursor_reachable]).

    ** Modelling conventions

    - A Python [float] is an element of a type [F] with the operations of
      [ScalarOps].  Definitions are generic in [F]; theorems that only
      compare values assume [ScalarOrder F] (the comparison [<] is a
      strict weak order, which IEEE doubles satisfy in the absence of
      not-a-number); theorems that compute are stated for the exact
      rationals [Q], whose square root is rounded down to 52 binary
      digits.  Rounding and overflow of floats are not modelled.
      [float("inf")] as the first bound of a search is [None].
      Not-a-number is a value of its own only where the code produces it
      as a sentinel ([param_getter]).
    - A Python exception is a value [Raise e] of [pyres]; [let* x := m in
      k] runs [k] when [m] returned.  A function that cannot raise
      returns its plain result.
    - A [dict] is an association list in insertion order, because the
      code iterates over dicts and the first or the last match decides.
      Where the code mutates a dict that several objects refer to, the
      dict is threaded through the calls in the order of the mutations.
    - A generator is the list of the computations of its items, so that
      [next] and a [for] loop meet the exceptions Python raises, when it
      raises them.
    - The order in which Python iterates over a set of strings is a
      parameter, the class [SetOrder].
    - The libraries the sources call but do not contain (lmfit, xarray,
      numpy, scipy, the xarray accessors of the package) are modelled
      from their documented behaviour, or are the operations of a class
      ([Lmfit], [PatternedEnv], [Calculus], [Preparation], [Concat],
      [Sampler], [BaseEndstation], [FitUtilities], [Fits], [Jupyter]) of
      which the theorems assume nothing but what they state.  The files evaluate the
      functions on stand-ins for these classes over [Q].
    - [int] of a float is the operation [s_trunc] of the class
      [FloatInt]; over [Q] it is the quotient rounded towards zero.

    ** What the theorems show

    Each file states the behaviour of its functions on every branch,
    exceptions included, and the invariants its loops keep.  The main
    results: on a grid of complete fits [unpack_bands_from_fit] raises
    nothing and returns one band per component with one value per cell;
    [fit_bands] leaves no cell of its grid empty, each holds a fit of
    the sum of the models to the marginal at a coordinate that agrees
    with its own, and on a spectrum of two dimensions, with a fitter
    that reports standard errors, this grid is unpacked without an
    exception, while a fit with a component that has no width, a
    background, makes the unpacking raise [KeyError] at the first cell;
    the labels of every cell are a permutation of the template's
    prefixes; the permutation search returns an arrangement of minimum
    trace, the first one in enumeration order; the search of the prior in
    [fit_bands] returns the parameters cached last and not the nearest;
    the marginal iterator yields the product of the numbers of ticks, in
    the order of [itertools.product]; the interpolation is exact at the
    control points, stays between them and gives nothing outside; the
    partial bands of one description share one parameter dictionary; the
    sum of two models evaluates to the sum of their values; the gradient
    modulus exists for the delta 1 and raises for the others; the hot
    pool refines a machine of two phases, leaks no pool and comes to
    rest after [__del__]; [bootstrap] returns for every source of random
    numbers, with one run of the function per sample, and every index
    [resample_cycle] draws is a position of the cycle axis, while
    [bootstrap] on a function of more than one result always raises;
    unwinding a serpentine scan twice gives the scan back; the MAESTRO
    [load] raises when a name of the file and the name it is renamed to
    are both coordinates; the slice the fit tool takes under its cursor
    lies within the axis and holds one position; the window of a tool
    that [_fit_tool] started keeps its application, views, layouts and
    a cursor of the right length whatever events arrive and whatever
    their handlers raise, and its cursor is one that the cursor machine
    reaches by the same events; the two transpose keys of the tool
    always raise, and so does the opening of data of three or four
    dimensions; [set_data] takes fits with one fit dimension and puts
    it last;
    the search of the servers returns the session of the first server
    that has one, but finds none when the servers come as an iterator,
    as Jupyter hands them out, because the debug message has consumed
    them; on sessions of the declared type the search raises nothing
    but [KeyError]; [get_recent_logs] reads an end of the log of at most
    [n_bytes] bytes and raises [TypeError] when the history comes as an
    iterator; [fit_for_effective_mass] fits along the first momentum
    axis without converting, and raises [StopIteration] on data without
    an axis it knows.  Where a
    theorem has hypotheses, a lemma named after it with the suffix
    [_witness] applies it to concrete data.

    ** Bounds

    No definition uses fuel: every loop of the modelled code runs over a
    finite list and is a structural recursion or a fold.  The permutation
    search is factorial in the number of bands; the examples use three at
    most.  Integers are Python's, without a width.  The examples of the
    fit tool run on fits over three positions of two energies.

    ** Not modelled

    Of the fit tool [fit_tool], which starts [_fit_tool] in a process
    of its own, and the sizes, colours and axis links of the widgets;
    the set-up of the loggers at the top of the modules and the
    messages logged, except where the making of a message changes what
    follows ([get_full_notebook_information]); plotting and the
    provenance decorators; the package initialisation
    ([arpes/__init__.py]), which holds the version and an import.  The
    libraries the sources call are not modelled beyond what the
    conventions above say: a theorem about [lm_fit], [broadcast_model]
    or [load_sessions] states what the code does with their results,
    not what they compute. *)

From stdpp Require Import prelude.
From Stdlib Require Import QArith Qreduction Lqa.
Close Scope Q_scope.

(** * The numeric interface *)

(** The operations the modelled code applies to floats. *)
Class ScalarOps (F : Type) : Type := {
  s_zero : F;
  s_one : F;
  s_add : F -> F -> F;
  s_sub : F -> F -> F;
  s_mul : F -> F -> F;
  s_div : F -> F -> F;
  s_sqrt : F -> F;
  s_ltb : F -> F -> bool;
  s_leb : F -> F -> bool;
  s_eqb : F -> F -> bool;
  s_of_Z : Z -> F
}.

Declare Scope sc_scope.
Delimit Scope sc_scope with sc.
Notation "x + y" := (s_add x y) : sc_scope.
Notation "x - y" := (s_sub x y) : sc_scope.
Notation "x * y" := (s_mul x y) : sc_scope.
Notation "x / y" := (s_div x y) : sc_scope.
Notation "x <? y" := (s_ltb x y) : sc_scope.
Notation "x <=? y" := (s_leb x y) : sc_scope.
Notation "x =? y" := (s_eqb x y) : sc_scope.
Notation "0" := s_zero : sc_scope.
Notation "1" := s_one : sc_scope.

(** The laws of comparison the order-dependent theorems rest on: [<] is a
    strict weak order and [<=] is its complement read backwards. *)
Class ScalarOrder (F : Type) `{ScalarOps F} : Prop := {
  s_ltb_irrefl : forall x : F, s_ltb x x = false;
  s_ltb_trans : forall x y z : F,
    s_ltb x y = true -> s_ltb y z = true -> s_ltb x z = true;
  s_ltb_cotrans : forall x y z : F,
    s_ltb x z = true -> s_ltb x y = true \/ s_ltb y z = true;
  s_leb_ltb : forall x y : F, s_leb x y = negb (s_ltb y x);
  s_eqb_ltb : forall x y : F, s_eqb x y = negb (s_ltb x y) && negb (s_ltb y x)
}.

(** [np.min([a, b])] and [np.max([a, b])]. *)
Definition s_min {F} `{ScalarOps F} (a b : F) : F := if s_ltb b a then b else a.
Definition s_max {F} `{ScalarOps F} (a b : F) : F := if s_ltb a b then b else a.

(** [abs(x)]. *)
Definition s_abs {F} `{ScalarOps F} (x : F) : F :=
  if s_ltb x s_zero then s_sub s_zero x else x.

(** Sum of a list, left to right from zero, as Python's [sum] does. *)
Definition s_sum {F} `{ScalarOps F} (l : list F) : F :=
  fold_left s_add l s_zero.

(** The constants [np.pi] and [np.nan]. *)
Class Constants (F : Type) : Type := {
  np_pi : F;
  np_nan : F
}.

(** [np.mean] of a vector. *)
Definition np_mean {F} `{ScalarOps F} (l : list F) : F :=
  s_div (s_sum l) (s_of_Z (Z.of_nat (length l))).

(** ** Exact rationals *)

(** A square root on rationals with 52 fractional bits:
    [floor (sqrt (a * b) * 2^52) / (b * 2^52)] for the reduced fraction
    [a / b]. *)
Definition Qsqrt (q : Q) : Q :=
  let r := Qred q in
  Qmake (Z.sqrt (Qnum r * Z.pos (Qden r) * 4 ^ 52)) (Qden r * 2 ^ 52).

Definition Qltb (a b : Q) : bool := negb (Qle_bool b a).

#[export] Instance Q_ops : ScalarOps Q := {|
  s_zero := 0%Q;
  s_one := 1%Q;
  s_add := Qplus;
  s_sub := Qminus;
  s_mul := Qmult;
  s_div := Qdiv;
  s_sqrt := Qsqrt;
  s_ltb := Qltb;
  s_leb := Qle_bool;
  s_eqb := Qeq_bool;
  s_of_Z := inject_Z
|}.

(** * Python exceptions *)

Inductive pyerr : Type :=
| KeyError
| ValueError
| AssertionError
| IndexError
| StopIteration
| TypeError
| AttributeError
| NameError
| NotImplementedError
| ImportError
| RuntimeError
| OSError
| MultipleInstanceError.

#[export] Instance pyerr_eq_dec : EqDecision pyerr.
Proof. solve_decision. Defined.

Inductive pyres (A : Type) : Type :=
| Ok (a : A)
| Raise (e : pyerr).
Arguments Ok {A} a.
Arguments Raise {A} e.

Definition pybind {A B} (m : pyres A) (k : A -> pyres B) : pyres B :=
  match m with
  | Ok a => k a
  | Raise e => Raise e
  end.

Declare Scope py_scope.
Delimit Scope py_scope with py.
Notation "'let*' x := m 'in' k" := (pybind m (fun x => k))
  (at level 10, x pattern, m at level 100, k at level 200) : py_scope.

(** [d[k]] on an optional lookup: a missing key raises [KeyError]. *)
Definition or_raise {A} (e : pyerr) (o : option A) : pyres A :=
  match o with
  | Some a => Ok a
  | None => Raise e
  end.

(** [zip(a, b, strict=True)] consumed to its end. *)
Definition zip_strict {A B} (a : list A) (b : list B) : pyres (list (A * B)) :=
  if Nat.eqb (length a) (length b) then Ok (combine a b) else Raise ValueError.

(** [assert b]. *)
Definition py_assert (b : bool) : pyres unit :=
  if b then Ok tt else Raise AssertionError.

(** Runs [f] over a list, stopping at the first exception. *)
Fixpoint pymap {A B} (f : A -> pyres B) (l : list A) : pyres (list B) :=
  match l with
  | [] => Ok []
  | x :: xs =>
      match f x with
      | Ok y =>
          match pymap f xs with
          | Ok ys => Ok (y :: ys)
          | Raise e => Raise e
          end
      | Raise e => Raise e
      end
  end.

(** A loop that updates a state and stops at the first exception. *)
Definition pyfold {A S} (f : S -> A -> pyres S) (l : list A) (s : S)
    : pyres S :=
  fold_left (fun acc x => pybind acc (fun s => f s x)) l (Ok s).

(** [l[i]] for a Python integer [i]: a negative index counts from the
    end, an index out of range raises [IndexError]. *)
Definition py_index {A} (l : list A) (i : Z) : pyres A :=
  let n := Z.of_nat (length l) in
  if (0 <=? i)%Z then or_raise IndexError (l !! Z.to_nat i)
  else if (- n <=? i)%Z then or_raise IndexError (l !! Z.to_nat (n + i))
  else Raise IndexError.

(** The position a Python integer [i] indexes in a sequence of [len]
    items. *)
Definition py_position (len : nat) (i : Z) : pyres nat :=
  let n := Z.of_nat len in
  if (0 <=? i)%Z then
    if (i <? n)%Z then Ok (Z.to_nat i) else Raise IndexError
  else if (- n <=? i)%Z then Ok (Z.to_nat (n + i))
  else Raise IndexError.

(** [l[start:stop]] with Python's reading of missing and negative
    bounds. *)
Definition slice_bound (len : nat) (dflt : Z) (b : option Z) : nat :=
  match b with
  | None => Z.to_nat dflt
  | Some i =>
      if (i <? 0)%Z then Z.to_nat (Z.max (Z.of_nat len + i) 0)
      else Z.to_nat (Z.min i (Z.of_nat len))
  end.

Definition py_slice {A} (start stop : option Z) (l : list A) : list A :=
  let len := length l in
  let a := slice_bound len 0 start in
  let b := slice_bound len (Z.of_nat len) stop in
  take (b - a) (drop a l).

(** A list cut into [n] pieces of [size] items. *)
Definition chunks {A} (n size : nat) (l : list A) : list (list A) :=
  map (fun i => take size (drop (i * size) l)) (seq 0 n).

(** [np.min] of the values of an array: [ValueError] on an empty one. *)
Definition np_min {F} `{ScalarOps F} (l : list F) : pyres F :=
  match l with
  | [] => Raise ValueError
  | x :: r => Ok (fold_left s_min r x)
  end.

(** The order in which Python iterates over a set depends on the hashes
    of its items, which for strings change from one run to the next:
    [set_first] stands for the item [next(iter(s))] returns, given the
    items of the set in some order. *)
Class SetOrder (A : Type) : Type := set_first : list A -> option A.

Class SetOrderLaws (A : Type) `{SetOrder A} : Prop := {
  set_first_In : forall (l : list A) (x : A), set_first l = Some x -> In x l;
  set_first_Some : forall l : list A, l <> [] -> is_Some (set_first l)
}.

(** [np.dot] of two vectors. *)
Definition dot {F} `{ScalarOps F} (u v : list F) : F :=
  s_sum (zip_with s_mul u v).

(** [l.remove(x)]: drops the first occurrence of [x]; [ValueError] when
    there is none. *)
Fixpoint py_remove {A} `{EqDecision A} (x : A) (l : list A) : pyres (list A) :=
  match l with
  | [] => Raise ValueError
  | y :: r =>
      if decide (y = x) then Ok r
      else match py_remove x r with
           | Ok r' => Ok (y :: r')
           | Raise e => Raise e
           end
  end.

(** A generator: the code before the first [yield] may raise, and so may
    the computation of each item, when the consumer asks for it. *)
Definition generator (A : Type) : Type := pyres (list (pyres A)).

(** [next(g)] on a fresh generator. *)
Definition gen_next {A} (g : generator A) : pyres A :=
  pybind g (fun items => match items with
                         | [] => Raise StopIteration
                         | x :: _ => x
                         end).

(** [for x in g: s = body(s, x)]. *)
Definition gen_for {A S} (g : generator A) (body : S -> A -> pyres S) (s : S)
    : pyres S :=
  pybind g (fun items =>
    pyfold (fun s item => pybind item (body s)) items s).

(** * The first-strict-minimum loop *)

(** The pattern
<<
    best = init; bound = float("inf")
    for x in xs:
        v = key(x)
        if v < bound:
            best = val(x); bound = v
>>
    with the bound [inf] as [None]. *)
Section Argmin.
Context {F : Type} {Fops : ScalarOps F} {A B : Type}.
Variable key : A -> F.
Variable val : A -> B.

Definition lt_bound (v : F) (bound : option F) : bool :=
  match bound with
  | None => true
  | Some w => s_ltb v w
  end.

Definition argmin_step (st : B * option F) (x : A) : B * option F :=
  if lt_bound (key x) (snd st) then (val x, Some (key x)) else st.

Definition argmin_loop (xs : list A) (st : B * option F) : B * option F :=
  fold_left argmin_step xs st.

End Argmin.

(** * Tactics and hints *)

Create HintDb arpes discriminated.
Create Rewrite HintDb arpes_rw.

(** Case analysis on the scrutinee of the first [match] or [if] of the
    goal, keeping the equation. *)
Ltac case_scrut :=
  match goal with
  | |- context [match ?x with _ => _ end] =>
      let E := fresh "E" in destruct x eqn:E
  end.

(** Inverts hypotheses that equate constructor terms of [pyres] and
    [option]. *)
Ltac inv_res :=
  repeat match goal with
  | H : Ok _ = Ok _ |- _ => injection H as H; try subst
  | H : Some _ = Some _ |- _ => injection H as H; try subst
  | H : Ok _ = Raise _ |- _ => discriminate H
  | H : Raise _ = Ok _ |- _ => discriminate H
  | H : Some _ = None |- _ => discriminate H
  | H : None = Some _ |- _ => discriminate H
  end.

(** Case analysis on every [match] of a hypothesis. *)
Ltac case_hyp E :=
  repeat match type of E with context [match ?c with _ => _ end] =>
    destruct c eqn:?
  end.

(** Splits a hypothesis [m >>= k = Ok r] into the steps that succeeded. *)
Ltac py_inv E :=
  repeat (unfold pybind in E;
          match type of E with
          | context [match ?c with Ok _ => _ | Raise _ => _ end] =>
              let R := fresh "R" in destruct c eqn:R; try discriminate E
          end).

(** The same, but only along the spine of the computation: the branches
    of an [if] or of a [match] on data are left alone. *)
Ltac head_scrut t :=
  lazymatch t with
  | match ?c with Ok _ => _ | Raise _ => _ end => head_scrut c
  | _ => constr:(t)
  end.

Ltac py_head E :=
  repeat (unfold pybind in E;
          lazymatch type of E with
          | match ?c with Ok _ => _ | Raise _ => _ end = _ =>
              let c' := head_scrut c in
              let R := fresh "R" in destruct c' eqn:R; try discriminate E
          end).

(** The same through the tuples the steps return and the flags they
    branch on. *)
Ltac py_inv_all E :=
  repeat (unfold pybind in E;
          match type of E with
          | context [match ?c with Ok _ => _ | Raise _ => _ end] =>
              let R := fresh "R" in destruct c eqn:R; try discriminate E
          | context [match ?c with pair _ _ => _ end] => destruct c
          | context [if ?c then _ else _] =>
              let R := fresh "R" in destruct c eqn:R; try discriminate E
          end).

(** * Laws of [pymap] *)

Lemma pymap_length {A B} (f : A -> pyres B) (l : list A) (r : list B) :
  pymap f l = Ok r -> length r = length l.
Proof.
  revert r. induction l as [| x l IH]; intros r; cbn.
  - intros. by inv_res.
  - destruct (f x); [| done]. destruct (pymap f l); [| done].
    intros. inv_res. cbn. by rewrite (IH _ eq_refl).
Qed.

Lemma pymap_Forall2 {A B} (f : A -> pyres B) (l : list A) (r : list B) :
  pymap f l = Ok r <-> Forall2 (fun x y => f x = Ok y) l r.
Proof.
  revert r. induction l as [| x l IH]; intros r; cbn.
  - split; [intros; inv_res; constructor | by inversion 1].
  - split.
    + destruct (f x) eqn:E; [| done]. destruct (pymap f l) eqn:E'; [| done].
      intros. inv_res. constructor; [done | by apply IH].
    + inversion 1 as [| ? y ? r' Hy Hr]; subst. rewrite Hy.
      by rewrite (proj2 (IH r') Hr).
Qed.

Lemma pymap_map {A B} (f : A -> pyres B) (g : A -> B) (l : list A) :
  Forall (fun x => f x = Ok (g x)) l -> pymap f l = Ok (map g l).
Proof. induction 1 as [| x l Hx _ IH]; [done |]. cbn. by rewrite Hx, IH. Qed.

Lemma pymap_ok {A B} (f : A -> pyres B) (l : list A) :
  Forall (fun x => exists y, f x = Ok y) l -> exists r, pymap f l = Ok r.
Proof.
  induction 1 as [| x l [y Hy] _ [r IH]]; [by exists [] |].
  exists (y :: r). cbn. by rewrite Hy, IH.
Qed.

Lemma pymap_ok_Forall {A B} (f : A -> pyres B) (P : B -> Prop) (l : list A) :
  Forall (fun x => exists y, f x = Ok y /\ P y) l ->
  exists r, pymap f l = Ok r /\ length r = length l /\ Forall P r.
Proof.
  induction 1 as [| x l (y & Hy & HP) _ (r & IH & Hlen & Hr)]; [by exists [] |].
  exists (y :: r). cbn. rewrite Hy, IH, Hlen. by repeat constructor.
Qed.

Lemma pymap_lookup {A B} (f : A -> pyres B) (l : list A) (r : list B)
    (i : nat) (x : A) :
  pymap f l = Ok r -> l !! i = Some x -> exists y, r !! i = Some y /\ f x = Ok y.
Proof.
  intros H%pymap_Forall2 Hx.
  destruct (Forall2_lookup_l _ _ _ _ _ H Hx) as (y & Hy & E). eauto.
Qed.

Lemma pymap_app {A B} (f : A -> pyres B) (l1 l2 : list A) :
  pymap f (l1 ++ l2)
  = pybind (pymap f l1) (fun r1 =>
    pybind (pymap f l2) (fun r2 => Ok (r1 ++ r2))).
Proof.
  induction l1 as [| x l1 IH]; cbn.
  - by destruct (pymap f l2).
  - destruct (f x); [| done]. rewrite IH.
    destruct (pymap f l1); [| done]. cbn. by destruct (pymap f l2).
Qed.

Lemma pymap_raises {A B} (f : A -> pyres B) (l : list A) (e : pyerr) :
  pymap f l = Raise e -> exists x, In x l /\ f x = Raise e.
Proof.
  induction l as [| x l IH]; [done |]. cbn.
  destruct (f x) eqn:Ex; [| intros [= <-]; exists x; by split; [left |]].
  destruct (pymap f l); [done |]. intros [= <-].
  destruct (IH eq_refl) as (y & Hy & E). exists y. by split; [right |].
Qed.

(** A traversal is undone by the traversal with a function that undoes
    the first at every element. *)
Lemma pymap_inverse {A B} (f : A -> pyres B) (g : B -> pyres A)
    (l : list A) (r : list B) :
  Forall (fun x => forall y, f x = Ok y -> g y = Ok x) l ->
  pymap f l = Ok r -> pymap g r = Ok l.
Proof.
  intros Hl H%pymap_Forall2. apply pymap_Forall2.
  induction H as [| x y l r Hxy _ IH]; [constructor |].
  apply Forall_cons in Hl as [Hx Hl]. constructor; [by apply Hx | by apply IH].
Qed.

Lemma pymap_ext_in {A B} (f g : A -> pyres B) (l : list A) :
  (forall x, In x l -> f x = g x) -> pymap f l = pymap g l.
Proof.
  induction l as [| x l IH]; [done |]. intros Hfg. cbn.
  rewrite (Hfg x) by (by left). destruct (g x); [| done].
  rewrite IH; [done |]. intros y Hy. apply Hfg. by right.
Qed.

Lemma omap_id_map {A B} (g : A -> option B) (l : list A) :
  omap id (map g l) = omap g l.
Proof. induction l as [| x l IH]; [done |]. cbn. by rewrite IH. Qed.

Lemma omap_none {A B} (g : A -> option B) (l : list A) :
  Forall (fun x => g x = None) l -> omap g l = [].
Proof. induction 1 as [| x l Hx _ IH]; [done |]. cbn. by rewrite Hx, IH. Qed.

Lemma omap_id_length {A} (l : list (option A)) : length (omap id l) <= length l.
Proof. induction l as [| [x |] l IH]; cbn; lia. Qed.

(** * Laws of [pyfold] *)

Lemma pyfold_raise {A S} (f : S -> A -> pyres S) (l : list A) (e : pyerr) :
  fold_left (fun acc x => pybind acc (fun s => f s x)) l (Raise e) = Raise e.
Proof. by induction l. Qed.

Lemma pyfold_cons {A S} (f : S -> A -> pyres S) (x : A) (l : list A) (s : S) :
  pyfold f (x :: l) s = pybind (f s x) (pyfold f l).
Proof.
  unfold pyfold. cbn. destruct (f s x); [done | apply pyfold_raise].
Qed.

Lemma pyfold_snoc {A S} (f : S -> A -> pyres S) (l : list A) (x : A) (s : S) :
  pyfold f (l ++ [x]) s = pybind (pyfold f l s) (fun s' => f s' x).
Proof. unfold pyfold. by rewrite fold_left_app. Qed.

Lemma pyfold_nil {A S} (f : S -> A -> pyres S) (s : S) : pyfold f [] s = Ok s.
Proof. done. Qed.

(** What every step that succeeds guarantees of its item holds of all
    items when the fold succeeds. *)
Lemma pyfold_Ok_Forall {A S} (f : S -> A -> pyres S) (P : A -> Prop)
    (l : list A) (s s' : S) :
  (forall s x s', f s x = Ok s' -> P x) ->
  pyfold f l s = Ok s' -> Forall P l.
Proof.
  intros Hf. revert s. induction l as [| x l IH]; intros s; [done |].
  rewrite pyfold_cons. destruct (f s x) as [s1 |] eqn:E; [| done]. cbn.
  intros H. constructor; eauto.
Qed.

Lemma gen_for_Ok {A S} (items : list A) (body : S -> A -> pyres S) (s : S) :
  gen_for (Ok (map Ok items)) body s = pyfold body items s.
Proof.
  unfold gen_for. cbn [pybind]. revert s.
  induction items as [| x items IH]; intros s; [done |].
  cbn [map]. rewrite !pyfold_cons. cbn [pybind].
  destruct (body s x); [apply IH | done].
Qed.

Lemma gen_for_inv {A S} (g : generator A) (body : S -> A -> pyres S) (s s' : S) :
  gen_for g body s = Ok s' ->
  exists items, g = Ok items
                /\ pyfold (fun s item => pybind item (body s)) items s = Ok s'.
Proof. unfold gen_for. destruct g as [items |]; [by exists items | done]. Qed.

Lemma py_remove_In {A} `{EqDecision A} (x : A) (l l' : list A) :
  py_remove x l = Ok l' -> In x l /\ length l = S (length l').
Proof.
  revert l'. induction l as [| y l IH]; intros l'; cbn; [done |].
  destruct (decide (y = x)) as [-> | _].
  - intros. inv_res. by split; [left |].
  - destruct (py_remove x l) as [r |]; [| done]. intros. inv_res.
    destruct (IH r eq_refl) as [Hin Hlen]. cbn. split; [by right | lia].
Qed.

Lemma py_remove_absent {A} `{EqDecision A} (x : A) (l : list A) :
  ~ In x l -> py_remove x l = Raise ValueError.
Proof.
  induction l as [| y l IH]; [done |]. cbn. intros Hx.
  destruct (decide (y = x)) as [-> | _]; [destruct Hx; by left |].
  rewrite IH; [done |]. intros ?. apply Hx. by right.
Qed.

Lemma py_position_ok (len : nat) (i : Z) :
  (0 <= i < Z.of_nat len)%Z -> py_position len i = Ok (Z.to_nat i).
Proof.
  intros Hi. unfold py_position.
  destruct (Z.leb_spec 0 i); [| lia]. by destruct (Z.ltb_spec i (Z.of_nat len)); [| lia].
Qed.

Lemma py_position_lt (len : nat) (i : Z) (p : nat) :
  py_position len i = Ok p -> p < len.
Proof.
  unfold py_position. destruct (Z.leb_spec 0 i).
  - destruct (Z.ltb_spec i (Z.of_nat len)); intros; inv_res. lia.
  - destruct (Z.leb_spec (- Z.of_nat len) i); intros; inv_res. lia.
Qed.

(** * Laws of lists *)

Lemma chunk_shift {A} (c : nat) (l : list A) (r : nat) :
  map (fun i => take c (drop (i * c) l)) (seq 1 r) = chunks r c (drop c l).
Proof.
  unfold chunks. rewrite <- (fmap_S_seq 0 r), <- list_fmap_compose.
  apply map_ext. intros i. cbn. rewrite drop_drop.
  by rewrite (Nat.add_comm c).
Qed.

Lemma concat_chunks {A} (r c : nat) (l : list A) :
  length l = r * c -> concat (chunks r c l) = l.
Proof.
  revert l. induction r as [| r IH]; intros l Hl.
  - by destruct l.
  - unfold chunks. cbn [seq map concat]. rewrite chunk_shift, IH.
    + cbn. apply take_drop.
    + rewrite length_drop. lia.
Qed.

Lemma chunks_shape {A} (r c : nat) (l : list A) :
  length l = r * c ->
  length (chunks r c l) = r /\ Forall (fun ch => length ch = c) (chunks r c l).
Proof.
  intros Hl. unfold chunks. split; [by rewrite length_map, length_seq |].
  apply Forall_map, Forall_forall. intros i Hi%elem_of_seq.
  rewrite length_take, length_drop. nia.
Qed.

Lemma chunks_concat {A} (c : nat) (l : list (list A)) :
  Forall (fun ch => length ch = c) l -> chunks (length l) c (concat l) = l.
Proof.
  induction 1 as [| ch l Hch _ IH]; [done |].
  unfold chunks. cbn [length seq map concat].
  rewrite chunk_shift, (drop_app_length' ch (concat l) c (eq_sym Hch)), IH.
  change (0 * c) with 0. rewrite drop_0.
  by rewrite (take_app_length' ch (concat l) c (eq_sym Hch)).
Qed.


Lemma py_slice_all {A} (l : list A) : py_slice None None l = l.
Proof.
  unfold py_slice, slice_bound. rewrite Nat2Z.id, Nat.sub_0_r. cbn.
  by rewrite firstn_all.
Qed.

Lemma py_slice_from {A} (d : nat) (l : list A) :
  py_slice (Some (Z.of_nat d)) None l = drop d l.
Proof.
  unfold py_slice, slice_bound. destruct (Z.ltb_spec (Z.of_nat d) 0); [lia |].
  rewrite Nat2Z.id. destruct (decide (d <= length l)).
  - rewrite Z.min_l, Nat2Z.id by lia. apply take_ge. rewrite length_drop. lia.
  - rewrite Z.min_r, Nat2Z.id by lia.
    rewrite (drop_ge l d), (drop_ge l (length l)) by lia. by rewrite take_nil.
Qed.

Lemma py_slice_to_neg {A} (d : nat) (l : list A) :
  0 < d -> py_slice None (Some (- Z.of_nat d)%Z) l = take (length l - d) l.
Proof.
  intros Hd. unfold py_slice, slice_bound.
  destruct (Z.ltb_spec (- Z.of_nat d) 0); [| lia]. cbn [Z.to_nat drop].
  rewrite Nat.sub_0_r. f_equal. lia.
Qed.

Lemma py_slice_length {A} (start stop : option Z) (l : list A) :
  length (py_slice start stop l) <= length l.
Proof. unfold py_slice. rewrite length_take, length_drop. lia. Qed.


Lemma map_snd_combine {A B} (l : list A) (l' : list B) :
  length l' <= length l -> map snd (combine l l') = l'.
Proof.
  revert l'. induction l as [| x l IH]; intros [| y l'] Hlen; cbn in *;
    [done | lia | done |].
  rewrite IH; [done | lia].
Qed.

Lemma map_fst_combine {A B} (l : list A) (l' : list B) :
  length l <= length l' -> map fst (combine l l') = l.
Proof.
  revert l'. induction l as [| x l IH]; intros [| y l'] Hlen; cbn in *;
    [done | done | lia |].
  rewrite IH; [done | lia].
Qed.

Lemma forallb_filter_true {A} (f : A -> bool) (l : list A) :
  (forall x, f x = true) -> List.filter f l = l.
Proof.
  intros Hf. induction l as [| x l IH]; [done |]. cbn. by rewrite Hf, IH.
Qed.

Lemma map_lookup_seq {A} (l : list A) (d : A) :
  map (fun i => default d (l !! i)) (seq 0 (length l)) = l.
Proof.
  apply list_eq. intros i. change (map ?f ?l) with (f <$> l).
  rewrite list_lookup_fmap. destruct (decide (i < length l)) as [Hi | Hi].
  - rewrite lookup_seq_lt by done. cbn.
    destruct (lookup_lt_is_Some_2 l i Hi) as [x Hx]. by rewrite Hx.
  - by rewrite lookup_seq_ge, lookup_ge_None_2 by lia.
Qed.

(** * Laws of indexing *)

Lemma py_index_nat {A} (l : list A) (i : nat) :
  py_index l (Z.of_nat i) = or_raise IndexError (l !! i).
Proof.
  unfold py_index. destruct (Z.leb_spec 0 (Z.of_nat i)); [| lia].
  by rewrite Nat2Z.id.
Qed.

Lemma pymap_index_seq {A} (l : list A) :
  pymap (fun i => py_index l (Z.of_nat i)) (seq 0 (length l)) = Ok l.
Proof.
  apply pymap_Forall2, Forall2_same_length_lookup_2.
  - by rewrite length_seq.
  - intros i j x Hj Hx. apply lookup_seq in Hj as [-> _].
    cbn. by rewrite py_index_nat, Hx.
Qed.

Lemma py_index_last {A} (l : list A) (x : A) :
  py_index (l ++ [x]) (-1) = Ok x.
Proof.
  unfold py_index. rewrite length_app. cbn [length].
  destruct (Z.leb_spec 0 (-1)); [lia |].
  destruct (Z.leb_spec (- Z.of_nat (length l + 1)) (-1)); [| lia].
  replace (Z.to_nat (Z.of_nat (length l + 1) + -1)) with (length l + 0) by lia.
  by rewrite lookup_app_r, Nat.add_comm, Nat.add_sub by lia.
Qed.

Lemma py_index_Ok_In {A} (l : list A) (i : Z) (x : A) :
  py_index l i = Ok x -> In x l.
Proof.
  unfold py_index, or_raise. intros E. case_hyp E; inv_res; apply list_elem_of_In; by eapply list_elem_of_lookup_2.
Qed.

(** * Laws of the rational instance *)

Lemma Qltb_lt (a b : Q) : Qltb a b = true <-> (a < b)%Q.
Proof.
  unfold Qltb. rewrite negb_true_iff, <- not_true_iff_false, Qle_bool_iff.
  split; [apply Qnot_le_lt | apply Qlt_not_le].
Qed.

Lemma Qltb_ge (a b : Q) : Qltb a b = false <-> (b <= a)%Q.
Proof. unfold Qltb. by rewrite negb_false_iff, Qle_bool_iff. Qed.

(** Turns the boolean comparisons of the rational instance into
    propositions that [lra] reads. *)
Ltac q_prop :=
  cbn [s_ltb s_leb s_eqb s_add s_sub s_mul s_div s_zero s_one Q_ops] in *;
  repeat match goal with
  | H : Qltb _ _ = true |- _ => apply Qltb_lt in H
  | H : Qltb _ _ = false |- _ => apply Qltb_ge in H
  | H : Qle_bool _ _ = true |- _ => apply Qle_bool_iff in H
  | H : Qle_bool _ _ = false |- _ =>
      apply not_true_iff_false in H; rewrite Qle_bool_iff in H
  | H : Qeq_bool _ _ = true |- _ => apply Qeq_bool_iff in H
  | H : Qeq_bool _ _ = false |- _ => apply Qeq_bool_neq in H
  | |- Qltb _ _ = true => apply Qltb_lt
  | |- Qltb _ _ = false => apply Qltb_ge
  | |- Qle_bool _ _ = true => apply Qle_bool_iff
  | |- Qle_bool _ _ = false => apply not_true_iff_false; rewrite Qle_bool_iff
  | |- Qeq_bool _ _ = true => apply Qeq_bool_iff
  end.

#[export] Instance Q_order : ScalarOrder Q.
Proof.
  split; intros.
  - q_prop. lra.
  - q_prop. lra.
  - destruct (Qltb x y) eqn:E1; [by left | right]. q_prop. lra.
  - cbn. unfold Qltb. by rewrite negb_involutive.
  - cbn. unfold Qltb. rewrite !negb_involutive.
    destruct (Qeq_bool x y) eqn:E; symmetry.
    + q_prop. apply andb_true_iff. split; q_prop; lra.
    + q_prop. apply not_true_iff_false. rewrite andb_true_iff, !Qle_bool_iff. lra.
Qed.

Lemma Qsqrt_nonneg (q : Q) : (0 <= Qsqrt q)%Q.
Proof. unfold Qsqrt, Qle. cbn. pose proof (Z.sqrt_nonneg (Qnum (Qred q) * Z.pos (Qden (Qred q)) * 4 ^ 52)). lia. Qed.

Lemma Qsqrt_0 (q : Q) : (q == 0)%Q -> (Qsqrt q == 0)%Q.
Proof.
  intros E. unfold Qsqrt. rewrite (Qred_complete _ _ E). reflexivity.
Qed.

(** Sums of rationals. *)
Lemma Qsum_fold_nonneg (l : list Q) (a : Q) :
  (0 <= a)%Q -> Forall (fun x => (0 <= x)%Q) l -> (0 <= fold_left Qplus l a)%Q.
Proof.
  intros Ha H. revert a Ha. induction H as [| x l Hx _ IH]; intros a Ha; [done |].
  cbn. apply IH. lra.
Qed.

Lemma Qsum_fold_zero (l : list Q) (a : Q) :
  (a == 0)%Q -> Forall (fun x => (x == 0)%Q) l -> (fold_left Qplus l a == 0)%Q.
Proof.
  intros Ha H. revert a Ha. induction H as [| x l Hx _ IH]; intros a Ha; [done |].
  cbn. apply IH. lra.
Qed.

Lemma Qsum_nonneg (l : list Q) :
  Forall (fun x => (0 <= x)%Q) l -> (0 <= s_sum l)%Q.
Proof. apply Qsum_fold_nonneg. cbn. lra. Qed.

Lemma Qsum_zero (l : list Q) :
  Forall (fun x => (x == 0)%Q) l -> (s_sum l == 0)%Q.
Proof. by apply Qsum_fold_zero. Qed.

(** * Laws of the first-strict-minimum loop *)

Section ArgminBasic.
Context {F : Type} {Fops : ScalarOps F} {A B : Type}.
Variable key : A -> F.
Variable val : A -> B.

Lemma argmin_loop_cons (x : A) (xs : list A) (st : B * option F) :
  argmin_loop key val (x :: xs) st
  = argmin_loop key val xs (argmin_step key val st x).
Proof. done. Qed.

(** The loop returns its initial candidate or the value of an element. *)
Lemma argmin_loop_In (xs : list A) (st : B * option F) :
  fst (argmin_loop key val xs st) = fst st
  \/ exists x, In x xs /\ fst (argmin_loop key val xs st) = val x.
Proof.
  revert st. induction xs as [| x xs IH]; intros st; [by left |].
  rewrite argmin_loop_cons.
  destruct (IH (argmin_step key val st x)) as [E | (y & Hy & E)].
  - rewrite E. unfold argmin_step. destruct (lt_bound _ _); [| by left].
    right. exists x. by split; [left |].
  - right. exists y. by split; [right |].
Qed.

(** A head that no later element undercuts is the result. *)
Lemma argmin_loop_head (x : A) (xs : list A) (b0 : B) :
  Forall (fun y => s_ltb (key y) (key x) = false) xs ->
  argmin_loop key val (x :: xs) (b0, None) = (val x, Some (key x)).
Proof.
  rewrite argmin_loop_cons. unfold argmin_step at 1. cbn [lt_bound snd].
  induction 1 as [| y ys Hy _ IH]; [done |].
  rewrite argmin_loop_cons. unfold argmin_step at 1. cbn [lt_bound snd].
  by rewrite Hy.
Qed.

End ArgminBasic.


Section ArgminSpec.
Context {F : Type} {Fops : ScalarOps F} {Ford : ScalarOrder F} {A B : Type}.
Variable key : A -> F.
Variable val : A -> B.

(** The state after the loop names the first element of [xs] whose key
    is not exceeded strictly by any other. *)
Inductive argmin_at (xs : list A) : B * option F -> Prop :=
| argmin_at_intro (l1 : list A) (x : A) (l2 : list A) :
    xs = l1 ++ x :: l2 ->
    Forall (fun y => s_ltb (key x) (key y) = true) l1 ->
    Forall (fun y => s_ltb (key y) (key x) = false) l2 ->
    argmin_at xs (val x, Some (key x)).

Lemma argmin_loop_snoc (xs : list A) (y : A) (st : B * option F) :
  argmin_loop key val (xs ++ [y]) st
  = argmin_step key val (argmin_loop key val xs st) y.
Proof. unfold argmin_loop. by rewrite fold_left_app. Qed.

Lemma argmin_step_at (xs : list A) (st : B * option F) (y : A) :
  argmin_at xs st -> argmin_at (xs ++ [y]) (argmin_step key val st y).
Proof.
  intros [l1 x l2 -> H1 H2]. unfold argmin_step. cbn.
  destruct (s_ltb (key y) (key x)) eqn:E.
  - apply (argmin_at_intro _ (l1 ++ x :: l2) y []); [done | | constructor].
    apply Forall_app. split; [| constructor; [done |]].
    + eapply Forall_impl; [exact H1 |]. cbn. intros z Hz.
      by apply (s_ltb_trans _ (key x)).
    + eapply Forall_impl; [exact H2 |]. cbn. intros z Hz.
      destruct (s_ltb_cotrans _ (key z) _ E) as [|C]; [done | congruence].
  - apply (argmin_at_intro _ l1 x (l2 ++ [y])).
    + by rewrite <- app_assoc.
    + done.
    + apply Forall_app. split; [done | by constructor].
Qed.

Lemma argmin_loop_spec (xs : list A) (b0 : B) :
  xs <> [] -> argmin_at xs (argmin_loop key val xs (b0, None)).
Proof.
  induction xs as [| y xs IH] using rev_ind; [done | intros _].
  rewrite argmin_loop_snoc. destruct xs as [| x xs'].
  - cbn. by apply (argmin_at_intro _ [] y []).
  - by apply argmin_step_at, IH.
Qed.

Lemma argmin_loop_nil (st : B * option F) : argmin_loop key val [] st = st.
Proof. done. Qed.

(** No element has a key strictly below the one the loop stops at. *)
Lemma argmin_at_minimal (xs : list A) (b : B) (w : F) (y : A) :
  argmin_at xs (b, Some w) -> In y xs -> s_ltb (key y) w = false.
Proof.
  inversion 1 as [l1 x l2 -> H1 H2]; subst. intros Hin.
  apply in_app_or in Hin as [Hin | [<- | Hin]].
  - rewrite Forall_forall in H1.
    destruct (s_ltb (key y) (key x)) eqn:E; [| done].
    pose proof (s_ltb_trans _ _ _ E (H1 _ (proj2 (list_elem_of_In _ _) Hin))) as C.
    by rewrite s_ltb_irrefl in C.
  - apply s_ltb_irrefl.
  - rewrite Forall_forall in H2. apply H2. by apply list_elem_of_In.
Qed.

End ArgminSpec.

(** A comprehension whose items can only raise [e] raises [e] as soon as
    one of them does. *)
Lemma pymap_raise_uniform {A B} (f : A -> pyres B) (l : list A) (e : pyerr) :
  Forall (fun x => f x = Raise e \/ exists y, f x = Ok y) l ->
  Exists (fun x => f x = Raise e) l -> pymap f l = Raise e.
Proof.
  induction 1 as [| x l [Hx | [y Hx]] _ IH]; cbn; rewrite ?Hx;
    [by intros ?%Exists_nil | done |].
  intros [Hx' | Hl]%Exists_cons; [congruence |]. by rewrite IH.
Qed.

(** A relation between two lists that an update of the second list,
    item by item along the first, carries to another relation. *)
Lemma Forall2_zip_with_update {A B} (P Q : A -> B -> Prop) (f : A -> B -> B)
    (l : list A) (k : list B) :
  (forall x y, P x y -> Q x (f x y)) ->
  Forall2 P l k -> Forall2 Q l (zip_with f l k).
Proof. intros Hf. induction 1; cbn; constructor; auto. Qed.

(** Every number equals itself under an order. *)
Lemma s_eqb_refl {F} `{ScalarOrder F} (x : F) : s_eqb x x = true.
Proof. by rewrite s_eqb_ltb, s_ltb_irrefl. Qed.

#[export] Hint Resolve Qsqrt_nonneg : arpes.
#[export] Hint Constructors Forall : arpes.
