(* ===== verification/PyStr.v ===== *)
(** * Python strings

    The operations on [str] the sources use: the substring test
    [needle in hay], [startswith], [split] and [join] with a separator
    of one character, [split] with [maxsplit=1], [replace] of a
    character and [lower].

    A string is a sequence of bytes here, and [lower] maps the letters
    [A] to [Z] only: the strings the modelled code handles, names of
    parameters and of coordinates, dates, times and paths, are ASCII. *)

From stdpp Require Import prelude strings.
From Stdlib Require Import Ascii.

(** * Definitions *)

(** [needle in hay] on strings. *)
Fixpoint contains (needle hay : string) : bool :=
  String.prefix needle hay
  || match hay with
     | EmptyString => false
     | String _ rest => contains needle rest
     end.

(** [s.startswith(prefix)]. *)
Definition startswith (s prefix : string) : bool := String.prefix prefix s.

(** [s.split(sep)] for a separator of one character: the pieces between
    the separators, empty pieces included; a string without separator is
    its own single piece. *)
Fixpoint split_on (sep : ascii) (s : string) : list string :=
  match s with
  | EmptyString => [EmptyString]
  | String c rest =>
      if Ascii.eqb c sep then EmptyString :: split_on sep rest
      else match split_on sep rest with
           | [] => [String c EmptyString]
           | w :: ws => String c w :: ws
           end
  end.

(** [sep.join(pieces)] for a separator of one character. *)
Definition join_with (sep : ascii) (pieces : list string) : string :=
  String.concat (String sep EmptyString) pieces.

(** [s.split(sep, 1)]: the string cut at the first separator. *)
Fixpoint split_once (sep : ascii) (s : string) : list string :=
  match s with
  | EmptyString => [EmptyString]
  | String c rest =>
      if Ascii.eqb c sep then [EmptyString; rest]
      else match split_once sep rest with
           | [] => [String c EmptyString]
           | w :: ws => String c w :: ws
           end
  end.

(** [s.replace(old, new)] for single characters. *)
Fixpoint replace_char (old new : ascii) (s : string) : string :=
  match s with
  | EmptyString => EmptyString
  | String c rest =>
      String (if Ascii.eqb c old then new else c) (replace_char old new rest)
  end.

(** [c.lower()] on a letter of [A] to [Z]. *)
Definition lower_char (c : ascii) : ascii :=
  let n := nat_of_ascii c in
  if (65 <=? n) && (n <=? 90) then ascii_of_nat (n + 32) else c.

(** [s.lower()]. *)
Fixpoint lower (s : string) : string :=
  match s with
  | EmptyString => EmptyString
  | String c rest => String (lower_char c) (lower rest)
  end.

(** The character occurs in the string. *)
Fixpoint has_char (c : ascii) (s : string) : bool :=
  match s with
  | EmptyString => false
  | String c' rest => Ascii.eqb c' c || has_char c rest
  end.

(** * Facts *)

(** ** Prefixes and substrings *)

Lemma prefix_empty (s : string) : String.prefix "" s = true.
Proof. by destruct s. Qed.

Lemma contains_empty (s : string) : contains "" s = true.
Proof. destruct s; cbn; by rewrite ?prefix_empty. Qed.

Lemma append_cons (a : Ascii.ascii) (n s : string) :
  String a n +:+ s = String a (n +:+ s).
Proof. done. Qed.

Lemma append_assoc (a b c : string) : (a +:+ b) +:+ c = a +:+ b +:+ c.
Proof. induction a as [| x a IH]; [done |]. by rewrite !append_cons, IH. Qed.

Lemma prefix_cons (a b : Ascii.ascii) (n h : string) :
  String.prefix (String a n) (String b h)
  = bool_decide (a = b) && String.prefix n h.
Proof.
  cbn [String.prefix]. destruct (Ascii.ascii_dec a b) as [-> | Hne].
  - by rewrite bool_decide_eq_true_2.
  - by rewrite bool_decide_eq_false_2.
Qed.

Lemma prefix_app (n s : string) : String.prefix n (n +:+ s) = true.
Proof.
  induction n as [| a n IH]; [apply prefix_empty |].
  by rewrite append_cons, prefix_cons, IH, bool_decide_eq_true_2.
Qed.

Lemma prefix_inv (n h : string) :
  String.prefix n h = true -> exists s, h = n +:+ s.
Proof.
  revert h. induction n as [| a n IH]; intros h; [by exists h |].
  destruct h as [| b h]; [done |]. rewrite prefix_cons.
  intros [->%bool_decide_eq_true (s & ->)%IH]%andb_true_iff. by exists s.
Qed.

(** [contains] is Python's substring test: the needle occurs in the
    string exactly when the string is the needle between two strings. *)
Lemma contains_spec (n h : string) :
  contains n h = true <-> exists s1 s2, h = s1 +:+ n +:+ s2.
Proof.
  split.
  - induction h as [| b h IH]; cbn [contains]; rewrite orb_true_iff.
    + intros [(s & E)%prefix_inv | ?]; [| done]. by exists ""%string, s.
    + intros [(s & E)%prefix_inv | (s1 & s2 & ->)%IH].
      * by exists ""%string, s.
      * by exists (String b s1), s2.
  - intros (s1 & s2 & ->). induction s1 as [| b s1 IH].
    + change ("" +:+ n +:+ s2)%string with (n +:+ s2)%string.
      destruct (n +:+ s2)%string eqn:E; cbn [contains];
        by rewrite <- E, prefix_app.
    + rewrite append_cons. cbn [contains]. by rewrite IH, orb_true_r.
Qed.

Lemma string_length_append (a b : string) :
  String.length (a +:+ b) = String.length a + String.length b.
Proof.
  induction a as [| c a IH]; [done |]. rewrite append_cons.
  cbn [String.length]. by rewrite IH.
Qed.

Lemma append_suffix_ne (a b : string) : b <> EmptyString -> a <> a +:+ b.
Proof.
  intros Hb E. apply (f_equal String.length) in E.
  rewrite string_length_append in E. destruct b; [done |]. cbn in E. lia.
Qed.

(** ** split and join *)

Lemma split_on_cons (sep c : ascii) (rest : string) :
  split_on sep (String c rest)
  = if Ascii.eqb c sep then EmptyString :: split_on sep rest
    else match split_on sep rest with
         | [] => [String c EmptyString]
         | w :: ws => String c w :: ws
         end.
Proof. done. Qed.

(** A split has a first piece. *)
Lemma split_on_head (sep : ascii) (s : string) :
  exists w ws, split_on sep s = w :: ws.
Proof.
  induction s as [| c rest (w & ws & IH)]; [by eexists _, _ |].
  rewrite split_on_cons, IH. destruct (Ascii.eqb c sep); by eexists _, _.
Qed.

Lemma join_with_cons (sep : ascii) (w w' : string) (ws : list string) :
  join_with sep (w :: w' :: ws)
  = w +:+ String sep (join_with sep (w' :: ws)).
Proof. done. Qed.

(** Joining what [split] cut gives the string back. *)
Theorem join_split (sep : ascii) (s : string) :
  join_with sep (split_on sep s) = s.
Proof.
  induction s as [| c rest IH]; [done |]. rewrite split_on_cons.
  destruct (split_on_head sep rest) as (w & ws & E). rewrite E in *.
  destruct (Ascii.eqb_spec c sep) as [-> | _].
  - by rewrite join_with_cons, IH.
  - destruct ws as [| w' ws].
    + unfold join_with in *. cbn [String.concat] in *. by rewrite IH.
    + rewrite join_with_cons in *. rewrite append_cons. by rewrite IH.
Qed.

(** No piece of a split holds the separator. *)
Lemma split_on_pieces (sep : ascii) (s : string) :
  Forall (fun w => has_char sep w = false) (split_on sep s).
Proof.
  induction s as [| c rest IH]; [by repeat constructor |].
  rewrite split_on_cons. destruct (Ascii.eqb c sep) eqn:Ec.
  - by constructor.
  - destruct (split_on sep rest) as [| w ws]; [by repeat constructor; cbn; rewrite Ec |].
    apply Forall_cons in IH as [Hw Hws]. constructor; [| done].
    cbn. by rewrite Ec.
Qed.

(** Splitting what [join] assembled from pieces without separator gives
    the pieces back. *)
Theorem split_join (sep : ascii) (w : string) (ws : list string) :
  Forall (fun w => has_char sep w = false) (w :: ws) ->
  split_on sep (join_with sep (w :: ws)) = w :: ws.
Proof.
  revert w. induction ws as [| w' ws IH]; intros w [Hw Hws]%Forall_cons.
  - clear Hws. unfold join_with. cbn [String.concat].
    induction w as [| c w IHw]; [done |]. cbn in Hw.
    apply orb_false_elim in Hw as [Hc Hw]. rewrite split_on_cons, Hc.
    by rewrite (IHw Hw).
  - rewrite join_with_cons. specialize (IH w' Hws).
    induction w as [| c w IHw].
    + change (EmptyString +:+ ?x) with x. rewrite split_on_cons.
      by rewrite Ascii.eqb_refl, IH.
    + cbn in Hw. apply orb_false_elim in Hw as [Hc Hw].
      rewrite append_cons, split_on_cons, Hc. by rewrite (IHw Hw).
Qed.

(** A string without separator is its own single piece. *)
Lemma split_on_no_sep (sep : ascii) (s : string) :
  has_char sep s = false -> split_on sep s = [s].
Proof.
  induction s as [| c rest IH]; [done |]. cbn [has_char].
  intros [Hc Hrest]%orb_false_elim. by rewrite split_on_cons, Hc, (IH Hrest).
Qed.

(** The first piece ends at the first separator. *)
Lemma split_on_first (sep : ascii) (before after : string) :
  has_char sep before = false ->
  split_on sep (before +:+ String sep after) = before :: split_on sep after.
Proof.
  induction before as [| c before IH].
  - intros _. change (EmptyString +:+ ?x) with x.
    by rewrite split_on_cons, Ascii.eqb_refl.
  - cbn [has_char]. intros [Hc Hb]%orb_false_elim.
    by rewrite append_cons, split_on_cons, Hc, (IH Hb).
Qed.

(** [split] with [maxsplit=1] returns the string, or the text before
    the first separator and the text after it. *)
Lemma split_once_cases (sep : ascii) (s : string) :
  (has_char sep s = false /\ split_once sep s = [s])
  \/ exists before after,
       split_once sep s = [before; after]
       /\ s = before +:+ String sep after
       /\ has_char sep before = false.
Proof.
  induction s as [| c rest IH]; [by left |]. cbn [split_once has_char].
  destruct (Ascii.eqb_spec c sep) as [-> | Hne].
  - right. by exists EmptyString, rest.
  - destruct IH as [[Hno ->] | (before & after & -> & -> & Hb)].
    + left. by rewrite Hno.
    + right. exists (String c before), after. split; [done |].
      split; [done |]. cbn. rewrite Hb, orb_false_r. by apply Ascii.eqb_neq.
Qed.

(** ** Characters *)

Lemma has_char_append (c : ascii) (a b : string) :
  has_char c (a +:+ b) = has_char c a || has_char c b.
Proof.
  induction a as [| x a IH]; [done |]. rewrite append_cons. cbn [has_char].
  by rewrite IH, orb_assoc.
Qed.

(** The substring test for a string of one character. *)
Lemma contains_char (c : ascii) (s : string) :
  contains (String c EmptyString) s = has_char c s.
Proof.
  induction s as [| x s IH]; [done |]. cbn [contains has_char].
  rewrite IH, prefix_cons, prefix_empty, andb_true_r. f_equal.
  destruct (Ascii.eqb_spec x c) as [-> | Hne].
  - by rewrite bool_decide_eq_true_2.
  - by rewrite bool_decide_eq_false_2.
Qed.

Lemma replace_char_append (old new : ascii) (a b : string) :
  replace_char old new (a +:+ b)
  = replace_char old new a +:+ replace_char old new b.
Proof.
  induction a as [| x a IH]; [done |]. rewrite append_cons. cbn [replace_char].
  by rewrite IH.
Qed.

(** A string without the character is left as it is. *)
Lemma replace_char_absent (old new : ascii) (s : string) :
  has_char old s = false -> replace_char old new s = s.
Proof.
  induction s as [| x s IH]; [done |]. cbn [has_char replace_char].
  intros [-> Hs]%orb_false_elim. by rewrite (IH Hs).
Qed.

(** A split is cut at every separator. *)
Lemma split_on_append (sep : ascii) (a b : string) :
  split_on sep (a +:+ String sep b) = split_on sep a ++ split_on sep b.
Proof.
  induction a as [| x a IH].
  - change (EmptyString +:+ ?y) with y. by rewrite split_on_cons, Ascii.eqb_refl.
  - rewrite append_cons, !split_on_cons, IH.
    destruct (Ascii.eqb x sep); [done |].
    destruct (split_on_head sep a) as (w & ws & ->). done.
Qed.

(** ** lower *)

Lemma lower_char_idem (c : ascii) : lower_char (lower_char c) = lower_char c.
Proof.
  unfold lower_char.
  destruct ((65 <=? nat_of_ascii c) && (nat_of_ascii c <=? 90)) eqn:E.
  - apply andb_prop in E as [H1%Nat.leb_le H2%Nat.leb_le].
    rewrite nat_ascii_embedding by lia.
    assert ((65 <=? nat_of_ascii c + 32) && (nat_of_ascii c + 32 <=? 90) = false)
      as -> by (apply andb_false_intro2, Nat.leb_gt; lia).
    done.
  - by rewrite E.
Qed.

Lemma lower_idem (s : string) : lower (lower s) = lower s.
Proof.
  induction s as [| c rest IH]; [done |]. cbn. by rewrite lower_char_idem, IH.
Qed.

Lemma lower_append (a b : string) : lower (a +:+ b) = lower a +:+ lower b.
Proof.
  induction a as [| c a IH]; [done |]. rewrite append_cons. cbn [lower].
  by rewrite IH.
Qed.

Lemma lower_length (s : string) : String.length (lower s) = String.length s.
Proof. induction s as [| c rest IH]; [done |]. cbn. by rewrite IH. Qed.
