(* ===== verification/PyDict.v ===== *)
(** * Python dictionaries

    A [dict] keeps its items in insertion order, and the modelled code
    depends on it: loops over [items()] let the first or the last match
    decide.  A dictionary is therefore an association list; [dict_set]
    overwrites the value of a key that is present, in place, and appends a
    new key at the end.  Keys are compared by the boolean equality of the
    class [KeyEq], which is [==] of Python: on floats it is the
    comparison of the numeric interface, on tuples it is componentwise.

    The file gives the operations, the invariant [dict_wf] (no key
    occurs twice) with its preservation, the lookup laws, and the
    refinement of dictionaries with string keys to stdpp's [gmap]. *)

From stdpp Require Import prelude strings gmap.
From S2P Require Import Prelude.

(** * Key equality *)

Class KeyEq (K : Type) : Type := keq : K -> K -> bool.

Class KeyEqLaws (K : Type) `{KeyEq K} : Prop := {
  keq_refl : forall x : K, keq x x = true;
  keq_sym : forall x y : K, keq x y = keq y x;
  keq_trans : forall x y z : K,
    keq x y = true -> keq y z = true -> keq x z = true
}.

(** Key equality that decides Leibniz equality, as on strings. *)
Class KeyEqExact (K : Type) `{KeyEq K} : Prop :=
  keq_exact : forall x y : K, keq x y = true <-> x = y.

#[export] Instance string_keq : KeyEq string := String.eqb.
#[export] Instance nat_keq : KeyEq nat := Nat.eqb.
#[export] Instance scalar_keq {F} `{ScalarOps F} : KeyEq F | 10 := s_eqb.

(** Tuples as keys: equal lengths and equal components. *)
Fixpoint tuple_eqb {K} `{KeyEq K} (a b : list K) : bool :=
  match a, b with
  | [], [] => true
  | x :: a', y :: b' => keq x y && tuple_eqb a' b'
  | _, _ => false
  end.
#[export] Instance tuple_keq {K} `{KeyEq K} : KeyEq (list K) := tuple_eqb.

(** * Operations *)

Section Dict.
Context {K V : Type} {Keq : KeyEq K}.
Implicit Types (d : list (K * V)) (k : K) (v : V).

(** [d.get(k)]: [None] for a missing key. *)
Fixpoint dict_get d k : option V :=
  match d with
  | [] => None
  | (k', v) :: r => if keq k' k then Some v else dict_get r k
  end.

(** [k in d]. *)
Definition dict_mem d k : bool :=
  match dict_get d k with
  | Some _ => true
  | None => false
  end.

(** [d[k]]. *)
Definition dict_item d k : pyres V := or_raise KeyError (dict_get d k).

(** [d.get(k, dflt)]. *)
Definition dict_get_default d k (dflt : V) : V := default dflt (dict_get d k).

(** [d[k] = v]. *)
Fixpoint dict_set d k v : list (K * V) :=
  match d with
  | [] => [(k, v)]
  | (k', v') :: r =>
      if keq k' k then (k', v) :: r else (k', v') :: dict_set r k v
  end.

(** [d.update(d')]. *)
Definition dict_update d d' : list (K * V) :=
  fold_left (fun acc kv => dict_set acc (fst kv) (snd kv)) d' d.

(** [del d[k]] where the key is known to be present; a missing key is
    left to the caller's guard. *)
Fixpoint dict_del d k : list (K * V) :=
  match d with
  | [] => []
  | (k', v) :: r => if keq k' k then r else (k', v) :: dict_del r k
  end.

(** [dict(pairs)]: a later pair replaces the value of an equal key. *)
Definition dict_of_list (pairs : list (K * V)) : list (K * V) :=
  dict_update [] pairs.

Definition dict_keys d : list K := map fst d.
Definition dict_values d : list V := map snd d.

(** [d == d'] of Python: the same keys with the same values, in whatever
    order they were inserted. *)
Definition dict_equiv d d' : Prop := forall k, dict_get d k = dict_get d' k.

(** No key occurs twice. *)
Fixpoint dict_wf d : bool :=
  match d with
  | [] => true
  | (k, _) :: r => negb (existsb (keq k) (dict_keys r)) && dict_wf r
  end.

End Dict.

(** * Laws *)

Section Laws.
Context {K V : Type} {Keq : KeyEq K} {KeqL : KeyEqLaws K}.
Implicit Types (d : list (K * V)) (k : K) (v : V).

Lemma keq_congr (x y z : K) : keq x y = true -> keq x z = keq y z.
Proof.
  intros E. destruct (keq y z) eqn:E'.
  - by apply (keq_trans _ y).
  - destruct (keq x z) eqn:E''; [| done].
    rewrite keq_sym in E. by rewrite (keq_trans _ _ _ E E'') in E'.
Qed.

Lemma dict_get_keq d k k' : keq k k' = true -> dict_get d k = dict_get d k'.
Proof.
  intros E. induction d as [| [k0 v0] d IH]; [done |]. cbn.
  rewrite (keq_sym k0 k), (keq_sym k0 k'), (keq_congr _ _ _ E). by rewrite IH.
Qed.

Lemma dict_get_set_eq d k k' v :
  keq k k' = true -> dict_get (dict_set d k v) k' = Some v.
Proof.
  intros E. induction d as [| [k0 v0] d IH]; cbn.
  - by rewrite E.
  - destruct (keq k0 k) eqn:E0; cbn.
    + by rewrite (keq_trans _ _ _ E0 E).
    + rewrite (keq_sym k0 k'), <- (keq_congr _ _ _ E), (keq_sym k k0), E0.
      apply IH.
Qed.

Lemma dict_get_set_ne d k k' v :
  keq k k' = false -> dict_get (dict_set d k v) k' = dict_get d k'.
Proof.
  intros E. induction d as [| [k0 v0] d IH]; cbn.
  - by rewrite E.
  - destruct (keq k0 k) eqn:E0; cbn; [| by rewrite IH].
    by rewrite (keq_congr _ _ k' E0), E.
Qed.

Lemma dict_get_set d k k' v :
  dict_get (dict_set d k v) k'
  = if keq k k' then Some v else dict_get d k'.
Proof.
  destruct (keq k k') eqn:E;
    [by apply dict_get_set_eq | by apply dict_get_set_ne].
Qed.

Lemma dict_keys_set d k v :
  dict_keys (dict_set d k v)
  = if dict_mem d k then dict_keys d else dict_keys d ++ [k].
Proof.
  unfold dict_mem, dict_keys. induction d as [| [k0 v0] d IH]; cbn; [done |].
  destruct (keq k0 k) eqn:E0; cbn; [done |].
  rewrite IH. by destruct (dict_get d k).
Qed.

Lemma dict_set_length d k v :
  length (dict_set d k v) = if dict_mem d k then length d else S (length d).
Proof.
  pose proof (f_equal length (dict_keys_set d k v)) as E.
  unfold dict_keys in E. rewrite length_map in E. rewrite E.
  destruct (dict_mem d k); rewrite ?length_app, length_map; cbn; lia.
Qed.

Lemma existsb_keq_set d k k0 v :
  existsb (keq k0) (dict_keys (dict_set d k v))
  = existsb (keq k0) (dict_keys d) || keq k0 k.
Proof.
  unfold dict_keys. induction d as [| [k1 v1] d IH]; cbn.
  - by rewrite orb_false_r.
  - destruct (keq k1 k) eqn:E1; cbn.
    + rewrite (keq_sym k0 k), <- (keq_congr _ _ k0 E1), (keq_sym k1 k0).
      destruct (keq k0 k1); [done |]. by rewrite orb_false_r.
    + rewrite IH. by rewrite orb_assoc.
Qed.

(** [dict_set] preserves the invariant. *)
Lemma dict_set_wf d k v : dict_wf d = true -> dict_wf (dict_set d k v) = true.
Proof.
  induction d as [| [k0 v0] d IH]; [done |]. cbn [dict_wf dict_set].
  intros [Hk Hd]%andb_true_iff. destruct (keq k0 k) eqn:E0; cbn [dict_wf].
  - by rewrite Hk, Hd.
  - by rewrite existsb_keq_set, E0, orb_false_r, Hk, IH.
Qed.

Lemma dict_update_wf d d' : dict_wf d = true -> dict_wf (dict_update d d') = true.
Proof.
  unfold dict_update. revert d. induction d' as [| [k v] d' IH]; [done |].
  intros d Hd. cbn. by apply IH, dict_set_wf.
Qed.

Lemma dict_get_In d k v :
  dict_get d k = Some v -> exists k', In (k', v) d /\ keq k' k = true.
Proof.
  induction d as [| [k0 v0] d IH]; [done |]. cbn.
  destruct (keq k0 k) eqn:E0.
  - intros. inv_res. exists k0. by split; [left |].
  - intros (k' & Hin & E)%IH. exists k'. by split; [right |].
Qed.

(** A property of the values survives an assignment of a value that has
    it. *)
Lemma dict_set_Forall_values (P : V -> Prop) d k v :
  Forall (fun e => P (snd e)) d -> P v ->
  Forall (fun e => P (snd e)) (dict_set d k v).
Proof.
  intros Hd Hv. induction Hd as [| [k0 v0] d H0 Hd IH]; cbn.
  - by repeat constructor.
  - destruct (keq k0 k); constructor; auto.
Qed.

Lemma dict_set_nonempty d k v : dict_set d k v <> [].
Proof. destruct d as [| [k0 v0] d]; cbn; [done |]. by destruct (keq k0 k). Qed.

(** After [d.update(d')] a key has its last value in [d'] if it occurs
    there and its value in [d] otherwise. *)
Lemma dict_get_update d d' k :
  dict_get (dict_update d d') k
  = match dict_get (rev d') k with
    | Some v => Some v
    | None => dict_get d k
    end.
Proof.
  unfold dict_update. revert d.
  induction d' as [| [k0 v0] d' IH] using rev_ind; intros d; [done |].
  rewrite fold_left_app, rev_app_distr. cbn.
  rewrite dict_get_set. destruct (keq k0 k); [done | apply IH].
Qed.

Lemma dict_get_app d d' k :
  dict_get (d ++ d') k
  = match dict_get d k with
    | Some v => Some v
    | None => dict_get d' k
    end.
Proof.
  induction d as [| [k0 v0] d IH]; cbn; [done |]. by destruct (keq k0 k).
Qed.

Lemma dict_get_fresh d k k0 :
  existsb (keq k0) (dict_keys d) = false -> keq k0 k = true ->
  dict_get d k = None.
Proof.
  unfold dict_keys. induction d as [| [k1 v1] d IH]; cbn; [done |].
  intros [H1 H]%orb_false_elim Hk. rewrite (IH H Hk).
  destruct (keq k1 k) eqn:E; [| done].
  rewrite keq_sym in E. by rewrite (keq_trans _ _ _ Hk E) in H1.
Qed.

(** After [del d[k]] the key is gone and the other keys keep their
    values. *)
Lemma dict_get_del_eq d k :
  dict_wf d = true -> dict_get (dict_del d k) k = None.
Proof.
  induction d as [| [k0 v0] d IH]; [done |]. cbn [dict_wf dict_del].
  intros [Hfresh Hwf]%andb_prop. apply negb_true_iff in Hfresh.
  destruct (keq k0 k) eqn:E; [by apply (dict_get_fresh _ _ k0) |].
  cbn. rewrite E. by apply IH.
Qed.

Lemma dict_get_del_ne d k k' :
  keq k k' = false -> dict_get (dict_del d k) k' = dict_get d k'.
Proof.
  intros Hne. induction d as [| [k0 v0] d IH]; [done |]. cbn.
  destruct (keq k0 k) eqn:E.
  - by rewrite (keq_congr _ _ _ E), Hne.
  - cbn. by rewrite IH.
Qed.

(** In a dictionary the order of the items does not matter to a
    lookup. *)
Lemma dict_get_rev d k : dict_wf d = true -> dict_get (rev d) k = dict_get d k.
Proof.
  induction d as [| [k0 v0] d IH]; [done |]. cbn [dict_wf rev dict_get].
  intros [Hk Hwf]%andb_prop. rewrite dict_get_app, (IH Hwf). cbn.
  destruct (keq k0 k) eqn:E; [| by destruct (dict_get d k)].
  apply negb_true_iff in Hk. by rewrite (dict_get_fresh d k k0).
Qed.

(** [d.update(d')]: the entries of [d'] win. *)
Lemma dict_get_update_wf d d' k :
  dict_wf d' = true ->
  dict_get (dict_update d d') k
  = match dict_get d' k with
    | Some v => Some v
    | None => dict_get d k
    end.
Proof. intros Hwf. by rewrite dict_get_update, dict_get_rev. Qed.

End Laws.

(** * Dictionaries up to the order of insertion *)

Section Equiv.
Context {K V : Type} {Keq : KeyEq K}.
Implicit Types (d : list (K * V)) (k : K) (v : V).

#[export] Instance dict_equiv_equivalence : Equivalence (dict_equiv (V := V)).
Proof.
  split.
  - by intros d k.
  - intros d d' E k. by rewrite E.
  - intros d1 d2 d3 E1 E2 k. by rewrite E1, E2.
Qed.

#[export] Instance dict_get_proper :
  Proper (dict_equiv ==> eq ==> eq) (dict_get (V := V)).
Proof. by intros d d' E k ? <-. Qed.

#[export] Instance dict_mem_proper :
  Proper (dict_equiv ==> eq ==> eq) (dict_mem (V := V)).
Proof. intros d d' E k ? <-. unfold dict_mem. by rewrite E. Qed.

#[export] Instance dict_item_proper :
  Proper (dict_equiv ==> eq ==> eq) (dict_item (V := V)).
Proof. intros d d' E k ? <-. unfold dict_item. by rewrite E. Qed.

#[export] Instance dict_get_default_proper :
  Proper (dict_equiv ==> eq ==> eq ==> eq) (dict_get_default (V := V)).
Proof. intros d d' E k ? <- v ? <-. unfold dict_get_default. by rewrite E. Qed.

Context {KeqL : KeyEqLaws K}.

#[export] Instance dict_set_proper :
  Proper (dict_equiv ==> eq ==> eq ==> dict_equiv) (dict_set (V := V)).
Proof. intros d d' E k ? <- v ? <- k'. by rewrite !dict_get_set, E. Qed.

#[export] Instance dict_update_proper :
  Proper (dict_equiv ==> eq ==> dict_equiv) (dict_update (V := V)).
Proof.
  intros d d' E l ? <-. unfold dict_update. revert d d' E.
  induction l as [| [k v] l IH]; intros d d' E; [done |].
  cbn [fold_left fst snd]. apply IH. by rewrite E.
Qed.

(** Two assignments to different keys commute. *)
Lemma dict_set_comm d k k' v v' :
  keq k k' = false ->
  dict_equiv (dict_set (dict_set d k v) k' v') (dict_set (dict_set d k' v') k v).
Proof.
  intros Hne x. rewrite !dict_get_set.
  destruct (keq k' x) eqn:E1, (keq k x) eqn:E2; try done.
  by rewrite (keq_congr k x k' E2), (keq_sym x k'), E1 in Hne.
Qed.

(** Of two assignments to one key the second stays. *)
Lemma dict_set_twice d k v v' :
  dict_equiv (dict_set (dict_set d k v) k v') (dict_set d k v').
Proof. intros x. rewrite !dict_get_set. by destruct (keq k x). Qed.

(** An assignment of the value a key has changes nothing. *)
Lemma dict_set_same d k v :
  dict_get d k = Some v -> dict_equiv (dict_set d k v) d.
Proof.
  intros Hk x. rewrite dict_get_set. destruct (keq k x) eqn:E; [| done].
  by rewrite <- (dict_get_keq d k x E).
Qed.

End Equiv.

Section Growth.
Context {K V : Type} {Keq : KeyEq K}.

(** An assignment adds at most one entry and removes none. *)
Lemma dict_set_grows (d : list (K * V)) (k : K) (v : V) :
  length d <= length (dict_set d k v) <= S (length d).
Proof.
  induction d as [| [k0 v0] d IH]; cbn; [lia |].
  destruct (keq k0 k); cbn; lia.
Qed.

End Growth.

(** A list of pairs with distinct keys is its own dictionary. *)
Section Fresh.
Context {K V : Type} {Keq : KeyEq K}.
Implicit Types (d l : list (K * V)).

Lemma dict_set_fresh d k v :
  existsb (fun k' => keq k' k) (dict_keys d) = false ->
  dict_set d k v = d ++ [(k, v)].
Proof.
  induction d as [| [k0 v0] d IH]; cbn; [done |].
  intros [-> H]%orb_false_elim. by rewrite IH.
Qed.

Lemma dict_wf_app_fresh d k v l :
  dict_wf (d ++ (k, v) :: l) = true ->
  existsb (fun k' => keq k' k) (dict_keys d) = false.
Proof.
  induction d as [| [k0 v0] d IH]; cbn; [done |].
  intros [H Hwf]%andb_prop. unfold dict_keys in *. rewrite (IH Hwf), orb_false_r.
  apply negb_true_iff in H.
  rewrite map_app, existsb_app in H. cbn in H.
  apply orb_false_elim in H as [_ H]. by apply orb_false_elim in H as [H _].
Qed.

Lemma dict_update_fresh d l :
  dict_wf (d ++ l) = true -> dict_update d l = d ++ l.
Proof.
  unfold dict_update. revert d. induction l as [| [k v] l IH]; intros d Hwf; cbn.
  - by rewrite app_nil_r.
  - rewrite (dict_set_fresh d k v) by (by eapply dict_wf_app_fresh).
    rewrite IH; rewrite <- app_assoc; done.
Qed.

Lemma dict_of_list_fresh l : dict_wf l = true -> dict_of_list l = l.
Proof. apply (dict_update_fresh []). Qed.

End Fresh.

#[export] Instance exact_keq_laws {K} `{KeyEqExact K} : KeyEqLaws K | 5.
Proof.
  split.
  - intros x. by apply keq_exact.
  - intros x y. apply eq_true_iff_eq. rewrite !keq_exact. naive_solver.
  - intros x y z ?%keq_exact ?%keq_exact. apply keq_exact. congruence.
Qed.

(** * Refinement to finite maps *)

Section Refinement.
Context {K V : Type} `{Countable K} {Keq : KeyEq K} {KeqE : KeyEqExact K}.
Implicit Types (d : list (K * V)) (k : K) (v : V).

Definition to_gmap d : gmap K V := list_to_map d.

Lemma keq_decide (x y : K) : keq x y = bool_decide (x = y).
Proof.
  destruct (keq x y) eqn:E; symmetry.
  - by apply bool_decide_eq_true_2, keq_exact.
  - apply bool_decide_eq_false_2. intros ?%keq_exact. congruence.
Qed.

Lemma to_gmap_get d k : to_gmap d !! k = dict_get d k.
Proof.
  unfold to_gmap. induction d as [| [k0 v0] d IH]; [done |]. cbn.
  rewrite keq_decide. case_bool_decide as E.
  - subst. apply lookup_insert_eq.
  - by rewrite lookup_insert_ne.
Qed.

Lemma to_gmap_set d k v : to_gmap (dict_set d k v) = <[k := v]> (to_gmap d).
Proof.
  apply map_eq. intros k'.
  rewrite to_gmap_get, dict_get_set, keq_decide, lookup_insert, to_gmap_get.
  by case_bool_decide; case_decide.
Qed.

Lemma to_gmap_update d d' :
  dict_wf d' = true -> to_gmap (dict_update d d') = to_gmap d' ∪ to_gmap d.
Proof.
  unfold dict_update. revert d.
  induction d' as [| [k v] d' IH]; intros d Hwf; cbn [fold_left].
  - unfold to_gmap at 2. cbn. by rewrite (left_id_L ∅ (∪)).
  - cbn in Hwf. apply andb_true_iff in Hwf as [Hk Hwf].
    rewrite IH, to_gmap_set by done. unfold to_gmap at 3. cbn [list_to_map foldr].
    cbn [fst snd]. rewrite <- insert_union_r; [by rewrite insert_union_l |].
    rewrite to_gmap_get. apply negb_true_iff in Hk.
    clear IH Hwf. unfold dict_keys in Hk.
    induction d' as [| [k1 v1] d' IH']; [done |]. cbn in *.
    apply orb_false_iff in Hk as [Hk1 Hk]. rewrite keq_decide in *.
    apply bool_decide_eq_false_1 in Hk1.
    rewrite bool_decide_eq_false_2 by congruence. by apply IH'.
Qed.

(** Dictionaries are equal as Python compares them when they are the
    same finite map. *)
Lemma dict_equiv_to_gmap d d' : dict_equiv d d' <-> to_gmap d = to_gmap d'.
Proof.
  split.
  - intros E. apply map_eq. intros k. by rewrite !to_gmap_get.
  - intros E k. by rewrite <- !to_gmap_get, E.
Qed.

End Refinement.

Lemma string_keq_eqb (a b : string) : keq a b = String.eqb a b.
Proof. done. Qed.

(** Distinct keys under an exact comparison. *)
Section Exact.
Context {K V : Type} {Keq : KeyEq K} {KeqE : KeyEqExact K}.

Lemma existsb_keq_In (k : K) (ks : list K) :
  existsb (keq k) ks = true <-> In k ks.
Proof.
  rewrite existsb_exists. split.
  - intros (k' & Hin & E). by apply KeqE in E as ->.
  - intros Hin. exists k. split; [done | by apply KeqE].
Qed.

Lemma dict_wf_NoDup (d : list (K * V)) :
  NoDup (dict_keys d) -> dict_wf d = true.
Proof.
  unfold dict_keys. induction d as [| [k v] d IH]; [done |]. cbn.
  intros [Hk Hd]%NoDup_cons. rewrite (IH Hd), andb_true_r.
  apply negb_true_iff, not_true_iff_false. rewrite existsb_keq_In.
  by rewrite <- list_elem_of_In.
Qed.

Lemma dict_get_In_exact (d : list (K * V)) (k : K) (v : V) :
  dict_get d k = Some v -> In (k, v) d.
Proof.
  induction d as [| [k0 v0] d IH]; cbn; [done |].
  destruct (keq k0 k) eqn:E.
  - apply KeqE in E as ->. intros. inv_res. by left.
  - intros. right. by apply IH.
Qed.

Lemma dict_get_NoDup (d : list (K * V)) (k : K) (v : V) :
  NoDup (dict_keys d) -> In (k, v) d -> dict_get d k = Some v.
Proof.
  unfold dict_keys. induction d as [| [k0 v0] d IH]; cbn; [done |].
  intros [Hk Hd]%NoDup_cons [E | Hin].
  - inversion E; subst. by rewrite (proj2 (KeqE k k) eq_refl).
  - destruct (keq k0 k) eqn:E; [| by apply IH].
    apply KeqE in E as ->. destruct Hk. apply list_elem_of_In.
    by apply (in_map fst) in Hin.
Qed.

Lemma dict_get_is_Some (d : list (K * V)) (k : K) :
  is_Some (dict_get d k) <-> In k (dict_keys d).
Proof.
  induction d as [| [k0 v0] d IH]; cbn.
  - split; [by intros [? ?] | done].
  - destruct (keq k0 k) eqn:E.
    + apply KeqE in E as ->. split; [by left | by eexists].
    + rewrite IH. split; [by right |]. intros [-> | H]; [| done].
      by rewrite (proj2 (KeqE k k) eq_refl) in E.
Qed.

End Exact.

#[export] Instance string_keq_exact : KeyEqExact string.
Proof. intros x y. apply String.eqb_eq. Qed.

#[export] Instance nat_keq_exact : KeyEqExact nat.
Proof. intros x y. apply Nat.eqb_eq. Qed.

#[export] Instance scalar_keq_laws {F} `{ScalarOrder F} : KeyEqLaws F | 10.
Proof.
  split; unfold keq, scalar_keq.
  - intros x. apply s_eqb_refl.
  - intros x y. rewrite !s_eqb_ltb. apply andb_comm.
  - intros x y z. rewrite !s_eqb_ltb, !andb_true_iff, !negb_true_iff.
    intros [Hxy Hyx] [Hyz Hzy]. split.
    + destruct (s_ltb x z) eqn:E; [| done].
      destruct (s_ltb_cotrans _ y _ E); congruence.
    + destruct (s_ltb z x) eqn:E; [| done].
      destruct (s_ltb_cotrans _ y _ E); congruence.
Qed.

#[export] Instance tuple_keq_laws {K} `{KeyEqLaws K} : KeyEqLaws (list K).
Proof.
  split; unfold keq, tuple_keq.
  - intros x. induction x as [| a x IH]; [done |]. cbn. by rewrite keq_refl.
  - intros x. induction x as [| a x IH]; intros [| b y]; try done.
    cbn. by rewrite (keq_sym a b), IH.
  - intros x. induction x as [| a x IH]; intros [| b y] [| c z]; try done.
    cbn. rewrite !andb_true_iff. intros [? ?] [? ?].
    split; [by apply (keq_trans _ b) | by apply (IH y)].
Qed.

#[export] Hint Rewrite @dict_get_set @dict_keys_set @dict_set_length : arpes_rw.
#[export] Hint Resolve dict_set_wf dict_update_wf : arpes.
