(* ===== verification/Itertools.v ===== *)
(** * Python iteration helpers

    [enumerate], [itertools.pairwise], [itertools.product] and
    [itertools.permutations] as lists in the order CPython yields their
    items, with the facts the band pipeline relies on: what the items are,
    how many there are, and which comes first. *)

From stdpp Require Import prelude.
From Stdlib Require Import Permutation Factorial.
From S2P Require Import Prelude.

(** * Definitions *)

(** [enumerate(l)]. *)
Definition enumerate {A} (l : list A) : list (nat * A) :=
  combine (seq 0 (length l)) l.

(** [itertools.pairwise(l)]: consecutive overlapping pairs. *)
Fixpoint pairwise {A} (l : list A) : list (A * A) :=
  match l with
  | x :: (y :: _) as t => (x, y) :: pairwise t
  | _ => []
  end.

(** [itertools.product] of the lists [ls]: the last list varies fastest. *)
Fixpoint product {A} (ls : list (list A)) : list (list A) :=
  match ls with
  | [] => [[]]
  | l :: rest => flat_map (fun x => map (cons x) (product rest)) l
  end.

(** Every way of taking one item out of a list, by position, with the
    items that remain in their order. *)
Fixpoint picks {A} (l : list A) : list (A * list A) :=
  match l with
  | [] => []
  | x :: xs => (x, xs) :: map (fun p => (fst p, x :: snd p)) (picks xs)
  end.

(** [itertools.permutations(l, r)] for [r <= len(l)]: tuples of length
    [r] in lexicographic order of the positions chosen. *)
Fixpoint perms_n {A} (r : nat) (l : list A) : list (list A) :=
  match r with
  | 0 => [[]]
  | S r' => flat_map (fun p => map (cons (fst p)) (perms_n r' (snd p))) (picks l)
  end.

(** [itertools.permutations(l)]. *)
Definition permutations {A} (l : list A) : list (list A) :=
  perms_n (length l) l.

(** [math.prod] of a list of lengths. *)
Definition nat_prod (l : list nat) : nat := fold_right Nat.mul 1 l.

(** * Facts *)

Section Facts.
Context {A : Type}.
Implicit Types (l : list A) (ls : list (list A)).

(** ** enumerate *)

Lemma enumerate_length l : length (enumerate l) = length l.
Proof. unfold enumerate. rewrite length_combine, length_seq. lia. Qed.

Lemma enumerate_snd l : map snd (enumerate l) = l.
Proof.
  unfold enumerate. generalize 0. induction l as [| x l IH]; intros n; [done |].
  cbn. by rewrite IH.
Qed.

Lemma enumerate_fst l : map fst (enumerate l) = seq 0 (length l).
Proof.
  unfold enumerate. generalize 0. induction l as [| x l IH]; intros n; [done |].
  cbn. by rewrite IH.
Qed.

Lemma enumerate_In l (i : nat) (x : A) :
  In (i, x) (enumerate l) -> l !! i = Some x.
Proof.
  unfold enumerate. rewrite <- (Nat.sub_0_r i) at 2. generalize 0 as s.
  induction l as [| y l IH]; intros s; [done |]. cbn [length seq combine].
  intros [E | Hin].
  - inversion E; subst. by rewrite Nat.sub_diag.
  - assert (In i (seq (S s) (length l))) as Hs%in_seq
      by exact (in_combine_l _ _ _ _ Hin).
    replace (i - s) with (S (i - S s)) by lia. cbn. by apply IH.
Qed.

(** ** pairwise *)

Lemma pairwise_length l : length (pairwise l) = length l - 1.
Proof.
  induction l as [| x [| y t] IH]; [done.. |].
  cbn [pairwise length] in *. lia.
Qed.

Lemma pairwise_In l a b :
  In (a, b) (pairwise l) <-> exists l1 l2, l = l1 ++ a :: b :: l2.
Proof.
  induction l as [| x [| y t] IH].
  - split; [done | intros (l1 & l2 & E); by destruct l1].
  - split; [done | intros (l1 & l2 & E)]. by destruct l1 as [| ? [| ? ?]].
  - cbn [pairwise In]. rewrite IH. split.
    + intros [E | (l1 & l2 & E)].
      * injection E as <- <-. by exists [], t.
      * exists (x :: l1), l2. by rewrite E.
    + intros (l1 & l2 & E). destruct l1 as [| z l1]; cbn in E.
      * injection E as <- <- _. by left.
      * injection E as <- E. right. by exists l1, l2.
Qed.

Lemma pairwise_In_both l a b : In (a, b) (pairwise l) -> In a l /\ In b l.
Proof.
  intros (l1 & l2 & ->)%pairwise_In. rewrite !in_app_iff. cbn. tauto.
Qed.

Lemma pairwise_two (a b : A) : pairwise [a; b] = [(a, b)].
Proof. done. Qed.

(** ** product *)

Lemma product_length ls : length (product ls) = nat_prod (map length ls).
Proof.
  induction ls as [| l rest IH]; [done |]. cbn [product map nat_prod fold_right].
  fold (nat_prod (map length rest)). rewrite <- IH.
  induction l as [| x l IHl]; [done |].
  cbn [flat_map length]. rewrite length_app, length_map, IHl. lia.
Qed.

Lemma product_In ls (t : list A) :
  In t (product ls) <-> Forall2 (fun x l => In x l) t ls.
Proof.
  revert t. induction ls as [| l rest IH]; intros t; cbn.
  - split; [intros [<- | []]; constructor | inversion 1; by left].
  - rewrite in_flat_map. split.
    + intros (x & Hx & Ht). apply in_map_iff in Ht as (t' & <- & Ht').
      constructor; [done | by apply IH].
    + inversion 1 as [| x ? t' ? Hx Ht']; subst. exists x. split; [done |].
      apply in_map_iff. exists t'. split; [done | by apply IH].
Qed.

(** ** picks *)

Lemma picks_length l : length (picks l) = length l.
Proof. induction l as [| x l IH]; [done |]. cbn. by rewrite length_map, IH. Qed.

Lemma picks_Permutation l x rest :
  In (x, rest) (picks l) -> Permutation l (x :: rest).
Proof.
  revert x rest. induction l as [| y l IH]; intros x rest; [done |].
  cbn. intros [E | Hin].
  - by injection E as -> ->.
  - apply in_map_iff in Hin as ([z r] & E & Hin). injection E as -> <-.
    cbn. rewrite (IH _ _ Hin). apply perm_swap.
Qed.

Lemma picks_complete l x : In x l -> exists rest, In (x, rest) (picks l).
Proof.
  induction l as [| y l IH]; [done |]. intros [-> | Hin].
  - exists l. by left.
  - destruct (IH Hin) as (rest & Hr). exists (y :: rest). right.
    apply in_map_iff. by exists (x, rest).
Qed.

Lemma picks_rest_length l x rest :
  In (x, rest) (picks l) -> length l = S (length rest).
Proof. intros Hin. by rewrite (Permutation_length (picks_Permutation _ _ _ Hin)). Qed.

(** ** permutations *)

Lemma perms_n_In (r : nat) l (p : list A) :
  In p (perms_n r l) -> length p = r /\ exists q, Permutation l (p ++ q).
Proof.
  revert l p. induction r as [| r IH]; intros l p; cbn.
  - intros [<- | []]. split; [done | by exists l].
  - rewrite in_flat_map. intros ([x rest] & Hpick & Hp).
    apply in_map_iff in Hp as (p' & <- & Hp'). cbn in *.
    destruct (IH _ _ Hp') as (Hlen & q & Hq). split; [by rewrite <- Hlen |].
    exists q. rewrite (picks_Permutation _ _ _ Hpick). cbn. by constructor.
Qed.

Lemma permutations_Permutation l (p : list A) :
  In p (permutations l) -> Permutation l p.
Proof.
  intros Hin. destruct (perms_n_In _ _ _ Hin) as (Hlen & q & Hq).
  pose proof (Permutation_length Hq) as Hl. rewrite length_app in Hl.
  destruct q; [by rewrite app_nil_r in Hq | cbn in Hl; lia].
Qed.

Lemma perms_n_complete (r : nat) l (p : list A) :
  length l = r -> Permutation l p -> In p (perms_n r l).
Proof.
  revert l p. induction r as [| r IH]; intros l p Hlen Hp.
  - destruct l; [| done]. apply Permutation_nil in Hp as ->. by left.
  - destruct p as [| x p].
    { apply Permutation_sym, Permutation_nil in Hp. by subst. }
    assert (In x l) as Hx.
    { eapply Permutation_in; [symmetry; exact Hp | by left]. }
    destruct (picks_complete _ _ Hx) as (rest & Hpick).
    cbn. apply in_flat_map. exists (x, rest). split; [done |].
    apply in_map_iff. exists p. split; [done |]. apply IH.
    + apply picks_rest_length in Hpick. cbn. lia.
    + apply (Permutation_cons_inv (a := x)).
      by rewrite <- (picks_Permutation _ _ _ Hpick).
Qed.

Lemma permutations_complete l (p : list A) :
  Permutation l p -> In p (permutations l).
Proof. by apply perms_n_complete. Qed.

Lemma perms_n_head l : exists t, perms_n (length l) l = l :: t.
Proof.
  induction l as [| x l (t & IH)]; [by exists [] |].
  cbn. rewrite IH. cbn. eauto.
Qed.

Lemma perms_n_length (r : nat) l :
  length l = r -> length (perms_n r l) = fact r.
Proof.
  revert l. induction r as [| r IH]; intros l Hlen; [done |].
  cbn [perms_n fact].
  assert (forall ps : list (A * list A),
    Forall (fun p => length (snd p) = r) ps ->
    length (flat_map (fun p => map (cons (fst p)) (perms_n r (snd p))) ps)
    = length ps * fact r) as Hsum.
  { induction 1 as [| p ps Hp _ IHps]; [done |].
    cbn. rewrite length_app, length_map, IHps, (IH _ Hp). lia. }
  rewrite Hsum.
  - rewrite picks_length, Hlen. lia.
  - apply Forall_forall. intros [x rest] Hin%list_elem_of_In.
    apply picks_rest_length in Hin. cbn. lia.
Qed.

Lemma permutations_length l : length (permutations l) = fact (length l).
Proof. by apply perms_n_length. Qed.

End Facts.

#[export] Hint Resolve permutations_Permutation permutations_complete : arpes.
#[export] Hint Rewrite @enumerate_length @pairwise_length @product_length
  @permutations_length : arpes_rw.
