(* ===== verification/Arrays.v ===== *)
(** * Labelled arrays

    The part of [xarray.DataArray] the band pipeline uses: an array with
    named dimensions, a list of coordinate ticks per dimension and its
    cells in row-major order (the last dimension varies fastest).  The
    operations are the ones the sources call: [coords], [sel], [sum],
    assignment through [loc], the iteration of
    [arpes.utilities.enumerate_dataarray], and the allocation of an array
    of objects of the same shape. *)

From stdpp Require Import prelude strings.
From S2P Require Import Prelude PyDict Itertools.

(** * Definitions *)

Section Defs.
Context {F : Type} {Fops : ScalarOps F}.

(** A labelled array: dimension names, the coordinate ticks of each
    dimension and the cells in row-major order. *)
Record Grid (A : Type) : Type := mkGrid {
  g_dims : list string;
  g_coords : list (list F);
  g_cells : list A
}.
Arguments g_dims {A} g.
Arguments g_coords {A} g.
Arguments g_cells {A} g.

(** [arr.coords] as a dictionary from dimension to ticks. *)
Definition coords_dict {A} (g : Grid A) : list (string * list F) :=
  combine (g_dims g) (g_coords g).

(** [arr.coords[d]]. *)
Definition coords_of {A} (g : Grid A) (d : string) : pyres (list F) :=
  dict_item (coords_dict g) d.

(** [arr.G.iter_coords()]: every coordinate as a dictionary from
    dimension to tick. *)
Definition iter_coords {A} (g : Grid A) : list (list (string * F)) :=
  map (combine (g_dims g)) (product (g_coords g)).

(** [arpes.utilities.enumerate_dataarray]: every coordinate with its
    cell. *)
Definition enumerate_dataarray {A} (g : Grid A)
    : list (list (string * F) * A) :=
  combine (map (combine (g_dims g)) (product (g_coords g))) (g_cells g).

(** [tuple(coordinate[d] for d in dims)]. *)
Definition frozen (dims : list string) (coordinate : list (string * F))
    : pyres (list F) :=
  pymap (dict_item coordinate) dims.

(** The coordinate has the tick the selector asks for on every dimension
    the selector names. *)
Definition agrees (selector coordinate : list (string * F)) : bool :=
  forallb (fun kv => match dict_get coordinate (fst kv) with
                     | Some x => s_eqb x (snd kv)
                     | None => false
                     end) selector.

(** The selector names dimensions of the array and ticks they have. *)
Definition check_selector {A} (g : Grid A) (selector : list (string * F))
    : pyres unit :=
  (let* _ := pymap (fun kv =>
       let* ticks := coords_of g (fst kv) in
       if existsb (fun t => s_eqb t (snd kv)) ticks then Ok tt
       else Raise KeyError) selector in
   Ok tt)%py.

(** [arr.sel(selector)]: the cells at the ticks selected; the dimensions
    selected disappear. *)
Definition sel {A} (g : Grid A) (selector : list (string * F))
    : pyres (Grid A) :=
  (let* _ := check_selector g selector in
   let kept := List.filter (fun dc => negb (dict_mem selector (fst dc)))
                           (coords_dict g) in
   Ok {| g_dims := map fst kept;
         g_coords := map snd kept;
         g_cells := map snd (List.filter (fun item => agrees selector (fst item))
                                         (enumerate_dataarray g)) |})%py.

(** [arr.loc[selector] = v]. *)
Definition loc_set {A} (g : Grid A) (selector : list (string * F)) (v : A)
    : pyres (Grid A) :=
  (let* _ := check_selector g selector in
   Ok {| g_dims := g_dims g;
         g_coords := g_coords g;
         g_cells := map (fun item => if agrees selector (fst item) then v
                                     else snd item)
                        (enumerate_dataarray g) |})%py.

(** [arr.loc[selector] = values] for an array of values: the cells
    selected take the values in order; [ValueError] when their numbers
    differ. *)
Fixpoint assign_where {A} (hit : list bool) (cells values : list A)
    : pyres (list A) :=
  match hit, cells with
  | true :: hit', _ :: cells' =>
      match values with
      | v :: values' =>
          match assign_where hit' cells' values' with
          | Ok r => Ok (v :: r)
          | Raise e => Raise e
          end
      | [] => Raise ValueError
      end
  | false :: hit', c :: cells' =>
      match assign_where hit' cells' values with
      | Ok r => Ok (c :: r)
      | Raise e => Raise e
      end
  | _, _ => match values with [] => Ok cells | _ => Raise ValueError end
  end.

Definition loc_set_array {A} (g : Grid A) (selector : list (string * F))
    (values : list A) : pyres (Grid A) :=
  (let* _ := check_selector g selector in
   let* cells := assign_where (map (agrees selector) (iter_coords g))
                              (g_cells g) values in
   Ok {| g_dims := g_dims g; g_coords := g_coords g; g_cells := cells |})%py.

(** [arr.sel({d: slice(lo, hi)})] on ascending ticks: the ticks from
    [lo] to [hi], both included, are kept. *)
Definition sel_slice {A} (g : Grid A) (d : string) (lo hi : F)
    : pyres (Grid A) :=
  (let* _ := coords_of g d in
   let inside (t : F) : bool := s_leb lo t && s_leb t hi in
   Ok {| g_dims := g_dims g;
         g_coords := map (fun dc => if String.eqb (fst dc) d
                                    then List.filter inside (snd dc)
                                    else snd dc) (coords_dict g);
         g_cells :=
           map snd (List.filter
                      (fun item => match dict_get (fst item) d with
                                   | Some t => inside t
                                   | None => false
                                   end)
                      (enumerate_dataarray g)) |})%py.

(** [arr.sel({d: slice(lo, hi)})] with bounds that may be missing, on
    ascending ticks. *)
Definition sel_range {A} (g : Grid A) (d : string) (lo hi : option F)
    : pyres (Grid A) :=
  (let* _ := coords_of g d in
   let inside (t : F) : bool :=
     from_option (fun l => s_leb l t) true lo
     && from_option (fun h => s_leb t h) true hi in
   Ok {| g_dims := g_dims g;
         g_coords := map (fun dc => if String.eqb (fst dc) d
                                    then List.filter inside (snd dc)
                                    else snd dc) (coords_dict g);
         g_cells :=
           map snd (List.filter
                      (fun item => match dict_get (fst item) d with
                                   | Some t => inside t
                                   | None => false
                                   end)
                      (enumerate_dataarray g)) |})%py.

(** [arr.sum(d)]: the dimension [d] disappears and the cells along it
    are added. *)
Definition sum_dim (g : Grid F) (d : string) : pyres (Grid F) :=
  (let* _ := coords_of g d in
   let kept := List.filter (fun dc => negb (keq (fst dc) d)) (coords_dict g) in
   Ok {| g_dims := map fst kept;
         g_coords := map snd kept;
         g_cells :=
           map (fun t =>
                  s_sum (map snd (List.filter
                    (fun item => agrees (combine (map fst kept) t) (fst item))
                    (enumerate_dataarray g))))
               (product (map snd kept)) |})%py.

(** [arr.mean(d)]. *)
Definition mean_dim (g : Grid F) (d : string) : pyres (Grid F) :=
  (let* ticks := coords_of g d in
   let* s := sum_dim g d in
   Ok {| g_dims := g_dims s; g_coords := g_coords s;
         g_cells := map (fun x => (x / s_of_Z (Z.of_nat (length ticks)))%sc)
                        (g_cells s) |})%py.

(** The place in [arr.values.ravel()] of the cell at the positions
    [idx], one per dimension, of an array of the given shape. *)
Definition flat_index (shape idx : list nat) : nat :=
  fold_left (fun acc ni => acc * fst ni + snd ni) (combine shape idx) 0.

(** [arr.isel({d: which})] for a list of positions, which may repeat and
    may count from the end: the ticks and the cells at these positions
    along [d], in the order of the list.  An unknown dimension raises
    [ValueError], a position out of range [IndexError]. *)
Definition isel {A} (g : Grid A) (d : string) (which : list Z)
    : pyres (Grid A) :=
  if existsb (String.eqb d) (g_dims g) then
    (let* positions :=
       pymap (fun dc => if String.eqb (fst dc) d
                        then pymap (py_position (length (snd dc))) which
                        else Ok (seq 0 (length (snd dc))))
             (coords_dict g) in
     let* cells :=
       pymap (fun idx =>
                or_raise IndexError
                  (g_cells g !! flat_index (map length (g_coords g)) idx))
             (product positions) in
     Ok {| g_dims := g_dims g;
           g_coords := zip_with (fun ticks pos => omap (fun i => ticks !! i) pos)
                                (g_coords g) positions;
           g_cells := cells |})%py
  else Raise ValueError.

(** [xr.DataArray(np.ndarray(shape=template.values.shape, dtype=object),
    coords=template.coords, dims=template.dims)]: an array of objects,
    every cell [None]. *)
Definition empty_like {A B} (template : Grid A) : Grid (option B) :=
  {| g_dims := g_dims template;
     g_coords := g_coords template;
     g_cells := map (fun _ => None) (g_cells template) |}.

(** The cell at a full coordinate. *)
Definition cell_at {A} (g : Grid A) (coordinate : list (string * F))
    : pyres A :=
  or_raise KeyError
    (head (map snd (List.filter (fun item => agrees coordinate (fst item))
                                (enumerate_dataarray g)))).

(** The two lists have the same strings, each once. *)
Definition same_dims (order dims : list string) : bool :=
  bool_decide (NoDup order) && (length order =? length dims)
  && forallb (fun d => existsb (String.eqb d) dims) order.

(** [arr.transpose] with the dimensions [order]: [ValueError] unless [order] is a
    permutation of the dimensions. *)
Definition xr_transpose {A} (g : Grid A) (order : list string) : pyres (Grid A) :=
  if same_dims order (g_dims g) then
    (let* coords := pymap (coords_of g) order in
     let* cells := pymap (fun t => cell_at g (combine order t)) (product coords) in
     Ok {| g_dims := order; g_coords := coords; g_cells := cells |})%py
  else Raise ValueError.

(** [arr.values.shape]. *)
Definition shape {A} (g : Grid A) : list nat := map length (g_coords g).

(** A grid is well formed when its dimension names are distinct, every
    dimension has its ticks and there is one cell per coordinate. *)
Definition grid_wf {A} (g : Grid A) : Prop :=
  NoDup (g_dims g) /\ length (g_dims g) = length (g_coords g)
  /\ length (g_cells g) = nat_prod (map length (g_coords g)).

End Defs.

Arguments Grid F A : clear implicits.
Arguments mkGrid {F A} g_dims g_coords g_cells.
Arguments g_dims {F A} g.
Arguments g_coords {F A} g.
Arguments g_cells {F A} g.

(** * Facts *)

Section Facts.
Context {F : Type} {Fops : ScalarOps F}.

Lemma enumerate_dataarray_length {A} (g : Grid F A) :
  grid_wf g -> length (enumerate_dataarray g) = length (g_cells g).
Proof.
  intros (_ & _ & Hlen). unfold enumerate_dataarray.
  rewrite length_combine, length_map, product_length. lia.
Qed.

Lemma enumerate_dataarray_snd {A} (g : Grid F A) :
  grid_wf g -> map snd (enumerate_dataarray g) = g_cells g.
Proof.
  intros (_ & _ & Hlen). apply map_snd_combine.
  rewrite length_map, product_length. lia.
Qed.

Lemma enumerate_dataarray_cells {A} (P : A -> Prop) (g : Grid F A) :
  Forall P (g_cells g) -> Forall (fun item => P (snd item)) (enumerate_dataarray g).
Proof.
  rewrite !Forall_forall. intros H [c x] Hin%list_elem_of_In.
  apply H, list_elem_of_In. exact (in_combine_r _ _ _ _ Hin).
Qed.

Lemma enumerate_dataarray_head {A} (g : Grid F A)
    (item : list (string * F) * A) :
  head (enumerate_dataarray g) = Some item -> head (g_cells g) = Some (snd item).
Proof.
  unfold enumerate_dataarray.
  destruct (map _ _) as [| c cs], (g_cells g) as [| x xs]; cbn; try done.
  intros. by inv_res.
Qed.

Lemma enumerate_dataarray_fst {A} (g : Grid F A) :
  grid_wf g -> map fst (enumerate_dataarray g) = iter_coords g.
Proof.
  intros (_ & _ & Hlen). unfold iter_coords. apply map_fst_combine.
  rewrite length_map, product_length. lia.
Qed.

Lemma empty_like_wf {A B} (g : Grid F A) :
  grid_wf g -> grid_wf (empty_like (B:=B) g).
Proof. intros (? & ? & ?). repeat split; cbn; [done.. |]. by rewrite length_map. Qed.

Lemma loc_set_shape {A} (g g' : Grid F A) selector (v : A) :
  loc_set g selector v = Ok g' ->
  g_dims g' = g_dims g /\ g_coords g' = g_coords g.
Proof. unfold loc_set. intros E. py_inv E. by inv_res. Qed.

Lemma loc_set_wf {A} (g g' : Grid F A) selector (v : A) :
  grid_wf g -> loc_set g selector v = Ok g' -> grid_wf g'.
Proof.
  intros Hwf E. pose proof (enumerate_dataarray_length g Hwf) as Hlen.
  destruct Hwf as (? & ? & ?). unfold loc_set in E. py_inv E. inv_res.
  repeat split; cbn; [done.. |]. rewrite length_map. by rewrite Hlen.
Qed.

Lemma dict_get_combine_fresh (dims : list string) (t : list F) (d : string) :
  ~ In d dims -> dict_get (combine dims t) d = None.
Proof.
  revert t. induction dims as [| d0 dims IH]; intros [| x t] Hd; try done.
  cbn. unfold keq, string_keq. destruct (String.eqb_spec d0 d) as [-> | _].
  - destruct Hd. by left.
  - apply IH. intros ?. apply Hd. by right.
Qed.

(** The tuple of a coordinate dictionary built from a tuple is that
    tuple, when no dimension name repeats. *)
Lemma frozen_combine (dims : list string) (t : list F) :
  NoDup dims -> length t = length dims ->
  frozen dims (combine dims t) = Ok t.
Proof.
  unfold frozen. intros Hnd. revert t.
  induction Hnd as [| d dims Hd Hnd IH]; intros [| x t] Hlen; try done.
  cbn [combine pymap]. unfold dict_item at 1. cbn [dict_get].
  unfold keq, string_keq. rewrite String.eqb_refl. cbn [or_raise].
  rewrite (pymap_ext_in _ (dict_item (combine dims t))).
  - rewrite IH by (cbn in Hlen; lia). done.
  - intros d' Hd'. unfold dict_item. cbn [dict_get]. unfold keq, string_keq.
    destruct (String.eqb_spec d d') as [-> | _]; [| done].
    by apply list_elem_of_In in Hd'.
Qed.

Lemma coords_of_In {A} (g : Grid F A) (d : string) (ticks : list F) :
  coords_of g d = Ok ticks -> In d (g_dims g) /\ In ticks (g_coords g).
Proof.
  unfold coords_of, dict_item, coords_dict.
  destruct (dict_get _ d) as [t |] eqn:E; [| done]. cbn. intros [= <-].
  apply dict_get_In_exact in E.
  split; [exact (in_combine_l _ _ _ _ E) | exact (in_combine_r _ _ _ _ E)].
Qed.

Lemma coords_of_ok {A} (g : Grid F A) (d : string) :
  length (g_dims g) = length (g_coords g) -> In d (g_dims g) ->
  exists ticks, coords_of g d = Ok ticks.
Proof.
  unfold coords_of, dict_item, coords_dict.
  generalize (g_coords g). induction (g_dims g) as [| d0 dims IH];
    intros [| t coords] Hlen Hin; try done. cbn.
  unfold keq, string_keq. destruct (String.eqb_spec d0 d) as [-> | Hne];
    [by eexists |].
  apply IH; [by inversion Hlen |]. by destruct Hin.
Qed.

Lemma check_selector_ok {A} (g : Grid F A) (selector : list (string * F)) :
  Forall (fun kv => exists ticks,
            coords_of g (fst kv) = Ok ticks
            /\ existsb (fun t => s_eqb t (snd kv)) ticks = true) selector ->
  check_selector g selector = Ok tt.
Proof.
  intros H. unfold check_selector.
  destruct (pymap_ok (fun kv =>
    (let* ticks := coords_of g (fst kv) in
     if existsb (fun t => s_eqb t (snd kv)) ticks then Ok tt
     else Raise KeyError)%py) selector) as [r ->]; [| done].
  eapply Forall_impl; [exact H |]. intros kv (ticks & -> & E). cbn.
  rewrite E. by eexists.
Qed.

(** Selecting nothing returns the array. *)
Lemma sel_nil {A} (g : Grid F A) : grid_wf g -> sel g [] = Ok g.
Proof.
  intros Hwf. pose proof (enumerate_dataarray_snd g Hwf) as Hsnd.
  destruct Hwf as (_ & Hlen & _). unfold sel, coords_dict. cbn.
  rewrite !forallb_filter_true; [| done..].
  rewrite Hsnd, map_fst_combine, map_snd_combine by lia. by destruct g.
Qed.

(** ** Selection by position *)

Lemma flat_index_acc (shape idx : list nat) (acc : nat) :
  Forall2 (fun n i => i < n) shape idx ->
  fold_left (fun acc ni => acc * fst ni + snd ni) (combine shape idx) acc
  < (acc + 1) * nat_prod shape.
Proof.
  intros H. revert acc.
  induction H as [| n i shape idx Hi _ IH]; intros acc; cbn; [lia |].
  specialize (IH (acc * n + i)). unfold nat_prod in *. nia.
Qed.

(** The place of a cell within the shape is a place among the values. *)
Lemma flat_index_lt (shape idx : list nat) :
  Forall2 (fun n i => i < n) shape idx -> flat_index shape idx < nat_prod shape.
Proof.
  intros H. pose proof (flat_index_acc _ _ 0 H). unfold flat_index. lia.
Qed.

(** The positions [isel] takes along one dimension are positions of its
    ticks. *)
Lemma isel_positions_lt (d : string) (which : list Z) (dc : string * list F)
    (pos : list nat) :
  (if String.eqb (fst dc) d then pymap (py_position (length (snd dc))) which
   else Ok (seq 0 (length (snd dc)))) = Ok pos ->
  Forall (fun p => p < length (snd dc)) pos.
Proof.
  destruct (String.eqb (fst dc) d).
  - intros E%pymap_Forall2. induction E as [| i p which pos Hp _ IH]; [done |].
    constructor; [by apply (py_position_lt _ i) | done].
  - intros [= <-]. apply Forall_forall. intros p Hp%elem_of_seq. lia.
Qed.

Lemma isel_positions_ok (d : string) (which : list Z) (dc : string * list F) :
  (fst dc = d ->
   Forall (fun i => (0 <= i < Z.of_nat (length (snd dc)))%Z) which) ->
  exists pos,
    (if String.eqb (fst dc) d then pymap (py_position (length (snd dc))) which
     else Ok (seq 0 (length (snd dc)))) = Ok pos.
Proof.
  intros Hwhich. destruct (String.eqb_spec (fst dc) d) as [E | _]; [| by eexists].
  apply pymap_ok. eapply Forall_impl; [exact (Hwhich E) |].
  intros i Hi. eexists. by apply py_position_ok.
Qed.

(** Positions within the ticks of a well-formed array select
    an array of the same dimensions. *)
Lemma isel_ok {A} (g : Grid F A) (d : string) (which : list Z) (ticks : list F) :
  grid_wf g -> coords_of g d = Ok ticks ->
  Forall (fun i => (0 <= i < Z.of_nat (length ticks))%Z) which ->
  exists g', isel g d which = Ok g' /\ g_dims g' = g_dims g
             /\ length (g_coords g') = length (g_coords g).
Proof.
  intros (Hnd & Hlen & Hcells) Hd Hwhich. unfold isel.
  destruct (coords_of_In _ _ _ Hd) as [Hin _].
  assert (existsb (String.eqb d) (g_dims g) = true) as ->.
  { apply existsb_exists. exists d. split; [done | apply String.eqb_refl]. }
  destruct (pymap_ok (fun dc => if String.eqb (fst dc) d
                                then pymap (py_position (length (snd dc))) which
                                else Ok (seq 0 (length (snd dc))))
                     (coords_dict g)) as [positions Hpos].
  { apply Forall_forall. intros [d' t] Hdc%list_elem_of_In.
    apply isel_positions_ok. cbn. intros ->.
    unfold coords_of, dict_item in Hd.
    assert (dict_get (coords_dict g) d = Some t) as Ht.
    { apply dict_get_NoDup; [| done].
      unfold coords_dict, dict_keys. by rewrite map_fst_combine by lia. }
    rewrite Ht in Hd. cbn in Hd. by inv_res. }
  rewrite Hpos. cbn [pybind].
  pose proof (pymap_length _ _ _ Hpos) as Hplen.
  apply pymap_Forall2 in Hpos.
  assert (Forall2 (fun t pos => Forall (fun p => p < length t) pos)
                  (g_coords g) positions) as Hlt.
  { rewrite <- (map_snd_combine (g_dims g) (g_coords g)) by lia.
    apply Forall2_fmap_l. eapply Forall2_impl; [exact Hpos |].
    intros dc pos. apply isel_positions_lt. }
  destruct (pymap_ok (fun idx => or_raise IndexError
              (g_cells g !! flat_index (map length (g_coords g)) idx))
              (product positions)) as [cells ->].
  { apply Forall_forall. intros idx Hidx%list_elem_of_In%product_In.
    destruct (lookup_lt_is_Some_2 (g_cells g)
                (flat_index (map length (g_coords g)) idx)) as [c ->];
      [| by eexists].
    rewrite Hcells. apply flat_index_lt, Forall2_fmap_l.
    clear -Hlt Hidx. revert idx Hidx.
    induction Hlt as [| t pos coords positions Ht _ IH]; intros idx Hidx;
      inversion Hidx; subst; constructor; [| by apply IH].
    rewrite Forall_forall in Ht. by apply Ht, list_elem_of_In. }
  cbn [pybind]. eexists. split; [done |]. split; [done |]. cbn.
  unfold coords_dict in Hplen. rewrite length_combine in Hplen.
  rewrite length_zip_with. lia.
Qed.

(** A transposed array has the dimensions it was asked for, which are
    those it had. *)
Lemma xr_transpose_dims {A} (g g' : Grid F A) (order : list string) :
  xr_transpose g order = Ok g' ->
  g_dims g' = order /\ same_dims order (g_dims g) = true.
Proof.
  unfold xr_transpose. destruct (same_dims order (g_dims g)); [| done].
  intros H. py_inv H. by injection H as <-.
Qed.

(** ** Assignment and sums, cell by cell *)

(** The cells after [arr.loc[selector] = v]: those whose coordinate the
    selector agrees with hold [v], the others are kept. *)
Lemma loc_set_cells {A} (g g' : Grid F A) selector (v : A) :
  loc_set g selector v = Ok g' ->
  g_cells g' = zip_with (fun c x => if agrees selector c then v else x)
                        (iter_coords g) (g_cells g).
Proof.
  unfold loc_set, enumerate_dataarray, iter_coords. intros E. py_inv E. inv_res.
  cbn [g_cells]. generalize (map (combine (g_dims g)) (product (g_coords g))).
  intros cs. generalize (g_cells g).
  induction cs as [| c cs IH]; intros [| x xs]; cbn; [done.. |]. by rewrite IH.
Qed.

(** The keys of the entries kept by a test on the key. *)
Lemma kept_keys {V} (P : string -> bool) (dims : list string) (vs : list V) :
  length dims = length vs ->
  map fst (List.filter (fun dc => P (fst dc)) (combine dims vs))
  = List.filter P dims.
Proof.
  revert vs. induction dims as [| d dims IH]; intros [| v vs] Hlen; try done.
  cbn in *. destruct (P d); cbn; rewrite IH by lia; done.
Qed.

Lemma NoDup_List_filter {A} (P : A -> bool) (l : list A) :
  NoDup l -> NoDup (List.filter P l).
Proof.
  induction 1 as [| x l Hx _ IH]; cbn; [constructor |].
  destruct (P x); [| done]. apply NoDup_cons_2; [| done].
  intros [Hin _]%list_elem_of_In%List.filter_In. by apply Hx, list_elem_of_In.
Qed.

(** Removing a name from a list where it occurs once keeps the others. *)
Lemma py_remove_filter (d : string) (dims : list string) :
  NoDup dims -> In d dims ->
  py_remove d dims = Ok (List.filter (fun x => negb (keq x d)) dims).
Proof.
  unfold keq, string_keq.
  induction 1 as [| d0 dims Hd0 Hnd IH]; [done |]. intros Hin. cbn.
  destruct (decide (d0 = d)) as [-> | Hne].
  - rewrite String.eqb_refl. cbn. f_equal. symmetry.
    apply forallb_filter_id, forallb_forall. intros x Hx.
    destruct (String.eqb_spec x d) as [-> | _]; [| done].
    by apply list_elem_of_In in Hx.
  - destruct (String.eqb_spec d0 d) as [? | _]; [done |]. cbn.
    rewrite IH; [done |]. by destruct Hin.
Qed.

(** The values of entries of a dictionary without repeated keys. *)
Lemma pymap_dict_item_entries {V} (d l : list (string * V)) :
  NoDup (dict_keys d) -> Forall (fun kv => In kv d) l ->
  pymap (dict_item d) (map fst l) = Ok (map snd l).
Proof.
  intros Hnd. induction 1 as [| [k v] l Hin _ IH]; [done |]. cbn.
  unfold dict_item at 1. by rewrite (dict_get_NoDup d k v), IH.
Qed.

(** The sum over a dimension of a well-formed array is well
    formed; its dimensions are those of the array without the one summed
    over, and its ticks are the ticks the array has on them. *)
Lemma sum_dim_shape (g t : Grid F F) (d : string) :
  grid_wf g -> sum_dim g d = Ok t ->
  py_remove d (g_dims g) = Ok (g_dims t)
  /\ pymap (coords_of g) (g_dims t) = Ok (g_coords t)
  /\ grid_wf t.
Proof.
  intros (Hnd & Hlen & _). unfold sum_dim. intros E. py_inv E. inv_res.
  cbn [g_dims g_coords g_cells].
  match goal with H : coords_of g d = Ok _ |- _ =>
    apply coords_of_In in H as [Hd _] end.
  unfold coords_dict. rewrite (kept_keys (fun x => negb (keq x d))) by done.
  split; [by apply py_remove_filter |]. split.
  - rewrite <- (kept_keys (fun x => negb (keq x d)) _ (g_coords g)) by done.
    apply pymap_dict_item_entries.
    + unfold dict_keys, coords_dict. by rewrite map_fst_combine by lia.
    + apply Forall_forall. by intros dc [Hdc _]%list_elem_of_In%List.filter_In.
  - repeat split; cbn [g_dims g_coords g_cells]; [by apply NoDup_List_filter | |].
    + rewrite <- (kept_keys (fun x => negb (keq x d)) _ (g_coords g)) by done.
      by rewrite !length_map.
    + by rewrite length_map, product_length.
Qed.

End Facts.

(** * Coordinates under an order *)

Section Order.
Context {F : Type} {Fops : ScalarOps F} {Ford : ScalarOrder F}.

(** A coordinate without repeated dimensions agrees with itself. *)
Lemma agrees_refl (c : list (string * F)) :
  NoDup (dict_keys c) -> agrees c c = true.
Proof.
  intros Hnd. apply forallb_forall. intros [k v] Hin. cbn.
  by rewrite (dict_get_NoDup c k v), s_eqb_refl.
Qed.

Lemma combine_keys_NoDup (dims : list string) (t : list F) :
  NoDup dims -> NoDup (dict_keys (combine dims t)).
Proof.
  unfold dict_keys. intros Hnd. revert t.
  induction Hnd as [| d dims Hd _ IH]; intros [| x t]; cbn; try constructor.
  - intros ((d' & x') & <- & Hin%in_combine_l)%list_elem_of_In%in_map_iff.
    by apply Hd, list_elem_of_In.
  - apply IH.
Qed.

(** Every coordinate of a well-formed array agrees with itself. *)
Lemma iter_coords_agree {A} (g : Grid F A) :
  grid_wf g -> Forall (fun c => agrees c c = true) (iter_coords g).
Proof.
  intros (Hnd & _). unfold iter_coords. apply Forall_map, Forall_forall.
  intros t _. by apply agrees_refl, combine_keys_NoDup.
Qed.

End Order.
