(* ===== verification/Params.v ===== *)
(** * Fit parameters, models and results

    The part of lmfit's data model the sources touch: a [Parameter] with
    its value, standard error and bounds; [Parameters], the dictionary
    from prefixed names to parameters; a [Model] as a tree of prefixed
    components under a binary operator, the way [CompositeModel] holds
    them; a [ModelResult] with the model, the fitted parameters, the best
    fit and the residual.

    On these the file models [param_getter] and [param_stderr_getter] of
    [src/arpes/analysis/band_analysis_utils.py] and, of
    [src/arpes/fits/fit_models/x_model_mixin.py], [__add__] and
    [__mul__]. *)

From stdpp Require Import prelude strings.
From Stdlib Require Import QArith.
From S2P Require Import Prelude PyDict.
Close Scope Q_scope.

Section Defs.
Context {F : Type} {Fops : ScalarOps F}.

(** * lmfit's data *)

(** [lmfit.Parameter]: [stderr] is [None] until a fit estimated it. *)
Record Param : Type := mkParam {
  p_value : F;
  p_stderr : option F;
  p_min : option F;
  p_max : option F;
  p_vary : bool
}.

(** A parameter as [lmfit.Parameter(name, value=v)] creates it. *)
Definition parameter_of_value (v : F) : Param :=
  {| p_value := v; p_stderr := None; p_min := None; p_max := None;
     p_vary := true |}.

(** The operator of a composite model. *)
Inductive binop : Type := OpAdd | OpMul | OpConvolve.

(** [lmfit.Model]: a basic model evaluates a line shape on its own
    parameters [names], which it reads under its [prefix]; a composite
    combines two models. *)
Inductive Model : Type :=
| Basic (prefix : string) (names : list string) (n_dims : nat)
        (shape : list F -> F -> F)
| Composite (left right : Model) (op : binop) (n_dims : nat).

Definition model_n_dims (m : Model) : nat :=
  match m with
  | Basic _ _ n _ => n
  | Composite _ _ _ n => n
  end.

(** [model.components]: the basic models, left to right. *)
Fixpoint components (m : Model) : list Model :=
  match m with
  | Basic _ _ _ _ => [m]
  | Composite l r _ _ => components l ++ components r
  end.

(** [model.prefix]; a composite has the empty prefix. *)
Definition model_prefix (m : Model) : string :=
  match m with
  | Basic p _ _ _ => p
  | Composite _ _ _ _ => ""
  end.

(** [model.param_names]: prefixed, in component order. *)
Fixpoint param_names (m : Model) : list string :=
  match m with
  | Basic p names _ _ => map (String.append p) names
  | Composite l r _ _ => param_names l ++ param_names r
  end.

Definition apply_binop (op : binop) (a b : F) : F :=
  match op with
  | OpAdd => s_add a b
  | OpMul => s_mul a b
  | OpConvolve => s_mul a b
  end.

(** [model.eval(params, x=x)] at one point: a missing parameter
    raises [KeyError]. *)
Fixpoint model_eval (m : Model) (params : list (string * Param)) (x : F)
    : pyres F :=
  match m with
  | Basic p names _ shape =>
      pybind (pymap (fun n => dict_item params (String.append p n)) names)
             (fun ps => Ok (shape (map p_value ps) x))
  | Composite l r op _ =>
      pybind (model_eval l params x) (fun a =>
      pybind (model_eval r params x) (fun b => Ok (apply_binop op a b)))
  end.

(** [lmfit.model.ModelResult]. *)
Record ModelResult : Type := mkModelResult {
  mr_model : Model;
  mr_params : list (string * Param);
  mr_best_fit : list F;
  mr_residual : list F
}.

(** * band_analysis_utils.py *)

(** A float that may be NaN, or Python's [None]. *)
Inductive pyfloat : Type :=
| Num (x : F)
| NaN
| PyNone.

Definition pyfloat_of_option (o : option F) : pyfloat :=
  match o with
  | Some x => Num x
  | None => PyNone
  end.

(** [ParamType]: the named tuple that stands for a missing parameter. *)
Record ParamType : Type := mkParamType {
  pt_value : pyfloat;
  pt_stderr : pyfloat
}.

Definition safe_param : ParamType := {| pt_value := NaN; pt_stderr := NaN |}.

Definition param_type_of (p : Param) : ParamType :=
  {| pt_value := Num (p_value p);
     pt_stderr := pyfloat_of_option (p_stderr p) |}.

(** [param_getter(param_name, safe=safe)(x)] for a cell [x] of a grid of
    results; a cell without a result is [None], whose attribute access
    raises. *)
Definition param_getter (param_name : string) (safe : bool)
    (x : option ModelResult) : pyres pyfloat :=
  match x with
  | None => Raise AttributeError
  | Some r =>
      if safe then
        Ok (pt_value (default safe_param
              (param_type_of <$> dict_get (mr_params r) param_name)))
      else
        pybind (dict_item (mr_params r) param_name)
               (fun p => Ok (Num (p_value p)))
  end.

Definition param_stderr_getter (param_name : string) (safe : bool)
    (x : option ModelResult) : pyres pyfloat :=
  match x with
  | None => Raise AttributeError
  | Some r =>
      if safe then
        Ok (pt_stderr (default safe_param
              (param_type_of <$> dict_get (mr_params r) param_name)))
      else
        pybind (dict_item (mr_params r) param_name)
               (fun p => Ok (pyfloat_of_option (p_stderr p)))
  end.

(** * x_model_mixin.py *)

(** Two models have a parameter of the same name. *)
Definition names_collide (left right : Model) : bool :=
  existsb (fun n => existsb (String.eqb n) (param_names right))
          (param_names left).

(** [lf.CompositeModel(left, right, op)]: lmfit refuses two models that
    share a parameter name. *)
Definition composite_model (left right : Model) (op : binop) (n_dims : nat)
    : pyres Model :=
  if names_collide left right then Raise NameError
  else Ok (Composite left right op n_dims).

(** [XModelMixin.__add__] and [__mul__]: the composite is built before
    the dimensions are compared. *)
Definition model_add (self other : Model) : pyres Model :=
  pybind (composite_model self other OpAdd (model_n_dims other)) (fun comp =>
  pybind (py_assert (model_n_dims self =? model_n_dims other))
         (fun _ => Ok comp)).

Definition model_mul (self other : Model) : pyres Model :=
  pybind (composite_model self other OpMul (model_n_dims other)) (fun comp =>
  pybind (py_assert (model_n_dims self =? model_n_dims other))
         (fun _ => Ok comp)).

(** [functools.reduce(lambda x, y: x + y, models)]. *)
Definition reduce_add (models : list Model) : pyres Model :=
  match models with
  | [] => Raise TypeError
  | m :: ms => fold_left (fun acc y => pybind acc (fun x => model_add x y)) ms (Ok m)
  end.

End Defs.

Arguments Param F : clear implicits.
Arguments Model F : clear implicits.
Arguments ModelResult F : clear implicits.
Arguments pyfloat F : clear implicits.
Arguments ParamType F : clear implicits.

(** * Example data *)

(** A peak model over the rationals and fitted parameters for it, on
    which the functions are evaluated. *)
Section ExampleData.
Local Open Scope string_scope.

Definition ex_peak (prefix : string) : Model Q :=
  Basic prefix ["amplitude"; "center"; "sigma"] 1 (fun _ x => x).

Definition ex_param (v : Q) : Param Q :=
  {| p_value := v; p_stderr := Some 0%Q; p_min := None; p_max := None;
     p_vary := true |}.

Definition ex_params (prefix : string) (center : Q) : list (string * Param Q) :=
  [(prefix +:+ "amplitude", ex_param 1); (prefix +:+ "center", ex_param center);
   (prefix +:+ "sigma", ex_param 1)].

End ExampleData.

(** * Facts *)

Section Facts.
Context {F : Type} {Fops : ScalarOps F}.
Implicit Types (r : ModelResult F) (m : Model F) (name : string).

(** ** The getters *)

(** On a cell that holds a fit the safe getter never raises:
    it returns the value of the parameter, and not-a-number when the fit
    has no such parameter.  The other getter returns the same value when
    the parameter exists and raises [KeyError] when it does not.  On a
    cell without a fit both raise [AttributeError]. *)
Theorem param_getter_cases name r :
  param_getter name true (Some r)
  = Ok (match dict_get (mr_params r) name with
        | Some p => Num (p_value p)
        | None => NaN
        end)
  /\ param_getter name false (Some r)
     = match dict_get (mr_params r) name with
       | Some p => Ok (Num (p_value p))
       | None => Raise KeyError
       end
  /\ forall safe, param_getter name safe (None : option (ModelResult F))
                  = Raise AttributeError.
Proof.
  unfold param_getter, dict_item.
  destruct (dict_get (mr_params r) name) as [p |]; by repeat split.
Qed.

(** The getter of the standard error behaves alike: the safe
    one returns the standard error, [None] when the fit estimated none
    and not-a-number when the parameter is missing; the other raises
    [KeyError] for a missing parameter. *)
Theorem param_stderr_getter_cases name r :
  param_stderr_getter name true (Some r)
  = Ok (match dict_get (mr_params r) name with
        | Some p => pyfloat_of_option (p_stderr p)
        | None => NaN
        end)
  /\ param_stderr_getter name false (Some r)
     = match dict_get (mr_params r) name with
       | Some p => Ok (pyfloat_of_option (p_stderr p))
       | None => Raise KeyError
       end.
Proof.
  unfold param_stderr_getter, dict_item.
  destruct (dict_get (mr_params r) name) as [p |]; by repeat split.
Qed.

(** ** Composite models *)

Lemma model_add_inv (a b m : Model F) :
  model_add a b = Ok m ->
  m = Composite a b OpAdd (model_n_dims b)
  /\ model_n_dims a = model_n_dims b /\ names_collide a b = false.
Proof.
  unfold model_add, composite_model, py_assert.
  destruct (names_collide a b); [done |]. cbn [pybind].
  destruct (Nat.eqb_spec (model_n_dims a) (model_n_dims b)); [| done].
  by intros [= <-].
Qed.

(** Two models that share a parameter name cannot be added:
    lmfit raises [NameError]; nor can models of different numbers of
    dimensions, by the assertion.  Otherwise the sum has the components
    and the parameter names of the first model followed by those of the
    second, and their number of dimensions. *)
Theorem model_add_components (a b : Model F) :
  if names_collide a b then model_add a b = Raise NameError
  else if model_n_dims a =? model_n_dims b then
    exists m, model_add a b = Ok m
              /\ components m = components a ++ components b
              /\ param_names m = param_names a ++ param_names b
              /\ model_n_dims m = model_n_dims a
  else model_add a b = Raise AssertionError.
Proof.
  unfold model_add, composite_model, py_assert.
  destruct (names_collide a b); [done |]. cbn [pybind].
  destruct (Nat.eqb_spec (model_n_dims a) (model_n_dims b)) as [E |]; [| done].
  eexists. split; [done |]. by rewrite E.
Qed.

(** The value of a model depends on the parameters it names only. *)
Lemma model_eval_ext (m : Model F) (p p' : list (string * Param F)) (x : F) :
  (forall n, In n (param_names m) -> dict_get p n = dict_get p' n) ->
  model_eval m p x = model_eval m p' x.
Proof.
  induction m as [prefix names n shape | l IHl r IHr op n]; intros Hp.
  - cbn [model_eval]. f_equal. apply pymap_ext_in. intros name Hin.
    unfold dict_item. rewrite Hp; [done |]. cbn. by apply in_map.
  - cbn [model_eval param_names] in *.
    rewrite IHl, IHr; [done | |]; intros name Hin; apply Hp, in_app_iff; auto.
Qed.

(** Claim C29. Composition identity: when two models can be added, the
    sum evaluated on the parameters of the first followed by those of
    the second is the value of the first on its parameters plus the
    value of the second on its own, provided the first parameters are
    exactly those the first model names. *)
Theorem model_add_eval (a b m : Model F) (pa pb : list (string * Param F))
    (x : F) :
  model_add a b = Ok m ->
  (forall n, In n (param_names a) <-> In n (dict_keys pa)) ->
  model_eval m (pa ++ pb) x
  = pybind (model_eval a pa x) (fun va =>
    pybind (model_eval b pb x) (fun vb => Ok (s_add va vb))).
Proof.
  intros (-> & _ & Hcol)%model_add_inv Hpa. cbn [model_eval apply_binop].
  rewrite (model_eval_ext a (pa ++ pb) pa), (model_eval_ext b (pa ++ pb) pb);
    [done | |].
  - intros n Hn. rewrite dict_get_app.
    destruct (dict_get pa n) eqn:E; [| done].
    assert (In n (param_names a)) as Ha
      by (apply Hpa, dict_get_is_Some; by rewrite E).
    apply not_true_iff_false in Hcol. destruct Hcol.
    apply existsb_exists. exists n. split; [done |].
    apply existsb_exists. exists n. by rewrite String.eqb_refl.
  - intros n Hn%Hpa%dict_get_is_Some. rewrite dict_get_app.
    by destruct Hn as [v ->].
Qed.

Lemma reduce_add_snoc (ms : list (Model F)) (m0 m : Model F) :
  reduce_add (m0 :: ms ++ [m])
  = pybind (reduce_add (m0 :: ms)) (fun x => model_add x m).
Proof. unfold reduce_add. by rewrite fold_left_app. Qed.

(** When the sum of a list of models exists, its components
    are those of the models, in order; the sum of no model raises
    [TypeError]. *)
Theorem reduce_add_components (ms : list (Model F)) (m : Model F) :
  reduce_add ms = Ok m ->
  ms <> [] /\ components m = concat (map components ms).
Proof.
  destruct ms as [| m0 ms]; [done |]. intros E. split; [done |].
  revert m E. induction ms as [| x ms IH] using rev_ind; intros m E.
  - cbn in E. injection E as <-. cbn. by rewrite app_nil_r.
  - rewrite reduce_add_snoc in E.
    destruct (reduce_add (m0 :: ms)) as [s |] eqn:Es; [| done].
    cbn [pybind] in E. apply model_add_inv in E as [-> _].
    cbn [components]. rewrite (IH s eq_refl).
    change (m0 :: ms ++ [x]) with ((m0 :: ms) ++ [x]).
    rewrite map_app, concat_app. cbn. by rewrite app_nil_r.
Qed.

End Facts.

(** * The functions on the example data *)

Section Examples.
Local Open Scope string_scope.

Lemma reduce_add_components_witness :
  [ex_peak "a_"; ex_peak "b_"] <> []
  /\ components (Composite (ex_peak "a_") (ex_peak "b_") OpAdd 1)
     = concat (map components [ex_peak "a_"; ex_peak "b_"]).
Proof. by apply (reduce_add_components [ex_peak "a_"; ex_peak "b_"]). Defined.

Lemma model_add_eval_witness :
  model_eval (Composite (ex_peak "a_") (ex_peak "b_") OpAdd 1)
             (ex_params "a_" 1 ++ ex_params "b_" 2) 5%Q
  = pybind (model_eval (ex_peak "a_") (ex_params "a_" 1) 5%Q) (fun va =>
    pybind (model_eval (ex_peak "b_") (ex_params "b_" 2) 5%Q) (fun vb =>
    Ok (s_add va vb))).
Proof.
  by apply (model_add_eval (ex_peak "a_") (ex_peak "b_")).
Defined.

End Examples.
