(* ===== verification/Mixin.v ===== *)
(** * Curve fitting on labelled arrays

    [src/arpes/fits/fit_models/x_model_mixin.py]: [_prep_parameters],
    the methods [guess_fit], [xguess], [_real_weights_from_xarray] and
    [_real_data_etc_from_xarray] of [XModelMixin], the [guess] of the
    three composite models and [gaussian_convolve].

    lmfit itself is outside the repository.  The class [Lmfit] states
    what the sources ask of it: the guess of a basic model, the
    parameters a model makes, the least-squares fit, the constructor of a
    parameter from keyword arguments and the class attribute
    [dimension_order] of a model.  Everything here is parametric in an
    instance of that class. *)

From stdpp Require Import prelude strings.
From Stdlib Require Import QArith.
From S2P Require Import Prelude PyDict Itertools Arrays Params.
Close Scope Q_scope.

(** * Definitions *)

Section Defs.
Context {F : Type} {Fops : ScalarOps F}.

(** [ParametersArgs]: the keyword arguments of a parameter.  The key
    [name], which the type does not have, is kept because
    [_prep_parameters] asserts that it is absent. *)
Record ParametersArgs : Type := mkArgs {
  a_name : option string;
  a_value : option F;
  a_vary : option bool;
  a_min : option F;
  a_max : option F
}.

(** [lf.Parameters]: insertion-ordered, keyed by parameter name. *)
Definition Parameters : Type := list (string * Param F).

(** What is passed where parameters are expected. *)
Inductive params_arg : Type :=
| ParamsDict (d : list (string * ParametersArgs))
| ParamsObject (p : Parameters).

(** An [np.ndarray] of floats: its shape and its values, flattened. *)
Record ndarray : Type := mkArray {
  nd_shape : list nat;
  nd_values : list F
}.

(** Data given as a labelled array or as a raw array. *)
Inductive fit_data : Type :=
| DataArray (g : Grid F F)
| NdArray (a : ndarray).

(** An entry of [dimension_order]. *)
Inductive dim_option : Type :=
| DimNone
| DimStr (d : string)
| DimList (ds : list string).

(** ** The interface to lmfit *)

Class Lmfit : Type := {
  (** [lf.Parameter] of a name and keyword arguments *)
  lm_parameter : string -> ParametersArgs -> Param F;
  (** [model.guess] on data and coordinate values, of a model that is not one of
      the composites of this file *)
  lm_guess : Model F -> ndarray -> list (string * ndarray) -> pyres Parameters;
  (** [model.make_params] with keyword arguments *)
  lm_make_params : Model F -> list (string * F) -> Parameters;
  (** [lf.Model.fit] on data, parameters, coordinate values and weights *)
  lm_fit : Model F -> ndarray -> Parameters -> list (string * ndarray)
           -> option ndarray -> pyres (ModelResult F);
  (** the class attribute [dimension_order] *)
  lm_dimension_order : Model F -> option (list dim_option)
}.

Context {L : Lmfit}.

(** [data.values]. *)
Definition values_of (g : Grid F F) : ndarray :=
  {| nd_shape := shape g; nd_values := g_cells g |}.

(** [a.ravel()]. *)
Definition ravel (a : ndarray) : ndarray :=
  {| nd_shape := [length (nd_values a)]; nd_values := nd_values a |}.

(** ** _prep_parameters *)

Definition _prep_parameters (dict_of_parameters : option params_arg)
    : pyres Parameters :=
  match dict_of_parameters with
  | None => Ok []
  | Some (ParamsObject p) => Ok p
  | Some (ParamsDict d) =>
      (let* _ := pymap (fun v => py_assert (negb (bool_decide (is_Some (a_name v)))))
                       (dict_values d) in
       Ok (dict_of_list (map (fun kv => (fst kv, lm_parameter (fst kv) (snd kv))) d)))%py
  end.

(** ** The guess of the composite models *)

(** The [guess] of [XAdditiveCompositeModel],
    [XMultiplicativeCompositeModel] and [XConvolutionCompositeModel]; the
    last leaves out the component of prefix ["conv_"].  A model that is
    not composite has lmfit's guess. *)
Definition guess (self : Model F) (data : ndarray) (kwargs : list (string * ndarray))
    : pyres Parameters :=
  match self with
  | Basic _ _ _ _ => lm_guess self data kwargs
  | Composite l r op _ =>
      let skip (c : Model F) : bool :=
        match op with
        | OpConvolve => String.eqb (model_prefix c) "conv_"
        | _ => false
        end in
      (let pars := lm_make_params self [] in
       let* guessed :=
         pyfold (fun acc c =>
                   if skip c then Ok acc
                   else let* g := lm_guess c data kwargs in
                        Ok (dict_update acc g))
                (components self) [] in
       Ok (dict_update pars guessed))%py
  end.

(** [gaussian_convolve]: the Gaussian kernel is the right operand, under
    the prefix ["conv_"]. *)
Definition gaussian_convolve (model_instance gaussian : Model F)
    : pyres (Model F) :=
  composite_model model_instance gaussian OpConvolve 1.

(** ** From labelled arrays to raw arrays *)

Definition _real_weights_from_xarray (self : Model F) (xr_weights : Grid F F)
    (new_dim_order : option (list string)) : pyres ndarray :=
  if model_n_dims self =? 1 then Ok (values_of xr_weights)
  else match new_dim_order with
       | Some order =>
           (let* t := xr_transpose xr_weights order in
            Ok (ravel (values_of t)))%py
       | None => Ok (ravel (values_of xr_weights))
       end.

(** The inner function [find_appropriate_dimension]. *)
Definition find_appropriate_dimension (data : Grid F F) (o : dim_option)
    : pyres string :=
  match o with
  | DimStr d =>
      (let* _ := py_assert (existsb (String.eqb d) (g_dims data)) in Ok d)%py
  | DimList ds =>
      let intersect :=
        List.filter (fun d => existsb (String.eqb d) ds) (g_dims data) in
      (let* _ := py_assert (length intersect =? 1) in
       or_raise StopIteration (head intersect))%py
  | DimNone => Raise TypeError
  end.

(** [real_data, flat_data, coord_values, new_dim_order]. *)
Definition _real_data_etc_from_xarray (self : Model F) (data : Grid F F)
    : pyres (ndarray * ndarray * list (string * ndarray) * option (list string)) :=
  (let* _ := py_assert (length (shape data) =? model_n_dims self) in
   if model_n_dims self =? 1 then
     let* d := or_raise StopIteration (head (g_dims data)) in
     let* x := coords_of data d in
     Ok (values_of data, values_of data,
         [("x"%string, mkArray [length x] x)], None)
   else
     let* new_dim_order :=
       match lm_dimension_order self with
       | None => Ok (g_dims data)
       | Some order =>
           if forallb (fun o => match o with DimNone => true | _ => false end) order
           then Ok (g_dims data)
           else pymap (find_appropriate_dimension data) order
       end in
     let* data := if bool_decide (new_dim_order = g_dims data) then Ok data
                  else xr_transpose data new_dim_order in
     let coord_values :=
       map (fun kv => (fst kv, mkArray [length (snd kv)] (snd kv)))
           (List.filter (fun kv => existsb (String.eqb (fst kv)) new_dim_order)
                        (coords_dict data)) in
     Ok (values_of data, ravel (values_of data), coord_values,
         Some new_dim_order))%py.

(** ** guess_fit *)

(** [data.ndim] or [len(data.dims)]. *)
Definition ndim (data : fit_data) : nat :=
  match data with
  | DataArray g => length (g_dims g)
  | NdArray a => length (nd_shape a)
  end.

(** What [guess_fit] hands to the fit: the flat data, the parameters to
    start from, the coordinate values and the weights. *)
Definition guess_fit_start (self : Model F) (data : fit_data)
    (params : option params_arg) (weights : option fit_data)
    (do_guess prefix_params do_transpose : bool) (x : option ndarray)
    : pyres (ndarray * Parameters * list (string * ndarray) * option ndarray) :=
  (let* prepared :=
     match data with
     | DataArray g => _real_data_etc_from_xarray self g
     | NdArray a =>
         Ok (a, a, match x with Some v => [("x"%string, v)] | None => [] end, None)
     end in
   let '(real_data, flat_data, coord_values, new_dim_order) := prepared in
   let* real_weights :=
     match weights with
     | Some (DataArray w) =>
         let* rw := _real_weights_from_xarray self w new_dim_order in Ok (Some rw)
     | Some (NdArray w) => Ok (Some w)
     | None => Ok None
     end in
   let* swapped :=
     if do_transpose then
       let* _ := py_assert (negb (ndim data =? 1)) in
       match coord_values with
       | [] => Raise StopIteration
       | (k, cached_coordinate) :: rest =>
           Ok (cached_coordinate, cached_coordinate, (k, real_data) :: rest)
       end
     else Ok (real_data, flat_data, coord_values) in
   let '(real_data, flat_data, coord_values) := swapped in
   let* params := _prep_parameters params in
   let* guessed_params :=
     if do_guess then guess self real_data coord_values
     else Ok (lm_make_params self []) in
   let guessed_params := dict_update guessed_params params in
   Ok (flat_data, guessed_params, coord_values, real_weights))%py.

(** The loop over [params.items()] between the guess and the update
    looks for values that are dictionaries; after [_prep_parameters]
    there is none, so [prefix_params] has no effect. *)
Definition guess_fit (self : Model F) (data : fit_data)
    (params : option params_arg) (weights : option fit_data)
    (do_guess prefix_params do_transpose : bool) (x : option ndarray)
    : pyres (ModelResult F) :=
  (let* start := guess_fit_start self data params weights do_guess
                   prefix_params do_transpose x in
   let '(flat_data, guessed_params, coord_values, real_weights) := start in
   lm_fit self flat_data guessed_params coord_values real_weights)%py.

(** ** xguess *)

Definition xguess (self : Model F) (data : fit_data) (x : option ndarray)
    : pyres Parameters :=
  match data with
  | DataArray g =>
      (let* _ := py_assert (length (shape g) =? 1) in
       let* d := or_raise StopIteration (head (g_dims g)) in
       let* x := coords_of g d in
       guess self (values_of g) [("x"%string, mkArray [length x] x)])%py
  | NdArray a =>
      guess self a match x with Some v => [("x"%string, v)] | None => [] end
  end.

End Defs.

Arguments ParametersArgs F : clear implicits.
Arguments Parameters F : clear implicits.
Arguments params_arg F : clear implicits.
Arguments ndarray F : clear implicits.
Arguments fit_data F : clear implicits.
Arguments Lmfit F : clear implicits.

(** * Example data *)

(** A stand-in for lmfit over the rationals: the guess gives every
    parameter the value 1, and a fit returns the parameters it started
    from with their values raised by 1, so that the result of a fit shows
    where it started. *)
Section ExampleData.
Local Open Scope string_scope.

Definition ex_start (v : Q) : Param Q :=
  {| p_value := v; p_stderr := None; p_min := None; p_max := None;
     p_vary := true |}.

Definition ex_lmfit : Lmfit Q := {|
  lm_parameter name args :=
    {| p_value := default 0%Q (a_value args); p_stderr := None;
       p_min := a_min args; p_max := a_max args;
       p_vary := default true (a_vary args) |};
  lm_guess m data kwargs := Ok (map (fun n => (n, ex_start 1)) (param_names m));
  lm_make_params m kwargs :=
    map (fun n => (n, ex_start (default 0%Q (dict_get kwargs n))))
        (param_names m);
  lm_fit m data params coord_values weights :=
    Ok {| mr_model := m;
          mr_params := map (fun kv => (fst kv, ex_start (Qred (p_value (snd kv) + 1))))
                           params;
          mr_best_fit := map (fun _ => 0%Q) (nd_values data);
          mr_residual := nd_values data |};
  lm_dimension_order _ := None
|}.

Definition ex_args (v : Q) : ParametersArgs Q :=
  {| a_name := None; a_value := Some v; a_vary := None; a_min := None;
     a_max := None |}.

End ExampleData.

(** * Facts *)

Section Facts.
Context {F : Type} {Fops : ScalarOps F} {L : Lmfit F}.
Implicit Types (self : Model F) (a : ndarray F).

(** ** _prep_parameters *)

(** [_prep_parameters] turns a dictionary of keyword arguments
    into the parameters of the same names, in the same order, each built
    from its own arguments, provided no argument set has the key [name];
    otherwise it raises [AssertionError]. *)
Theorem prep_parameters_dict (d : list (string * ParametersArgs F)) :
  dict_wf d = true ->
  _prep_parameters (Some (ParamsDict d))
  = if forallb (fun kv => negb (bool_decide (is_Some (a_name (snd kv))))) d
    then Ok (map (fun kv => (fst kv, lm_parameter (fst kv) (snd kv))) d)
    else Raise AssertionError.
Proof.
  intros Hwf. unfold _prep_parameters, dict_values.
  assert (dict_of_list (map (fun kv => (fst kv, lm_parameter (fst kv) (snd kv))) d)
          = map (fun kv => (fst kv, lm_parameter (fst kv) (snd kv))) d) as ->.
  { apply dict_of_list_fresh. clear -Hwf.
    induction d as [| [k v] d IH]; [done |]. cbn in *.
    apply andb_prop in Hwf as [Hk Hwf]. rewrite (IH Hwf), andb_true_r.
    unfold dict_keys in *. by rewrite map_map in *. }
  clear Hwf. induction d as [| [k v] d IH]; [done |]. cbn.
  destruct (bool_decide (is_Some (a_name v))); cbn; [done |].
  destruct (pymap _ (map snd d)) as [u |] eqn:E;
    destruct (forallb _ d); cbn in *; done.
Qed.

Lemma prep_parameters_none : _prep_parameters (F:=F) None = Ok [].
Proof. done. Qed.

Lemma prep_parameters_object (p : Parameters F) :
  _prep_parameters (Some (ParamsObject p)) = Ok p.
Proof. done. Qed.

(** ** guess_fit *)

(** Claim C38. With [transpose] set, [guess_fit] rejects one-dimensional
    data by its assertion, although the message of the assertion speaks
    of multidimensional arrays. *)
Theorem guess_fit_transpose_one_dimension self a params (do_guess pp : bool)
    (x : option (ndarray F)) :
  length (nd_shape a) = 1 ->
  guess_fit self (NdArray a) params None do_guess pp true x
  = Raise AssertionError.
Proof.
  intros Hdim. unfold guess_fit, guess_fit_start. cbn [pybind ndim].
  by rewrite Hdim.
Qed.

(** With [transpose] set and data of another dimension, the
    first coordinate array becomes the data that are fitted and the
    data take its place among the coordinates. *)
Theorem guess_fit_transpose_swaps self a params (x : ndarray F) :
  length (nd_shape a) <> 1 ->
  guess_fit self (NdArray a) params None false true true (Some x)
  = (let* p := _prep_parameters params in
     lm_fit self x (dict_update (lm_make_params self []) p)
            [("x"%string, a)] None)%py.
Proof.
  intros Hdim. unfold guess_fit, guess_fit_start. cbn [pybind ndim].
  apply Nat.eqb_neq in Hdim. rewrite Hdim. cbn.
  by destruct (_prep_parameters params).
Qed.

(** The parameters the caller passes take precedence over the
    guess: every parameter of [params] is among the parameters the fit
    starts from, with the caller's value. *)
Theorem guess_fit_start_override self (data : fit_data F)
    (p : Parameters F) weights (do_guess pp tr : bool) x flat start cv w
    (k : string) (v : Param F) :
  dict_wf p = true ->
  guess_fit_start self data (Some (ParamsObject p)) weights do_guess pp tr x
  = Ok (flat, start, cv, w) ->
  dict_get p k = Some v -> dict_get start k = Some v.
Proof.
  intros Hwf E Hk. unfold guess_fit_start in E. cbn [_prep_parameters] in E.
  py_inv_all E; inv_res; by rewrite dict_get_update_wf, Hk.
Qed.

(** ** The composite guesses *)

Lemma guess_composite (l r : Model F) op n a kwargs (pars : Parameters F) :
  guess (Composite l r op n) a kwargs = Ok pars ->
  exists guessed,
    pars = dict_update (lm_make_params (Composite l r op n) []) guessed.
Proof. unfold guess. intros E. py_inv E. inv_res. eauto. Qed.

(** The guess of a sum of two basic models with disjoint
    guesses: a parameter guessed by a component has the component's
    guess, the second component winning; all others keep what
    [make_params] gave them. *)
Theorem guess_sum_lookup (pl pr : string) nl nr sl sr a kwargs
    (gl gr : Parameters F) (k : string) :
  let l := Basic pl nl 1 sl in
  let r := Basic pr nr 1 sr in
  lm_guess l a kwargs = Ok gl -> lm_guess r a kwargs = Ok gr ->
  exists pars,
    guess (Composite l r OpAdd 1) a kwargs = Ok pars
    /\ dict_get pars k
       = match dict_get (rev gr) k with
         | Some v => Some v
         | None => match dict_get (rev gl) k with
                   | Some v => Some v
                   | None => dict_get (lm_make_params (Composite l r OpAdd 1) []) k
                   end
         end.
Proof.
  intros l r Hl Hr. eexists. split.
  - unfold guess, pyfold. cbn. subst l r. rewrite Hl. cbn. rewrite Hr. done.
  - rewrite dict_get_update_wf by (by do 2 apply dict_update_wf).
    rewrite !dict_get_update. cbn.
    by destruct (dict_get (rev gr) k), (dict_get (rev gl) k).
Qed.

(** The guess of a convolution never asks the kernel, the
    component under the prefix ["conv_"], for a guess: it succeeds with
    the guess of the other component even when the kernel's guess would
    raise. *)
Theorem guess_convolve_skips_kernel (p : string) names shape_m names_g shape_g
    a kwargs (g : Parameters F) (c : Model F) :
  let m := Basic p names 1 shape_m in
  let kernel := Basic "conv_" names_g 1 shape_g in
  p <> "conv_"%string ->
  lm_guess m a kwargs = Ok g ->
  gaussian_convolve m kernel = Ok c ->
  guess c a kwargs
  = Ok (dict_update (lm_make_params c []) (dict_update [] g)).
Proof.
  intros m kernel Hp Hg. unfold gaussian_convolve, composite_model.
  destruct (names_collide m kernel); [done |]. intros [= <-].
  unfold guess, pyfold. cbn.
  apply String.eqb_neq in Hp. rewrite Hp. subst m. by rewrite Hg.
Qed.

End Facts.

(** * Worked calls *)

Section Examples.
Local Open Scope string_scope.
#[local] Existing Instance ex_lmfit.

Lemma prep_parameters_dict_witness :
  _prep_parameters (Some (ParamsDict [("a_center", ex_args 3); ("a_sigma", ex_args 1)]))
  = Ok [("a_center", lm_parameter "a_center" (ex_args 3));
        ("a_sigma", lm_parameter "a_sigma" (ex_args 1))].
Proof.
  exact (prep_parameters_dict [("a_center", ex_args 3); ("a_sigma", ex_args 1)]
           eq_refl).
Defined.

Lemma guess_fit_transpose_one_dimension_witness :
  guess_fit (ex_peak "a_") (NdArray (mkArray [3] [1; 2; 3]%Q)) None None
            true true true None
  = Raise AssertionError.
Proof. by apply guess_fit_transpose_one_dimension. Defined.

Lemma guess_fit_transpose_swaps_witness :
  guess_fit (ex_peak "a_") (NdArray (mkArray [2; 2] [1; 2; 3; 4]%Q)) None None
            false true true (Some (mkArray [2] [0; 1]%Q))
  = (let* p := _prep_parameters None in
     lm_fit (ex_peak "a_") (mkArray [2] [0; 1]%Q)
            (dict_update (lm_make_params (ex_peak "a_") []) p)
            [("x", mkArray [2; 2] [1; 2; 3; 4]%Q)] None)%py.
Proof. by apply guess_fit_transpose_swaps. Defined.

Lemma guess_fit_start_override_witness :
  dict_get [("a_amplitude", ex_start 1); ("a_center", ex_start 7);
            ("a_sigma", ex_start 1)] "a_center"
  = Some (ex_start 7).
Proof.
  apply (guess_fit_start_override (ex_peak "a_")
           (NdArray (mkArray [3] [1; 2; 3]%Q)) [("a_center", ex_start 7)] None
           true true false None (mkArray [3] [1; 2; 3]%Q) _ [] None
           "a_center" (ex_start 7)); done.
Defined.

Lemma guess_convolve_skips_kernel_witness :
  let c := Composite (ex_peak "a_") (Basic "conv_" ["sigma"] 1 (fun _ x => x))
                     OpConvolve 1 in
  guess c (mkArray [3] [1; 2; 3]%Q) []
  = Ok (dict_update
          (lm_make_params c [])
          (dict_update [] [("a_amplitude", ex_start 1); ("a_center", ex_start 1);
                           ("a_sigma", ex_start 1)])).
Proof.
  by apply (guess_convolve_skips_kernel "a_" ["amplitude"; "center"; "sigma"]
              (fun _ x => x) ["sigma"] (fun _ x => x)).
Defined.

End Examples.
