(* ===== verification/Interpolate.v ===== *)
(** * Interpolation between control points

    [_is_between] and [_interpolate_intersecting_fragments] of
    [src/arpes/analysis/band_analysis.py]: for a slice at patterning
    coordinate [coord], every consecutive pair of control points that
    brackets [coord] contributes the linearly interpolated position of the
    band on the fit axis.  The theorems give the value on both branches,
    its exactness at the control points, its bounds, the independence of
    the orientation of the bracket, the empty result outside every bracket
    and the exceptions on malformed control points. *)

From stdpp Require Import prelude.
From Stdlib Require Import QArith Qreduction Qminmax Lqa.
From S2P Require Import Prelude Itertools.
Close Scope Q_scope.

(** * Definitions *)

Section Defs.
Context {F : Type} {Fops : ScalarOps F}.

(** [arpes.constants.TWO_DIMENSION]. *)
Definition TWO_DIMENSION : nat := 2.

Definition _is_between (x y0 y1 : F) : bool :=
  let lo := s_min y0 y1 in
  let hi := s_max y0 y1 in
  (s_leb lo x && s_leb x hi)%bool.

(** The line through [(lo, yl)] and [(hi, yh)] at [c], with the
    operations in the order the source writes them. *)
Definition lerp (c lo hi yl yh : F) : F :=
  ((c - lo) / (hi - lo) * (yh - yl) + yl)%sc.

(** The body of the loop for one pair of consecutive control points. *)
Definition fragment (coord : F) (coord_index : nat)
    (point_low point_high : list F) : pyres (option (F * F)) :=
  (let coord_other_index := (1 - Z.of_nat coord_index)%Z in
   let* check_coord_low := py_index point_low (Z.of_nat coord_index) in
   let* check_coord_high := py_index point_high (Z.of_nat coord_index) in
   if _is_between coord check_coord_low check_coord_high then
     if s_ltb check_coord_low check_coord_high then
       let* yh := py_index point_high coord_other_index in
       let* yl := py_index point_low coord_other_index in
       Ok (Some (coord, lerp coord check_coord_low check_coord_high yl yh))
     else
       let* yl := py_index point_low coord_other_index in
       let* yh := py_index point_high coord_other_index in
       Ok (Some (coord, lerp coord check_coord_high check_coord_low yh yl))
   else Ok None)%py.

(** The generator, consumed to a list as its caller does. *)
Definition _interpolate_intersecting_fragments (coord : F) (coord_index : nat)
    (points : list (list F)) : pyres (list (F * F)) :=
  (let* p0 := py_index points 0 in
   let* _ := py_assert (length p0 =? TWO_DIMENSION) in
   let* frs := pymap (fun p => fragment coord coord_index (fst p) (snd p))
                     (pairwise points) in
   Ok (omap id frs))%py.

End Defs.

(** * Generic facts *)

Section Generic.
Context {F : Type} {Fops : ScalarOps F}.

(** The generator yields at most one fragment per consecutive pair. *)
Lemma interpolate_length (coord : F) (i : nat) (points : list (list F))
    (r : list (F * F)) :
  _interpolate_intersecting_fragments coord i points = Ok r ->
  length r <= length points - 1.
Proof.
  unfold _interpolate_intersecting_fragments, pybind.
  destruct (py_index points 0); [| done].
  destruct (py_assert _); [| done].
  destruct (pymap _ _) as [frs |] eqn:E; [| done].
  intros. inv_res. apply pymap_length in E.
  rewrite pairwise_length in E. rewrite <- E. apply omap_id_length.
Qed.

(** Every yielded fragment carries the queried coordinate. *)
Lemma fragment_coord (coord : F) (i : nat) (pl ph : list F) (c v : F) :
  fragment coord i pl ph = Ok (Some (c, v)) -> c = coord.
Proof.
  unfold fragment, pybind. intros E. case_hyp E; inv_res; congruence.
Qed.

(** No control points: [points[0]] raises. *)
Lemma interpolate_no_points (coord : F) (i : nat) :
  _interpolate_intersecting_fragments coord i [] = Raise IndexError.
Proof. done. Qed.

(** A first control point that is not a pair fails the assertion. *)
Lemma interpolate_malformed (coord : F) (i : nat) (p0 : list F)
    (points : list (list F)) :
  length p0 <> 2 ->
  _interpolate_intersecting_fragments coord i (p0 :: points)
  = Raise AssertionError.
Proof.
  intros Hlen. unfold _interpolate_intersecting_fragments.
  rewrite (py_index_nat _ 0). cbn [lookup list_lookup or_raise pybind].
  unfold py_assert, TWO_DIMENSION. by destruct (Nat.eqb_spec (length p0) 2).
Qed.

End Generic.

(** On control points that are pairs, with the patterning coordinate
    first, the loop body is a case distinction on the bracket. *)
Lemma fragment_pairs {F : Type} {Fops : ScalarOps F} (c x0 y0 x1 y1 : F) :
  fragment c 0 [x0; y0] [x1; y1]
  = Ok (if _is_between c x0 x1
        then Some (c, if s_ltb x0 x1 then lerp c x0 x1 y0 y1
                      else lerp c x1 x0 y1 y0)
        else None).
Proof.
  unfold fragment. change (1 - Z.of_nat 0)%Z with (Z.of_nat 1).
  rewrite !py_index_nat. cbn. destruct (_is_between c x0 x1); [| done].
  by destruct (s_ltb x0 x1).
Qed.

(** The reference definition: what one pair of two-dimensional control
    points contributes at [c]. *)
Definition bracket_value {F : Type} {Fops : ScalarOps F} (c : F)
    (p : list F * list F) : option (F * F) :=
  match p with
  | ([x0; y0], [x1; y1]) =>
      if _is_between c x0 x1
      then Some (c, if s_ltb x0 x1 then lerp c x0 x1 y0 y1
                    else lerp c x1 x0 y1 y0)
      else None
  | _ => None
  end.

Lemma fragment_bracket_value {F : Type} {Fops : ScalarOps F} (c : F)
    (pl ph : list F) :
  length pl = 2 -> length ph = 2 ->
  fragment c 0 pl ph = Ok (bracket_value c (pl, ph)).
Proof.
  destruct pl as [| x0 [| y0 [|]]], ph as [| x1 [| y1 [|]]]; try done.
  intros _ _. apply fragment_pairs.
Qed.

(** On control points that are all pairs, with the patterning
    coordinate first, [_interpolate_intersecting_fragments] returns, in
    order, the value [bracket_value] of every consecutive pair that
    brackets the coordinate, and nothing else. *)
Theorem interpolate_reference {F : Type} {Fops : ScalarOps F} (c : F)
    (points : list (list F)) :
  points <> [] -> Forall (fun p => length p = 2) points ->
  _interpolate_intersecting_fragments c 0 points
  = Ok (omap (bracket_value c) (pairwise points)).
Proof.
  intros Hne Hall. unfold _interpolate_intersecting_fragments.
  rewrite (py_index_nat _ 0). destruct points as [| p0 ps]; [done |].
  cbn [lookup list_lookup or_raise pybind].
  rewrite (Forall_inv Hall). cbn [Nat.eqb TWO_DIMENSION py_assert pybind].
  rewrite (pymap_map _ (fun p => bracket_value c p)).
  - cbn [pybind]. by rewrite omap_id_map.
  - apply Forall_forall. intros [pl ph] [Hl Hh]%list_elem_of_In%pairwise_In_both.
    rewrite Forall_forall in Hall. cbn.
    apply fragment_bracket_value; apply Hall; by apply list_elem_of_In.
Qed.

Lemma interpolate_reference_witness :
  _interpolate_intersecting_fragments 2%Q 0 [[0; 1]; [1; 2]; [3; 5]]%Q
  = Ok (omap (bracket_value 2%Q) (pairwise [[0; 1]; [1; 2]; [3; 5]]%Q)).
Proof. apply interpolate_reference; [done | by repeat constructor]. Defined.

(** * Facts over the rationals *)

Section Rational.
Local Open Scope Q_scope.

Lemma is_between_Q (x a b : Q) :
  _is_between x a b = true <-> (a <= x <= b) \/ (b <= x <= a).
Proof.
  unfold _is_between, s_min, s_max. cbn [s_ltb s_leb Q_ops].
  rewrite andb_true_iff, !Qle_bool_iff.
  destruct (Qltb b a) eqn:E1, (Qltb a b) eqn:E2; q_prop; lra.
Qed.

Lemma is_between_Q_sym (x a b : Q) : _is_between x a b = _is_between x b a.
Proof.
  apply eq_true_iff_eq. rewrite !is_between_Q. tauto.
Qed.

Lemma lerp_at_lo (lo hi yl yh : Q) : ~ lo == hi -> lerp lo lo hi yl yh == yl.
Proof. intros. unfold lerp. cbn. field. lra. Qed.

Lemma lerp_at_hi (lo hi yl yh : Q) : ~ lo == hi -> lerp hi lo hi yl yh == yh.
Proof. intros. unfold lerp. cbn. field. lra. Qed.

(** The two formulas of the source describe the same line. *)
Lemma lerp_swap (c lo hi yl yh : Q) :
  ~ lo == hi -> lerp c lo hi yl yh == lerp c hi lo yh yl.
Proof. intros. unfold lerp. cbn. field. lra. Qed.

Lemma lerp_fraction (c lo hi : Q) :
  lo < hi -> lo <= c <= hi -> 0 <= (c - lo) / (hi - lo) <= 1.
Proof.
  intros. split; [apply Qle_shift_div_l | apply Qle_shift_div_r]; lra.
Qed.

Lemma lerp_bounds (c lo hi yl yh : Q) :
  lo < hi -> lo <= c <= hi ->
  Qmin yl yh <= lerp c lo hi yl yh <= Qmax yl yh.
Proof.
  intros Hlt Hc. unfold lerp. cbn.
  pose proof (lerp_fraction c lo hi Hlt Hc) as Ht.
  set (t := (c - lo) / (hi - lo)) in *.
  destruct (Qlt_le_dec yl yh) as [Hy | Hy].
  - rewrite Q.min_l, Q.max_r by lra. nra.
  - rewrite Q.min_r, Q.max_l by lra. nra.
Qed.

(** Claim C8. Between two control points [(x0, y0)] and [(x1, y1)] with
    [x0 < x1], a slice at [x0 <= c <= x1] gets exactly one estimate, the
    value of the line through the two points; it lies between [y0] and
    [y1] and equals them at the control points themselves. *)
Theorem interpolate_within_bracket (c x0 y0 x1 y1 : Q) :
  x0 < x1 -> x0 <= c <= x1 ->
  exists v,
    _interpolate_intersecting_fragments c 0 [[x0; y0]; [x1; y1]] = Ok [(c, v)]
    /\ v == y0 + (c - x0) * (y1 - y0) / (x1 - x0)
    /\ Qmin y0 y1 <= v <= Qmax y0 y1
    /\ (c == x0 -> v == y0) /\ (c == x1 -> v == y1).
Proof.
  intros Hlt Hc. exists (lerp c x0 x1 y0 y1).
  rewrite interpolate_reference by (done || by repeat constructor).
  cbn -[_is_between lerp Qltb].
  rewrite (proj2 (is_between_Q c x0 x1)) by (left; lra).
  rewrite (proj2 (Qltb_lt x0 x1)) by done.
  split; [done |]. split; [unfold lerp; cbn; field; lra |].
  split; [by apply lerp_bounds |].
  split; intros E; unfold lerp; cbn; rewrite E; field; lra.
Qed.

Lemma interpolate_within_bracket_witness :
  exists v,
    _interpolate_intersecting_fragments (1 # 2) 0 [[0; 1]; [1; 2]]
    = Ok [(1 # 2, v)]
    /\ v == 1 + ((1 # 2) - 0) * (2 - 1) / (1 - 0)
    /\ Qmin 1 2 <= v <= Qmax 1 2
    /\ ((1 # 2) == 0 -> v == 1) /\ ((1 # 2) == 1 -> v == 2).
Proof. apply interpolate_within_bracket; lra. Defined.

(** The result does not depend on the orientation of a
    bracket: with the two control points in the opposite order the
    second formula of the source yields the same estimate, provided the
    bracket is not degenerate. *)
Theorem interpolate_orientation (c x0 y0 x1 y1 : Q) :
  ~ x0 == x1 ->
  exists r r',
    _interpolate_intersecting_fragments c 0 [[x0; y0]; [x1; y1]] = Ok r
    /\ _interpolate_intersecting_fragments c 0 [[x1; y1]; [x0; y0]] = Ok r'
    /\ Forall2 (fun a b => fst a = fst b /\ snd a == snd b) r r'.
Proof.
  intros Hne. rewrite !interpolate_reference by (done || by repeat constructor).
  cbn -[_is_between lerp Qltb]. rewrite (is_between_Q_sym c x1 x0).
  do 2 eexists. split; [done |]. split; [done |].
  destruct (_is_between c x0 x1); [| constructor].
  constructor; [| constructor]. split; [done |]. cbn [snd].
  destruct (Qltb x0 x1) eqn:E1, (Qltb x1 x0) eqn:E2; q_prop;
    try reflexivity; try lra.
Qed.

Lemma interpolate_orientation_witness :
  exists r r',
    _interpolate_intersecting_fragments (1 # 2) 0 [[0; 1]; [1; 2]] = Ok r
    /\ _interpolate_intersecting_fragments (1 # 2) 0 [[1; 2]; [0; 1]] = Ok r'
    /\ Forall2 (fun a b => fst a = fst b /\ snd a == snd b) r r'.
Proof. apply interpolate_orientation. lra. Defined.

(** A slice whose coordinate lies strictly beyond all control
    points, on either side, gets no estimate at all. *)
Theorem interpolate_outside (c : Q) (points : list (list Q)) :
  points <> [] -> Forall (fun p => length p = 2%nat) points ->
  Forall (fun p => c < hd 0 p) points \/ Forall (fun p => hd 0 p < c) points ->
  _interpolate_intersecting_fragments c 0 points = Ok [].
Proof.
  intros Hne Hall Hout. rewrite interpolate_reference by done.
  f_equal. apply omap_none, Forall_forall.
  intros [pl ph] [Hl Hh]%list_elem_of_In%pairwise_In_both.
  rewrite !Forall_forall in Hout.
  assert (forall p, In p points -> length p = 2%nat) as Hlen.
  { intros. rewrite Forall_forall in Hall. by apply Hall, list_elem_of_In. }
  pose proof (Hlen _ Hl). pose proof (Hlen _ Hh).
  destruct pl as [| x0 [| y0 [|]]], ph as [| x1 [| y1 [|]]]; try done.
  cbn -[_is_between]. destruct (_is_between c x0 x1) eqn:E; [| done].
  apply is_between_Q in E. apply list_elem_of_In in Hl, Hh.
  destruct Hout as [Hout | Hout];
    pose proof (Hout _ Hl); pose proof (Hout _ Hh); cbn in *; lra.
Qed.

Lemma interpolate_outside_witness :
  _interpolate_intersecting_fragments 2 0 [[0; 1]; [1; 2]] = Ok [].
Proof.
  apply interpolate_outside; [done | by repeat constructor |].
  right. repeat constructor; cbn; lra.
Defined.

(** A degenerate bracket at the slice takes the second formula with a
    zero denominator. *)
Lemma fragment_degenerate (x y0 y1 : Q) :
  fragment x 0 [x; y0] [x; y1] = Ok (Some (x, lerp x x x y1 y0))
  /\ x - x == 0.
Proof.
  rewrite fragment_pairs, (proj2 (is_between_Q x x x)) by lra.
  cbn [s_ltb Q_ops]. rewrite (proj2 (Qltb_ge x x)) by lra. split; [done | ring].
Qed.

End Rational.
