(* ===== verification/Marginals.v ===== *)
(** * The iteration over marginals

    [_iterate_marginals] of [src/arpes/analysis/band_analysis.py]: a
    generator of the slices of a spectrum at every combination of ticks
    of the directions iterated, with the coordinate of each slice.  The
    generator is modelled as the list of the computations of its items,
    so that a consumer that stops early does not meet the exception of
    an item it never asks for. *)

From stdpp Require Import prelude strings.
From Stdlib Require Import QArith.
From S2P Require Import Prelude PyDict Itertools Arrays.
Close Scope Q_scope.

(** * Definitions *)

Section Defs.
Context {F : Type} {Fops : ScalarOps F}.

(** The directions iterated: all dimensions but ["eV"] by default. *)
Definition iterate_directions_of (arr : Grid F F)
    (iterate_directions : option (list string)) : pyres (list string) :=
  match iterate_directions with
  | Some dirs => Ok dirs
  | None => py_remove "eV"%string (g_dims arr)
  end.

(** One item: the slice at the ticks [ss] and its coordinate. *)
Definition marginal_at (arr : Grid F F) (dirs : list string) (ss : list F)
    : pyres (Grid F F * list (string * F)) :=
  (let coords := dict_of_list (combine dirs ss) in
   let* marginal := sel arr coords in
   Ok (marginal, coords))%py.

Definition _iterate_marginals (arr : Grid F F)
    (iterate_directions : option (list string))
    : generator (Grid F F * list (string * F)) :=
  (let* dirs := iterate_directions_of arr iterate_directions in
   let* ticks := pymap (coords_of arr) dirs in
   Ok (map (marginal_at arr dirs) (product ticks)))%py.

End Defs.

(** * Example data *)

(** Three energies by two momenta. *)
Definition ex_spectrum : Grid Q Q :=
  {| g_dims := ["eV"; "kp"]%string; g_coords := [[0; 1; 2]; [10; 20]]%Q;
     g_cells := [1; 2; 3; 4; 5; 6]%Q |}.

(** * Facts *)

Section Facts.
Context {F : Type} {Fops : ScalarOps F} {Ford : ScalarOrder F}.
Implicit Types (arr : Grid F F) (dirs : list string).

Lemma existsb_s_eqb_In (x : F) (ticks : list F) :
  In x ticks -> existsb (fun t => s_eqb t x) ticks = true.
Proof.
  intros Hin. apply existsb_exists. exists x. by rewrite s_eqb_refl.
Qed.

(** The ticks taken for the directions are ticks of the array. *)
Lemma selector_ticks arr dirs (ticks : list (list F)) (ss : list F) :
  pymap (coords_of arr) dirs = Ok ticks -> In ss (product ticks) ->
  Forall (fun kv => exists t, coords_of arr (fst kv) = Ok t /\ In (snd kv) t)
         (combine dirs ss).
Proof.
  intros Hticks%pymap_Forall2 Hss%product_In. revert ss Hss.
  induction Hticks as [| d t dirs ticks Hd _ IH]; intros ss Hss; [done |].
  inversion Hss as [| x ? ss' ? Hx Hss']; subst. cbn.
  constructor; [by exists t | by apply IH].
Qed.

Lemma marginal_at_ok arr dirs (ticks : list (list F)) (ss : list F) :
  NoDup dirs -> pymap (coords_of arr) dirs = Ok ticks ->
  In ss (product ticks) ->
  exists marginal,
    marginal_at arr dirs ss = Ok (marginal, combine dirs ss)
    /\ sel arr (combine dirs ss) = Ok marginal.
Proof.
  intros Hnd Hticks Hss. unfold marginal_at.
  assert (length ss = length dirs) as Hlen.
  { apply product_In, Forall2_length in Hss.
    apply pymap_length in Hticks. lia. }
  rewrite dict_of_list_fresh.
  2:{ apply dict_wf_NoDup. unfold dict_keys.
      rewrite map_fst_combine by lia. done. }
  assert (check_selector arr (combine dirs ss) = Ok tt) as Hchk.
  { apply check_selector_ok.
    eapply Forall_impl; [by eapply selector_ticks |].
    intros kv (t & Ht & Hin). exists t. by split; [| apply existsb_s_eqb_In]. }
  unfold sel. rewrite Hchk. cbn [pybind]. by eexists.
Qed.

(** No item of the generator raises; the coordinates of the items are the
    combinations of ticks in the order of [itertools.product], and each
    item is the selection of the array at its coordinate. *)
Lemma marginals_ok arr dirs (ticks : list (list F)) :
  NoDup dirs -> pymap (coords_of arr) dirs = Ok ticks ->
  exists marginals,
    map (marginal_at arr dirs) (product ticks) = map Ok marginals
    /\ map snd marginals = map (combine dirs) (product ticks)
    /\ Forall (fun item => sel arr (snd item) = Ok (fst item)) marginals.
Proof.
  intros Hnd Hticks.
  assert (Forall (fun ss => In ss (product ticks)) (product ticks)) as Hall
    by (by apply Forall_forall; intros ? ?%list_elem_of_In).
  induction Hall as [| ss l Hss _ (ms & E & Hsnd & Hsel)];
    [by exists [] |].
  destruct (marginal_at_ok arr dirs ticks ss) as (m & Hm & Hm'); [done.. |].
  exists ((m, combine dirs ss) :: ms). cbn. rewrite Hm, E, Hsnd.
  split; [done |]. split; [done |]. by constructor.
Qed.

(** Claim C7. The generator has one item per combination of ticks of
    the directions iterated: their number is the product of the lengths
    of these directions, no item raises, and the coordinates come in the
    order of [itertools.product], the last direction varying fastest. *)
Theorem iterate_marginals_count arr dirs :
  grid_wf arr -> NoDup dirs -> Forall (fun d => In d (g_dims arr)) dirs ->
  exists ticks marginals,
    pymap (coords_of arr) dirs = Ok ticks
    /\ _iterate_marginals arr (Some dirs) = Ok (map Ok marginals)
    /\ map snd marginals = map (combine dirs) (product ticks)
    /\ length marginals = nat_prod (map length ticks).
Proof.
  intros (_ & Hlen & _) Hnd Hdirs.
  destruct (pymap_ok (coords_of arr) dirs) as [ticks Hticks].
  { eapply Forall_impl; [exact Hdirs |]. intros d Hd. by apply coords_of_ok. }
  exists ticks. unfold _iterate_marginals. cbn [iterate_directions_of pybind].
  rewrite Hticks. cbn [pybind].
  destruct (marginals_ok arr dirs ticks) as (marginals & E & Hsnd & _); [done.. |].
  exists marginals. rewrite E. repeat split; [done |].
  rewrite <- product_length, <- (length_map (combine dirs)), <- Hsnd.
  by rewrite length_map.
Qed.

(** With no direction to iterate the generator has exactly one
    item: the whole array at the empty coordinate. *)
Theorem iterate_marginals_no_direction arr :
  grid_wf arr -> _iterate_marginals arr (Some []) = Ok [Ok (arr, [])].
Proof.
  intros Hwf. unfold _iterate_marginals, marginal_at.
  cbn [iterate_directions_of pymap pybind product map combine].
  change (dict_of_list []) with (@nil (string * F)). by rewrite sel_nil.
Qed.

(** Without directions given, the generator iterates all
    dimensions but ["eV"], and raises [ValueError] at its first item when
    the array has no such dimension. *)
Theorem iterate_marginals_default arr :
  (In "eV"%string (g_dims arr) ->
   exists dirs, py_remove "eV"%string (g_dims arr) = Ok dirs
                /\ _iterate_marginals arr None = _iterate_marginals arr (Some dirs))
  /\ (~ In "eV"%string (g_dims arr) ->
      gen_next (_iterate_marginals arr None) = Raise ValueError).
Proof.
  split.
  - intros Hin. unfold _iterate_marginals. cbn [iterate_directions_of].
    destruct (py_remove "eV"%string (g_dims arr)) as [dirs |] eqn:E.
    + by exists dirs.
    + induction (g_dims arr) as [| d dims IH]; [done |]. cbn in E.
      destruct (decide _) as [| Hne]; [done |].
      destruct (py_remove _ dims) eqn:E'; [done |].
      apply IH; [by destruct Hin | done].
  - intros Hnot. unfold _iterate_marginals. cbn [iterate_directions_of].
    by rewrite py_remove_absent.
Qed.

End Facts.

(** * The worked iteration *)

Section Examples.
Local Open Scope string_scope.

Lemma ex_spectrum_wf : grid_wf ex_spectrum.
Proof.
  repeat split. apply NoDup_cons_2; [| apply NoDup_singleton].
  by intros [= ]%list_elem_of_singleton.
Defined.

Lemma iterate_marginals_count_witness :
  exists ticks marginals,
    pymap (coords_of ex_spectrum) ["kp"] = Ok ticks
    /\ _iterate_marginals ex_spectrum (Some ["kp"]) = Ok (map Ok marginals)
    /\ map snd marginals = map (combine ["kp"]) (product ticks)
    /\ length marginals = nat_prod (map length ticks).
Proof.
  apply iterate_marginals_count;
    [exact ex_spectrum_wf | apply NoDup_singleton | ].
  constructor; [cbn; by right; left | constructor].
Defined.

Lemma iterate_marginals_no_direction_witness :
  _iterate_marginals ex_spectrum (Some []) = Ok [Ok (ex_spectrum, [])].
Proof. apply iterate_marginals_no_direction, ex_spectrum_wf. Defined.

Lemma iterate_marginals_default_witness :
  (In "eV" (g_dims ex_spectrum) ->
   exists dirs, py_remove "eV" (g_dims ex_spectrum) = Ok dirs
                /\ _iterate_marginals ex_spectrum None
                   = _iterate_marginals ex_spectrum (Some dirs))
  /\ (~ In "eV" (g_dims ex_spectrum) ->
      gen_next (_iterate_marginals ex_spectrum None) = Raise ValueError).
Proof. exact (iterate_marginals_default ex_spectrum). Defined.

(** The marginals of the example along the momentum: one per momentum,
    each over the three energies. *)
Example iterate_marginals_example :
  _iterate_marginals ex_spectrum (Some ["kp"])
  = Ok [Ok ({| g_dims := ["eV"]; g_coords := [[0; 1; 2]%Q];
               g_cells := [1; 3; 5]%Q |}, [("kp", 10%Q)]);
        Ok ({| g_dims := ["eV"]; g_coords := [[0; 1; 2]%Q];
               g_cells := [2; 4; 6]%Q |}, [("kp", 20%Q)])].
Proof. by vm_compute. Qed.

End Examples.
