(* ===== verification/FitBands.v ===== *)
(** * Sequential band fitting

    [fit_bands] of [src/arpes/analysis/band_analysis.py].  The function
    takes the first marginal of the spectrum, fits the bands of the
    description to it one after the other, each to what the previous
    fits left over, and then fits the sum of all bands to every marginal,
    starting each fit from the parameters of an earlier fit taken from a
    cache keyed by coordinate.

    The state of the first loop is [InitState], that of the sweep
    [SweepState]; their iterations are [initial_step] and [sweep_step].
    The fits themselves are lmfit's, reached through the class [Lmfit];
    plotting is left out. *)

From stdpp Require Import prelude strings.
From Stdlib Require Import QArith.
From S2P Require Import Prelude PyDict Itertools Arrays Params Mixin Marginals.
Close Scope Q_scope.

(** * Definitions *)

Section Defs.
Context {F : Type} {Fops : ScalarOps F} {L : Lmfit F} {SO : SetOrder string}.

(** [arpes.models.band.Band]: its label, the model class it fits,
    instantiated under a prefix, and whether it is a
    [BackgroundBand]. *)
Record BandObj : Type := mkBandObj {
  band_label : string;
  fit_cls : string -> Model F;
  is_background : bool
}.

(** An item of the band description: a dictionary with the keys [band]
    and [params], either of which may be missing, or a band. *)
Inductive band_item : Type :=
| BandDict (band : option BandObj) (params : option (params_arg F))
| BandInst (b : BandObj).

(** [band.get("band") if isinstance(band, dict) else band]. *)
Definition raw_band (band : band_item) : option BandObj :=
  match band with
  | BandDict b _ => b
  | BandInst b => Some b
  end.

(** [band.get("params", {})] for a dictionary, [None] for a band. *)
Definition band_params (band : band_item) : option (params_arg F) :=
  match band with
  | BandDict _ (Some p) => Some p
  | BandDict _ None => Some (ParamsDict [])
  | BandInst _ => None
  end.

(** [band.fit_cls(prefix=band.label)]; the band may be [None]. *)
Definition instantiate (band : option BandObj) : pyres (Model F) :=
  (let* b := or_raise AttributeError band in
   Ok (fit_cls b (band_label b)))%py.

(** What the function returns: the residual when [step] is
    ["initial"], the grid of fit results otherwise. *)
Inductive fit_bands_result : Type :=
| InitialResidual (residual : Grid F F)
| BandResults (band_results : Grid F (option (ModelResult F))).

(** ** The choice of the broadcast direction *)

Definition broadcast_direction_of (directions : list string)
    (direction preferred_k_direction : string) : pyres string :=
  if String.eqb direction "mdc" && String.eqb preferred_k_direction "" then
    let possible_directions :=
      List.filter (fun d => existsb (String.eqb d) ["kp"; "kx"; "ky"; "phi"]%string)
                  (remove_dups directions) in
    or_raise StopIteration (set_first possible_directions)
  else Ok "eV"%string.

(** ** The initial fits *)

(** [residual - c] and [residual - best_fit]. *)
Definition sub_scalar (g : Grid F F) (c : F) : Grid F F :=
  {| g_dims := g_dims g; g_coords := g_coords g;
     g_cells := map (fun v => s_sub v c) (g_cells g) |}.

Definition sub_array (g : Grid F F) (a : list F) : pyres (Grid F F) :=
  match a with
  | [c] => Ok (sub_scalar g c)
  | _ =>
      if length a =? length (g_cells g) then
        Ok {| g_dims := g_dims g; g_coords := g_coords g;
              g_cells := zip_with s_sub (g_cells g) a |}
      else Raise ValueError
  end.

Record InitState : Type := mkInitState {
  initial_fits : option (Parameters F);
  residual : Grid F F
}.

(** One iteration of the loop over the band description. *)
Definition initial_step (st : InitState) (band : band_item) : pyres InitState :=
  (let* fit_model := instantiate (raw_band band) in
   let* initial_fit :=
     guess_fit fit_model (DataArray (residual st)) (band_params band) None
               true true false None in
   let fits := match initial_fits st with
               | None => mr_params initial_fit
               | Some fits => dict_update fits (mr_params initial_fit)
               end in
   let* r := sub_array (residual st) (mr_best_fit initial_fit) in
   Ok {| initial_fits := Some fits; residual := r |})%py.

(** ** The sweep *)

(** The search of the parameters to start from.  The bound [dist] is
    never lowered, so it stays infinite. *)
Definition closest_model_params (direction : string)
    (initial : option (Parameters F))
    (all_fit_parameters : list (list F * Parameters F))
    (frozen_coordinate : list F) : option (Parameters F) :=
  fold_left (fun closest cv =>
               let delta := zip_with s_sub (fst cv) frozen_coordinate in
               let current_distance := dot delta delta in
               if lt_bound current_distance None && String.eqb direction "mdc"
               then Some (snd cv) else closest)
            all_fit_parameters initial.

Record SweepState : Type := mkSweepState {
  band_results : Grid F (option (ModelResult F));
  all_fit_parameters : list (list F * Parameters F)
}.

(** [functools.reduce(lambda x, y: x + y, internal_models)]. *)
Definition composite_of (raw_bands : list (option BandObj)) : pyres (Model F) :=
  (let* internal_models := pymap instantiate raw_bands in
   reduce_add internal_models)%py.

(** One iteration of the loop over the marginals. *)
Definition sweep_step (direction : string) (template_dims : list string)
    (raw_bands : list (option BandObj)) (initial : option (Parameters F))
    (st : SweepState) (item : Grid F F * list (string * F))
    : pyres SweepState :=
  (let marginal := fst item in
   let coordinate := snd item in
   let* frozen_coordinate := frozen template_dims coordinate in
   let closest := closest_model_params direction initial
                    (all_fit_parameters st) frozen_coordinate in
   let* composite_model := composite_of raw_bands in
   let* closest := or_raise AttributeError closest in
   let new_params :=
     lm_make_params composite_model
       (map (fun kv => (fst kv, p_value (snd kv))) closest) in
   let* d := or_raise StopIteration (head (g_dims marginal)) in
   let* x := coords_of marginal d in
   let* fit_result :=
     lm_fit composite_model (values_of marginal) new_params
            [("x"%string, mkArray [length x] x)] None in
   let* results := loc_set (band_results st) coordinate (Some fit_result) in
   Ok {| band_results := results;
         all_fit_parameters :=
           dict_set (all_fit_parameters st) frozen_coordinate
                    (mr_params fit_result) |})%py.

(** [r] is a fit of the sum of the models of the bands to the values of
    [marginal]. *)
Definition fit_of (raw_bands : list (option BandObj)) (marginal : Grid F F)
    (r : ModelResult F) : Prop :=
  exists composite_model params x,
    composite_of raw_bands = Ok composite_model
    /\ lm_fit composite_model (values_of marginal) params x None = Ok r.

(** The state of the cell at the coordinate [c] once the marginals [done]
    were swept: what it holds is a fit to one of them that agrees with
    [c], and it holds a fit as soon as one of them agrees with [c]. *)
Definition filled_by (raw_bands : list (option BandObj))
    (done : list (Grid F F * list (string * F)))
    (c : list (string * F)) (cell : option (ModelResult F)) : Prop :=
  (forall r, cell = Some r ->
     exists item, In item done /\ agrees (snd item) c = true
                  /\ fit_of raw_bands (fst item) r)
  /\ (Exists (fun item => agrees (snd item) c = true) done -> is_Some cell).

(** ** fit_bands *)

Definition fit_bands (arr : Grid F F) (band_description : list band_item)
    (direction preferred_k_direction : string) (step : option string)
    : pyres fit_bands_result :=
  (let* _ := py_assert (existsb (String.eqb direction)
                                ["edc"; "mdc"; "EDC"; "MDC"]%string) in
   let* broadcast_direction :=
     broadcast_direction_of (g_dims arr) direction preferred_k_direction in
   let* directions := py_remove broadcast_direction (g_dims arr) in
   let* first := gen_next (_iterate_marginals arr (Some directions)) in
   let* lowest := np_min (g_cells (fst first)) in
   let residual_0 := sub_scalar (fst first) lowest in
   let raw_bands := map raw_band band_description in
   let* st := pyfold initial_step band_description
                {| initial_fits := None; residual := residual_0 |} in
   if bool_decide (step = Some "initial"%string) then
     Ok (InitialResidual (residual st))
   else
     let* template := sum_dim arr broadcast_direction in
     let* final :=
       gen_for (_iterate_marginals arr (Some directions))
               (sweep_step direction (g_dims template) raw_bands (initial_fits st))
               {| band_results := empty_like template;
                  all_fit_parameters := [] |} in
     Ok (BandResults (band_results final)))%py.

End Defs.

Arguments BandObj F : clear implicits.
Arguments band_item F : clear implicits.
Arguments fit_bands_result F : clear implicits.
Arguments InitState F : clear implicits.
Arguments SweepState F : clear implicits.

(** The parameters the comment of the search promises: those of the
    cached fit whose coordinate is nearest, the first one among equals,
    and the initial fits while the cache is empty. *)
Definition nearest_model_params {F} `{ScalarOps F}
    (initial : option (Parameters F))
    (all_fit_parameters : list (list F * Parameters F))
    (frozen_coordinate : list F) : option (Parameters F) :=
  fst (argmin_loop
         (fun cv => let delta := zip_with s_sub (fst cv) frozen_coordinate in
                    dot delta delta)
         (fun cv => Some (snd cv)) all_fit_parameters (initial, None)).

(** * Example data *)

(** Bands of the example peak, fitted with the stand-in for lmfit of
    the file on the mixin. *)
Section ExampleData.
Local Open Scope string_scope.

Definition ex_set_order : SetOrder string := head.

#[local] Existing Instance ex_lmfit.
#[local] Existing Instance ex_set_order.

Definition ex_band (label : string) : BandObj Q :=
  {| band_label := label; fit_cls := ex_peak; is_background := false |}.

(** The dimensions, the ticks and, for every cell, the values of the
    fitted parameters. *)
Definition fitted_values (r : pyres (fit_bands_result Q))
    : pyres (list string * list (list Q) * list (option (list Q))) :=
  (let* res := r in
   match res with
   | BandResults g =>
       Ok (g_dims g, g_coords g,
           map (fun c => (fun fit => map (fun kv => p_value (snd kv))
                                         (mr_params fit)) <$> c)
               (g_cells g))
   | InitialResidual _ => Raise TypeError
   end)%py.

Definition ex_results : Grid Q (option (ModelResult Q)) :=
  match fit_bands ex_spectrum [BandInst (ex_band "a_")] "mdc" "" None with
  | Ok (BandResults g) => g
  | _ => empty_like ex_spectrum
  end.

End ExampleData.

(** * The search of the starting parameters *)

Section Closest.
Context {F : Type} {Fops : ScalarOps F}.

(** Claim C4. The search of the starting parameters does not compare
    distances: its bound is never lowered.  When the direction is
    ["mdc"] it returns the parameters cached last, whatever their
    coordinate, and the initial fits while the cache is empty; for every
    other direction, ["MDC"] included, it returns the initial fits. *)
Theorem closest_model_params_last (direction : string)
    (initial : option (Parameters F))
    (cache : list (list F * Parameters F)) (fc : list F) :
  closest_model_params direction initial cache fc
  = if String.eqb direction "mdc" then
      match last cache with
      | Some cv => Some (snd cv)
      | None => initial
      end
    else initial.
Proof.
  unfold closest_model_params. cbn [lt_bound andb].
  induction cache as [| cv cache IH] using rev_ind.
  - by destruct (String.eqb _ _).
  - rewrite fold_left_app, last_snoc. cbn. rewrite IH.
    by destruct (String.eqb _ _).
Qed.

End Closest.

(** * The sweep *)

Section Sweep.
Context {F : Type} {Fops : ScalarOps F} {L : Lmfit F} {SO : SetOrder string}.
Implicit Types (st : SweepState F) (arr : Grid F F).

(** Any direction other than the four the function knows is
    rejected by the assertion before anything else is done. *)
Theorem fit_bands_direction arr (band_description : list (band_item F))
    (direction preferred_k_direction : string) (step : option string) :
  ~ In direction ["edc"; "mdc"; "EDC"; "MDC"]%string ->
  fit_bands arr band_description direction preferred_k_direction step
  = Raise AssertionError.
Proof.
  intros Hdir. unfold fit_bands.
  destruct (existsb _ _) eqn:E; [| done].
  apply existsb_exists in E as (d & Hd & ->%String.eqb_eq). by destruct Hdir.
Qed.

(** What one iteration of the sweep does to the state. *)
Lemma sweep_step_inv (direction : string) dims raw_bands initial st
    (item : Grid F F * list (string * F)) st' :
  sweep_step direction dims raw_bands initial st item = Ok st' ->
  exists fc fit_result,
    frozen dims (snd item) = Ok fc
    /\ loc_set (band_results st) (snd item) (Some fit_result)
       = Ok (band_results st')
    /\ all_fit_parameters st'
       = dict_set (all_fit_parameters st) fc (mr_params fit_result).
Proof.
  unfold sweep_step. intros E. py_inv E. inv_res. cbn. eauto.
Qed.

(** The sweep keeps the shape of the grid of results. *)
Lemma sweep_shape (direction : string) dims raw_bands initial
    (items : list (pyres (Grid F F * list (string * F)))) st st' :
  pyfold (fun s item => pybind item (sweep_step direction dims raw_bands initial s))
         items st = Ok st' ->
  g_dims (band_results st') = g_dims (band_results st)
  /\ g_coords (band_results st') = g_coords (band_results st)
  /\ (grid_wf (band_results st) -> grid_wf (band_results st')).
Proof.
  revert st. induction items as [| item items IH]; intros st.
  - rewrite pyfold_nil. intros. by inv_res.
  - rewrite pyfold_cons. destruct item as [item |]; [| done]. cbn [pybind].
    destruct (sweep_step _ _ _ _ st item) as [st1 |] eqn:E; [| done].
    cbn [pybind]. intros (Hd & Hc & Hwf)%IH.
    apply sweep_step_inv in E as (fc & r & _ & Hloc & _).
    destruct (loc_set_shape _ _ _ _ Hloc) as [Hd1 Hc1].
    rewrite Hd, Hc, Hd1, Hc1. split; [done | split; [done |]].
    intros Hwf0. by eapply Hwf, loc_set_wf.
Qed.

(** The cache has at most one entry per marginal fitted. *)
Lemma sweep_cache_length (direction : string) dims raw_bands initial
    (items : list (pyres (Grid F F * list (string * F)))) st st' :
  pyfold (fun s item => pybind item (sweep_step direction dims raw_bands initial s))
         items st = Ok st' ->
  length (all_fit_parameters st) <= length (all_fit_parameters st')
  /\ length (all_fit_parameters st')
     <= length (all_fit_parameters st) + length items.
Proof.
  revert st. induction items as [| item items IH]; intros st.
  - rewrite pyfold_nil. intros. inv_res. cbn. lia.
  - rewrite pyfold_cons. destruct item as [item |]; [| done]. cbn [pybind].
    destruct (sweep_step _ _ _ _ st item) as [st1 |] eqn:E; [| done].
    cbn [pybind]. intros [H1 H2]%IH.
    apply sweep_step_inv in E as (fc & r & _ & _ & Hcache).
    rewrite Hcache in H1, H2.
    pose proof (dict_set_grows (all_fit_parameters st) fc (mr_params r)).
    cbn [length]. lia.
Qed.

End Sweep.

(** * The whole function *)

Section Whole.
Context {F : Type} {Fops : ScalarOps F} {L : Lmfit F} {SO : SetOrder string}.
Implicit Types (arr : Grid F F).

Lemma sub_array_shape (g g' : Grid F F) (a : list F) :
  sub_array g a = Ok g' ->
  g_dims g' = g_dims g /\ g_coords g' = g_coords g
  /\ length (g_cells g') = length (g_cells g).
Proof.
  unfold sub_array, sub_scalar. intros E.
  destruct a as [| c [| c' a]].
  - destruct (Nat.eqb_spec (length (@nil F)) (length (g_cells g)))
      as [Hlen |]; [| done].
    inv_res. cbn in *. by destruct (g_cells g).
  - inv_res. cbn. by rewrite length_map.
  - destruct (Nat.eqb_spec (length (c :: c' :: a)) (length (g_cells g)))
      as [Hlen |]; [| done].
    inv_res. cbn [g_dims g_coords g_cells].
    by rewrite length_zip_with_l_eq.
Qed.

(** The initial fits keep the shape of the residual, and leave
    parameters as soon as one band was fitted. *)
Lemma initial_loop_shape (bands : list (band_item F)) (st st' : InitState F) :
  pyfold initial_step bands st = Ok st' ->
  g_dims (residual st') = g_dims (residual st)
  /\ g_coords (residual st') = g_coords (residual st)
  /\ length (g_cells (residual st')) = length (g_cells (residual st))
  /\ (bands <> [] \/ is_Some (initial_fits st) -> is_Some (initial_fits st')).
Proof.
  revert st. induction bands as [| band bands IH]; intros st.
  - rewrite pyfold_nil. intros. inv_res. repeat split. by intros [? | ?].
  - rewrite pyfold_cons.
    destruct (initial_step st band) as [st1 |] eqn:E; [| done].
    cbn [pybind]. intros (Hd & Hc & Hn & Hfits)%IH.
    unfold initial_step in E. py_inv E. inv_res. cbn in *.
    destruct (sub_array_shape _ _ _ R1) as (Hd1 & Hc1 & Hn1).
    rewrite Hd, Hc, Hn, Hd1, Hc1, Hn1. repeat split. intros _.
    apply Hfits. right. by eexists.
Qed.

(** Claim C12. When [fit_bands] returns a grid of results, the grid has
    the dimensions and the ticks of the spectrum summed over the
    broadcast direction, and it is well formed when that sum is. *)
Theorem fit_bands_shape arr (band_description : list (band_item F))
    (direction preferred_k_direction : string) (step : option string)
    (results : Grid F (option (ModelResult F))) :
  fit_bands arr band_description direction preferred_k_direction step
  = Ok (BandResults results) ->
  exists broadcast_direction template,
    broadcast_direction_of (g_dims arr) direction preferred_k_direction
    = Ok broadcast_direction
    /\ sum_dim arr broadcast_direction = Ok template
    /\ g_dims results = g_dims template
    /\ g_coords results = g_coords template
    /\ (grid_wf template -> grid_wf results).
Proof.
  unfold fit_bands. intros E. py_inv_all E. inv_res.
  match goal with
  | H : gen_for _ _ _ = Ok _ |- _ =>
      apply gen_for_inv in H as (items & _ & (Hd & Hc & Hwf)%sweep_shape)
  end.
  cbn in Hd, Hc, Hwf. eexists _, _. split; [done |]. split; [done |].
  split; [done |]. split; [done |]. intros Ht. by apply Hwf, empty_like_wf.
Qed.

(** With [step] set to ["initial"] the function returns the
    residual of the first marginal after the initial fits, which has the
    dimensions, the ticks and the size of that marginal. *)
Theorem fit_bands_initial arr (band_description : list (band_item F))
    (direction preferred_k_direction : string) (r : fit_bands_result F) :
  fit_bands arr band_description direction preferred_k_direction
            (Some "initial"%string) = Ok r ->
  exists directions first res,
    gen_next (_iterate_marginals arr (Some directions)) = Ok first
    /\ r = InitialResidual res
    /\ g_dims res = g_dims (fst first)
    /\ g_coords res = g_coords (fst first)
    /\ length (g_cells res) = length (g_cells (fst first)).
Proof.
  unfold fit_bands. intros E. rewrite bool_decide_eq_true_2 in E by done.
  py_inv E. inv_res.
  match goal with
  | H : pyfold initial_step _ _ = Ok _ |- _ =>
      apply initial_loop_shape in H as (Hd & Hc & Hn & _)
  end.
  cbn in Hd, Hc, Hn. rewrite length_map in Hn. by eexists _, _, _.
Qed.

End Whole.

(** * Every cell is fitted *)

Section Filling.
Context {F : Type} {Fops : ScalarOps F} {Ford : ScalarOrder F}
        {L : Lmfit F} {SO : SetOrder string}.
Implicit Types (st : SweepState F) (arr : Grid F F)
               (item : Grid F F * list (string * F)).

(** One iteration stores, at the coordinate of its item, a fit to the
    marginal of its item. *)
Lemma sweep_step_fit (direction : string) dims raw_bands initial st item st' :
  sweep_step direction dims raw_bands initial st item = Ok st' ->
  exists r, fit_of raw_bands (fst item) r
            /\ loc_set (band_results st) (snd item) (Some r)
               = Ok (band_results st').
Proof.
  unfold sweep_step, fit_of. intros E. py_inv E. inv_res. cbn. eauto 8.
Qed.

Lemma filled_by_step raw_bands done item c cell (r : ModelResult F) :
  fit_of raw_bands (fst item) r -> filled_by raw_bands done c cell ->
  filled_by raw_bands (done ++ [item]) c
            (if agrees (snd item) c then Some r else cell).
Proof.
  intros Hr [Hfit Hsome]. destruct (agrees (snd item) c) eqn:E; split.
  - intros ? [= <-]. exists item. split; [apply in_or_app; right; by left | done].
  - by eexists.
  - intros r' (item' & Hin & ?)%Hfit. exists item'.
    split; [apply in_or_app; by left | done].
  - rewrite Exists_app, Exists_cons, Exists_nil. intros [? | [? | []]]; [auto |].
    congruence.
Qed.

(** The sweep over marginals that raise nothing fills the cells their
    coordinates agree with. *)
Lemma sweep_fills (direction : string) dims raw_bands initial
    (marginals done : list (Grid F F * list (string * F))) st st' :
  pyfold (fun s x => pybind x (sweep_step direction dims raw_bands initial s))
         (map Ok marginals) st = Ok st' ->
  Forall2 (filled_by raw_bands done)
          (iter_coords (band_results st)) (g_cells (band_results st)) ->
  Forall2 (filled_by raw_bands (done ++ marginals))
          (iter_coords (band_results st)) (g_cells (band_results st')).
Proof.
  revert st done. induction marginals as [| item marginals IH]; intros st done.
  - cbn [map]. rewrite pyfold_nil, app_nil_r. intros. by inv_res.
  - cbn [map]. rewrite pyfold_cons. cbn [pybind].
    destruct (sweep_step _ _ _ _ st item) as [st1 |] eqn:E; [| done].
    cbn [pybind]. intros Hfold Hinv.
    apply sweep_step_fit in E as (r & Hr & Hloc).
    destruct (loc_set_shape _ _ _ _ Hloc) as [Hd Hc].
    rewrite cons_middle, app_assoc.
    replace (iter_coords (band_results st))
      with (iter_coords (band_results st1))
      by (unfold iter_coords; by rewrite Hd, Hc).
    apply IH; [done |]. rewrite (loc_set_cells _ _ _ _ Hloc).
    unfold iter_coords. rewrite Hd, Hc.
    eapply Forall2_zip_with_update; [| exact Hinv].
    intros c x. by apply filled_by_step.
Qed.

(** The marginals [fit_bands] sweeps: none raises, their coordinates
    are the coordinates of the template in order, and each is the
    selection of the spectrum at its coordinate. *)
Lemma sweep_marginals arr (broadcast_direction : string) directions template :
  grid_wf arr -> py_remove broadcast_direction (g_dims arr) = Ok directions ->
  sum_dim arr broadcast_direction = Ok template ->
  exists marginals,
    _iterate_marginals arr (Some directions) = Ok (map Ok marginals)
    /\ map snd marginals = iter_coords template
    /\ Forall (fun item => sel arr (snd item) = Ok (fst item)) marginals
    /\ grid_wf template.
Proof.
  intros Hwf Hrem (Hrem' & Hticks & Hwt)%sum_dim_shape; [| done].
  rewrite Hrem' in Hrem. injection Hrem as <-.
  destruct (marginals_ok arr (g_dims template) (g_coords template))
    as (marginals & E & Hsnd & Hsel); [by destruct Hwt | done |].
  exists marginals. unfold _iterate_marginals. cbn [iterate_directions_of pybind].
  rewrite Hticks. cbn [pybind]. by rewrite E.
Qed.

(** Before the sweep no cell holds anything. *)
Lemma empty_like_filled raw_bands (template : Grid F F) :
  grid_wf template ->
  Forall2 (filled_by raw_bands []) (iter_coords template)
          (g_cells (empty_like (B:=ModelResult F) template)).
Proof.
  intros (_ & _ & Hlen). apply Forall2_same_length_lookup_2.
  - unfold iter_coords. cbn. rewrite !length_map, product_length. lia.
  - intros i c cell _ Hcell. cbn in Hcell.
    apply list_lookup_fmap_Some in Hcell as (_ & -> & _).
    split; [done | by intros ?%Exists_nil].
Qed.

(** After the sweep over the coordinates themselves every cell holds a
    fit. *)
Lemma filled_by_all arr raw_bands marginals (cells : list (option (ModelResult F))) :
  Forall (fun c => agrees c c = true) (map snd marginals) ->
  Forall (fun item => sel arr (snd item) = Ok (fst item)) marginals ->
  Forall2 (filled_by raw_bands marginals) (map snd marginals) cells ->
  Forall2 (fun c cell =>
             exists r selector marginal,
               cell = Some r /\ agrees selector c = true
               /\ sel arr selector = Ok marginal
               /\ fit_of raw_bands marginal r)
          (map snd marginals) cells.
Proof.
  rewrite !Forall_forall. intros Hrefl Hsel Hall.
  apply Forall2_same_length_lookup. apply Forall2_same_length_lookup in Hall.
  destruct Hall as [Hlen Hall]. split; [done |]. intros i c cell Hc Hcell.
  destruct (Hall i c cell Hc Hcell) as [Hfit Hsome].
  destruct Hsome as [r ->].
  - apply Exists_exists. apply list_elem_of_lookup_2 in Hc as Hin.
    apply list_elem_of_fmap in Hin as (item & -> & Hin).
    exists item. split; [done |]. apply Hrefl, list_elem_of_fmap. by exists item.
  - destruct (Hfit r eq_refl) as (item & Hin & Hagree & Hr).
    exists r, (snd item), (fst item). repeat split; [done | | done].
    by apply Hsel, list_elem_of_In.
Qed.

(** What a sweep of [fit_bands] that succeeds went through: the
    marginals at the coordinates of the template, one at least, and a
    grid of results of the shape of the template whose cells they
    filled. *)
Lemma fit_bands_sweep arr (band_description : list (band_item F))
    (direction preferred_k_direction : string) (step : option string)
    (results : Grid F (option (ModelResult F))) :
  grid_wf arr ->
  fit_bands arr band_description direction preferred_k_direction step
  = Ok (BandResults results) ->
  exists (template : Grid F F) marginals,
    length (g_dims arr) = S (length (g_dims template))
    /\ g_dims results = g_dims template /\ g_coords results = g_coords template
    /\ grid_wf results
    /\ marginals <> [] /\ map snd marginals = iter_coords results
    /\ Forall (fun item => sel arr (snd item) = Ok (fst item)) marginals
    /\ Forall (fun c => agrees c c = true) (iter_coords results)
    /\ Forall2 (filled_by (map raw_band band_description) marginals)
               (iter_coords results) (g_cells results).
Proof.
  intros Hwf. unfold fit_bands. intros E. py_inv_all E. inv_res.
  match goal with
  | Hrem : py_remove _ _ = Ok _, Hsum : sum_dim _ _ = Ok ?t |- _ =>
      destruct (sweep_marginals _ _ _ _ Hwf Hrem Hsum)
        as (marginals & Hgen & Hsnd & Hsel & Hwt);
      pose proof (iter_coords_agree t Hwt) as Hrefl;
      apply sum_dim_shape in Hsum as ([_ Hlen]%py_remove_In & _); [| done];
      exists t, marginals
  end.
  match goal with
  | H : gen_next _ = Ok _ |- _ =>
      rewrite Hgen in H; assert (marginals <> []) as Hne by (by intros ->)
  end.
  match goal with
  | H : gen_for _ _ _ = Ok _ |- _ =>
      rewrite Hgen in H;
      pose proof (sweep_shape _ _ _ _ _ _ _ H) as (Hd & Hc & Hwr);
      apply (sweep_fills _ _ _ _ _ []) in H; [| by apply empty_like_filled]
  end.
  unfold iter_coords in *. rewrite Hd, Hc.
  cbn [band_results empty_like g_dims g_coords app] in *.
  do 3 (split; [done |]). split; [by apply Hwr, empty_like_wf | done].
Qed.

(** Claim C6. When [fit_bands] returns a grid of results on a well-formed
    spectrum, every cell of the grid holds a fit: a fit of the sum of
    the models of the bands to a marginal of the spectrum, selected at a
    coordinate that agrees with the coordinate of the cell.  No cell is
    left [None]. *)
Theorem fit_bands_fills arr (band_description : list (band_item F))
    (direction preferred_k_direction : string) (step : option string)
    (results : Grid F (option (ModelResult F))) :
  grid_wf arr ->
  fit_bands arr band_description direction preferred_k_direction step
  = Ok (BandResults results) ->
  Forall2 (fun c cell =>
             exists r selector marginal,
               cell = Some r /\ agrees selector c = true
               /\ sel arr selector = Ok marginal
               /\ fit_of (map raw_band band_description) marginal r)
          (iter_coords results) (g_cells results).
Proof.
  intros Hwf (t & marginals & _ & _ & _ & _ & _ & Hsnd & Hsel & Hrefl & Hall)
    %fit_bands_sweep; [| done].
  rewrite <- Hsnd in *. by apply filled_by_all.
Qed.

(** The grid of results on a spectrum of two dimensions: one row of
    cells, one at least, each a fit of the sum of the models. *)
Lemma fit_bands_cells arr (band_description : list (band_item F))
    (direction preferred_k_direction : string) (step : option string)
    (results : Grid F (option (ModelResult F))) :
  grid_wf arr ->
  fit_bands arr band_description direction preferred_k_direction step
  = Ok (BandResults results) ->
  grid_wf results
  /\ length (g_dims arr) = S (length (g_coords results))
  /\ g_cells results <> []
  /\ Forall (fun cell => exists r marginal,
               cell = Some r
               /\ fit_of (map raw_band band_description) marginal r)
            (g_cells results).
Proof.
  intros Hwf (t & marginals & Hlen & Hd & _ & Hwr & Hne & Hsnd & Hsel & Hrefl
              & Hall)%fit_bands_sweep; [| done].
  rewrite <- Hsnd in *. split; [done |]. split.
  { destruct Hwr as (_ & <- & _). by rewrite Hd. }
  split.
  { intros Hnil. apply Forall2_length in Hall. rewrite Hnil, length_map in Hall.
    by destruct marginals. }
  eapply Forall2_Forall_r; [by apply (filled_by_all arr) |].
  apply Forall_forall. intros c _ cell (r & _ & marginal & -> & _ & _ & Hr).
  by exists r, marginal.
Qed.

End Filling.

(** * The worked sweep *)

Section Examples.
Local Open Scope string_scope.
#[local] Existing Instance ex_lmfit.
#[local] Existing Instance ex_set_order.

Lemma fit_bands_direction_witness :
  fit_bands ex_spectrum [BandInst (ex_band "a_")] "Mdc" "" None
  = Raise AssertionError.
Proof.
  apply fit_bands_direction. cbn. intros [H | [H | [H | [H | []]]]]; discriminate H.
Defined.

Lemma fit_bands_shape_witness :
  exists broadcast_direction template,
    broadcast_direction_of (g_dims ex_spectrum) "mdc" "" = Ok broadcast_direction
    /\ sum_dim ex_spectrum broadcast_direction = Ok template
    /\ g_dims ex_results = g_dims template
    /\ g_coords ex_results = g_coords template
    /\ (grid_wf template -> grid_wf ex_results).
Proof.
  apply (fit_bands_shape ex_spectrum [BandInst (ex_band "a_")] "mdc" "" None).
  by vm_compute.
Defined.

Lemma fit_bands_initial_witness :
  exists directions first res,
    gen_next (_iterate_marginals ex_spectrum (Some directions)) = Ok first
    /\ InitialResidual
         {| g_dims := ["kp"]; g_coords := [[10; 20]]%Q; g_cells := [0; 1]%Q |}
       = InitialResidual res
    /\ g_dims res = g_dims (fst first)
    /\ g_coords res = g_coords (fst first)
    /\ length (g_cells res) = length (g_cells (fst first)).
Proof.
  apply (fit_bands_initial ex_spectrum [BandInst (ex_band "a_")] "mdc" "").
  by vm_compute.
Defined.

Lemma fit_bands_fills_witness :
  Forall2 (fun c cell =>
             exists r selector marginal,
               cell = Some r /\ agrees selector c = true
               /\ sel ex_spectrum selector = Ok marginal
               /\ fit_of (map raw_band [BandInst (ex_band "a_")]) marginal r)
          (iter_coords ex_results) (g_cells ex_results).
Proof.
  apply (fit_bands_fills ex_spectrum [BandInst (ex_band "a_")] "mdc" "" None);
    [exact ex_spectrum_wf | by vm_compute].
Defined.

(** In the direction ["mdc"] every fit of the sweep starts from
    the result of the fit before it, and the first from the initial fits:
    with a fitter that raises every value by 1 the values climb along
    the sweep. *)
Example fit_bands_mdc_chains :
  fitted_values (fit_bands ex_spectrum [BandInst (ex_band "a_")] "mdc" "" None)
  = Ok (["eV"], [[0; 1; 2]%Q],
        [Some [3; 3; 3]%Q; Some [4; 4; 4]%Q; Some [5; 5; 5]%Q]).
Proof. by vm_compute. Qed.

(** In the direction ["MDC"], which the assertion admits, the
    cache is never read and the momentum axis is not looked for: the
    fits run along ["eV"] and each starts from the initial fits. *)
Example fit_bands_upper_case_ignores_cache :
  fitted_values (fit_bands ex_spectrum [BandInst (ex_band "a_")] "MDC" "" None)
  = Ok (["kp"], [[10; 20]%Q], [Some [3; 3; 3]%Q; Some [3; 3; 3]%Q]).
Proof. by vm_compute. Qed.

(** An empty band description passes the initial fits and
    makes the sweep raise [TypeError] at its first marginal, where the
    sum of no model is formed. *)
Example fit_bands_no_band :
  fit_bands ex_spectrum [] "mdc" "" None = Raise TypeError
  /\ fit_bands ex_spectrum [] "mdc" "" (Some "initial")
     = Ok (InitialResidual
             {| g_dims := ["kp"]; g_coords := [[10; 20]]%Q; g_cells := [0; 1]%Q |}).
Proof. by vm_compute. Qed.

(** The starting parameters are not those of the nearest
    cached fit: with fits cached at 0 and at 5, a marginal at 1 starts
    from the fit at 5, the one cached last. *)
Example closest_model_params_not_nearest :
  let cache := [([0%Q], [("a_center", ex_start 7)]);
                ([5%Q], [("a_center", ex_start 9)])] in
  closest_model_params "mdc" None cache [1%Q] = Some [("a_center", ex_start 9)]
  /\ nearest_model_params None cache [1%Q] = Some [("a_center", ex_start 7)].
Proof. by vm_compute. Qed.

End Examples.
