(* ===== verification/Patterned.v ===== *)
(** * Patterned band fitting

    [fit_patterned_bands], [_instantiate_band] and [_build_params] of
    [src/arpes/analysis/band_analysis.py], and [wrap_tqdm] of
    [src/arpes/utilities/jupyter.py].  For every slice of the spectrum
    the position of each band is interpolated between its control
    points, a window and starting values are written into the band's
    parameter dictionary, one model per interpolated position is
    instantiated, and their sum is fitted.

    The parameter dictionary of a band is one Python object: every
    position of a slice writes into it, every partial band of the slice
    refers to it, and it lives on from one slice to the next.  The model
    threads this object through the calls, so that each partial band
    carries the dictionary as it is when the models are instantiated. *)

From stdpp Require Import prelude strings pretty.
From Stdlib Require Import QArith.
From S2P Require Import Prelude PyDict Itertools Arrays Params Mixin.
From S2P Require Import Interpolate Marginals FitBands.
Close Scope Q_scope.

(** * Definitions *)

Section Defs.
Context {F : Type} {Fops : ScalarOps F} {L : Lmfit F}.

(** A value of the parameter dictionary of a band: a number, as under
    ["stray"], or the keyword arguments of a parameter hint. *)
Inductive pyval : Type :=
| VFloat (x : F)
| VDict (d : list (string * F)).

Definition params_dict : Type := list (string * pyval).

(** A model with the hints set on it by [set_param_hint]. *)
Definition HintedModel : Type := Model F * list (string * list (string * F)).

(** What the sources ask of numpy and lmfit beyond [Lmfit]. *)
Class PatternedEnv : Type := {
  (** [np.percentile(values, (20, 80))] *)
  np_percentile : list F -> pyres (F * F);
  (** [make_params()] of the sum of the hinted models *)
  lm_make_params_hinted : Model F -> list HintedModel -> Parameters F;
  (** [arpes.models.band.AffineBackgroundBand] *)
  AffineBackgroundBand : string -> BandObj F
}.

Context {E : PatternedEnv}.

(** The description of a band in [band_set]: the keyword arguments of
    [resolve_partial_bands_from_description].  [bs_band] is the class of
    the band, called with a name. *)
Record BandSetValues : Type := mkBandSetValues {
  bs_name : string;
  bs_band : option (string -> BandObj F);
  bs_dims : option (list string);
  bs_params : option params_dict;
  bs_points : option (list (list F))
}.

(** A partial band: the dictionary with the keys [band], [name] and
    [params].  A [band] that cannot be called is [None]. *)
Record PartialBand : Type := mkPartialBand {
  pb_band : option (string -> BandObj F);
  pb_name : string;
  pb_params : params_dict
}.

(** ** wrap_tqdm *)

(** The progress bar yields the items of its argument unchanged. *)
Definition wrap_tqdm {A} (x : generator A) (interactive : bool) : generator A :=
  if negb interactive then x else x.

(** ** _build_params *)

(** [params[k][k2] = v]. *)
Definition set_item_2 (params : params_dict) (k k2 : string) (v : F)
    : pyres params_dict :=
  match dict_get params k with
  | Some (VDict d) => Ok (dict_set params k (VDict (dict_set d k2 v)))
  | Some (VFloat _) => Raise TypeError
  | None => Raise KeyError
  end.

(** [params[k] = params.get(k, {})]. *)
Definition ensure_dict (params : params_dict) (k : string) : params_dict :=
  dict_set params k (default (VDict []) (dict_get params k)).

(** The factor [1.2]. *)
Definition wide : F := (s_of_Z 6 / s_of_Z 5)%sc.

Definition _build_params (params : params_dict) (center : F)
    (center_stray : option F) (marginal : option (Grid F F))
    : pyres params_dict :=
  (let params := dict_update params [("center"%string, VDict [("value"%string, center)])] in
   match center_stray with
   | None => Ok params
   | Some center_stray =>
       let* params := set_item_2 params "center" "min" (center - center_stray)%sc in
       let* params := set_item_2 params "center" "max" (center + center_stray)%sc in
       let params := ensure_dict params "sigma" in
       let* params := set_item_2 params "sigma" "value" center_stray in
       match marginal with
       | None => Ok params
       | Some marginal =>
           let* d := py_index (g_dims marginal) 0 in
           let* near_center :=
             sel_slice marginal d (center - wide * center_stray)%sc
                                  (center + wide * center_stray)%sc in
           let* low_high := np_percentile (g_cells near_center) in
           let params := ensure_dict params "amplitude" in
           set_item_2 params "amplitude" "value" (snd low_high - fst low_high)%sc
       end
   end)%py.

(** ** _instantiate_band *)

(** [built.set_param_hint(name, **kwargs)]. *)
Definition set_param_hint (hints : list (string * list (string * F)))
    (name : string) (kwargs : list (string * F))
    : list (string * list (string * F)) :=
  dict_set hints name (dict_update (default [] (dict_get hints name)) kwargs).

Definition _instantiate_band (partial_band : PartialBand) : pyres HintedModel :=
  (let* cls := or_raise TypeError (pb_band partial_band) in
   let phony_band := cls (pb_name partial_band) in
   let built := fit_cls phony_band (pb_name partial_band) in
   let* hints :=
     pyfold (fun hints kv =>
               if String.eqb (fst kv) "stray" then Ok hints
               else match snd kv with
                    | VDict kwargs => Ok (set_param_hint hints (fst kv) kwargs)
                    | VFloat _ => Raise TypeError
                    end)
            (pb_params partial_band) [] in
   Ok (built, hints))%py.

(** ** resolve_partial_bands_from_description *)

(** [params.get("stray", stray)]; a dictionary under ["stray"] fails in
    the arithmetic of [_build_params]. *)
Definition stray_of (params : params_dict) (stray : option F)
    : pyres (option F) :=
  match dict_get params "stray" with
  | Some (VFloat s) => Ok (Some s)
  | Some (VDict _) => Raise TypeError
  | None => Ok stray
  end.

(** The inner function.  It returns the band, the names of the partial
    bands and the parameter dictionary they all refer to, as the last
    call of [_build_params] left it. *)
Definition resolve_partial_bands_from_description (arr_dims : list string)
    (stray : option F) (coord_dict : list (string * F))
    (marginal : option (Grid F F)) (v : BandSetValues)
    : pyres (list string * params_dict) :=
  (let params := default [] (bs_params v) in
   let dims := default [] (bs_dims v) in
   let* coord_name :=
     or_raise StopIteration
       (head (List.filter (fun d => dict_mem coord_dict d) dims)) in
   let* coord := dict_item coord_dict coord_name in
   let* coord_index :=
     or_raise ValueError
       (fst <$> head (List.filter (fun id => String.eqb (snd id) coord_name)
                                  (enumerate arr_dims))) in
   let* partial_band_locations :=
     _interpolate_intersecting_fragments coord coord_index
                                         (default [] (bs_points v)) in
   let* params :=
     pyfold (fun params loc =>
               let* center_stray := stray_of params stray in
               _build_params params (snd loc) center_stray marginal)
            partial_band_locations params in
   Ok (map (fun il => (bs_name v +:+ "_" +:+ pretty (fst il))%string)
           (enumerate partial_band_locations),
       params))%py.

(** The partial bands of one description at one slice and the
    description with its parameter dictionary as the slice leaves it. *)
Definition resolve_band (arr_dims : list string) (stray : option F)
    (coord_dict : list (string * F)) (marginal : Grid F F) (v : BandSetValues)
    : pyres (list PartialBand * BandSetValues) :=
  (let* resolved :=
     resolve_partial_bands_from_description arr_dims stray coord_dict
                                            (Some marginal) v in
   let params := snd resolved in
   Ok (map (fun name => {| pb_band := bs_band v; pb_name := name;
                           pb_params := params |}) (fst resolved),
       match bs_params v with
       | Some _ => {| bs_name := bs_name v; bs_band := bs_band v;
                      bs_dims := bs_dims v; bs_params := Some params;
                      bs_points := bs_points v |}
       | None => v
       end))%py.

(** ** The sweep *)

(** [arr.G.iterate_axis(free_directions)]: the coordinate of every
    slice with the slice. *)
Definition iterate_axis (arr : Grid F F) (directions : list string)
    : generator (list (string * F) * Grid F F) :=
  (let* items := _iterate_marginals arr (Some directions) in
   Ok (map (fun item => let* x := item in Ok (snd x, fst x)) items))%py.

(** The variables the loop changes: the grid of results and the
    parameter dictionaries inside [band_set]. *)
Record PatternedState : Type := mkPatternedState {
  pt_results : Grid F (option (ModelResult F));
  pt_band_set : list (string * BandSetValues)
}.

(** [{"band": background, "name": "", "params": {}}]. *)
Definition background_band (background : option (string -> BandObj F))
    : PartialBand :=
  {| pb_band := background; pb_name := ""; pb_params := [] |}.

(** One iteration of the loop over the slices. *)
Definition patterned_step (arr_dims : list string) (stray : option F)
    (background : option (string -> BandObj F))
    (st : PatternedState) (item : list (string * F) * Grid F F)
    : pyres PatternedState :=
  (let coord_dict := fst item in
   let marginal := snd item in
   let* resolved :=
     pymap (resolve_band arr_dims stray coord_dict marginal)
           (dict_values (pt_band_set st)) in
   let band_set := combine (dict_keys (pt_band_set st)) (map snd resolved) in
   let partial_bands :=
     List.filter (fun p => negb (length p =? 0)) (map fst resolved) in
   let partial_bands :=
     match partial_bands with
     | [] => partial_bands
     | _ => partial_bands ++ [[background_band background]]
     end in
   let* internal_models := pymap _instantiate_band (concat partial_bands) in
   match internal_models with
   | [] =>
       let* results := loc_set (pt_results st) coord_dict None in
       Ok {| pt_results := results; pt_band_set := band_set |}
   | _ =>
       let* composite_model := reduce_add (map fst internal_models) in
       let new_params := lm_make_params_hinted composite_model internal_models in
       let* d := or_raise StopIteration (head (g_dims marginal)) in
       let* x := coords_of marginal d in
       let* fit_result :=
         lm_fit composite_model (values_of marginal) new_params
                [("x"%string, mkArray [length x] x)] None in
       let* results := loc_set (pt_results st) coord_dict (Some fit_result) in
       Ok {| pt_results := results; pt_band_set := band_set |}
   end)%py.

(** ** The residual *)

(** [with contextlib.suppress(Exception): residual.loc[coords] = ...]. *)
Definition suppress {A} (keep : A) (r : pyres A) : A :=
  match r with
  | Ok a => a
  | Raise _ => keep
  end.

(** One iteration of the loop over the coordinates of the results. *)
Definition residual_step (band_results : Grid F (option (ModelResult F)))
    (residual : Grid F F) (coords : list (string * F)) : pyres (Grid F F) :=
  (let* fit_item := cell_at band_results coords in
   match fit_item with
   | None => Ok residual
   | Some fit =>
       Ok (suppress residual (loc_set_array residual coords (mr_residual fit)))
   end)%py.

(** ** fit_patterned_bands *)

(** The dataset returned when [dataset] is set. *)
Record PatternedDataset : Type := mkPatternedDataset {
  ds_data : Grid F F;
  ds_residual : Grid F F;
  ds_results : Grid F (option (ModelResult F));
  ds_norm_residual : Grid F F
}.

Inductive patterned_result : Type :=
| ResultsOnly (band_results : Grid F (option (ModelResult F)))
| Dataset (d : PatternedDataset).

(** [np.zeros(residual.shape)] in a copy of the array. *)
Definition zeros_like (arr : Grid F F) : Grid F F :=
  {| g_dims := g_dims arr; g_coords := g_coords arr;
     g_cells := map (fun _ => s_zero) (g_cells arr) |}.

(** [residual / arr]. *)
Definition divide (a b : Grid F F) : Grid F F :=
  {| g_dims := g_dims a; g_coords := g_coords a;
     g_cells := zip_with s_div (g_cells a) (g_cells b) |}.

Definition fit_patterned_bands (arr : Grid F F)
    (band_set : list (string * BandSetValues)) (fit_direction : string)
    (stray : option F) (background interactive dataset : bool)
    : pyres patterned_result :=
  (let background :=
     if background then Some AffineBackgroundBand else None in
   let* free_directions := py_remove fit_direction (g_dims arr) in
   let* template := sum_dim arr fit_direction in
   let band_results : Grid F (option (ModelResult F)) := empty_like template in
   let* total_slices := pymap (coords_of arr) free_directions in
   let* final :=
     gen_for (wrap_tqdm (iterate_axis arr free_directions) interactive)
             (patterned_step (g_dims arr) stray background)
             {| pt_results := band_results; pt_band_set := band_set |} in
   let band_results := pt_results final in
   if negb dataset then Ok (ResultsOnly band_results)
   else
     let* residual :=
       pyfold (residual_step band_results) (iter_coords band_results)
              (zeros_like arr) in
     Ok (Dataset {| ds_data := arr;
                    ds_residual := residual;
                    ds_results := band_results;
                    ds_norm_residual := divide residual arr |}))%py.

End Defs.

Arguments pyval F : clear implicits.
Arguments params_dict F : clear implicits.
Arguments HintedModel F : clear implicits.
Arguments PatternedEnv F : clear implicits.
Arguments BandSetValues F : clear implicits.
Arguments PartialBand F : clear implicits.
Arguments PatternedState F : clear implicits.
Arguments PatternedDataset F : clear implicits.
Arguments patterned_result F : clear implicits.

(** The value of a parameter hint inside a parameter dictionary. *)
Definition hint_of {F} (params : params_dict F) (name key : string) : option F :=
  match dict_get params name with
  | Some (VDict d) => dict_get d key
  | _ => None
  end.

(** * Example data *)

(** A stand-in for numpy and lmfit over the rationals: the percentiles
    are 0 and 1, and [make_params] gives every parameter the value of its
    hint, or 0 without one. *)
Section ExampleData.
Local Open Scope string_scope.
#[local] Existing Instance ex_lmfit.

(** The name of a parameter without the prefix of its model. *)
Definition unprefixed (m : Model Q) (name : string) : string :=
  String.substring (String.length (model_prefix m)) (String.length name) name.

Definition ex_env : PatternedEnv Q := {|
  np_percentile values := Ok (0%Q, 1%Q);
  lm_make_params_hinted m hinted :=
    flat_map (fun mh =>
      map (fun n =>
             (n, ex_start (default 0%Q
                   (dict_get (default [] (dict_get (snd mh) (unprefixed (fst mh) n)))
                             "value"))))
          (param_names (fst mh))) hinted;
  AffineBackgroundBand name :=
    {| band_label := name;
       fit_cls prefix := Basic prefix ["slope"; "const"] 1 (fun _ x => x);
       is_background := true |}
|}.

(** A band drawn between two control points in the plane of energy and
    momentum. *)
Definition ex_description (points : list (list Q)) : BandSetValues Q :=
  {| bs_name := "a"; bs_band := Some ex_band; bs_dims := Some ["eV"];
     bs_params := Some []; bs_points := Some points |}.

Definition ex_band_set : list (string * BandSetValues Q) :=
  [("a", ex_description [[0; 10]; [1; 20]]%Q)].

(** A band that bends back, resolved at the energy 1. *)
Definition ex_resolved : list (PartialBand Q) * BandSetValues Q :=
  match resolve_band (E:=ex_env) ["eV"; "kp"] None [("eV", 1%Q)]
          {| g_dims := ["kp"]; g_coords := [[10; 20]%Q]; g_cells := [3; 4]%Q |}
          (ex_description [[0; 10]; [2; 20]; [0; 30]]%Q) with
  | Ok r => r
  | Raise _ => ([], ex_description [])
  end.

(** The fitted values of every cell of the results. *)
Definition patterned_values (r : pyres (patterned_result Q))
    : pyres (list (option (list (string * Q)))) :=
  (let* res := r in
   let g := match res with
            | ResultsOnly g => g
            | Dataset d => ds_results d
            end in
   Ok (map (fun c => (fun fit => map (fun kv => (fst kv, Qred (p_value (snd kv))))
                                     (mr_params fit)) <$> c)
           (g_cells g)))%py.

End ExampleData.

(** * Facts *)

Section Facts.
Context {F : Type} {Fops : ScalarOps F} {L : Lmfit F} {E : PatternedEnv F}.
Implicit Types (params : params_dict F) (center : F).

(** ** _build_params *)

Lemma set_item_2_get params (k k2 : string) (v : F) params' :
  set_item_2 params k k2 v = Ok params' ->
  forall name key,
    hint_of params' name key
    = if String.eqb k name && String.eqb k2 key then Some v
      else hint_of params name key.
Proof.
  unfold set_item_2, hint_of. intros Hset name key.
  destruct (dict_get params k) as [[x | d] |] eqn:Hk; [done | | done].
  inv_res. rewrite dict_get_set. rewrite ?string_keq_eqb.
  destruct (String.eqb_spec k name) as [-> | Hne]; cbn [andb].
  - rewrite Hk, dict_get_set. rewrite ?string_keq_eqb.
    by destruct (String.eqb k2 key).
  - done.
Qed.

Lemma set_item_2_dict params (k k2 : string) (v : F) (d : list (string * F)) :
  dict_get params k = Some (VDict d) ->
  set_item_2 params k k2 v = Ok (dict_set params k (VDict (dict_set d k2 v))).
Proof. unfold set_item_2. by intros ->. Qed.

Lemma ensure_dict_get params (k : string) :
  forall name key,
    hint_of (ensure_dict params k) name key = hint_of params name key.
Proof.
  intros name key. unfold ensure_dict, hint_of. rewrite dict_get_set.
  rewrite ?string_keq_eqb. destruct (String.eqb_spec k name) as [-> | Hne];
    [| done].
  by destruct (dict_get params name) as [[x | d] |].
Qed.

Lemma update_center_get params center :
  forall name key,
    hint_of (dict_set params "center" (VDict [("value"%string, center)]))
            name key
    = if String.eqb "center" name
      then (if String.eqb "value" key then Some center else None)
      else hint_of params name key.
Proof.
  intros name key. unfold hint_of.
  rewrite dict_get_set. rewrite ?string_keq_eqb.
  destruct (String.eqb "center" name); [| done]. cbn.
  rewrite ?string_keq_eqb. by destruct (String.eqb "value" key).
Qed.

(** Without a stray, [_build_params] only writes the centre:
    the dictionary gets the hint [center] with the value given and
    nothing else in it, and every other entry is kept. *)
Theorem build_params_no_stray params center marginal :
  _build_params params center None marginal
  = Ok (dict_set params "center" (VDict [("value"%string, center)])).
Proof. done. Qed.

(** With a stray and no marginal, [_build_params] writes the
    window [center - stray, center + stray] around the centre and the
    stray as the starting width, provided the entry [sigma] of the
    dictionary, if there is one, is a dictionary. *)
Theorem build_params_window params center (stray : F) :
  (forall x, dict_get params "sigma" <> Some (VFloat x)) ->
  exists params',
    _build_params params center (Some stray) None = Ok params'
    /\ hint_of params' "center" "value" = Some center
    /\ hint_of params' "center" "min" = Some (center - stray)%sc
    /\ hint_of params' "center" "max" = Some (center + stray)%sc
    /\ hint_of params' "sigma" "value" = Some stray.
Proof.
  intros Hsigma. unfold _build_params.
  set (p0 := dict_update params _).
  assert (dict_get p0 "center" = Some (VDict [("value"%string, center)])) as H0.
  { unfold p0, dict_update. cbn. by rewrite dict_get_set_eq. }
  pose proof (set_item_2_dict _ _ "min" (center - stray)%sc _ H0) as E1.
  rewrite E1. cbn [pybind]. set (p1 := dict_set p0 _ _) in *.
  assert (dict_get p1 "center"
          = Some (VDict (dict_set [("value"%string, center)] "min"
                                  (center - stray)%sc))) as H1
    by (by apply dict_get_set_eq).
  pose proof (set_item_2_dict _ _ "max" (center + stray)%sc _ H1) as E2.
  rewrite E2. cbn [pybind]. set (p2 := dict_set p1 _ _) in *.
  assert (exists d, dict_get (ensure_dict p2 "sigma") "sigma" = Some (VDict d))
    as [d Hd].
  { unfold ensure_dict. rewrite dict_get_set_eq by done.
    unfold p2, p1, p0, dict_update. cbn [fold_left fst snd].
    rewrite !dict_get_set_ne by done.
    destruct (dict_get params "sigma") as [[x | d] |] eqn:Hs;
      [by destruct (Hsigma x) | by eexists | by eexists]. }
  pose proof (set_item_2_dict _ _ "value" stray _ Hd) as E3.
  rewrite E3. eexists. split; [done |].
  rewrite !(set_item_2_get _ _ _ _ _ E3), !ensure_dict_get,
    !(set_item_2_get _ _ _ _ _ E2), !(set_item_2_get _ _ _ _ _ E1).
  unfold p0, dict_update. cbn [fold_left fst snd].
  rewrite !update_center_get. by cbn.
Qed.

Lemma build_params_center_value params center stray marginal params' :
  _build_params params center stray marginal = Ok params' ->
  hint_of params' "center" "value" = Some center.
Proof.
  unfold _build_params. intros H. cbv zeta in H. destruct stray as [s |].
  - py_inv H. destruct marginal as [m |].
    + py_inv H.
      rewrite (set_item_2_get _ _ _ _ _ H), ensure_dict_get,
        (set_item_2_get _ _ _ _ _ R1), ensure_dict_get,
        (set_item_2_get _ _ _ _ _ R0), (set_item_2_get _ _ _ _ _ R).
      unfold dict_update. cbn [fold_left fst snd]. by rewrite update_center_get.
    + inv_res.
      rewrite (set_item_2_get _ _ _ _ _ R1), ensure_dict_get,
        (set_item_2_get _ _ _ _ _ R0), (set_item_2_get _ _ _ _ _ R).
      unfold dict_update. cbn [fold_left fst snd]. by rewrite update_center_get.
  - inv_res. by rewrite update_center_get.
Qed.

(** ** The partial bands of a slice *)

(** What a successful resolution went through. *)
Lemma resolve_inv dims (stray : option F) coord_dict marginal
    (v : BandSetValues F) names params :
  resolve_partial_bands_from_description dims stray coord_dict marginal v
  = Ok (names, params) ->
  exists coord coord_index locations,
    _interpolate_intersecting_fragments coord coord_index
      (default [] (bs_points v)) = Ok locations
    /\ pyfold (fun params loc =>
                 (let* center_stray := stray_of params stray in
                  _build_params params (snd loc) center_stray marginal)%py)
              locations (default [] (bs_params v)) = Ok params
    /\ names = map (fun il => (bs_name v +:+ "_" +:+ pretty (fst il))%string)
                   (enumerate locations).
Proof.
  unfold resolve_partial_bands_from_description. intros H. py_inv H. inv_res.
  by eexists _, _, _.
Qed.

(** Claim C9. All partial bands a description yields at one slice refer
    to one parameter dictionary, and what it holds when the models are
    instantiated is the centre of the last position interpolated: when a
    band meets the slice at several positions, every partial band is
    given the last one. *)
Theorem resolve_band_last_center dims (stray : option F) coord_dict marginal
    (v v' : BandSetValues F) (partial_bands : list (PartialBand F)) :
  resolve_band dims stray coord_dict marginal v = Ok (partial_bands, v') ->
  partial_bands <> [] ->
  exists coord coord_index locations last_location,
    _interpolate_intersecting_fragments coord coord_index
      (default [] (bs_points v)) = Ok locations
    /\ last locations = Some last_location
    /\ length partial_bands = length locations
    /\ Forall (fun pb => hint_of (pb_params pb) "center" "value"
                         = Some (snd last_location)) partial_bands.
Proof.
  unfold resolve_band. intros H Hne.
  destruct (resolve_partial_bands_from_description _ _ _ _ _)
    as [[names params] |] eqn:R; [| done].
  cbn in H. inv_res.
  apply resolve_inv in R as (coord & idx & locations & Hloc & Hfold & ->).
  exists coord, idx, locations.
  destruct locations as [| loc locations _] using rev_ind; [done |].
  exists loc. rewrite last_snoc, !length_map, enumerate_length.
  repeat split; [done |].
  rewrite pyfold_snoc in Hfold. py_inv Hfold.
  apply build_params_center_value in Hfold.
  apply Forall_forall. intros pb (name & <- & _)%list_elem_of_In%in_map_iff.
  done.
Qed.

(** ** One slice *)

Lemma instantiate_background_none :
  _instantiate_band (F:=F) (background_band None) = Raise TypeError.
Proof. done. Qed.

(** A slice at which no band has a position gets the value
    [None] in the grid of results, and no model is fitted. *)
Theorem patterned_step_no_band dims (stray : option F) background
    (st : PatternedState F) (item : list (string * F) * Grid F F) resolved :
  pymap (resolve_band dims stray (fst item) (snd item))
        (dict_values (pt_band_set st)) = Ok resolved ->
  Forall (fun r => fst r = []) resolved ->
  patterned_step dims stray background st item
  = (let* results := loc_set (pt_results st) (fst item) None in
     Ok {| pt_results := results;
           pt_band_set := combine (dict_keys (pt_band_set st))
                                  (map snd resolved) |})%py.
Proof.
  intros Hres Hall. unfold patterned_step. rewrite Hres. cbn [pybind].
  assert (List.filter (fun p => negb (length p =? 0)) (map fst resolved) = [])
    as ->; [| done].
  clear Hres. induction Hall as [| r l Hr _ IH]; [done |]. cbn.
  by rewrite Hr.
Qed.

(** Claim C35. With [background=False] a slice at which a band has a
    position raises [TypeError]: the test [background is not None] lets
    the value [False] through, and it is called like a band class. *)
Theorem patterned_step_background_false dims (stray : option F)
    (st : PatternedState F) (item : list (string * F) * Grid F F) resolved :
  pymap (resolve_band dims stray (fst item) (snd item))
        (dict_values (pt_band_set st)) = Ok resolved ->
  Exists (fun r => fst r <> []) resolved ->
  Forall (fun pb => is_Some (pb_band pb)
                    /\ Forall (fun kv => fst kv = "stray"%string
                                         \/ exists d, snd kv = VDict d)
                              (pb_params pb))
         (concat (map fst resolved)) ->
  patterned_step dims stray None st item = Raise TypeError.
Proof.
  intros Hres Hex Hall. unfold patterned_step. rewrite Hres. cbn [pybind].
  set (kept := List.filter _ (map fst resolved)).
  assert (kept <> []) as Hkept.
  { unfold kept. clear -Hex. induction Hex as [r l Hr | r l _ IH]; cbn.
    - by destruct (fst r).
    - by destruct (negb _). }
  assert (Forall (fun pb => exists m, _instantiate_band pb = Ok m) (concat kept))
    as Hok.
  { apply Forall_forall. intros pb Hpb. rewrite Forall_forall in Hall.
    destruct (Hall pb) as [[cls Hcls] Hparams].
    - apply list_elem_of_In, in_concat in Hpb as (l & Hl & Hpb).
      apply filter_In in Hl as [Hl _].
      apply list_elem_of_In, in_concat. eauto.
    - unfold _instantiate_band. rewrite Hcls. cbn [or_raise pybind].
      assert (forall hints, exists h,
        pyfold (fun hints kv =>
                  if String.eqb (fst kv) "stray" then Ok hints
                  else match snd kv with
                       | VDict kwargs => Ok (set_param_hint hints (fst kv) kwargs)
                       | VFloat _ => Raise TypeError
                       end) (pb_params pb) hints = Ok h) as Hfold.
      { induction Hparams as [| kv l Hkv _ IH]; intros hints; [by eexists |].
        rewrite pyfold_cons. destruct Hkv as [-> | [d ->]]; cbn; [apply IH |].
        destruct (String.eqb _ _); apply IH. }
      destruct (Hfold []) as [h ->]. by eexists. }
  apply pymap_ok in Hok as [ms Hms].
  destruct kept as [| k0 kept']; [done |].
  rewrite concat_app, pymap_app, Hms. cbn [pybind concat app pymap].
  by rewrite instantiate_background_none.
Qed.

End Facts.

(** * The whole function *)

Section Whole.
Context {F : Type} {Fops : ScalarOps F} {L : Lmfit F} {E : PatternedEnv F}.

(** Every iteration assigns one cell of the results. *)
Lemma patterned_step_inv dims (stray : option F) background
    (st st' : PatternedState F) (item : list (string * F) * Grid F F) :
  patterned_step dims stray background st item = Ok st' ->
  exists cell, loc_set (pt_results st) (fst item) cell = Ok (pt_results st').
Proof.
  unfold patterned_step.
  destruct (pymap (resolve_band _ _ _ _) _) as [resolved |]; [| done].
  cbn [pybind]. destruct (pymap _instantiate_band _) as [[| m ms] |]; [| | done];
    cbn [pybind]; intros H; py_inv H; inv_res; by eexists.
Qed.

Lemma patterned_step_shape dims (stray : option F) background
    (st st' : PatternedState F) (item : list (string * F) * Grid F F) :
  patterned_step dims stray background st item = Ok st' ->
  g_dims (pt_results st') = g_dims (pt_results st)
  /\ g_coords (pt_results st') = g_coords (pt_results st)
  /\ (grid_wf (pt_results st) -> grid_wf (pt_results st')).
Proof.
  intros [cell Hloc]%patterned_step_inv.
  destruct (loc_set_shape _ _ _ _ Hloc) as [-> ->].
  split; [done | split; [done |]]. intros Hwf. by eapply loc_set_wf.
Qed.

(** The grid of results [fit_patterned_bands] builds has the
    dimensions and the ticks of the spectrum summed over the fit
    direction, whether it is returned alone or inside the dataset; in
    the dataset the residual has the dimensions and the ticks of the
    spectrum. *)
Theorem fit_patterned_bands_shape (arr : Grid F F)
    (band_set : list (string * BandSetValues F)) (fit_direction : string)
    (stray : option F) (background interactive dataset : bool)
    (r : patterned_result F) :
  fit_patterned_bands arr band_set fit_direction stray background interactive
                      dataset = Ok r ->
  exists template,
    sum_dim arr fit_direction = Ok template
    /\ match r with
       | ResultsOnly g =>
           dataset = false
           /\ g_dims g = g_dims template /\ g_coords g = g_coords template
       | Dataset d =>
           dataset = true
           /\ g_dims (ds_results d) = g_dims template
           /\ g_coords (ds_results d) = g_coords template
           /\ ds_data d = arr
       end.
Proof.
  unfold fit_patterned_bands. intros H. py_head H.
  apply gen_for_inv in R2 as (items & _ & Hfold).
  assert (g_dims (pt_results a2) = g_dims a0
          /\ g_coords (pt_results a2) = g_coords a0) as [Hd Hc].
  { set (st0 := {| pt_results := empty_like a0; pt_band_set := band_set |}) in *.
    change (g_dims a0) with (g_dims (pt_results st0)).
    change (g_coords a0) with (g_coords (pt_results st0)).
    clearbody st0. revert st0 Hfold.
    induction items as [| item items IH]; intros st0.
    - rewrite pyfold_nil. intros. by inv_res.
    - rewrite pyfold_cons. destruct item as [item |]; [| done]. cbn [pybind].
      destruct (patterned_step _ _ _ st0 item) as [st1 |] eqn:E1; [| done].
      cbn [pybind]. intros [-> ->]%IH.
      by destruct (patterned_step_shape _ _ _ _ _ _ E1) as (-> & -> & _). }
  exists a0. split; [done |].
  destruct dataset; cbn [negb] in H; py_head H; inv_res; by cbn.
Qed.

End Whole.

(** * The worked sweep *)

Section Examples.
Local Open Scope string_scope.
#[local] Existing Instance ex_lmfit.
#[local] Existing Instance ex_env.

Lemma build_params_window_witness :
  exists params',
    _build_params [] 3%Q (Some 1%Q) None = Ok params'
    /\ hint_of params' "center" "value" = Some 3%Q
    /\ hint_of params' "center" "min" = Some (3 - 1)%Q
    /\ hint_of params' "center" "max" = Some (3 + 1)%Q
    /\ hint_of params' "sigma" "value" = Some 1%Q.
Proof.
  exact (build_params_window (F:=Q) (E:=ex_env) [] 3%Q 1%Q
           (fun x H => eq_ind None (fun o => match o with
                                             | None => True
                                             | Some _ => False
                                             end) I _ H)).
Defined.

Lemma resolve_band_last_center_witness :
  exists coord coord_index locations last_location,
    _interpolate_intersecting_fragments coord coord_index
      (default [] (bs_points (ex_description [[0; 10]; [2; 20]; [0; 30]]%Q)))
    = Ok locations
    /\ last locations = Some last_location
    /\ length (fst ex_resolved) = length locations
    /\ Forall (fun pb => hint_of (pb_params pb) "center" "value"
                         = Some (snd last_location)) (fst ex_resolved).
Proof.
  apply (resolve_band_last_center ["eV"; "kp"] None [("eV", 1%Q)]
           {| g_dims := ["kp"]; g_coords := [[10; 20]%Q]; g_cells := [3; 4]%Q |}
           (ex_description [[0; 10]; [2; 20]; [0; 30]]%Q) (snd ex_resolved));
    by vm_compute.
Defined.

Lemma patterned_step_no_band_witness :
  patterned_step ["eV"; "kp"] None (Some AffineBackgroundBand)
    {| pt_results := empty_like (mkGrid ["eV"] [[0; 1; 2]%Q] [0; 0; 0]%Q);
       pt_band_set := ex_band_set |}
    ([("eV", 2%Q)], {| g_dims := ["kp"]; g_coords := [[10; 20]%Q];
                       g_cells := [5; 6]%Q |})
  = (let* results :=
       loc_set (empty_like (mkGrid ["eV"] [[0; 1; 2]%Q] [0; 0; 0]%Q))
               [("eV", 2%Q)] None in
     Ok {| pt_results := results;
           pt_band_set := combine (dict_keys ex_band_set)
                                  [ex_description [[0; 10]; [1; 20]]%Q] |})%py.
Proof.
  apply (patterned_step_no_band ["eV"; "kp"] None (Some AffineBackgroundBand)
           {| pt_results := empty_like (mkGrid ["eV"] [[0; 1; 2]%Q] [0; 0; 0]%Q);
              pt_band_set := ex_band_set |}
           ([("eV", 2%Q)], {| g_dims := ["kp"]; g_coords := [[10; 20]%Q];
                              g_cells := [5; 6]%Q |})
           [(@nil (PartialBand Q), ex_description [[0; 10]; [1; 20]]%Q)]);
    [by vm_compute | by repeat constructor].
Defined.

Lemma patterned_step_background_false_witness :
  patterned_step ["eV"; "kp"] None None
    {| pt_results := empty_like (mkGrid ["eV"] [[0; 1; 2]%Q] [0; 0; 0]%Q);
       pt_band_set := [("a", ex_description [[0; 10]; [2; 20]; [0; 30]]%Q)] |}
    ([("eV", 1%Q)], {| g_dims := ["kp"]; g_coords := [[10; 20]%Q];
                       g_cells := [3; 4]%Q |})
  = Raise TypeError.
Proof.
  apply (patterned_step_background_false _ _ _ _ [ex_resolved]).
  - by vm_compute.
  - left. by vm_compute.
  - vm_compute. repeat constructor; try (by eexists); right; by eexists.
Defined.

Lemma fit_patterned_bands_shape_witness :
  exists template,
    sum_dim ex_spectrum "kp" = Ok template
    /\ match ResultsOnly (empty_like (mkGrid ["eV"] [[0; 1; 2]%Q] [0; 0; 0]%Q)) with
       | ResultsOnly g =>
           false = false
           /\ g_dims g = g_dims template /\ g_coords g = g_coords template
       | Dataset d =>
           false = true
           /\ g_dims (ds_results d) = g_dims template
           /\ g_coords (ds_results d) = g_coords template
           /\ ds_data d = ex_spectrum
       end.
Proof.
  apply (fit_patterned_bands_shape ex_spectrum [] "kp" None true false false).
  by vm_compute.
Defined.

(** Between the control points (0, 1) and (1, 2) a slice at
    one half gets the centre three halves, and a slice at 2, outside the
    bracket, gets no partial band. *)
Example resolve_bracketing :
  (let* r := resolve_partial_bands_from_description ["eV"; "kp"] None
               [("eV", (1 # 2)%Q)] None (ex_description [[0; 1]; [1; 2]]%Q) in
   Ok (fst r, Qred <$> hint_of (snd r) "center" "value"))%py
  = Ok (["a_0"], Some (3 # 2)%Q)
  /\ resolve_partial_bands_from_description ["eV"; "kp"] None
       [("eV", 2%Q)] None (ex_description [[0; 1]; [1; 2]]%Q)
     = Ok ([], []).
Proof. by vm_compute. Qed.

(** A band that bends back meets the slice at energy 1 at the
    momenta 15 and 25; both of its partial bands are given the centre
    25. *)
Example resolve_band_bends_back :
  (let* r := resolve_band ["eV"; "kp"] None [("eV", 1%Q)]
               {| g_dims := ["kp"]; g_coords := [[10; 20]%Q]; g_cells := [3; 4]%Q |}
               (ex_description [[0; 10]; [2; 20]; [0; 30]]%Q) in
   Ok (map (fun pb => (pb_name pb, Qred <$> hint_of (pb_params pb) "center" "value"))
           (fst r)))%py
  = Ok [("a_0", Some 25%Q); ("a_1", Some 25%Q)].
Proof. by vm_compute. Qed.

(** A sweep over three slices with control points that
    bracket the first two: these are fitted from the interpolated
    centres 10 and 20 together with the background, and the third gets
    [None]. *)
Example fit_patterned_bands_sweep :
  patterned_values
    (fit_patterned_bands ex_spectrum ex_band_set "kp" None true false false)
  = Ok [Some [("a_0amplitude", 1%Q); ("a_0center", 11%Q); ("a_0sigma", 1%Q);
              ("slope", 1%Q); ("const", 1%Q)];
        Some [("a_0amplitude", 1%Q); ("a_0center", 21%Q); ("a_0sigma", 1%Q);
              ("slope", 1%Q); ("const", 1%Q)];
        None].
Proof. by vm_compute. Qed.

(** The residual of the dataset holds the residual of every
    fit and zero along the slice that has none. *)
Example fit_patterned_bands_residual :
  (let* r := fit_patterned_bands ex_spectrum ex_band_set "kp" None true false true in
   match r with
   | Dataset d => Ok (g_cells (ds_residual d))
   | ResultsOnly _ => Raise TypeError
   end)%py
  = Ok [1; 2; 3; 4; 0; 0]%Q.
Proof. by vm_compute. Qed.

(** The same sweep with [background=False] raises
    [TypeError] at the first slice. *)
Example fit_patterned_bands_background_false :
  fit_patterned_bands ex_spectrum ex_band_set "kp" None false false false
  = Raise TypeError.
Proof. by vm_compute. Qed.

End Examples.
