(* ===== verification/Identity.v ===== *)
(** * Band identity resolution and extraction

    [unpack_bands_from_fit] of [src/arpes/analysis/band_analysis.py].
    The function walks over a grid of fit results.  At each cell it looks
    among the cells already labelled for the one whose coordinate has the
    smallest dot product with the current coordinate, builds the matrix of
    Euclidean distances between the weighted parameter vectors of the
    current components and those of the reference, searches all
    permutations of the band indices for the first one of minimum trace,
    and records the prefixes of the reference in that order.  At the end
    it reads, for every band index and every cell, the parameters under
    the recorded prefix.

    The state of the loop is the record [State]; one iteration is
    [unpack_step]; the whole function is [unpack_bands_from_fit]. *)

From stdpp Require Import prelude strings.
From Stdlib Require Import Permutation QArith Lqa.
From S2P Require Import Prelude PyDict Itertools Arrays Params.

Close Scope Q_scope.

(** * Definitions *)

Section Defs.
Context {F : Type} {Fops : ScalarOps F}.

(** [scipy.spatial.distance.euclidean]. *)
Definition euclidean (u v : list F) : F :=
  s_sqrt (s_sum (zip_with (fun a b => ((a - b) * (a - b))%sc) u v)).

(** The inner function [as_vector]: the fitted sigma, amplitude and
    center of the component [prefix], weighted and damped by their
    standard errors. *)
Definition as_vector (weights : F * F * F) (model_fit : option (ModelResult F))
    (prefix : string) : pyres (list F) :=
  (let* r := or_raise AttributeError model_fit in
   let* ps := pymap (fun n => dict_item (mr_params r) (String.append prefix n))
                    ["sigma"; "amplitude"; "center"]%string in
   let* stderr := pymap (fun p => or_raise TypeError (p_stderr p)) ps in
   let '(w0, w1, w2) := weights in
   Ok (zip_with (fun vw e => (vw / (1 + e))%sc)
         (zip_with s_mul (map p_value ps) [w0; w1; w2]) stderr))%py.

(** A labelled cell: the prefixes in band order, and the fit. *)
Definition Identified : Type := list string * option (ModelResult F).

(** The search for the reference: the first entry, in insertion order,
    with the strictly smallest dot product. *)
Definition closest_identified (identified : list (list F * Identified))
    (frozen_coord : list F) : option Identified :=
  fst (argmin_loop (fun kv => dot (fst kv) frozen_coord)
                   (fun kv => Some (snd kv)) identified (None, None)).

(** [dist_mat]: rows are the components of the current fit, columns the
    bands of the reference. *)
Definition dist_entry (weights : F * F * F) (prefixes : list string)
    (fit_result : option (ModelResult F)) (closest : Identified)
    (i j : nat) : pyres F :=
  (let* pi := py_index prefixes (Z.of_nat i) in
   let* u := as_vector weights fit_result pi in
   let* cj := py_index (fst closest) (Z.of_nat j) in
   let* v := as_vector weights (snd closest) cj in
   Ok (euclidean u v))%py.

Definition dist_mat (weights : F * F * F) (prefixes : list string)
    (fit_result : option (ModelResult F)) (closest : Identified)
    : pyres (list (list F)) :=
  let k := length prefixes in
  pymap (fun i => pymap (dist_entry weights prefixes fit_result closest i)
                        (seq 0 k))
        (seq 0 k).

Definition mat_at (m : list (list F)) (i j : nat) : F :=
  default s_zero (m !! i ≫= (.!! j)).

(** [sum(dist_mat[i, p_i] for i, p_i in enumerate(p))]. *)
Definition trace (m : list (list F)) (p : list nat) : F :=
  s_sum (map (fun ip => mat_at m (fst ip) (snd ip)) (enumerate p)).

(** The permutation search. *)
Definition best_arrangement (k : nat) (m : list (list F)) : list nat :=
  fst (argmin_loop (trace m) id (permutations (seq 0 k)) (seq 0 k, None)).

(** [[closest_prefixes[p_i] for p_i in best_arrangement]]. *)
Definition ordered_prefixes (closest_prefixes : list string)
    (arrangement : list nat) : pyres (list string) :=
  pymap (fun p_i => py_index closest_prefixes (Z.of_nat p_i)) arrangement.

(** The variables of the loop.  [identified_band_results] holds the
    cells assigned so far, in iteration order. *)
Record State : Type := mkState {
  identified_by_coordinate : list (list F * Identified);
  first_coordinate : option (list (string * F));
  identified_band_results : list (list string)
}.

Definition initial_state : State :=
  {| identified_by_coordinate := [];
     first_coordinate := None;
     identified_band_results := [] |}.

(** The prefixes of a fit's components. *)
Definition component_prefixes (r : ModelResult F) : list string :=
  map model_prefix (components (mr_model r)).

(** The reference of a cell: the closest labelled cell or, when no cell
    is labelled yet, the cell itself under the prefixes of its own
    components, which is then recorded. *)
Definition find_reference (st : State) (frozen_coord : list F)
    (coordinate : list (string * F)) (fit_result : option (ModelResult F))
    : pyres (option (list (string * F)) * Identified
             * list (list F * Identified)) :=
  match closest_identified (identified_by_coordinate st) frozen_coord with
  | Some c => Ok (first_coordinate st, c, identified_by_coordinate st)
  | None =>
      (let* r := or_raise AttributeError fit_result in
       let c := (component_prefixes r, fit_result) in
       Ok (Some coordinate, c,
           dict_set (identified_by_coordinate st) frozen_coord c))%py
  end.

(** One iteration of the main loop. *)
Definition unpack_step (weights : F * F * F) (prefixes dims : list string)
    (st : State) (item : list (string * F) * option (ModelResult F))
    : pyres State :=
  (let coordinate := fst item in
   let fit_result := snd item in
   let* frozen_coord := frozen dims coordinate in
   let* found := find_reference st frozen_coord coordinate fit_result in
   let closest := snd (fst found) in
   let* m := dist_mat weights prefixes fit_result closest in
   let arrangement := best_arrangement (length prefixes) m in
   let* ordered := ordered_prefixes (fst closest) arrangement in
   Ok {| identified_by_coordinate :=
           dict_set (snd found) frozen_coord (ordered, fit_result);
         first_coordinate := fst (fst found);
         identified_band_results := identified_band_results st ++ [ordered] |})%py.

(** The loop over [enumerate_dataarray]. *)
Definition unpack_loop (weights : F * F * F) (prefixes dims : list string)
    (items : list (list (string * F) * option (ModelResult F)))
    (st : State) : pyres State :=
  pyfold (unpack_step weights prefixes dims) items st.

(** [band_results.values[0].model.components]: the first entry along the
    first axis must itself be a fit result. *)
Definition template_prefixes (g : Grid F (option (ModelResult F)))
    : pyres (list string) :=
  match g_coords g with
  | [] => Raise IndexError
  | [_] =>
      (let* c := py_index (g_cells g) 0 in
       let* r := or_raise AttributeError c in
       Ok (component_prefixes r))%py
  | ticks :: _ =>
      match ticks with
      | [] => Raise IndexError
      | _ => Raise AttributeError
      end
  end.

(** The inner function [dataarray_for_value]. *)
Definition dataarray_for_value (cells : list (option (ModelResult F)))
    (identified : list (list string)) (param_name : string) (i : nat)
    (is_value : bool) : pyres (list F) :=
  pymap (fun c =>
    (let* prefix := py_index (snd c) (Z.of_nat i) in
     let* r := or_raise AttributeError (fst c) in
     let* param := dict_item (mr_params r) (String.append prefix param_name) in
     if is_value then Ok (p_value param)
     else or_raise TypeError (p_stderr param))%py)
    (combine cells identified).

(** [arpes.models.band.Band] with the six arrays of its dataset. *)
Record Band : Type := mkBand {
  b_label : string;
  b_center : list F;
  b_center_stderr : list F;
  b_amplitude : list F;
  b_amplitude_stderr : list F;
  b_sigma : list F;
  b_sigma_stderr : list F
}.

Definition extract_band (cells : list (option (ModelResult F)))
    (identified : list (list string)) (i : nat) : pyres Band :=
  (let* first := py_index identified 0 in
   let* label := py_index first (Z.of_nat i) in
   let* c := dataarray_for_value cells identified "center" i true in
   let* ce := dataarray_for_value cells identified "center" i false in
   let* a := dataarray_for_value cells identified "amplitude" i true in
   let* ae := dataarray_for_value cells identified "amplitude" i false in
   let* s := dataarray_for_value cells identified "sigma" i true in
   let* se := dataarray_for_value cells identified "sigma" i false in
   Ok {| b_label := label; b_center := c; b_center_stderr := ce;
         b_amplitude := a; b_amplitude_stderr := ae;
         b_sigma := s; b_sigma_stderr := se |})%py.

(** The first half of the function: the template and the labelling. *)
Definition identify (band_results : Grid F (option (ModelResult F)))
    (weights : F * F * F) : pyres (list string * State) :=
  (let* prefixes := template_prefixes band_results in
   let* st := unpack_loop weights prefixes (g_dims band_results)
                (enumerate_dataarray band_results) initial_state in
   Ok (prefixes, st))%py.

Definition unpack_bands_from_fit (band_results : Grid F (option (ModelResult F)))
    (weights : F * F * F) : pyres (list Band) :=
  (let* found := identify band_results weights in
   pymap (extract_band (g_cells band_results)
            (identified_band_results (snd found)))
         (seq 0 (length (fst found))))%py.

(** The default [weights=(2, 0, 10)]. *)
Definition default_weights : F * F * F :=
  (s_of_Z 2, s_of_Z 0, s_of_Z 10).

End Defs.

Arguments State F : clear implicits.
Arguments Band F : clear implicits.
Arguments Identified F : clear implicits.

(** * Predicates of the statements *)

Section Predicates.
Context {F : Type} {Fops : ScalarOps F}.
Implicit Types (st : State F) (prefixes : list string).

(** The invariant of the loop: every label list recorded so far is a
    permutation of the template's prefixes. *)
Definition labelled prefixes st : Prop :=
  Forall (fun e => Permutation prefixes (fst (snd e)))
         (identified_by_coordinate st)
  /\ Forall (Permutation prefixes) (identified_band_results st).

(** The parameter [name] was fitted and has a standard error. *)
Definition param_complete (r : ModelResult F) (name : string) : bool :=
  match dict_get (mr_params r) name with
  | Some p => match p_stderr p with Some _ => true | None => false end
  | None => false
  end.

(** The cell holds a fit with the sigma, amplitude and center of every
    prefix, each with a standard error. *)
Definition fit_complete prefixes (fit : option (ModelResult F)) : bool :=
  match fit with
  | None => false
  | Some r =>
      forallb (fun p => forallb (fun n => param_complete r (String.append p n))
                                ["sigma"; "amplitude"; "center"]%string)
              prefixes
  end.

(** Every labelled cell holds a complete fit. *)
Definition complete_state prefixes st : Prop :=
  Forall (fun e => fit_complete prefixes (snd (snd e)) = true)
         (identified_by_coordinate st).

(** The fit has no width for the component [p]. *)
Definition no_sigma (r : ModelResult F) (p : string) : Prop :=
  dict_get (mr_params r) (String.append p "sigma") = None.

(** The six arrays of a band have one entry per cell. *)
Definition band_shape (n : nat) (b : Band F) : Prop :=
  length (b_center b) = n /\ length (b_center_stderr b) = n
  /\ length (b_amplitude b) = n /\ length (b_amplitude_stderr b) = n
  /\ length (b_sigma b) = n /\ length (b_sigma_stderr b) = n.

End Predicates.

(** * A worked sweep *)

(** Grids of two and three peaks along one axis, on which the functions
    are evaluated. *)
Section ExampleData.
Local Open Scope string_scope.

(** A fit of two peaks with centres [ca] and [cb]. *)
Definition ex_fit2 (ca cb : Q) : option (ModelResult Q) :=
  Some {| mr_model := Composite (ex_peak "a_") (ex_peak "b_") OpAdd 1;
          mr_params := ex_params "a_" ca ++ ex_params "b_" cb;
          mr_best_fit := []; mr_residual := [] |}.

(** A fit of three peaks. *)
Definition ex_fit3 (ca cb cc : Q) : option (ModelResult Q) :=
  Some {| mr_model := Composite (Composite (ex_peak "a_") (ex_peak "b_") OpAdd 1)
                                (ex_peak "c_") OpAdd 1;
          mr_params := ex_params "a_" ca ++ ex_params "b_" cb
                       ++ ex_params "c_" cc;
          mr_best_fit := []; mr_residual := [] |}.

Definition ex_grid (ticks : list Q) (cells : list (option (ModelResult Q)))
    : Grid Q (option (ModelResult Q)) :=
  {| g_dims := ["eV"]; g_coords := [ticks]; g_cells := cells |}.

(** The peaks cross between the first and the second cell. *)
Definition ex_crossing : Grid Q (option (ModelResult Q)) :=
  ex_grid [1; 2; 3]%Q [ex_fit2 0 5; ex_fit2 5 0; ex_fit2 (1 # 2) 5].

(** The label and the centres of each band, in lowest terms. *)
Definition centers (r : pyres (list (Band Q)))
    : pyres (list (string * list Q)) :=
  (let* bands := r in
   Ok (map (fun b => (b_label b, map Qred (b_center b))) bands))%py.

Definition ex_bands : list (Band Q) :=
  match unpack_bands_from_fit ex_crossing default_weights with
  | Ok bands => bands
  | Raise _ => []
  end.

Definition ex_state : State Q :=
  match identify ex_crossing default_weights with
  | Ok found => snd found
  | Raise _ => initial_state
  end.

Definition ex_mat : list (list Q) := [[0; 5]; [5; 0]]%Q.

(** A fit of one peak on a background that has a slope and a constant. *)
Definition ex_background_fit : ModelResult Q :=
  {| mr_model := Composite (ex_peak "a_")
                           (Basic "bkg_" ["slope"; "const"] 1 (fun _ x => x))
                           OpAdd 1;
     mr_params := ex_params "a_" 1
                  ++ [("bkg_slope", ex_param 0); ("bkg_const", ex_param 0)];
     mr_best_fit := []; mr_residual := [] |}.

Definition ex_with_background : Grid Q (option (ModelResult Q)) :=
  ex_grid [1; 2]%Q [Some ex_background_fit; Some ex_background_fit].


End ExampleData.

(** * The permutation search *)

Section Search.
Context {F : Type} {Fops : ScalarOps F}.

Lemma permutations_seq_nonempty (k : nat) : permutations (seq 0 k) <> [].
Proof.
  unfold permutations. destruct (perms_n_head (seq 0 k)) as (t & E).
  by rewrite E.
Qed.

(** Whatever the distances are, the arrangement the search
    returns is a permutation of the band indices [0 .. k-1]: no index is
    invented and none is dropped. *)
Theorem best_arrangement_permutation (k : nat) (m : list (list F)) :
  Permutation (seq 0 k) (best_arrangement k m).
Proof.
  unfold best_arrangement.
  destruct (argmin_loop_In (trace m) id (permutations (seq 0 k))
              (seq 0 k, None)) as [E | (p & Hp & E)]; rewrite E; [done |].
  by apply permutations_Permutation.
Qed.

Lemma best_arrangement_length (k : nat) (m : list (list F)) :
  length (best_arrangement k m) = k.
Proof.
  rewrite <- (Permutation_length (best_arrangement_permutation k m)).
  apply length_seq.
Qed.

Lemma best_arrangement_bound (k : nat) (m : list (list F)) (i : nat) :
  In i (best_arrangement k m) -> i < k.
Proof.
  intros Hin.
  apply (Permutation_in _ (Permutation_sym (best_arrangement_permutation k m)))
    in Hin.
  apply in_seq in Hin. lia.
Qed.

Context {Ford : ScalarOrder F}.

(** The state of the search when it ends. *)
Lemma best_arrangement_at (k : nat) (m : list (list F)) :
  argmin_at (trace m) id (permutations (seq 0 k))
    (best_arrangement k m, Some (trace m (best_arrangement k m))).
Proof.
  unfold best_arrangement.
  pose proof (argmin_loop_spec (trace m) id (permutations (seq 0 k))
                (seq 0 k) (permutations_seq_nonempty k)) as Hat.
  destruct Hat as [l1 p l2 E H1 H2]. cbn [fst id].
  by apply (argmin_at_intro (trace m) id _ l1 p l2).
Qed.

(** Claim C2. The arrangement returned has minimum trace: no permutation
    of the band indices has a strictly smaller sum of matched
    distances. *)
Theorem best_arrangement_minimal (k : nat) (m : list (list F)) (p : list nat) :
  Permutation (seq 0 k) p ->
  s_ltb (trace m p) (trace m (best_arrangement k m)) = false.
Proof.
  intros Hp. eapply argmin_at_minimal; [apply best_arrangement_at |].
  by apply permutations_complete.
Qed.

(** Claim C10. Ties go to the first permutation in the order of
    [itertools.permutations]: every permutation enumerated before the
    one returned has a strictly larger trace. *)
Theorem best_arrangement_first (k : nat) (m : list (list F)) :
  exists l1 l2,
    permutations (seq 0 k) = l1 ++ best_arrangement k m :: l2
    /\ Forall (fun q => s_ltb (trace m (best_arrangement k m)) (trace m q) = true) l1
    /\ Forall (fun q => s_ltb (trace m q) (trace m (best_arrangement k m)) = false) l2.
Proof.
  pose proof (best_arrangement_at k m) as Hat.
  inversion Hat as [l1 p l2 E H1 H2 [E1 E2]]. cbn in E1. subst p.
  by exists l1, l2.
Qed.

End Search.

(** * Labels *)

Section Labels.
Context {F : Type} {Fops : ScalarOps F}.
Implicit Types (st : State F) (prefixes dims : list string).

Lemma ordered_prefixes_ok (closest_prefixes : list string) (p : list nat) :
  Forall (fun i => i < length closest_prefixes) p ->
  ordered_prefixes closest_prefixes p
  = Ok (map (fun i => default ""%string (closest_prefixes !! i)) p).
Proof.
  intros Hp. apply pymap_map. eapply Forall_impl; [exact Hp |].
  cbn. intros i Hi. rewrite py_index_nat.
  destruct (lookup_lt_is_Some_2 closest_prefixes i Hi) as [x Hx].
  by rewrite Hx.
Qed.

(** Reading the reference's prefixes through a permutation of
    their positions succeeds and gives a permutation of these prefixes:
    none is invented and none is dropped. *)
Theorem ordered_prefixes_permutation (closest_prefixes : list string)
    (p : list nat) :
  Permutation (seq 0 (length closest_prefixes)) p ->
  exists l, ordered_prefixes closest_prefixes p = Ok l
            /\ Permutation closest_prefixes l.
Proof.
  intros Hp. eexists. split.
  - apply ordered_prefixes_ok, Forall_forall. intros i Hi%list_elem_of_In.
    apply (Permutation_in _ (Permutation_sym Hp)), in_seq in Hi. lia.
  - rewrite <- Hp. by rewrite map_lookup_seq.
Qed.

Lemma closest_identified_In (identified : list (list F * Identified F))
    (fc : list F) (c : Identified F) :
  closest_identified identified fc = Some c -> exists k, In (k, c) identified.
Proof.
  unfold closest_identified.
  destruct (argmin_loop_In (fun kv => dot (fst kv) fc)
              (fun kv => Some (snd kv)) identified (None, None))
    as [E | ([k c'] & Hin & E)]; rewrite E; [done |].
  intros. inv_res. by exists k.
Qed.

Lemma closest_identified_nonempty (identified : list (list F * Identified F))
    (fc : list F) :
  identified <> [] -> is_Some (closest_identified identified fc).
Proof.
  destruct identified as [| kv rest]; [done | intros _].
  unfold closest_identified. rewrite argmin_loop_cons.
  destruct (argmin_loop_In (fun kv => dot (fst kv) fc)
              (fun kv => Some (snd kv)) rest
              (argmin_step (fun kv => dot (fst kv) fc)
                 (fun kv => Some (snd kv)) (None, None) kv))
    as [E | (x & _ & E)]; rewrite E; eauto.
Qed.

Lemma find_reference_inv st (fc : list F) (coordinate : list (string * F))
    (fit_result : option (ModelResult F)) first closest identified :
  find_reference st fc coordinate fit_result = Ok (first, closest, identified) ->
  (In closest (map snd (identified_by_coordinate st))
   /\ identified = identified_by_coordinate st
   /\ first = first_coordinate st)
  \/ (identified_by_coordinate st = []
      /\ (exists r, fit_result = Some r /\ closest = (component_prefixes r, Some r))
      /\ identified = [(fc, closest)]
      /\ first = Some coordinate).
Proof.
  unfold find_reference.
  destruct (closest_identified (identified_by_coordinate st) fc)
    as [c |] eqn:Ec.
  - intros. inv_res. left.
    destruct (closest_identified_In _ _ _ Ec) as (k & Hin).
    split; [| done]. apply in_map_iff. by exists (k, closest).
  - destruct fit_result as [r |]; [| done]. cbn. intros. inv_res. right.
    assert (identified_by_coordinate st = []) as Hnil.
    { destruct (identified_by_coordinate st) eqn:Ei; [done |].
      destruct (closest_identified_nonempty (identified_by_coordinate st) fc)
        as [x Hx]; [by rewrite Ei | congruence]. }
    rewrite Hnil. split_and!; eauto.
Qed.

(** One iteration keeps the invariant, provided that a cell that becomes
    its own reference is fitted with the template's components. *)
Lemma unpack_step_labelled (weights : F * F * F) prefixes dims st
    (item : list (string * F) * option (ModelResult F)) st' :
  labelled prefixes st ->
  (identified_by_coordinate st = [] ->
   forall r, snd item = Some r -> component_prefixes r = prefixes) ->
  unpack_step weights prefixes dims st item = Ok st' ->
  labelled prefixes st'
  /\ identified_by_coordinate st' <> []
  /\ length (identified_band_results st')
     = S (length (identified_band_results st)).
Proof.
  intros [Hid Hres] Hfirst E. unfold unpack_step in E. py_inv E. inv_res.
  destruct a0 as [[first closest] identified]. cbn [fst snd] in *.
  assert (Permutation prefixes (fst closest)
          /\ Forall (fun e => Permutation prefixes (fst (snd e))) identified)
    as [Hc Hident].
  { apply find_reference_inv in R0
      as [(Hin & -> & _) | (Hnil & (r & Hr & ->) & -> & _)].
    - split; [| done]. apply in_map_iff in Hin as (e & <- & Hin).
      rewrite Forall_forall in Hid. by apply Hid, list_elem_of_In.
    - cbn. rewrite (Hfirst Hnil r Hr). by repeat constructor. }
  destruct (ordered_prefixes_permutation (fst closest)
              (best_arrangement (length prefixes) a1)) as (l & El & Hl).
  { rewrite <- (Permutation_length Hc). apply best_arrangement_permutation. }
  rewrite El in R2. inv_res. cbn. split_and!.
  - split; cbn.
    + apply (dict_set_Forall_values (fun v => Permutation prefixes (fst v)));
        [done | by rewrite Hc].
    + apply Forall_app. split; [done |]. repeat constructor. by rewrite Hc.
  - apply dict_set_nonempty.
  - rewrite length_app. cbn. lia.
Qed.

Lemma unpack_loop_labelled (weights : F * F * F) prefixes dims
    (items : list (list (string * F) * option (ModelResult F))) st st' :
  labelled prefixes st ->
  (identified_by_coordinate st = [] ->
   forall item r, head items = Some item -> snd item = Some r ->
                  component_prefixes r = prefixes) ->
  unpack_loop weights prefixes dims items st = Ok st' ->
  labelled prefixes st'
  /\ length (identified_band_results st')
     = length (identified_band_results st) + length items.
Proof.
  unfold unpack_loop. revert st.
  induction items as [| item items IH]; intros st Hlab Hfirst.
  - rewrite pyfold_nil. intros. inv_res. split; [done | cbn; lia].
  - rewrite pyfold_cons. intros E. py_inv E.
    apply unpack_step_labelled in R as (Hlab1 & Hne & Hlen); [| done |].
    + apply IH in E as [Hlab' Hlen']; [| done | done].
      split; [done |]. rewrite Hlen', Hlen. cbn. lia.
    + intros Hnil r Hr. by apply (Hfirst Hnil item r).
Qed.

Lemma initial_state_labelled prefixes :
  labelled prefixes (initial_state : State F).
Proof. split; constructor. Qed.

Lemma template_prefixes_head (g : Grid F (option (ModelResult F))) prefixes
    (item : list (string * F) * option (ModelResult F)) (r : ModelResult F) :
  template_prefixes g = Ok prefixes ->
  head (enumerate_dataarray g) = Some item -> snd item = Some r ->
  component_prefixes r = prefixes.
Proof.
  intros R Hhead%enumerate_dataarray_head Hr.
  unfold template_prefixes in R. destruct (g_coords g) as [| t [| t' ts]];
    [done | | by destruct t].
  rewrite (py_index_nat _ 0) in R. destruct (g_cells g) as [| c cs]; [done |].
  cbn in Hhead, R. inv_res. rewrite Hr in R. cbn in R. by inv_res.
Qed.

(** When the labelling succeeds the invariant of the loop holds of its
    final state, and the loop has run once per cell. *)
Lemma identify_labelled (g : Grid F (option (ModelResult F)))
    (weights : F * F * F) prefixes st :
  identify g weights = Ok (prefixes, st) ->
  labelled prefixes st
  /\ length (identified_band_results st) = length (enumerate_dataarray g).
Proof.
  unfold identify. intros E. py_inv E. inv_res.
  apply unpack_loop_labelled in R0 as [Hlab Hlen];
    [done | apply initial_state_labelled |].
  intros _ item r. by apply template_prefixes_head.
Qed.

(** Claim C3. When the labelling succeeds, every cell of the grid has
    received labels, and the labels of each cell are a permutation of the
    prefixes of the template: the prefixes of the first fit's
    components. *)
Theorem identify_labels (g : Grid F (option (ModelResult F)))
    (weights : F * F * F) prefixes st :
  identify g weights = Ok (prefixes, st) ->
  Forall (Permutation prefixes) (identified_band_results st)
  /\ length (identified_band_results st) = length (enumerate_dataarray g).
Proof.
  intros [[_ Hlab] Hlen]%identify_labelled. by split.
Qed.

End Labels.

(** * Success *)

Section Total.
Context {F : Type} {Fops : ScalarOps F}.
Implicit Types (st : State F) (prefixes dims : list string).

Lemma fit_complete_param prefixes (r : ModelResult F) (p n : string) :
  fit_complete prefixes (Some r) = true -> In p prefixes ->
  In n ["sigma"; "amplitude"; "center"]%string ->
  exists param e, dict_get (mr_params r) (String.append p n) = Some param
                  /\ p_stderr param = Some e.
Proof.
  cbn [fit_complete]. rewrite forallb_forall. intros Hall Hp Hn.
  specialize (Hall p Hp). rewrite forallb_forall in Hall.
  specialize (Hall n Hn). unfold param_complete in Hall.
  destruct (dict_get _ _) as [param |]; [| done].
  destruct (p_stderr param) as [e |] eqn:Ee; [| done]. eauto.
Qed.

Lemma as_vector_ok (weights : F * F * F) prefixes
    (fit : option (ModelResult F)) (p : string) :
  fit_complete prefixes fit = true -> In p prefixes ->
  exists v, as_vector weights fit p = Ok v.
Proof.
  intros Hc Hp. destruct fit as [r |]; [| done].
  destruct (fit_complete_param _ _ p "sigma" Hc Hp) as (ps & es & E1 & E1');
    [cbn; tauto |].
  destruct (fit_complete_param _ _ p "amplitude" Hc Hp) as (pa & ea & E2 & E2');
    [cbn; tauto |].
  destruct (fit_complete_param _ _ p "center" Hc Hp) as (pc & ec & E3 & E3');
    [cbn; tauto |].
  unfold as_vector, dict_item. cbn [or_raise pybind pymap].
  rewrite E1, E2, E3. cbn [or_raise pybind pymap]. rewrite E1', E2', E3'.
  cbn [or_raise]. destruct weights as [[w0 w1] w2]. eauto.
Qed.

Lemma dist_mat_ok (weights : F * F * F) prefixes
    (fit : option (ModelResult F)) (closest : Identified F) :
  fit_complete prefixes fit = true ->
  fit_complete prefixes (snd closest) = true ->
  Permutation prefixes (fst closest) ->
  exists m, dist_mat weights prefixes fit closest = Ok m.
Proof.
  intros Hfit Hclosest Hperm. unfold dist_mat.
  apply pymap_ok, Forall_forall. intros i Hi%list_elem_of_In%in_seq.
  apply pymap_ok, Forall_forall. intros j Hj%list_elem_of_In%in_seq.
  unfold dist_entry. rewrite !py_index_nat.
  destruct (lookup_lt_is_Some_2 prefixes i) as [pi Hpi]; [lia |].
  destruct (lookup_lt_is_Some_2 (fst closest) j) as [cj Hcj].
  { rewrite <- (Permutation_length Hperm). lia. }
  rewrite Hpi, Hcj. cbn [or_raise pybind].
  destruct (as_vector_ok weights prefixes fit pi Hfit) as [u Hu].
  { apply list_elem_of_In. by eapply list_elem_of_lookup_2. }
  destruct (as_vector_ok weights prefixes (snd closest) cj Hclosest) as [v Hv].
  { apply (Permutation_in _ (Permutation_sym Hperm)), list_elem_of_In.
    by eapply list_elem_of_lookup_2. }
  rewrite Hu. cbn [pybind]. rewrite Hv. cbn [pybind]. eauto.
Qed.

Lemma find_reference_ok st (fc : list F) (coordinate : list (string * F))
    (fit : option (ModelResult F)) prefixes :
  complete_state prefixes st -> fit_complete prefixes fit = true ->
  exists found, find_reference st fc coordinate fit = Ok found
    /\ fit_complete prefixes (snd (snd (fst found))) = true
    /\ Forall (fun e => fit_complete prefixes (snd (snd e)) = true) (snd found).
Proof.
  intros Hst Hfit. unfold find_reference.
  destruct (closest_identified _ fc) as [c |] eqn:Ec.
  - eexists. split; [done |]. cbn. split; [| done].
    destruct (closest_identified_In _ _ _ Ec) as (k & Hin).
    unfold complete_state in Hst. rewrite Forall_forall in Hst.
    by apply (Hst (k, c)), list_elem_of_In.
  - destruct fit as [r |]; [| done]. cbn. eexists. split; [done |]. cbn.
    split; [done |].
    by apply (dict_set_Forall_values (fun v => fit_complete prefixes (snd v) = true)).
Qed.

Lemma unpack_step_ok (weights : F * F * F) prefixes dims st
    (item : list (string * F) * option (ModelResult F)) :
  labelled prefixes st -> complete_state prefixes st ->
  (identified_by_coordinate st = [] ->
   forall r, snd item = Some r -> component_prefixes r = prefixes) ->
  fit_complete prefixes (snd item) = true ->
  (exists fc, frozen dims (fst item) = Ok fc) ->
  exists st', unpack_step weights prefixes dims st item = Ok st'
              /\ complete_state prefixes st'.
Proof.
  intros Hlab Hst Hfirst Hfit [fc Hfc]. unfold unpack_step.
  rewrite Hfc. cbn [pybind].
  destruct (find_reference_ok st fc (fst item) (snd item) prefixes Hst Hfit)
    as ([[first closest] identified] & Ef & Hc & Hident).
  rewrite Ef. cbn [pybind fst snd] in *.
  assert (Permutation prefixes (fst closest)) as Hperm.
  { apply find_reference_inv in Ef
      as [(Hin & _) | (Hnil & (r & Hr & ->) & _)].
    - apply in_map_iff in Hin as (e & <- & Hin). destruct Hlab as [Hid _].
      rewrite Forall_forall in Hid. by apply Hid, list_elem_of_In.
    - cbn. by rewrite (Hfirst Hnil r Hr). }
  destruct (dist_mat_ok weights prefixes (snd item) closest Hfit Hc Hperm)
    as [m Hm].
  rewrite Hm. cbn [pybind].
  destruct (ordered_prefixes_permutation (fst closest)
              (best_arrangement (length prefixes) m)) as (l & El & Hl).
  { rewrite <- (Permutation_length Hperm). apply best_arrangement_permutation. }
  rewrite El. cbn [pybind]. eexists. split; [done |].
  unfold complete_state. cbn.
  by apply (dict_set_Forall_values (fun v => fit_complete prefixes (snd v) = true)).
Qed.

Lemma unpack_loop_ok (weights : F * F * F) prefixes dims
    (items : list (list (string * F) * option (ModelResult F))) st :
  labelled prefixes st -> complete_state prefixes st ->
  (identified_by_coordinate st = [] ->
   forall item r, head items = Some item -> snd item = Some r ->
                  component_prefixes r = prefixes) ->
  Forall (fun item => fit_complete prefixes (snd item) = true
                      /\ exists fc, frozen dims (fst item) = Ok fc) items ->
  exists st', unpack_loop weights prefixes dims items st = Ok st'.
Proof.
  unfold unpack_loop. intros Hlab Hst Hfirst Hitems. revert st Hlab Hst Hfirst.
  induction Hitems as [| item items [Hfit Hfc] _ IH]; intros st Hlab Hst Hfirst.
  - by exists st.
  - rewrite pyfold_cons.
    destruct (unpack_step_ok weights prefixes dims st item Hlab Hst)
      as (st1 & E1 & Hst1); [by eauto | done | done |].
    rewrite E1. cbn [pybind].
    apply unpack_step_labelled in E1 as (Hlab1 & Hne & _); [| done | by eauto].
    by apply IH.
Qed.

Lemma dataarray_for_value_ok prefixes (cells : list (option (ModelResult F)))
    (identified : list (list string)) (name : string) (i : nat) (b : bool) :
  Forall (fun c => fit_complete prefixes c = true) cells ->
  Forall (Permutation prefixes) identified ->
  length identified = length cells ->
  i < length prefixes ->
  In name ["sigma"; "amplitude"; "center"]%string ->
  exists l, dataarray_for_value cells identified name i b = Ok l
            /\ length l = length cells.
Proof.
  intros Hcells Hid Hlen Hi Hname.
  destruct (pymap_ok (fun c =>
    (let* prefix := py_index (snd c) (Z.of_nat i) in
     let* r := or_raise AttributeError (fst c) in
     let* param := dict_item (mr_params r) (String.append prefix name) in
     if b then Ok (p_value param)
     else or_raise TypeError (p_stderr param))%py) (combine cells identified))
    as [l Hl].
  - apply Forall_forall. intros [c labels] Hin%list_elem_of_In.
    pose proof (in_combine_l _ _ _ _ Hin) as Hc.
    pose proof (in_combine_r _ _ _ _ Hin) as Hlab.
    rewrite Forall_forall in Hcells. rewrite Forall_forall in Hid.
    apply list_elem_of_In, Hcells in Hc. apply list_elem_of_In, Hid in Hlab.
    cbn [fst snd]. rewrite py_index_nat.
    destruct (lookup_lt_is_Some_2 labels i) as [p Hp].
    { by rewrite <- (Permutation_length Hlab). }
    rewrite Hp. cbn [or_raise pybind]. destruct c as [r |]; [| done].
    cbn [or_raise pybind].
    destruct (fit_complete_param prefixes r p name Hc) as (param & e & E & E');
      [| done |].
    { apply (Permutation_in _ (Permutation_sym Hlab)), list_elem_of_In.
      by eapply list_elem_of_lookup_2. }
    unfold dict_item. rewrite E. cbn [or_raise pybind]. rewrite E'.
    destruct b; eauto.
  - exists l. split; [done |]. apply pymap_length in Hl.
    rewrite Hl, length_combine. lia.
Qed.

Lemma extract_band_ok prefixes (cells : list (option (ModelResult F)))
    (identified : list (list string)) (i : nat) :
  Forall (fun c => fit_complete prefixes c = true) cells ->
  Forall (Permutation prefixes) identified ->
  length identified = length cells -> cells <> [] ->
  i < length prefixes ->
  exists band, extract_band cells identified i = Ok band
               /\ band_shape (length cells) band.
Proof.
  intros Hcells Hid Hlen Hne Hi. unfold extract_band.
  destruct identified as [| first rest]; [by destruct cells |].
  rewrite (py_index_nat _ 0). cbn [lookup list_lookup or_raise pybind].
  rewrite py_index_nat.
  destruct (lookup_lt_is_Some_2 first i) as [label Hlabel].
  { by rewrite <- (Permutation_length (Forall_inv Hid)). }
  rewrite Hlabel. cbn [or_raise pybind].
  destruct (dataarray_for_value_ok prefixes cells (first :: rest) "center" i true)
    as (c & -> & Hc); [done.. | cbn; tauto |].
  destruct (dataarray_for_value_ok prefixes cells (first :: rest) "center" i false)
    as (ce & -> & Hce); [done.. | cbn; tauto |].
  destruct (dataarray_for_value_ok prefixes cells (first :: rest) "amplitude" i true)
    as (a & -> & Ha); [done.. | cbn; tauto |].
  destruct (dataarray_for_value_ok prefixes cells (first :: rest) "amplitude" i false)
    as (ae & -> & Hae); [done.. | cbn; tauto |].
  destruct (dataarray_for_value_ok prefixes cells (first :: rest) "sigma" i true)
    as (sg & -> & Hs); [done.. | cbn; tauto |].
  destruct (dataarray_for_value_ok prefixes cells (first :: rest) "sigma" i false)
    as (se & -> & Hse); [done.. | cbn; tauto |].
  cbn [pybind]. eexists. split; [done |]. by repeat split.
Qed.

Lemma dist_mat_entry (weights : F * F * F) prefixes
    (fit : option (ModelResult F)) (closest : Identified F)
    (m : list (list F)) (i j : nat) :
  dist_mat weights prefixes fit closest = Ok m ->
  i < length prefixes -> j < length prefixes ->
  dist_entry weights prefixes fit closest i j = Ok (mat_at m i j).
Proof.
  unfold dist_mat, mat_at. intros Hm Hi Hj.
  destruct (pymap_lookup _ _ _ i i Hm) as (row & -> & Hrow);
    [by apply lookup_seq_lt |].
  destruct (pymap_lookup _ _ _ j j Hrow) as (y & Hy & ->);
    [by apply lookup_seq_lt |].
  cbn. by rewrite Hy.
Qed.

Lemma unpack_loop_prefix (weights : F * F * F) prefixes dims
    (items : list (list (string * F) * option (ModelResult F))) st st' :
  unpack_loop weights prefixes dims items st = Ok st' ->
  exists more,
    identified_band_results st' = identified_band_results st ++ more.
Proof.
  unfold unpack_loop. revert st. induction items as [| item items IH]; intros st.
  - rewrite pyfold_nil. intros. inv_res. exists []. by rewrite app_nil_r.
  - rewrite pyfold_cons. destruct (unpack_step _ _ _ st item) as [st1 |] eqn:E;
      [| done].
    cbn [pybind]. intros (more & ->)%IH. unfold unpack_step in E. py_inv E.
    inv_res. cbn. rewrite <- app_assoc. eauto.
Qed.

Lemma enumerate_dataarray_frozen {A} (g : Grid F A) :
  grid_wf g ->
  Forall (fun item => exists fc, frozen (g_dims g) (fst item) = Ok fc)
         (enumerate_dataarray g).
Proof.
  intros (Hnd & Hdims & _). apply Forall_forall. intros [c x] Hin%list_elem_of_In.
  apply in_combine_l, in_map_iff in Hin as (t & <- & Ht%product_In).
  exists t. apply frozen_combine; [done |].
  apply Forall2_length in Ht. cbn. lia.
Qed.

(** The template of a row of cells that starts with a fit. *)
Lemma template_prefixes_first (g : Grid F (option (ModelResult F)))
    (ticks : list F) (r : ModelResult F) cells :
  g_coords g = [ticks] -> g_cells g = Some r :: cells ->
  template_prefixes g = Ok (component_prefixes r).
Proof. unfold template_prefixes. by intros -> ->. Qed.

Lemma template_prefixes_cells (g : Grid F (option (ModelResult F))) prefixes :
  template_prefixes g = Ok prefixes -> g_cells g <> [].
Proof.
  unfold template_prefixes. destruct (g_coords g) as [| t [| t' ts]];
    [done | | by destruct t].
  rewrite (py_index_nat _ 0). by destruct (g_cells g).
Qed.

Lemma identify_ok (g : Grid F (option (ModelResult F))) (weights : F * F * F)
    prefixes :
  grid_wf g -> template_prefixes g = Ok prefixes ->
  Forall (fun c => fit_complete prefixes c = true) (g_cells g) ->
  exists st, identify g weights = Ok (prefixes, st).
Proof.
  intros Hwf Htpl Hcells. unfold identify. rewrite Htpl. cbn [pybind].
  destruct (unpack_loop_ok weights prefixes (g_dims g) (enumerate_dataarray g)
              initial_state) as [st ->]; [.. | by exists st].
  - apply initial_state_labelled.
  - constructor.
  - intros _ item r. by apply template_prefixes_head.
  - apply Forall_and. split; [| by apply enumerate_dataarray_frozen].
    by apply (enumerate_dataarray_cells (fun c => fit_complete prefixes c = true)).
Qed.

(** After a labelling of complete fits every band can be extracted. *)
Lemma extract_bands_ok (g : Grid F (option (ModelResult F)))
    (weights : F * F * F) prefixes st :
  grid_wf g -> template_prefixes g = Ok prefixes ->
  Forall (fun c => fit_complete prefixes c = true) (g_cells g) ->
  identify g weights = Ok (prefixes, st) ->
  exists bands,
    pymap (extract_band (g_cells g) (identified_band_results st))
          (seq 0 (length prefixes)) = Ok bands
    /\ length bands = length prefixes
    /\ Forall (band_shape (length (g_cells g))) bands.
Proof.
  intros Hwf Htpl Hcells [[_ Hlab] Hlen]%identify_labelled.
  rewrite enumerate_dataarray_length in Hlen by done.
  destruct (pymap_ok_Forall
              (extract_band (g_cells g) (identified_band_results st))
              (band_shape (length (g_cells g))) (seq 0 (length prefixes)))
    as (bands & -> & Hn & Hshape).
  - apply Forall_forall. intros i Hi%list_elem_of_In%in_seq.
    apply (extract_band_ok prefixes); [done.. | | lia].
    by eapply template_prefixes_cells.
  - exists bands. by rewrite Hn, length_seq.
Qed.


(** A step that succeeds on at least one band had a fit in its cell. *)
Lemma unpack_step_cell (weights : F * F * F) prefixes dims st
    (item : list (string * F) * option (ModelResult F)) st' :
  prefixes <> [] ->
  unpack_step weights prefixes dims st item = Ok st' -> is_Some (snd item).
Proof.
  intros Hne E. destruct (snd item) as [r |] eqn:Hr; [by eexists |].
  unfold unpack_step in E. rewrite Hr in E. py_inv E.
  destruct prefixes as [| p prefixes]; [done |].
  unfold dist_mat, dist_entry in R1. cbn [length seq pymap] in R1.
  rewrite (py_index_nat _ 0) in R1. by cbn in R1.
Qed.

(** What a successful run went through. *)
Lemma unpack_bands_from_fit_inv (g : Grid F (option (ModelResult F)))
    (weights : F * F * F) (bands : list (Band F)) :
  unpack_bands_from_fit g weights = Ok bands ->
  exists prefixes st,
    template_prefixes g = Ok prefixes
    /\ unpack_loop weights prefixes (g_dims g) (enumerate_dataarray g)
         initial_state = Ok st
    /\ pymap (extract_band (g_cells g) (identified_band_results st))
             (seq 0 (length prefixes)) = Ok bands.
Proof.
  unfold unpack_bands_from_fit, identify.
  destruct (template_prefixes g) as [prefixes |]; [| done]. cbn [pybind].
  destruct (unpack_loop _ _ _ _ _) as [st |] eqn:Hloop; [| done].
  cbn [pybind fst snd]. intros E. by exists prefixes, st.
Qed.

(** Claim C36. The unpacking does not tolerate a missing fit: when it
    returns at least one band, every cell of the grid holds a fit result.
    A cell without one makes the function raise; nothing is filled with
    not-a-number. *)
Theorem unpack_bands_needs_every_fit (g : Grid F (option (ModelResult F)))
    (weights : F * F * F) (bands : list (Band F)) :
  grid_wf g -> unpack_bands_from_fit g weights = Ok bands -> bands <> [] ->
  Forall is_Some (g_cells g).
Proof.
  intros Hwf (prefixes & st & _ & Hloop & E%pymap_length)%unpack_bands_from_fit_inv
    Hne.
  rewrite length_seq in E.
  rewrite <- (enumerate_dataarray_snd g Hwf). apply Forall_map.
  refine (pyfold_Ok_Forall _ _ _ _ _ _ Hloop). intros s item s'.
  apply unpack_step_cell. intros ->. by destruct bands.
Qed.

End Total.

(** * Components without a width *)

(** The prefixes of the template are those of all components of the
    first fit, a background included, and every one of them is asked for
    its sigma, amplitude and center. *)
Section Background.
Context {F : Type} {Fops : ScalarOps F}.
Context (weights : F * F * F) (r : ModelResult F).

Context (Hparts : Forall (fun p => no_sigma r p
                                   \/ fit_complete [p] (Some r) = true)
                         (component_prefixes r)).
Context (Hbad : Exists (no_sigma r) (component_prefixes r)).

Lemma as_vector_no_sigma (p : string) :
  no_sigma r p -> as_vector weights (Some r) p = Raise KeyError.
Proof.
  intros E. unfold as_vector, dict_item. cbn [or_raise pybind pymap].
  by rewrite E.
Qed.

Lemma as_vector_cases (p : string) :
  In p (component_prefixes r) ->
  as_vector weights (Some r) p = Raise KeyError
  \/ exists v, as_vector weights (Some r) p = Ok v.
Proof.
  intros Hin%list_elem_of_In. rewrite Forall_forall in Hparts.
  destruct (Hparts p Hin) as [Hno | Hc]; [left; by apply as_vector_no_sigma |].
  right. apply (as_vector_ok weights [p]); [done | by left].
Qed.

Lemma dist_entry_cases (i j : nat) (pi pj : string) :
  component_prefixes r !! i = Some pi -> component_prefixes r !! j = Some pj ->
  let entry := dist_entry weights (component_prefixes r) (Some r)
                          (component_prefixes r, Some r) i j in
  (entry = Raise KeyError \/ exists d, entry = Ok d)
  /\ (no_sigma r pj -> entry = Raise KeyError).
Proof.
  intros Hi Hj. cbn zeta. unfold dist_entry. rewrite !py_index_nat.
  cbn [fst snd]. rewrite Hi, Hj. cbn [or_raise pybind].
  destruct (as_vector_cases pi) as [-> | [u ->]];
    [apply list_elem_of_In; by eapply list_elem_of_lookup_2 | by split; [left |] |].
  cbn [pybind]. split.
  - destruct (as_vector_cases pj) as [-> | [v ->]];
      [apply list_elem_of_In; by eapply list_elem_of_lookup_2 | by left |].
    right. by eexists.
  - intros Hno. by rewrite as_vector_no_sigma.
Qed.

(** The first row of the matrix of distances cannot be computed. *)
Lemma dist_mat_no_sigma :
  dist_mat weights (component_prefixes r) (Some r) (component_prefixes r, Some r)
  = Raise KeyError.
Proof.
  unfold dist_mat.
  assert (pymap (dist_entry weights (component_prefixes r) (Some r)
                            (component_prefixes r, Some r) 0)
                (seq 0 (length (component_prefixes r))) = Raise KeyError)
    as Hrow.
  { apply pymap_raise_uniform.
    - apply Forall_forall. intros j Hj%list_elem_of_In%in_seq.
      destruct (lookup_lt_is_Some_2 (component_prefixes r) 0) as [p0 Hp0]; [lia |].
      destruct (lookup_lt_is_Some_2 (component_prefixes r) j) as [pj Hpj]; [lia |].
      by eapply dist_entry_cases.
    - apply Exists_exists in Hbad as (pj & Hin & Hno).
      apply list_elem_of_lookup_1 in Hin as [j Hj].
      pose proof (lookup_lt_Some _ _ _ Hj) as Hlt.
      destruct (lookup_lt_is_Some_2 (component_prefixes r) 0) as [p0 Hp0]; [lia |].
      apply Exists_exists. exists j. split.
      + apply list_elem_of_In, in_seq. lia.
      + by eapply dist_entry_cases. }
  revert Hrow. destruct (length (component_prefixes r)) as [| k]; [done |].
  cbn [seq pymap]. by intros ->.
Qed.

Lemma unpack_step_no_sigma (dims : list string) (c : list (string * F))
    (fc : list F) :
  frozen dims c = Ok fc ->
  unpack_step weights (component_prefixes r) dims initial_state (c, Some r)
  = Raise KeyError.
Proof.
  intros Hfc. unfold unpack_step, find_reference. cbn [fst snd]. rewrite Hfc.
  cbn [pybind initial_state identified_by_coordinate].
  change (closest_identified [] fc) with (@None (Identified F)).
  cbn [pybind or_raise fst snd]. by rewrite dist_mat_no_sigma.
Qed.

(** Claim C25. A row of fits whose first fit has a component without a width
    parameter, a background for one, is not unpacked: the function raises
    [KeyError] at its first cell, before any label is assigned. *)
Theorem unpack_bands_no_sigma_raises (g : Grid F (option (ModelResult F)))
    (ticks : list F) cells :
  grid_wf g -> g_coords g = [ticks] -> g_cells g = Some r :: cells ->
  unpack_bands_from_fit g weights = Raise KeyError.
Proof.
  intros Hwf Hc Hcs. unfold unpack_bands_from_fit, identify.
  rewrite (template_prefixes_first g ticks r cells Hc Hcs). cbn [pybind].
  pose proof (enumerate_dataarray_frozen g Hwf) as Hfrozen.
  pose proof (enumerate_dataarray_snd g Hwf) as Hsnd. rewrite Hcs in Hsnd.
  destruct (enumerate_dataarray g) as [| [c cell] items]; [done |].
  injection Hsnd as -> _. apply Forall_cons_1 in Hfrozen as [[fc Hfc] _].
  unfold unpack_loop. rewrite pyfold_cons.
  by rewrite (unpack_step_no_sigma _ _ fc).
Qed.

End Background.

(** * Exact arithmetic *)

(** Over the rationals distances are non-negative and the distance of a
    vector to itself is zero, which fixes the labels of the first cell. *)
Section Rational.
Local Open Scope Q_scope.
Implicit Types (m : list (list Q)) (prefixes : list string).

Lemma euclidean_nonneg (u v : list Q) : 0 <= euclidean u v.
Proof. apply Qsqrt_nonneg. Qed.

Lemma euclidean_self (u : list Q) : euclidean u u == 0.
Proof.
  apply Qsqrt_0, Qsum_zero. induction u as [| a u IH]; constructor; [| done].
  q_prop. lra.
Qed.

Lemma trace_nonneg (k : nat) m (p : list nat) :
  (forall i j, (i < k)%nat -> (j < k)%nat -> 0 <= mat_at m i j) ->
  Permutation (seq 0 k) p -> 0 <= trace m p.
Proof.
  intros Hm Hp. apply Qsum_nonneg, Forall_forall.
  intros x (ip & <- & Hin)%list_elem_of_In%in_map_iff. destruct ip as [i j].
  apply enumerate_In in Hin. cbn [fst snd]. apply Hm.
  - apply lookup_lt_Some in Hin.
    by rewrite <- (Permutation_length Hp), length_seq in Hin.
  - apply list_elem_of_lookup_2, list_elem_of_In in Hin.
    apply (Permutation_in _ (Permutation_sym Hp)), in_seq in Hin. lia.
Qed.

Lemma trace_identity (k : nat) m :
  (forall i, (i < k)%nat -> mat_at m i i == 0) -> trace m (seq 0 k) == 0.
Proof.
  intros Hm. apply Qsum_zero, Forall_forall.
  intros x (ip & <- & Hin)%list_elem_of_In%in_map_iff. destruct ip as [i j].
  apply enumerate_In, lookup_seq in Hin as [-> Hi]. by apply Hm.
Qed.

(** When the distances are non-negative and every band is at
    distance zero from itself, the search keeps the bands in place: the
    arrangement is the identity. *)
Theorem best_arrangement_identity (k : nat) m :
  (forall i j, (i < k)%nat -> (j < k)%nat -> 0 <= mat_at m i j) ->
  (forall i, (i < k)%nat -> mat_at m i i == 0) ->
  best_arrangement k m = seq 0 k.
Proof.
  intros Hpos Hdiag. unfold best_arrangement, permutations.
  destruct (perms_n_head (seq 0 k)) as (t & E).
  rewrite E, argmin_loop_head; [done |].
  apply Forall_forall. intros p Hp%list_elem_of_In. apply Qltb_ge.
  rewrite (trace_identity k m Hdiag). apply (trace_nonneg k); [done |].
  apply (permutations_Permutation (seq 0 k)).
  unfold permutations. rewrite E. by right.
Qed.

Lemma dist_entry_nonneg (weights : Q * Q * Q) prefixes
    (fit : option (ModelResult Q)) (closest : Identified Q) (i j : nat) (d : Q) :
  dist_entry weights prefixes fit closest i j = Ok d -> 0 <= d.
Proof.
  unfold dist_entry. intros E. py_inv E. inv_res. apply euclidean_nonneg.
Qed.

Lemma dist_entry_self (weights : Q * Q * Q) prefixes
    (fit : option (ModelResult Q)) (i : nat) (d : Q) :
  dist_entry weights prefixes fit (prefixes, fit) i i = Ok d -> d == 0.
Proof.
  unfold dist_entry. cbn [fst snd]. intros E. py_inv E. inv_res.
  apply euclidean_self.
Qed.

(** The first cell is compared with itself and keeps the order of its
    components. *)
Lemma unpack_step_first (weights : Q * Q * Q) prefixes dims
    (item : list (string * Q) * option (ModelResult Q)) (r : ModelResult Q)
    (st' : State Q) :
  unpack_step weights prefixes dims initial_state item = Ok st' ->
  snd item = Some r -> component_prefixes r = prefixes ->
  identified_band_results st' = [prefixes].
Proof.
  unfold unpack_step, find_reference. intros E Hr Hp. rewrite Hr in E.
  cbn [closest_identified argmin_loop fold_left initial_state
       identified_by_coordinate fst snd or_raise pybind] in E.
  rewrite Hp in E. py_inv E. cbn [fst snd] in *.
  rewrite best_arrangement_identity in R1.
  - unfold ordered_prefixes in R1. rewrite pymap_index_seq in R1. by inv_res.
  - intros i j Hi Hj. eapply dist_entry_nonneg. by eapply dist_mat_entry.
  - intros i Hi. eapply dist_entry_self. by eapply dist_mat_entry.
Qed.

(** Claim C11. The labels of the first cell are the prefixes of its own
    components in their order: the first cell is the reference of the
    sweep and receives the identity arrangement. *)
Theorem first_cell_identity (g : Grid Q (option (ModelResult Q)))
    (weights : Q * Q * Q) prefixes (st : State Q) :
  grid_wf g -> identify g weights = Ok (prefixes, st) ->
  head (identified_band_results st) = Some prefixes.
Proof.
  intros Hwf E. unfold identify in E. py_inv E. inv_res.
  pose proof (template_prefixes_cells g _ R) as Hne.
  pose proof (enumerate_dataarray_length g Hwf) as Hlen.
  destruct (enumerate_dataarray g) as [| item items] eqn:Eitems.
  { destruct (g_cells g); [done | discriminate Hlen]. }
  unfold unpack_loop in R0. rewrite pyfold_cons in R0.
  destruct (unpack_step _ _ _ initial_state item) as [st1 |] eqn:E1; [| done].
  destruct (snd item) as [r |] eqn:Hr.
  - apply (unpack_step_first _ _ _ _ r) in E1; [| done |].
    + apply unpack_loop_prefix in R0 as (more & ->). by rewrite E1.
    + apply (template_prefixes_head g _ item); [done | by rewrite Eitems | done].
  - unfold unpack_step, find_reference in E1. rewrite Hr in E1.
    cbn in E1. by py_inv E1.
Qed.

(** The reference of a cell is the labelled cell of smallest
    dot product with it, not the nearest one: along one axis with ticks
    that are non-negative and ascend, every cell is compared with the
    first cell of the sweep, however far away it is. *)
Theorem reference_is_first_cell (x0 y : Q) (v0 : Identified Q)
    (rest : list (list Q * Identified Q)) :
  0 <= y ->
  Forall (fun kv => exists x, fst kv = [x] /\ x0 <= x) rest ->
  closest_identified (([x0], v0) :: rest) [y] = Some v0.
Proof.
  intros Hy Hrest. unfold closest_identified.
  rewrite argmin_loop_head; [done |].
  eapply Forall_impl; [exact Hrest |]. intros [c v] (x & -> & Hx).
  apply Qltb_ge. unfold dot, s_sum. cbn. nra.
Qed.

End Rational.

(** * The worked sweep *)

Section Examples.
Local Open Scope string_scope.

Lemma ex_crossing_wf : grid_wf ex_crossing.
Proof. repeat split. apply NoDup_singleton. Defined.

Lemma ex_crossing_identify :
  identify ex_crossing default_weights = Ok (["a_"; "b_"], ex_state).
Proof. by vm_compute. Defined.

Lemma best_arrangement_minimal_witness :
  s_ltb (trace ex_mat [1; 0]) (trace ex_mat (best_arrangement 2 ex_mat)) = false.
Proof. apply best_arrangement_minimal, perm_swap. Defined.

Lemma best_arrangement_first_witness :
  exists l1 l2,
    permutations (seq 0 2) = (l1 ++ best_arrangement 2 ex_mat :: l2)%list
    /\ Forall (fun q => s_ltb (trace ex_mat (best_arrangement 2 ex_mat))
                              (trace ex_mat q) = true) l1
    /\ Forall (fun q => s_ltb (trace ex_mat q)
                              (trace ex_mat (best_arrangement 2 ex_mat)) = false) l2.
Proof. exact (best_arrangement_first 2 ex_mat). Defined.

Lemma best_arrangement_identity_witness : best_arrangement 2 ex_mat = [0; 1].
Proof.
  apply (best_arrangement_identity 2 ex_mat).
  - intros [| [| i]] [| [| j]] Hi Hj; try lia; by vm_compute.
  - intros [| [| i]] Hi; try lia; by vm_compute.
Defined.

Lemma ordered_prefixes_permutation_witness :
  exists l, ordered_prefixes ["a_"; "b_"] [1; 0] = Ok l
            /\ Permutation ["a_"; "b_"] l.
Proof. apply ordered_prefixes_permutation, perm_swap. Defined.

Lemma identify_labels_witness :
  Forall (Permutation ["a_"; "b_"]) (identified_band_results ex_state)
  /\ length (identified_band_results ex_state)
     = length (enumerate_dataarray ex_crossing).
Proof.
  exact (identify_labels ex_crossing default_weights _ _ ex_crossing_identify).
Defined.


Lemma first_cell_identity_witness :
  head (identified_band_results ex_state) = Some ["a_"; "b_"].
Proof.
  exact (first_cell_identity ex_crossing default_weights _ _ ex_crossing_wf
           ex_crossing_identify).
Defined.

Lemma unpack_bands_no_sigma_raises_witness :
  unpack_bands_from_fit ex_with_background default_weights = Raise KeyError.
Proof.
  apply (unpack_bands_no_sigma_raises default_weights ex_background_fit)
    with (ticks := [1; 2]%Q) (cells := [Some ex_background_fit]);
    [| | repeat split; apply NoDup_singleton | done..].
  - repeat constructor; by vm_compute.
  - apply Exists_cons_tl, Exists_cons_hd. by vm_compute.
Defined.

Lemma unpack_bands_needs_every_fit_witness :
  Forall is_Some (g_cells ex_crossing).
Proof.
  apply (unpack_bands_needs_every_fit ex_crossing default_weights ex_bands);
    [exact ex_crossing_wf | by vm_compute | by vm_compute].
Defined.

Lemma reference_is_first_cell_witness :
  closest_identified [([1%Q], (["a_"; "b_"], ex_fit2 0 5));
                      ([2%Q], (["b_"; "a_"], ex_fit2 5 0))] [3%Q]
  = Some (["a_"; "b_"], ex_fit2 0 5).
Proof.
  apply reference_is_first_cell; [done |].
  repeat constructor. by exists 2%Q.
Defined.

(** On an ascending axis a crossing of two peaks is followed:
    the first band keeps the peak that starts at 0 although the fit of
    the second cell lists the peaks in the other order. *)
Example unpack_follows_crossing :
  centers (unpack_bands_from_fit ex_crossing default_weights)
  = Ok [("a_", [0; 0; 1 # 2]%Q); ("b_", [5; 5; 5]%Q)].
Proof. by vm_compute. Qed.

(** On a descending axis the same crossing is lost at the
    third cell: its reference is the second cell, whose labels are
    already exchanged, and reading the reference's labels through the
    arrangement exchanges them back. *)
Example unpack_descending_flips :
  centers (unpack_bands_from_fit
             (ex_grid [3; 2; 1]%Q [ex_fit2 0 5; ex_fit2 5 0; ex_fit2 5 0])
             default_weights)
  = Ok [("a_", [0; 0; 5]%Q); ("b_", [5; 5; 0]%Q)].
Proof. by vm_compute. Qed.


(** A cell without a fit makes the unpacking raise
    [AttributeError]. *)
Example unpack_missing_cell_raises :
  unpack_bands_from_fit (ex_grid [1; 2]%Q [ex_fit2 0 5; None]) default_weights
  = Raise AttributeError.
Proof. by vm_compute. Qed.

End Examples.
