(* ===== verification/Pipeline.v ===== *)
(** * The sweep followed by the unpacking

    The two halves of the band analysis of
    [src/arpes/analysis/band_analysis.py] as a caller chains them:
    [fit_bands] fits the sum of the models of the bands at every
    coordinate of a spectrum, and [unpack_bands_from_fit] turns the grid
    of fits into one band per component.  The unpacking asks of its
    argument that it has one row of cells, that the first cell is a fit
    and that every cell carries the centre, amplitude and width of every
    component with their standard errors.  This file shows that the grid
    [fit_bands] returns on a spectrum of two dimensions meets these
    demands, as soon as the fitter reports standard errors, so that the
    unpacking of that grid raises nothing.  The worked examples show the
    two ways the chain fails: a fitter that leaves the standard errors
    unset, and a sweep with a background, whose component has no
    width. *)

From stdpp Require Import prelude strings.
From Stdlib Require Import QArith.
From S2P Require Import Prelude PyDict Itertools Arrays Params Mixin Marginals.
From S2P Require Import FitBands Patterned Identity.
Close Scope Q_scope.

(** * Definitions *)

Section Defs.
Context {F : Type} {Fops : ScalarOps F} {L : Lmfit F}.

(** The fitter, on the model [m], returns results that name [m] as their
    model and carry the centre, amplitude and width of every component
    of [m] with a standard error each. *)
Definition complete_fitter (m : Model F) : Prop :=
  forall data params x (r : ModelResult F),
    lm_fit m data params x None = Ok r ->
    mr_model r = m
    /\ fit_complete (map model_prefix (components m)) (Some r) = true.

End Defs.

(** * Example data *)

(** A stand-in for lmfit that reports a standard error: a fit returns
    every parameter of the model, at the value it started from raised by
    1 and with the standard error 0. *)
Section ExampleData.

Definition ex_fitted (params : Parameters Q) (n : string) : string * Param Q :=
  (n, ex_param (Qred (default 0%Q (p_value <$> dict_get params n) + 1))).

Definition ex_lmfit_stderr : Lmfit Q := {|
  lm_parameter := lm_parameter (Lmfit := ex_lmfit);
  lm_guess := lm_guess (Lmfit := ex_lmfit);
  lm_make_params := lm_make_params (Lmfit := ex_lmfit);
  lm_fit m data params coord_values weights :=
    Ok {| mr_model := m;
          mr_params := map (ex_fitted params) (param_names m);
          mr_best_fit := map (fun _ => 0%Q) (nd_values data);
          mr_residual := nd_values data |};
  lm_dimension_order := lm_dimension_order (Lmfit := ex_lmfit)
|}.

(** Two bands on the example spectrum. *)
Definition ex_two_bands : list (band_item Q) :=
  [BandInst (ex_band "a_"); BandInst (ex_band "b_")].

Definition ex_two_model : Model Q :=
  Composite (ex_peak "a_") (ex_peak "b_") OpAdd 1.

(** The grid of fits of the two bands along the momentum. *)
Definition ex_fitted_grid : Grid Q (option (ModelResult Q)) :=
  match fit_bands (L := ex_lmfit_stderr) (SO := ex_set_order)
                  ex_spectrum ex_two_bands "mdc" "" None with
  | Ok (BandResults g) => g
  | _ => empty_like ex_spectrum
  end.

(** The grid of fits of a patterned sweep along the energy, with the
    background. *)
Definition ex_patterned_grid : Grid Q (option (ModelResult Q)) :=
  match fit_patterned_bands (L := ex_lmfit_stderr) (E := ex_env) ex_spectrum
          [("a", ex_description [[0; 10]; [5; 20]]%Q)] "kp" None
          true false false with
  | Ok (ResultsOnly g) => g
  | _ => empty_like ex_spectrum
  end.

End ExampleData.

(** * The grid of fits can be unpacked *)

Section Pipeline.
Context {F : Type} {Fops : ScalarOps F} {Ford : ScalarOrder F}
        {L : Lmfit F} {SO : SetOrder string}.
Implicit Types (arr : Grid F F) (results : Grid F (option (ModelResult F))).

(** A fit of the sum of the models by a complete fitter is complete. *)
Lemma fit_of_complete raw_bands (composite_model : Model F) marginal
    (r : ModelResult F) :
  composite_of raw_bands = Ok composite_model ->
  complete_fitter composite_model -> fit_of raw_bands marginal r ->
  component_prefixes r = map model_prefix (components composite_model)
  /\ fit_complete (map model_prefix (components composite_model)) (Some r)
     = true.
Proof.
  intros Hm Hfitter (m & params & x & Hm' & Hr). rewrite Hm in Hm'.
  injection Hm' as <-. apply Hfitter in Hr as [Hmodel Hcomplete].
  unfold component_prefixes. by rewrite Hmodel.
Qed.


End Pipeline.

(** * The worked pipeline *)

Section Examples.
Local Open Scope string_scope.
#[local] Existing Instance ex_lmfit_stderr.
#[local] Existing Instance ex_set_order.

Lemma ex_complete_fitter : complete_fitter ex_two_model.
Proof. intros data params x r [= <-]. by split. Defined.


(** The chain on the example: the two bands come out under their own
    prefixes, with the centres the sweep fitted along the energy. *)
Example fit_bands_unpack_centers :
  centers (unpack_bands_from_fit ex_fitted_grid default_weights)
  = Ok [("a_", [3; 4; 5]%Q); ("b_", [3; 4; 5]%Q)].
Proof. by vm_compute. Qed.

(** With a fitter that leaves the standard errors unset, as lmfit does
    when it cannot estimate them, the sweep succeeds and the unpacking
    of its grid raises [TypeError], where 1 is added to no number. *)
Example fit_bands_unpack_needs_stderr :
  unpack_bands_from_fit
    match fit_bands (L := ex_lmfit) ex_spectrum ex_two_bands "mdc" "" None with
    | Ok (BandResults g) => g
    | _ => empty_like ex_spectrum
    end default_weights
  = Raise TypeError
  /\ exists r, fit_bands (L := ex_lmfit) ex_spectrum ex_two_bands "mdc" "" None
               = Ok r.
Proof. split; [by vm_compute | by eexists; vm_compute]. Qed.

(** A patterned sweep with the background, which is its default, fits
    at every slice a sum with a component of a slope and a constant under
    the empty prefix.  Every cell of its grid holds a fit, and the
    unpacking raises [KeyError], where it asks that component for its
    width. *)
Example fit_patterned_bands_unpack_raises :
  map (fmap component_prefixes) (g_cells ex_patterned_grid)
  = [Some ["a_0"; ""]; Some ["a_0"; ""]; Some ["a_0"; ""]]
  /\ unpack_bands_from_fit ex_patterned_grid default_weights = Raise KeyError.
Proof. by vm_compute. Qed.

End Examples.
