(* ===== verification/Derivative.v ===== *)
(** * Derivatives, curvature and minimum gradient

    [src/arpes/analysis/derivative.py]: the finite differences of
    [_vector_diff], the gradient modulus and [minimum_gradient], the
    derivatives [dn_along_axis] with its two partial applications, and
    the curvature formulas [curvature1d], [curvature2d] and [curvature].

    The values of an array of two dimensions or more are rows of
    columns of blocks, a block holding the values along the remaining
    dimensions: the gradient modulus slices and assigns along the first
    two axes only.  The derivative
    along a dimension is xarray's [differentiate], an operation of the
    class [Calculus]; the power [x ** 1.5] is written [x * sqrt x].  Of
    the attributes of an array only [id] is kept, since it is the one the
    functions change; the provenance records are left out. *)

From stdpp Require Import prelude strings pretty.
From Stdlib Require Import QArith.
From S2P Require Import Prelude PyDict Itertools Arrays.
Close Scope Q_scope.

(** * Definitions *)

Section Defs.
Context {F : Type} {Fops : ScalarOps F}.

(** The values along the dimensions after the second, flattened: a
    single value for an array of two dimensions. *)
Definition block : Type := list F.

(** The values of an array of two dimensions or more: rows of columns
    of blocks. *)
Definition matrix : Type := list (list block).

(** A slice: its start and its stop, either of which may be missing. *)
Definition slice : Type := option Z * option Z.

(** [arr[rows, cols]]. *)
Definition mat_slice {A} (rows cols : slice) (arr : list (list A))
    : list (list A) :=
  map (py_slice (fst cols) (snd cols)) (py_slice (fst rows) (snd rows) arr).

(** An operation on two arrays of the same shape, element by element. *)
Definition mat_zip (f : F -> F -> F) (a b : matrix) : matrix :=
  zip_with (zip_with (zip_with f)) a b.

(** ** _vector_diff *)

(** [slice1] and [slice2] along one dimension. *)
Definition diff_slices (delta_val : Z) : slice * slice :=
  if (delta_val =? 0)%Z then ((None, None), (None, None))
  else if (delta_val <? 0)%Z then
    ((None, Some delta_val), (Some (- delta_val)%Z, None))
  else ((Some delta_val, None), (None, Some (- delta_val)%Z)).

(** [arr[slice1] - arr[slice2]]. *)
Definition diff_once (arr : matrix) (delta : Z * Z) : matrix :=
  let s0 := diff_slices (fst delta) in
  let s1 := diff_slices (snd delta) in
  mat_zip s_sub (mat_slice (fst s0) (fst s1) arr)
                (mat_slice (snd s0) (snd s1) arr).

(** The recursion on [n] for [n >= 1]. *)
Fixpoint vector_diff_iter (n : nat) (arr : matrix) (delta : Z * Z) : matrix :=
  match n with
  | 0 => arr
  | 1 => diff_once arr delta
  | S n' => vector_diff_iter n' (diff_once arr delta) delta
  end.

Definition _vector_diff (arr : matrix) (delta : Z * Z) (n : Z) : pyres matrix :=
  if (n =? 0)%Z then Ok arr
  else if (n <? 0)%Z then Raise ValueError
  else Ok (vector_diff_iter (Z.to_nat n) arr delta).

(** ** Arrays of two dimensions or more *)

(** [arr.values] as rows of columns; an array of fewer than two
    dimensions cannot be indexed the way the planes are. *)
Definition to_matrix (arr : Grid F F) : pyres matrix :=
  match g_coords arr with
  | rows :: cols :: rest =>
      let k := nat_prod (map length rest) in
      Ok (map (chunks (length cols) k)
              (chunks (length rows) (length cols * k) (g_cells arr)))
  | _ => Raise IndexError
  end.

(** [np.zeros] of the shape of the values. *)
Definition np_zeros (values : matrix) : matrix :=
  map (map (map (fun _ => s_zero))) values.

(** [arr.G.with_values(values)]. *)
Definition with_values (arr : Grid F F) (values : list F) : pyres (Grid F F) :=
  if length values =? length (g_cells arr) then
    Ok {| g_dims := g_dims arr; g_coords := g_coords arr; g_cells := values |}
  else Raise ValueError.

(** The number of columns; an array without rows is taken to have
    none. *)
Definition ncols {A} (m : list (list A)) : nat :=
  match m with
  | [] => 0
  | row :: _ => length row
  end.

(** numpy's broadcasting along one axis: the lengths agree, or the value
    has length one and is repeated. *)
Definition broadcast_axis {A} (n : nat) (l : list A) : pyres (list A) :=
  if length l =? n then Ok l
  else match l with
       | [x] => Ok (replicate n x)
       | _ => Raise ValueError
       end.

Definition broadcast_to {A} (r c : nat) (value : list (list A))
    : pyres (list (list A)) :=
  (let* rows := pymap (broadcast_axis c) value in
   broadcast_axis r rows)%py.

(** The number of items a slice takes from a list of [n] items. *)
Definition slice_len (n : nat) (s : slice) : nat :=
  slice_bound n (Z.of_nat n) (snd s) - slice_bound n 0 (fst s).

(** [plane[rows, cols] = value]: the value is broadcast to the shape of
    the target, [ValueError] when it cannot be. *)
Definition assign_block {A} (rows cols : slice) (value plane : list (list A))
    : pyres (list (list A)) :=
  (let a := slice_bound (length plane) 0 (fst rows) in
   let n := slice_len (length plane) rows in
   let* value := broadcast_to n (slice_len (ncols plane) cols) value in
   Ok (take a plane
       ++ zip_with (fun row vrow =>
            let c := slice_bound (length row) 0 (fst cols) in
            take c row ++ vrow ++ drop (c + length vrow) row)
          (take n (drop a plane)) value
       ++ drop (a + n) plane))%py.

(** ** _gradient_modulus and minimum_gradient *)

(** [np.linalg.norm(planes, axis=0)]. *)
Definition norm_planes (zeros : matrix) (planes : list matrix) : matrix :=
  map (map (map s_sqrt))
      (fold_left (fun acc p => mat_zip s_add acc (mat_zip s_mul p p))
                 planes zeros).

Definition gradient_planes (values : matrix) (delta : Z)
    : pyres (list matrix) :=
  (let zeros := np_zeros values in
   let to_neg : slice := (None, Some (- delta)%Z) in
   let from : slice := (Some delta, None) in
   let all : slice := (None, None) in
   let plane (rows cols : slice) (d : Z * Z) : pyres matrix :=
     let* diff := _vector_diff values d 1 in
     assign_block rows cols diff zeros in
   let* g0 := plane to_neg all (delta, 0%Z) in
   let* g1 := plane all to_neg (0%Z, delta) in
   let* g2 := plane from all ((- delta)%Z, 0%Z) in
   let* g4 := plane to_neg to_neg (delta, delta) in
   let* g3 := plane all from (0%Z, (- delta)%Z) in
   let* g5 := plane to_neg from (delta, (- delta)%Z) in
   let* g6 := plane from to_neg ((- delta)%Z, delta) in
   let* g7 := plane from from ((- delta)%Z, (- delta)%Z) in
   Ok [g0; g1; g2; g3; g4; g5; g6; g7])%py.

Definition _gradient_modulus (data : Grid F F) (delta : Z)
    : pyres (Grid F F) :=
  (let* values := to_matrix data in
   let* planes := gradient_planes values delta in
   with_values data
     (concat (map (@concat F) (norm_planes (np_zeros values) planes))))%py.

(** An array with its attribute [id]. *)
Record Spectrum : Type := mkSpectrum {
  sp_grid : Grid F F;
  sp_id : option string
}.

(** [arr.assign_attrs(attrs)], for the attribute [id]: the given one
    replaces the array's own, which stays when none is given. *)
Definition assign_attrs (arr : Spectrum) (id : option string) : Spectrum :=
  {| sp_grid := sp_grid arr;
     sp_id := match id with Some i => Some i | None => sp_id arr end |}.

Definition _nothing_to_array (x : Spectrum) : Spectrum := x.

(** [arr / modulus], element by element. *)
Definition grid_div (a b : Grid F F) : Grid F F :=
  {| g_dims := g_dims a; g_coords := g_coords a;
     g_cells := zip_with s_div (g_cells a) (g_cells b) |}.

Definition minimum_gradient (data : Spectrum)
    (smooth_fn : option (Spectrum -> Spectrum)) (delta : Z)
    : pyres (Grid F F) :=
  (let smooth_ := default _nothing_to_array smooth_fn in
   let arr := smooth_ data in
   let arr := assign_attrs arr (sp_id data) in
   let* modulus := _gradient_modulus (sp_grid arr) delta in
   Ok (grid_div (sp_grid arr) modulus))%py.

(** ** Derivatives *)

(** What the sources ask of xarray: [arr.differentiate(dim)]. *)
Class Calculus : Type :=
  differentiate : Spectrum -> string -> pyres Spectrum.

Context {C : Calculus}.

(** [str(arr.dims[0])] when no dimension is given. *)
Definition dim_or_first (arr : Spectrum) (dim : string) : pyres string :=
  if String.eqb dim "" then py_index (g_dims (sp_grid arr)) 0 else Ok dim.

(** [for _ in range(order): dn_arr = dn_arr.differentiate(dim)]. *)
Fixpoint differentiate_n (order : nat) (arr : Spectrum) (dim : string)
    : pyres Spectrum :=
  match order with
  | 0 => Ok arr
  | S n => pybind (differentiate arr dim) (fun d => differentiate_n n d dim)
  end.

Definition dn_along_axis (arr : Spectrum) (dim : string)
    (smooth_fn : option (Spectrum -> Spectrum)) (order : Z)
    : pyres Spectrum :=
  (let* dim := dim_or_first arr dim in
   let smooth_ := default _nothing_to_array smooth_fn in
   let dn_arr := smooth_ arr in
   let* dn_arr := differentiate_n (Z.to_nat order) dn_arr dim in
   let dn_arr := assign_attrs dn_arr (sp_id arr) in
   Ok {| sp_grid := sp_grid dn_arr;
         sp_id := (fun id => id +:+ "_dy" +:+ pretty order)%string
                  <$> sp_id dn_arr |})%py.

Definition d2_along_axis (arr : Spectrum) (dim : string)
    (smooth_fn : option (Spectrum -> Spectrum)) : pyres Spectrum :=
  dn_along_axis arr dim smooth_fn 2.

Definition d1_along_axis (arr : Spectrum) (dim : string)
    (smooth_fn : option (Spectrum -> Spectrum)) : pyres Spectrum :=
  dn_along_axis arr dim smooth_fn 1.

(** ** Curvature *)

(** [x ** 1.5]. *)
Definition pow15 (x : F) : F := (x * s_sqrt x)%sc.

(** [abs(float(d.min().values))]. *)
Definition abs_min (d : Spectrum) : pyres F :=
  pybind (np_min (g_cells (sp_grid d))) (fun m => Ok (s_abs m)).

(** [arr.G.with_values(values)] keeps the attributes of [arr]. *)
Definition sp_with_values (arr : Spectrum) (values : list F) : pyres Spectrum :=
  pybind (with_values (sp_grid arr) values)
         (fun g => Ok {| sp_grid := g; sp_id := sp_id arr |}).

Definition sp_cells (arr : Spectrum) : list F := g_cells (sp_grid arr).

Definition curvature1d (arr : Spectrum) (dim : string) (alpha : F)
    (smooth_fn : option (Spectrum -> Spectrum)) : pyres Spectrum :=
  (let* _ := py_assert (s_ltb 0 alpha)%sc in
   let* dim := dim_or_first arr dim in
   let smooth_ := default _nothing_to_array smooth_fn in
   let arr := smooth_ arr in
   let* d_arr := differentiate arr dim in
   let* d2_arr := differentiate d_arr dim in
   let* m := abs_min d_arr in
   let denominator :=
     map (fun d => pow15 (alpha * (m * m) + d * d)%sc) (sp_cells d_arr) in
   let* filterd_arr :=
     sp_with_values arr (zip_with s_div (sp_cells d2_arr) denominator) in
   Ok {| sp_grid := sp_grid filterd_arr;
         sp_id := (fun id => id +:+ "_CV")%string <$> sp_id arr |})%py.

(** The numerator and the denominator of the curvature at one point. *)
Definition curvature_numerator (alpha avg weight fx fy fxx fyy fxy : F) : F :=
  ((alpha * avg + weight * fx * fx) * fyy
   - s_of_Z 2 * weight * fx * fy * fxy
   + weight * (alpha * avg + fy * fy) * fxx)%sc.

Definition curvature_denominator (alpha avg weight fx fy : F) : F :=
  pow15 (alpha * avg + weight * (fx * fx) + fy * fy)%sc.

(** [float(arr.coords[d][1] - arr.coords[d][0])]. *)
Definition step_of (arr : Grid F F) (d : string) : pyres F :=
  (let* ticks := coords_of arr d in
   let* t1 := py_index ticks 1 in
   let* t0 := py_index ticks 0 in
   Ok (t1 - t0)%sc)%py.

Definition curvature2d (arr : Spectrum) (dims : string * string)
    (alpha weight2d : F) (smooth_fn : option (Spectrum -> Spectrum))
    : pyres Spectrum :=
  (let* _ := py_assert (s_ltb 0 alpha)%sc in
   let* _ := py_assert (negb (s_eqb weight2d 0))%sc in
   let* steps := pymap (step_of (sp_grid arr)) (take 2 (g_dims (sp_grid arr))) in
   let* dxdy := match steps with
                | [dx; dy] => Ok (dx, dy)
                | _ => Raise ValueError
                end in
   let weight := ((fst dxdy / snd dxdy) * (fst dxdy / snd dxdy))%sc in
   let arr := match smooth_fn with
              | Some f => f arr
              | None => arr
              end in
   let* dfx := differentiate arr (fst dims) in
   let* dfy := differentiate arr (snd dims) in
   let* d2fx := differentiate dfx (fst dims) in
   let* d2fy := differentiate dfy (snd dims) in
   let* d2fxy := differentiate dfx (snd dims) in
   let weight := if s_ltb s_zero weight2d then (weight * weight2d)%sc
                 else (weight / s_abs weight2d)%sc in
   let* avg_x := abs_min dfx in
   let* avg_y := abs_min dfy in
   let avg := s_max (avg_x * avg_x)%sc (weight * (avg_y * avg_y))%sc in
   let values :=
     map (fun p =>
            let '(fx, fy, fxx, fyy, fxy) := p in
            (curvature_numerator alpha avg weight fx fy fxx fyy fxy
             / curvature_denominator alpha avg weight fx fy)%sc)
         (zip (zip (zip (zip (sp_cells dfx) (sp_cells dfy)) (sp_cells d2fx))
                   (sp_cells d2fy)) (sp_cells d2fxy)) in
   let* curv := sp_with_values arr values in
   Ok {| sp_grid := sp_grid curv; sp_id := None |})%py.

Definition curvature (arr : Spectrum) (dims : string * string) (alpha : F)
    : pyres Spectrum :=
  curvature2d arr dims alpha 1%sc None.

End Defs.

Arguments block F : clear implicits.
Arguments matrix F : clear implicits.
Arguments Calculus F : clear implicits.
Arguments Spectrum F : clear implicits.

(** [np.diff] along an axis: each item minus the one before it. *)
Definition np_diff {F} `{ScalarOps F} (row : list (block F)) : list (block F) :=
  zip_with (zip_with s_sub) (drop 1 row) row.

(** The array has [r] rows of [c] items, each of which satisfies [P]. *)
Definition rectangular {A} (P : A -> Prop) (r c : nat) (m : list (list A))
    : Prop :=
  length m = r /\ Forall (fun row => length row = c /\ Forall P row) m.

(** A block of [k] values. *)
Definition sized {F} (k : nat) (b : block F) : Prop := length b = k.

(** The array of a result, or its exception. *)
Definition grid_of {F} (r : pyres (Spectrum F)) : pyres (Grid F F) :=
  pybind r (fun s => Ok (sp_grid s)).

(** The derivative of an array does not depend on its attributes. *)
Definition attribute_blind {F} (C : Calculus F) : Prop :=
  forall (a b : Spectrum F) (dim : string),
    sp_grid a = sp_grid b ->
    grid_of (differentiate a dim) = grid_of (differentiate b dim).

(** Uses the fact [H] on the plane of the component vector [(d0, d1)]
    to step over its computation in the goal. *)
Ltac use_plane H d0 d1 :=
  let g := fresh "g" in
  let E := fresh "E" in
  let Hg := fresh "Hg" in
  destruct (H d0 d1) as (g & E & Hg);
  cbv [diff_slices Z.eqb Z.ltb Z.compare Z.opp snd fst] in E;
  rewrite E; clear E; cbn [pybind].

(** * Example data *)

(** A derivative over the rationals, after [numpy.gradient] with the
    coordinates of the dimension: one-sided differences at the two ends,
    the second-order difference for uneven steps inside.  It stands for
    xarray's [differentiate] where the functions are evaluated. *)
Section ExampleData.
Local Open Scope string_scope.
Local Open Scope nat_scope.

Definition gradient_at (xs ys : list Q) (n i : nat) : Q :=
  let x (k : nat) := nth k xs 0%Q in
  let y (k : nat) := nth k ys 0%Q in
  let p := i - 1 in
  let s := i + 1 in
  if i =? 0 then ((y 1%nat - y 0%nat) / (x 1%nat - x 0%nat))%Q
  else if i =? n - 1 then ((y i - y p) / (x i - x p))%Q
  else
    let hs := (x i - x p)%Q in
    let hd := (x s - x i)%Q in
    ((hs * hs * y s + (hd * hd - hs * hs) * y i - hd * hd * y p)
     / (hs * hd * (hd + hs)))%Q.

Definition gradient_line (xs ys : list Q) : pyres (list Q) :=
  let n := length ys in
  if n <? 2 then Raise ValueError
  else Ok (map (fun i => Qred (gradient_at xs ys n i)) (seq 0 n)).

Definition transpose_rows (c : nat) (m : list (list Q)) : list (list Q) :=
  map (fun j => map (fun row => nth j row 0%Q) m) (seq 0 c).

Definition grid_differentiate (g : Grid Q Q) (dim : string) : pyres (Grid Q Q) :=
  match g_dims g, g_coords g with
  | [d], [xs] =>
      if String.eqb dim d then
        pybind (gradient_line xs (g_cells g)) (with_values g)
      else Raise KeyError
  | [d0; d1], [xs0; xs1] =>
      let m := chunks (length xs0) (length xs1) (g_cells g) in
      if String.eqb dim d1 then
        pybind (pymap (gradient_line xs1) m)
               (fun rows => with_values g (concat rows))
      else if String.eqb dim d0 then
        pybind (pymap (gradient_line xs0) (transpose_rows (length xs1) m))
               (fun cols =>
                  with_values g (concat (transpose_rows (length xs0) cols)))
      else Raise KeyError
  | _, _ => Raise ValueError
  end.

Definition ex_calculus : Calculus Q :=
  fun s dim => pybind (grid_differentiate (sp_grid s) dim)
                      (fun g => Ok {| sp_grid := g; sp_id := None |}).

(** The parabola [x * x] at five energies. *)
Definition ex_curve : Spectrum Q :=
  {| sp_grid := {| g_dims := ["eV"]; g_coords := [[0; 1; 2; 3; 4]%Q];
                   g_cells := [0; 1; 4; 9; 16]%Q |};
     sp_id := Some "7" |}.

(** Three angles by three energies. *)
Definition ex_image : Spectrum Q :=
  {| sp_grid := {| g_dims := ["phi"; "eV"];
                   g_coords := [[0; 1; 2]%Q; [0; 2; 4]%Q];
                   g_cells := [0; 1; 4; 1; 2; 5; 4; 5; 8]%Q |};
     sp_id := Some "7" |}.

(** The result of a call on the example data, or the array itself. *)
Definition result_or (arr : Spectrum Q) (r : pyres (Spectrum Q)) : Spectrum Q :=
  match r with
  | Ok s => s
  | Raise _ => arr
  end.

End ExampleData.

(** * Facts *)

Section Facts.
Context {F : Type} {Fops : ScalarOps F}.
Implicit Types (arr : matrix F) (delta : Z * Z).

(** ** _vector_diff *)

(** [_vector_diff] returns the array itself for the order 0,
    raises [ValueError] for a negative order, and for an order [n + 1]
    above 1 is the difference of order [n] of the first difference. *)
Theorem vector_diff_order arr delta (n : Z) :
  _vector_diff arr delta 0 = Ok arr
  /\ ((n < 0)%Z -> _vector_diff arr delta n = Raise ValueError)
  /\ ((1 <= n)%Z ->
      _vector_diff arr delta (n + 1) = _vector_diff (diff_once arr delta) delta n).
Proof.
  unfold _vector_diff. split; [done |]. split.
  - intros Hn. destruct (Z.eqb_spec n 0); [lia |].
    by destruct (Z.ltb_spec n 0); [| lia].
  - intros Hn.
    destruct (Z.eqb_spec (n + 1) 0), (Z.eqb_spec n 0); try lia.
    destruct (Z.ltb_spec (n + 1) 0), (Z.ltb_spec n 0); try lia.
    replace (Z.to_nat (n + 1)) with (S (Z.to_nat n)) by lia.
    destruct (Z.to_nat n) as [| k] eqn:Hk; [lia | done].
Qed.

Lemma take_zip_with_sub (row : list (block F)) :
  zip_with (zip_with s_sub) (drop 1 row) (take (length row - 1) row)
  = np_diff row.
Proof.
  unfold np_diff. rewrite <- (length_drop row 1). apply zip_with_take_r.
Qed.

Lemma map_py_slice_all {A} (m : list (list A)) :
  map (py_slice None None) m = m.
Proof.
  induction m as [| row m IH]; [done |]. cbn [map].
  by rewrite py_slice_all, IH.
Qed.

(** Along the vector (0, 1) the first difference is [np.diff]
    along the second axis: in every row, each item minus the one before
    it. *)
Theorem vector_diff_axis_1 arr :
  _vector_diff arr (0, 1)%Z 1 = Ok (map np_diff arr).
Proof.
  unfold _vector_diff. change (Z.to_nat 1) with 1. cbn [Z.eqb Z.ltb Z.compare vector_diff_iter].
  f_equal. unfold diff_once, mat_slice, mat_zip, diff_slices.
  cbn [fst snd Z.eqb Z.ltb Z.compare Z.opp].
  rewrite !py_slice_all. induction arr as [| row arr IH]; [done |].
  cbn [map zip_with]. rewrite IH. f_equal.
  rewrite (py_slice_from 1), (py_slice_to_neg 1) by lia.
  apply take_zip_with_sub.
Qed.

(** Along the vector (1, 0) the first difference is [np.diff]
    along the first axis: each row minus the row before it. *)
Theorem vector_diff_axis_0 arr :
  _vector_diff arr (1, 0)%Z 1
  = Ok (zip_with (zip_with (zip_with s_sub)) (drop 1 arr) arr).
Proof.
  unfold _vector_diff. change (Z.to_nat 1) with 1. cbn [Z.eqb Z.ltb Z.compare vector_diff_iter].
  f_equal. unfold diff_once, mat_slice, mat_zip, diff_slices.
  cbn [fst snd Z.eqb Z.ltb Z.compare Z.opp].
  rewrite (py_slice_from 1), (py_slice_to_neg 1) by lia.
  rewrite !map_py_slice_all.
  rewrite <- (length_drop arr 1). apply zip_with_take_r.
Qed.

(** ** Shapes *)

Lemma slice_bound_le (n : nat) (dflt : Z) (b : option Z) :
  (0 <= dflt <= Z.of_nat n)%Z -> slice_bound n dflt b <= n.
Proof.
  unfold slice_bound. destruct b as [i |]; [destruct (Z.ltb_spec i 0) |]; lia.
Qed.

Lemma py_slice_len {A} (s : slice) (l : list A) :
  length (py_slice (fst s) (snd s) l) = slice_len (length l) s.
Proof.
  unfold py_slice, slice_len. rewrite length_take, length_drop.
  pose proof (slice_bound_le (length l) (Z.of_nat (length l)) (snd s)). lia.
Qed.

Lemma slice_len_0 (s : slice) : slice_len 0 s = 0.
Proof.
  unfold slice_len. pose proof (slice_bound_le 0 (Z.of_nat 0) (snd s)). lia.
Qed.

Section Shapes.
Context {A : Type} (P : A -> Prop).
Implicit Types (m value plane : list (list A)).

Lemma py_slice_Forall (Q : A -> Prop) (lo hi : option Z) (l : list A) :
  Forall Q l -> Forall Q (py_slice lo hi l).
Proof. intros H. unfold py_slice. by apply Forall_take, Forall_drop. Qed.

Lemma mat_slice_shape (r c : nat) (rows cols : slice) m :
  rectangular P r c m ->
  rectangular P (slice_len r rows) (slice_len c cols) (mat_slice rows cols m).
Proof.
  intros [Hr Hc]. unfold mat_slice. split.
  - by rewrite length_map, py_slice_len, Hr.
  - apply Forall_map. unfold py_slice at 1.
    apply Forall_take, Forall_drop. eapply Forall_impl; [exact Hc |].
    intros row [<- Hrow]. split; [apply py_slice_len | by apply py_slice_Forall].
Qed.

Lemma zip_shape (f : A -> A -> A) (r c : nat) m m' :
  (forall x y, P x -> P y -> P (f x y)) ->
  rectangular P r c m -> rectangular P r c m' ->
  rectangular P r c (zip_with (zip_with f) m m').
Proof.
  intros Hf [Hra Hca] [Hrb Hcb]. split.
  - rewrite length_zip_with. lia.
  - apply (Forall_zip_with_fst _ (fun row => length row = c /\ Forall P row));
      [done |].
    eapply Forall_impl; [exact Hcb |]. intros y [Hy HPy] x [Hx HPx]. split.
    + rewrite length_zip_with. lia.
    + apply (Forall_zip_with_fst _ P); [done |].
      eapply Forall_impl; [exact HPy |]. intros v Hv u Hu. by apply Hf.
Qed.

Lemma rectangular_ncols (r c : nat) m :
  rectangular P r c m -> r = 0 \/ ncols m = c.
Proof.
  intros [<- Hc]. destruct Hc as [| row m [Hrow _] _]; [by left | by right].
Qed.

Lemma broadcast_axis_same {B} (n : nat) (l : list B) :
  length l = n -> broadcast_axis n l = Ok l.
Proof. intros <-. unfold broadcast_axis. by rewrite Nat.eqb_refl. Qed.

Lemma broadcast_to_same (r c tc : nat) value :
  rectangular P r c value -> r = 0 \/ c = tc ->
  broadcast_to r tc value = Ok value.
Proof.
  intros [Hr Hc] Hor. unfold broadcast_to.
  assert (pymap (broadcast_axis tc) value = Ok value) as ->.
  { destruct Hor as [-> | <-]; [by destruct value |].
    clear Hr. induction Hc as [| row m [Hrow _] _ IH]; [done |].
    cbn [pymap]. by rewrite (broadcast_axis_same c row Hrow), IH. }
  cbn [pybind]. by apply broadcast_axis_same.
Qed.

Lemma assign_block_ok (r c : nat) (rows cols : slice) value plane :
  rectangular P r c plane ->
  rectangular P (slice_len r rows) (slice_len c cols) value ->
  exists p, assign_block rows cols value plane = Ok p /\ rectangular P r c p.
Proof.
  intros Hplane Hvalue. unfold assign_block. cbv zeta.
  pose proof (rectangular_ncols r c plane Hplane) as Hn.
  destruct Hplane as [Hr Hc]. rewrite Hr.
  rewrite (broadcast_to_same _ _ _ _ Hvalue)
    by (destruct Hn as [-> | ->]; [left; apply slice_len_0 | by right]).
  cbn [pybind]. eexists. split; [done |].
  destruct Hvalue as [Hbr Hbc]. unfold slice_len in *.
  pose proof (slice_bound_le r 0 (fst rows)).
  pose proof (slice_bound_le r (Z.of_nat r) (snd rows)).
  split.
  - rewrite !length_app, length_take, length_zip_with, length_take,
      !length_drop. lia.
  - apply Forall_app. split; [by apply Forall_take |].
    apply Forall_app. split; [| by apply Forall_drop].
    apply (Forall_zip_with_fst _ (fun row => length row = c /\ Forall P row));
      [by apply Forall_take, Forall_drop |].
    eapply Forall_impl; [exact Hbc |]. intros vrow [Hv HPv] row [Hrow HProw].
    split.
    + rewrite !length_app, length_take, length_drop, Hrow, Hv.
      pose proof (slice_bound_le c 0 (fst cols)).
      pose proof (slice_bound_le c (Z.of_nat c) (snd cols)). lia.
    + apply Forall_app. split; [by apply Forall_take |].
      apply Forall_app. split; [done | by apply Forall_drop].
Qed.

Lemma concat_rectangular (k r c : nat) (m : list (list (list A))) :
  rectangular (fun b => length b = k) r c m ->
  length (concat (map (@concat _) m)) = r * c * k.
Proof.
  intros [<- Hc]. induction Hc as [| row m [<- Hrow] _ IH]; [done |].
  cbn. rewrite length_app, IH.
  assert (length (concat row) = length row * k) as ->; [| lia].
  clear IH. induction Hrow as [| b row Hb _ IH]; [done |].
  cbn. rewrite length_app, IH, Hb. lia.
Qed.

End Shapes.

Lemma diff_slices_len (d : Z) (n : nat) :
  slice_len n (fst (diff_slices d)) = slice_len n (snd (diff_slices d)).
Proof.
  unfold diff_slices. destruct (Z.eqb_spec d 0); [done |].
  destruct (Z.ltb_spec d 0); unfold slice_len, slice_bound; cbn [fst snd].
  - rewrite (proj2 (Z.ltb_lt d 0)), (proj2 (Z.ltb_ge (- d) 0)) by lia. lia.
  - rewrite (proj2 (Z.ltb_ge d 0)), (proj2 (Z.ltb_lt (- d) 0)) by lia. lia.
Qed.

Lemma zip_sized (f : F -> F -> F) (k : nat) (x y : block F) :
  sized k x -> sized k y -> sized k (zip_with f x y).
Proof. unfold sized. intros Hx Hy. rewrite length_zip_with. lia. Qed.

Lemma mat_zip_shape (f : F -> F -> F) (k r c : nat) (a b : matrix F) :
  rectangular (sized k) r c a -> rectangular (sized k) r c b ->
  rectangular (sized k) r c (mat_zip f a b).
Proof. apply zip_shape. apply zip_sized. Qed.

Lemma diff_once_shape (k r c : nat) arr (d0 d1 : Z) :
  rectangular (sized k) r c arr ->
  rectangular (sized k) (slice_len r (snd (diff_slices d0)))
              (slice_len c (snd (diff_slices d1))) (diff_once arr (d0, d1)).
Proof.
  intros Hrect. unfold diff_once. cbn [fst snd]. apply mat_zip_shape.
  - rewrite <- !diff_slices_len. by apply mat_slice_shape.
  - by apply mat_slice_shape.
Qed.

(** One plane of the gradient, for a component vector of entries among
    -1, 0 and 1: the target is the second slice of the difference. *)
Lemma plane_ok (k r c : nat) arr (zeros : matrix F) (d0 d1 : Z) :
  rectangular (sized k) r c arr -> rectangular (sized k) r c zeros ->
  exists p,
    (let* diff := _vector_diff arr (d0, d1) 1 in
     assign_block (snd (diff_slices d0)) (snd (diff_slices d1)) diff zeros)%py
    = Ok p
    /\ rectangular (sized k) r c p.
Proof.
  intros Harr Hzeros.
  unfold _vector_diff. change (Z.to_nat 1) with 1.
  cbn [Z.eqb Z.ltb Z.compare vector_diff_iter pybind].
  apply (assign_block_ok (sized k) r c); [done |]. by apply diff_once_shape.
Qed.

Lemma zeros_rectangular (k r c : nat) arr :
  rectangular (sized k) r c arr -> rectangular (sized k) r c (np_zeros arr).
Proof.
  intros [Hr Hc]. unfold np_zeros. split; [by rewrite length_map |].
  apply Forall_map. eapply Forall_impl; [exact Hc |].
  intros row [<- Hrow]. split; [apply length_map |].
  apply Forall_map. eapply Forall_impl; [exact Hrow |].
  intros b <-. apply length_map.
Qed.

(** With [delta = 1] the eight planes of the gradient are
    formed without an exception on any array of [r] rows of [c] columns,
    and each has the shape of the array. *)
Theorem gradient_planes_delta_one (k r c : nat) arr :
  rectangular (sized k) r c arr ->
  exists planes,
    gradient_planes arr 1 = Ok planes
    /\ length planes = 8
    /\ Forall (rectangular (sized k) r c) planes.
Proof.
  intros Harr. pose proof (zeros_rectangular k r c arr Harr) as Hz.
  pose proof (fun d0 d1 => plane_ok k r c arr _ d0 d1 Harr Hz) as Hplane.
  unfold gradient_planes. cbv beta zeta iota delta [Z.opp].
  use_plane Hplane 1%Z 0%Z. use_plane Hplane 0%Z 1%Z.
  use_plane Hplane (-1)%Z 0%Z. use_plane Hplane 1%Z 1%Z.
  use_plane Hplane 0%Z (-1)%Z. use_plane Hplane 1%Z (-1)%Z.
  use_plane Hplane (-1)%Z 1%Z. use_plane Hplane (-1)%Z (-1)%Z.
  eexists. split; [done |]. split; [done |].
  repeat (apply Forall_cons_2; [assumption |]). apply Forall_nil_2.
Qed.

Lemma broadcast_axis_raises {A} (n : nat) (l : list A) (e : pyerr) :
  broadcast_axis n l = Raise e -> e = ValueError.
Proof.
  unfold broadcast_axis. destruct (length l =? n); [done |].
  destruct l as [| x [| y l]]; congruence.
Qed.

Lemma broadcast_to_mismatch {A} (r tc : nat) (m : list (list A)) :
  length m <> r -> length m <> 1 -> broadcast_to r tc m = Raise ValueError.
Proof.
  intros Hr H1. unfold broadcast_to.
  destruct (pymap (broadcast_axis tc) m) as [rows | e] eqn:E; cbn [pybind].
  - apply pymap_length in E. unfold broadcast_axis.
    destruct (Nat.eqb_spec (length rows) r); [lia |].
    destruct rows as [| x [| y rows]]; cbn in *; by try lia.
  - apply pymap_raises in E as (row & _ & E).
    by rewrite (broadcast_axis_raises _ _ _ E).
Qed.

Lemma diff_once_length arr (d0 d1 : Z) :
  length (diff_once arr (d0, d1))
  = slice_len (length arr) (snd (diff_slices d0)).
Proof.
  unfold diff_once, mat_zip, mat_slice. cbn [fst snd].
  rewrite length_zip_with, !length_map, !py_slice_len, diff_slices_len. lia.
Qed.

(** The first plane of the gradient when the target [:-delta] of the
    assignment has [n] rows and the difference has another number of
    rows, which is not one. *)
Lemma first_plane_mismatch arr (delta : Z) :
  let rows := slice_len (length arr) (snd (diff_slices delta)) in
  rows <> slice_len (length arr) (None, Some (- delta)%Z) -> rows <> 1 ->
  gradient_planes arr delta = Raise ValueError.
Proof.
  intros rows Hr H1. unfold gradient_planes, _vector_diff, assign_block.
  change (Z.to_nat 1) with 1.
  cbn [Z.eqb Z.ltb Z.compare vector_diff_iter pybind fst snd].
  unfold np_zeros. rewrite length_map, broadcast_to_mismatch; [done | |];
    by rewrite diff_once_length.
Qed.

(** With [delta = 0], which the type of the argument admits,
    the target of the first plane has no row, and the difference, which
    has the rows of the array, cannot be broadcast to it: on an array of
    two rows or more the function raises [ValueError]. *)
Theorem gradient_planes_delta_zero arr :
  2 <= length arr -> gradient_planes arr 0 = Raise ValueError.
Proof.
  intros Hne. apply first_plane_mismatch;
    unfold slice_len, slice_bound;
    cbv [diff_slices Z.eqb Z.opp Z.ltb Z.compare fst snd]; lia.
Qed.

(** With [delta = -1], which the type of the argument admits
    too, the target of the first plane has one row and the difference
    has one row less than the array: on an array of three rows or more
    the function raises [ValueError]. *)
Theorem gradient_planes_delta_minus_one arr :
  3 <= length arr -> gradient_planes arr (-1) = Raise ValueError.
Proof.
  intros Hne. apply first_plane_mismatch;
    unfold slice_len, slice_bound;
    cbv [diff_slices Z.eqb Z.opp Z.ltb Z.compare fst snd]; lia.
Qed.

(** ** The gradient modulus *)

Lemma to_matrix_ok (data : Grid F F) (rows cols : list F) (rest : list (list F)) :
  g_coords data = rows :: cols :: rest ->
  length (g_cells data)
  = length rows * length cols * nat_prod (map length rest) ->
  exists m, to_matrix data = Ok m
            /\ rectangular (sized (nat_prod (map length rest)))
                           (length rows) (length cols) m
            /\ concat (map (@concat _) m) = g_cells data.
Proof.
  intros Hc Hl. unfold to_matrix. rewrite Hc. cbv zeta.
  set (k := nat_prod (map length rest)) in *.
  rewrite <- Nat.mul_assoc in Hl.
  destruct (chunks_shape _ _ _ Hl) as [Hn Hrows].
  eexists. split; [done |]. split; [split |].
  - by rewrite length_map.
  - apply Forall_map. eapply Forall_impl; [exact Hrows |].
    intros row Hrow. by apply chunks_shape.
  - rewrite map_map, (map_ext_in _ id), map_id; [by apply concat_chunks |].
    intros row Hin. rewrite Forall_forall in Hrows.
    apply concat_chunks, Hrows. by apply list_elem_of_In.
Qed.

Lemma norm_planes_shape (k r c : nat) (zeros : matrix F)
    (planes : list (matrix F)) :
  rectangular (sized k) r c zeros -> Forall (rectangular (sized k) r c) planes ->
  rectangular (sized k) r c (norm_planes zeros planes).
Proof.
  intros Hz Hp. unfold norm_planes.
  assert (rectangular (sized k) r c
            (fold_left (fun acc p => mat_zip s_add acc (mat_zip s_mul p p))
                       planes zeros)) as [Hr Hc].
  { revert zeros Hz. induction Hp as [| p planes Hp _ IH]; intros zeros Hz;
      [done |].
    cbn [fold_left]. apply IH. by repeat apply mat_zip_shape. }
  split; [by rewrite length_map |]. apply Forall_map.
  eapply Forall_impl; [exact Hc |]. intros row [<- Hrow].
  split; [apply length_map |]. apply Forall_map.
  eapply Forall_impl; [exact Hrow |]. intros b <-. apply length_map.
Qed.

(** On an array of two dimensions or more with one value per
    combination of coordinates, [_gradient_modulus] with [delta = 1]
    returns an array with the dimensions, the coordinates and the number
    of values of its argument. *)
Theorem gradient_modulus_total (data : Grid F F) (rows cols : list F)
    (rest : list (list F)) :
  g_coords data = rows :: cols :: rest ->
  length (g_cells data)
  = length rows * length cols * nat_prod (map length rest) ->
  exists g,
    _gradient_modulus data 1 = Ok g
    /\ g_dims g = g_dims data /\ g_coords g = g_coords data
    /\ length (g_cells g) = length (g_cells data).
Proof.
  intros Hc Hl. unfold _gradient_modulus.
  destruct (to_matrix_ok data rows cols rest Hc Hl) as (m & -> & Hm & _).
  cbn [pybind].
  destruct (gradient_planes_delta_one _ _ _ m Hm) as (planes & -> & _ & Hp).
  cbn [pybind]. unfold with_values.
  pose proof (concat_rectangular _ _ _ _
                (norm_planes_shape _ _ _ _ _ (zeros_rectangular _ _ _ _ Hm) Hp))
    as Hlen.
  rewrite Hlen, Hl, Nat.eqb_refl. eexists. split; [done |]. cbn.
  by rewrite Hlen.
Qed.

(** Without a smoothing function, [minimum_gradient] with
    [delta = 1] divides every value of the array by the gradient modulus
    at its place. *)
Theorem minimum_gradient_quotient (data : Spectrum F) (rows cols : list F)
    (rest : list (list F)) :
  g_coords (sp_grid data) = rows :: cols :: rest ->
  length (sp_cells data)
  = length rows * length cols * nat_prod (map length rest) ->
  exists modulus,
    _gradient_modulus (sp_grid data) 1 = Ok modulus
    /\ minimum_gradient data None 1
       = Ok {| g_dims := g_dims (sp_grid data);
               g_coords := g_coords (sp_grid data);
               g_cells := zip_with s_div (sp_cells data) (g_cells modulus) |}
    /\ length (g_cells modulus) = length (sp_cells data).
Proof.
  intros Hc Hl.
  destruct (gradient_modulus_total (sp_grid data) rows cols rest Hc Hl)
    as (g & E & _ & _ & Hlen).
  exists g. unfold minimum_gradient, assign_attrs, _nothing_to_array.
  cbn [default sp_grid]. by rewrite E.
Qed.

(** ** Derivatives *)

Section Derivatives.
Context {C : Calculus F}.

Lemma differentiate_n_add (n m : nat) (arr : Spectrum F) (dim : string) :
  differentiate_n (n + m) arr dim
  = pybind (differentiate_n n arr dim) (fun d => differentiate_n m d dim).
Proof.
  revert arr. induction n as [| n IH]; intros arr; [done |]. cbn.
  destruct (differentiate arr dim); [apply IH | done].
Qed.

(** With an order that is zero or negative the loop of
    [dn_along_axis] does not run: the result is the smoothed array
    itself, with the attributes of the argument over its own and the
    suffix of the order on its [id]. *)
Theorem dn_along_axis_no_order (arr : Spectrum F) (dim : string)
    (smooth_fn : option (Spectrum F -> Spectrum F)) (order : Z) :
  (order <= 0)%Z -> dim <> ""%string ->
  dn_along_axis arr dim smooth_fn order
  = Ok {| sp_grid := sp_grid (default _nothing_to_array smooth_fn arr);
          sp_id := (fun id => id +:+ "_dy" +:+ pretty order)%string
                   <$> sp_id (assign_attrs
                                (default _nothing_to_array smooth_fn arr)
                                (sp_id arr)) |}.
Proof.
  intros Ho Hd. unfold dn_along_axis, dim_or_first.
  destruct (String.eqb_spec dim ""); [done |].
  by replace (Z.to_nat order) with 0 by lia.
Qed.

Lemma differentiate_n_blind (n : nat) (a b : Spectrum F) (dim : string) :
  attribute_blind C -> sp_grid a = sp_grid b ->
  grid_of (differentiate_n n a dim) = grid_of (differentiate_n n b dim).
Proof.
  intros Hb. revert a b. induction n as [| n IH]; intros a b Hab.
  - cbn. by rewrite Hab.
  - cbn. pose proof (Hb a b dim Hab) as E. unfold grid_of in E.
    destruct (differentiate a dim) as [a' | e], (differentiate b dim) as [b' | e'];
      cbn in E; simplify_eq; [| done].
    by apply IH.
Qed.

Lemma dn_along_axis_grid (arr : Spectrum F) (dim : string) (order : Z) :
  dim <> ""%string ->
  grid_of (dn_along_axis arr dim None order)
  = grid_of (differentiate_n (Z.to_nat order) arr dim).
Proof.
  intros Hd. unfold dn_along_axis, dim_or_first.
  destruct (String.eqb_spec dim ""); [done |]. cbn.
  by destruct (differentiate_n _ _ _).
Qed.

(** Claim C32. When the derivative does not look at the attributes, the
    array of [d2_along_axis] is the array of [d1_along_axis] applied
    twice; an exception of either derivative is the exception of the
    other. *)
Theorem d2_is_d1_twice (arr : Spectrum F) (dim : string) :
  attribute_blind C -> dim <> ""%string ->
  grid_of (d2_along_axis arr dim None)
  = grid_of (pybind (d1_along_axis arr dim None)
                    (fun d => d1_along_axis d dim None)).
Proof.
  intros Hb Hd. unfold d2_along_axis, d1_along_axis.
  rewrite dn_along_axis_grid by done.
  change (Z.to_nat 2) with (1 + 1). rewrite differentiate_n_add.
  pose proof (dn_along_axis_grid arr dim 1 Hd) as E1.
  change (Z.to_nat 1) with 1 in *.
  destruct (dn_along_axis arr dim None 1) as [d |] eqn:Ed,
    (differentiate_n 1 arr dim) as [d' |] eqn:Ed'; cbn in E1; simplify_eq;
    cbn [pybind]; [| done].
  rewrite dn_along_axis_grid by done. change (Z.to_nat 1) with 1.
  by apply differentiate_n_blind.
Qed.

(** ** Curvature *)

(** [curvature2d] raises [AssertionError] unless [alpha] is
    positive and, when it is, raises it for the weight zero, before it
    reads the array. *)
Theorem curvature2d_asserts (arr : Spectrum F) (dims : string * string)
    (alpha weight2d : F) (smooth_fn : option (Spectrum F -> Spectrum F)) :
  (s_ltb s_zero alpha = false ->
   curvature2d arr dims alpha weight2d smooth_fn = Raise AssertionError)
  /\ (s_ltb s_zero alpha = true -> s_eqb weight2d s_zero = true ->
      curvature2d arr dims alpha weight2d smooth_fn = Raise AssertionError).
Proof.
  unfold curvature2d. split.
  - by intros ->.
  - by intros -> ->.
Qed.

Lemma with_values_inv (arr : Spectrum F) (values : list F) (r : Spectrum F) :
  sp_with_values arr values = Ok r ->
  g_dims (sp_grid r) = g_dims (sp_grid arr)
  /\ g_coords (sp_grid r) = g_coords (sp_grid arr)
  /\ sp_cells r = values /\ sp_id r = sp_id arr
  /\ length values = length (sp_cells arr).
Proof.
  unfold sp_with_values, with_values, sp_cells.
  destruct (Nat.eqb_spec (length values) (length (g_cells (sp_grid arr))));
    [| done].
  by intros [= <-].
Qed.

(** A result of [curvature2d] has the dimensions and the
    coordinates of the smoothed array and no [id]. *)
Theorem curvature2d_result (arr r : Spectrum F) (dims : string * string)
    (alpha weight2d : F) (smooth_fn : option (Spectrum F -> Spectrum F)) :
  curvature2d arr dims alpha weight2d smooth_fn = Ok r ->
  let smoothed := from_option (fun f => f arr) arr smooth_fn in
  g_dims (sp_grid r) = g_dims (sp_grid smoothed)
  /\ g_coords (sp_grid r) = g_coords (sp_grid smoothed)
  /\ length (sp_cells r) = length (sp_cells smoothed)
  /\ sp_id r = None.
Proof.
  unfold curvature2d. intros E. py_head E.
  match goal with H : sp_with_values _ _ = Ok _ |- _ =>
    apply with_values_inv in H; destruct H as (Hd & Hc & Hv & _ & Hl) end.
  injection E as <-. cbv zeta. unfold sp_cells in *. cbn [sp_grid sp_id].
  rewrite Hv, Hl, Hd, Hc. by destruct smooth_fn.
Qed.

(** A result of [curvature1d] has the dimensions and the
    coordinates of the smoothed array, and the [id] of the smoothed
    array with the suffix [_CV] when it has one. *)
Theorem curvature1d_result (arr r : Spectrum F) (dim : string) (alpha : F)
    (smooth_fn : option (Spectrum F -> Spectrum F)) :
  curvature1d arr dim alpha smooth_fn = Ok r ->
  let smoothed := default _nothing_to_array smooth_fn arr in
  g_dims (sp_grid r) = g_dims (sp_grid smoothed)
  /\ g_coords (sp_grid r) = g_coords (sp_grid smoothed)
  /\ sp_id r = (fun id => id +:+ "_CV")%string <$> sp_id smoothed
  /\ s_ltb s_zero alpha = true.
Proof.
  unfold curvature1d. intros E. py_head E.
  match goal with H : sp_with_values _ _ = Ok _ |- _ =>
    apply with_values_inv in H; destruct H as (Hd & Hc & _) end.
  injection E as <-. cbn. split; [done |]. split; [done |]. split; [done |].
  match goal with H : py_assert ?b = Ok _ |- _ => by destruct b end.
Qed.

End Derivatives.

End Facts.

(** * The functions on the example data *)

Section Examples.
Local Open Scope string_scope.
#[local] Existing Instance ex_calculus.

Lemma ex_calculus_blind : attribute_blind ex_calculus.
Proof.
  intros a b dim E. unfold differentiate, ex_calculus. by rewrite E.
Qed.

Lemma gradient_planes_delta_zero_witness :
  gradient_planes [[[1]; [2]]; [[3]; [4]]]%Q 0 = Raise ValueError.
Proof. apply gradient_planes_delta_zero. cbn. lia. Defined.

Lemma gradient_planes_delta_minus_one_witness :
  gradient_planes [[[1]; [2]]; [[3]; [4]]; [[5]; [6]]]%Q (-1)
  = Raise ValueError.
Proof. apply gradient_planes_delta_minus_one. cbn. lia. Defined.

Lemma minimum_gradient_quotient_witness :
  exists modulus,
    _gradient_modulus (sp_grid ex_image) 1 = Ok modulus
    /\ minimum_gradient ex_image None 1
       = Ok {| g_dims := g_dims (sp_grid ex_image);
               g_coords := g_coords (sp_grid ex_image);
               g_cells := zip_with s_div (sp_cells ex_image) (g_cells modulus) |}
    /\ length (g_cells modulus) = length (sp_cells ex_image).
Proof.
  by apply (minimum_gradient_quotient ex_image [0; 1; 2]%Q [0; 2; 4]%Q []).
Defined.

Lemma dn_along_axis_no_order_witness :
  dn_along_axis ex_curve "eV" None (-1)
  = Ok {| sp_grid := sp_grid ex_curve; sp_id := Some "7_dy-1" |}.
Proof. by apply (dn_along_axis_no_order ex_curve "eV" None (-1)). Defined.

Lemma d2_is_d1_twice_witness :
  grid_of (d2_along_axis ex_curve "eV" None)
  = grid_of (pybind (d1_along_axis ex_curve "eV" None)
                    (fun d => d1_along_axis d "eV" None)).
Proof. by apply d2_is_d1_twice; [apply ex_calculus_blind |]. Defined.

Lemma curvature2d_asserts_witness :
  curvature2d ex_image ("phi", "eV") 0%Q 1%Q None = Raise AssertionError
  /\ curvature2d ex_image ("phi", "eV") 1%Q 0%Q None = Raise AssertionError.
Proof.
  split.
  - by apply (proj1 (curvature2d_asserts ex_image ("phi", "eV") 0%Q 1%Q None)).
  - by apply (proj2 (curvature2d_asserts ex_image ("phi", "eV") 1%Q 0%Q None)).
Defined.

Lemma curvature2d_result_witness :
  let r := result_or ex_image
             (curvature2d ex_image ("phi", "eV") (1 # 10)%Q 1%Q None) in
  g_dims (sp_grid r) = ["phi"; "eV"]
  /\ g_coords (sp_grid r) = [[0; 1; 2]%Q; [0; 2; 4]%Q]
  /\ length (sp_cells r) = 9
  /\ sp_id r = None.
Proof.
  by apply (curvature2d_result ex_image _ ("phi", "eV") (1 # 10)%Q 1%Q None).
Defined.

Lemma curvature1d_result_witness :
  let r := result_or ex_curve (curvature1d ex_curve "" (1 # 10)%Q None) in
  g_dims (sp_grid r) = ["eV"]
  /\ g_coords (sp_grid r) = [[0; 1; 2; 3; 4]%Q]
  /\ sp_id r = Some "7_CV"
  /\ s_ltb s_zero (1 # 10)%Q = true.
Proof. by apply (curvature1d_result ex_curve _ "" (1 # 10)%Q None). Defined.

(** On the parabola the first derivative is [2 * x] inside
    and the one-sided slope at the two ends; the second derivative is
    the first derivative of that; both take the [id] of the array with
    the suffix of the order. *)
Example derivatives_of_parabola :
  d1_along_axis ex_curve "" None
  = Ok {| sp_grid := {| g_dims := ["eV"]; g_coords := [[0; 1; 2; 3; 4]%Q];
                        g_cells := [1; 2; 4; 6; 7]%Q |};
          sp_id := Some "7_dy1" |}
  /\ d2_along_axis ex_curve "" None
     = Ok {| sp_grid := {| g_dims := ["eV"]; g_coords := [[0; 1; 2; 3; 4]%Q];
                           g_cells := [1; 3 # 2; 2; 3 # 2; 1]%Q |};
             sp_id := Some "7_dy2" |}.
Proof. by vm_compute. Qed.

(** On an array of a single value [delta = 0] raises nothing:
    every difference is broadcast to a target without rows or without
    columns, or is zero, and the eight planes are zero. *)
Example gradient_planes_single_value :
  gradient_planes [[[5]]]%Q 0 = Ok (replicate 8 [[[0%Q]]]).
Proof. by vm_compute. Qed.

(** With [delta = -1] an array of two rows and two columns
    raises nothing, and the planes differ from the planes of
    [delta = 1]: the forward difference of the first axis lands in
    plane 2 and not in plane 0. *)
Example gradient_planes_two_by_two :
  let pick (delta : Z) :=
    pybind (gradient_planes [[[1]; [2]]; [[3]; [4]]]%Q delta)
           (fun planes => Ok (map (@concat _) <$> planes !! 0,
                              map (@concat _) <$> planes !! 2)) in
  pick 1%Z = Ok (Some [[2; 2]; [0; 0]]%Q, Some [[0; 0]; [-2; -2]]%Q)
  /\ pick (-1)%Z = Ok (Some [[-2; -2]; [0; 0]]%Q, Some [[0; 0]; [2; 2]]%Q).
Proof. by vm_compute. Qed.

(** An array of three dimensions, two values along each: the values are
    two rows of two columns of blocks of two, and the first plane of the
    gradient holds the difference of the two rows in its first row. *)
Example gradient_planes_three_dimensions :
  let data := {| g_dims := ["phi"; "eV"; "delay"];
                 g_coords := [[0; 1]; [0; 1]; [0; 1]]%Q;
                 g_cells := [1; 2; 3; 4; 5; 6; 7; 8]%Q |} in
  to_matrix data = Ok [[[1; 2]; [3; 4]]; [[5; 6]; [7; 8]]]%Q
  /\ pybind (to_matrix data)
        (fun values => pybind (gradient_planes values 1)
                              (fun planes => Ok (planes !! 0)))
     = Ok (Some [[[4; 4]; [4; 4]]; [[0; 0]; [0; 0]]]%Q).
Proof. by vm_compute. Qed.

End Examples.
