(* ===== verification/HotPool.v ===== *)
(** * The keep-alive process pool

    [src/arpes/fits/hot_pool.py]: an object that creates a
    [multiprocessing.Pool] the first time its property [pool] is read,
    hands the same pool out afterwards, and closes it in [__del__].

    The processes of the pool are outside the model.  What is kept of
    [multiprocessing] is the bookkeeping the object relies on: the pools
    created so far, numbered in the order of their creation, and the set
    of those that were closed.  A configuration is the object together
    with this bookkeeping; the two methods are functions on
    configurations and the runs of the object are the sequences of steps
    of the relation [step]. *)

From stdpp Require Import prelude gmap.
From S2P Require Import Prelude.

(** * Definitions *)

(** A pool is known by its number. *)
Definition pool_id : Type := nat.

(** [multiprocessing]: how many pools were created and which of them
    were closed. *)
Record System : Type := mkSystem {
  created : nat;
  closed : gset pool_id
}.

(** The object: its attribute [_pool]. *)
Record HotPool : Type := mkHotPool {
  _pool : option pool_id
}.

Definition Config : Type := HotPool * System.

(** [Pool()]: a new pool, which is open. *)
Definition Pool (sys : System) : pool_id * System :=
  (created sys, {| created := S (created sys); closed := closed sys |}).

(** [p.close()]. *)
Definition close (p : pool_id) (sys : System) : System :=
  {| created := created sys; closed := {[ p ]} ∪ closed sys |}.

(** [hot_pool = HotPool()]: the class attribute [_pool] is [None]. *)
Definition hot_pool : HotPool := {| _pool := None |}.

(** The property [pool]. *)
Definition pool (c : Config) : pool_id * Config :=
  match _pool (fst c) with
  | Some p => (p, c)
  | None =>
      let '(p, sys) := Pool (snd c) in
      (p, ({| _pool := Some p |}, sys))
  end.

(** [__del__]. *)
Definition __del__ (c : Config) : Config :=
  match _pool (fst c) with
  | Some p => ({| _pool := None |}, close p (snd c))
  | None => c
  end.

(** What a client does with the object. *)
Inductive event : Type :=
| ReadPool (p : pool_id)
| Delete.

Inductive step : Config -> event -> Config -> Prop :=
| step_pool c : step c (ReadPool (fst (pool c))) (snd (pool c))
| step_del c : step c Delete (__del__ c).

(** A run: the events of a sequence of steps, the first one first. *)
Inductive run : Config -> list event -> Config -> Prop :=
| run_nil c : run c [] c
| run_cons c e c' es c'' : step c e c' -> run c' es c'' -> run c (e :: es) c''.

(** The run of a list of requests, [true] for a read of [pool]. *)
Fixpoint exec (requests : list bool) (c : Config) : list event * Config :=
  match requests with
  | [] => ([], c)
  | true :: rest =>
      let '(p, c') := pool c in
      let '(es, c'') := exec rest c' in
      (ReadPool p :: es, c'')
  | false :: rest =>
      let '(es, c'') := exec rest (__del__ c) in
      (Delete :: es, c'')
  end.

(** The system before any pool is created. *)
Definition boot : System := {| created := 0; closed := ∅ |}.

Definition initial : Config := (hot_pool, boot).

(** A pool is open when it was created and not closed. *)
Definition is_open (sys : System) (p : pool_id) : Prop :=
  p < created sys /\ p ∉ closed sys.

#[export] Instance is_open_dec sys p : Decision (is_open sys p).
Proof. unfold is_open. apply _. Defined.

(** The invariant: only pools that were created are closed; the pool
    the object holds is open, and it is the only pool that is: every
    other pool created was closed. *)
Definition inv (c : Config) : Prop :=
  (forall p, p ∈ closed (snd c) -> p < created (snd c))
  /\ (forall p, is_open (snd c) p <-> _pool (fst c) = Some p).

(** ** The contract *)

(** What the module promises: the object is cold or holds one pool. *)
Inductive phase : Type :=
| Cold
| Hot (p : pool_id).

(** The steps of the contract: a read of a cold object warms it up with
    a pool never seen before, a read of a hot object returns its pool,
    and a deletion cools it down. *)
Inductive spec_step (seen : gset pool_id)
    : phase -> event -> phase -> Prop :=
| spec_warm p : p ∉ seen -> spec_step seen Cold (ReadPool p) (Hot p)
| spec_keep p : spec_step seen (Hot p) (ReadPool p) (Hot p)
| spec_cool ph : spec_step seen ph Delete Cold.

(** The phase of a configuration. *)
Definition phase_of (c : Config) : phase :=
  match _pool (fst c) with
  | Some p => Hot p
  | None => Cold
  end.

(** The pools created so far. *)
Definition seen_of (c : Config) : gset pool_id :=
  set_seq 0 (created (snd c)).

(** The number of reads that created a pool in a run of the contract
    from the phase [ph]. *)
Fixpoint warmups (ph : phase) (es : list event) : nat :=
  match es with
  | [] => 0
  | ReadPool p :: rest =>
      match ph with
      | Cold => S (warmups (Hot p) rest)
      | Hot _ => warmups ph rest
      end
  | Delete :: rest => warmups Cold rest
  end.

(** * Facts *)

Section Facts.
Implicit Types (c : Config) (p : pool_id) (e : event) (es : list event).

(** ** The two methods *)

(** Reading [pool] twice returns the same pool, and the second read
    changes nothing. *)
Lemma pool_idempotent c :
  pool (snd (pool c)) = (fst (pool c), snd (pool c)).
Proof.
  unfold pool. destruct c as [[[p |]] sys]; [done |].
  by destruct sys.
Qed.

Lemma del_idempotent c : __del__ (__del__ c) = __del__ c.
Proof. unfold __del__. by destruct c as [[[p |]] sys]. Qed.

Lemma pool_holds c : _pool (fst (snd (pool c))) = Some (fst (pool c)).
Proof. unfold pool. by destruct c as [[[p |]] [n cl]]. Qed.

Lemma del_cold c : _pool (fst (__del__ c)) = None.
Proof. unfold __del__. by destruct c as [[[p |]] sys]. Qed.

(** ** The invariant *)

Lemma inv_initial : inv initial.
Proof.
  split; intros p; unfold is_open, initial, boot; cbn; [set_solver |].
  split; [lia | done].
Qed.

Lemma inv_pool c : inv c -> inv (snd (pool c)).
Proof.
  unfold pool. destruct c as [[[q |]] [n cl]]; [done |].
  intros [Hcl Hopen]. unfold is_open in *. cbn in *. split; cbn.
  - intros p Hp%Hcl. lia.
  - intros p. unfold is_open. cbn. split.
    + intros [Hlt Hp]. destruct (decide (p = n)) as [-> | Hne]; [done |].
      assert (p < n) as Hlt' by lia. by pose proof (proj1 (Hopen p) (conj Hlt' Hp)).
    + intros [= <-]. split; [lia |]. intros Hn%Hcl. lia.
Qed.

Lemma inv_del c : inv c -> inv (__del__ c).
Proof.
  unfold __del__. destruct c as [[[q |]] [n cl]]; [| done].
  intros [Hcl Hopen]. unfold is_open in *. cbn in *.
  destruct (proj2 (Hopen q) eq_refl) as [Hq Hqcl]. split; cbn.
  - intros p [->%elem_of_singleton | Hp%Hcl]%elem_of_union; lia.
  - intros p. unfold is_open. cbn. split; [| done]. intros [Hlt Hp].
    apply not_elem_of_union in Hp as [Hpq%not_elem_of_singleton Hpc].
    by pose proof (proj1 (Hopen p) (conj Hlt Hpc)) as [= ->].
Qed.

Lemma inv_step c e c' : step c e c' -> inv c -> inv c'.
Proof. destruct 1; [apply inv_pool | apply inv_del]. Qed.

Lemma inv_run c es c' : run c es c' -> inv c -> inv c'.
Proof. induction 1; eauto using inv_step. Qed.

(** Claim C16. In every configuration the object reaches from its
    creation, the pool it holds is open and no other pool is: every pool
    created before was closed. *)
Theorem reachable_inv es c : run initial es c -> inv c.
Proof. intros Hrun. exact (inv_run _ _ _ Hrun inv_initial). Qed.

(** Claim C22. After [__del__] no pool is open: the object leaks no
    pool. *)
Theorem del_closes_all c p : inv c -> ~ is_open (snd (__del__ c)) p.
Proof.
  intros Hinv%inv_del Hopen. apply Hinv in Hopen. by rewrite del_cold in Hopen.
Qed.

Lemma run_snoc c es c' e c'' :
  run c es c' -> step c' e c'' -> run c (es ++ [e]) c''.
Proof.
  induction 1 as [c | c e0 c1 es c2 Hstep _ IH]; intros He; cbn.
  - eapply run_cons; [exact He | constructor].
  - eapply run_cons; [exact Hstep | by apply IH].
Qed.


(** ** The object against its contract *)

(** Claim C17. Every step of the object is a step of the contract
    between the phases of its configurations: a read of a cold object
    returns a pool that did not exist before, a read of a hot object
    returns the pool it holds, a deletion cools the object down. *)
Theorem step_refines c e c' :
  step c e c' -> spec_step (seen_of c) (phase_of c) e (phase_of c').
Proof.
  destruct 1 as [c | c]; unfold phase_of.
  - rewrite pool_holds. unfold pool, seen_of.
    destruct c as [[[q |]] [n cl]]; cbn; constructor.
    rewrite elem_of_set_seq. lia.
  - rewrite del_cold. constructor.
Qed.

Lemma step_created c e c' :
  step c e c' -> created (snd c') = created (snd c) + warmups (phase_of c) [e].
Proof.
  destruct 1 as [c | c]; unfold phase_of, pool, __del__;
    destruct c as [[[q |]] [n cl]]; cbn; lia.
Qed.

Lemma warmups_cons ph e es c c' :
  step c e c' -> ph = phase_of c ->
  warmups ph (e :: es) = warmups ph [e] + warmups (phase_of c') es.
Proof.
  intros Hstep ->. destruct Hstep as [c | c]; unfold phase_of.
  - rewrite pool_holds. unfold pool.
    destruct c as [[[q |]] [n cl]]; cbn; lia.
  - rewrite del_cold. cbn. destruct (_pool (fst c)); cbn; lia.
Qed.

(** A run creates one pool per read of a cold object and no
    other: the number of pools created grows by the number of warm-ups
    of the contract. *)
Theorem run_created c es c' :
  run c es c' -> created (snd c') = created (snd c) + warmups (phase_of c) es.
Proof.
  induction 1 as [c | c e c' es c'' Hstep _ IH]; [cbn; lia |].
  rewrite IH, (step_created _ _ _ Hstep), (warmups_cons _ e es c c') by done.
  lia.
Qed.

(** ** Runs as a function *)

Definition is_read (e : event) : bool :=
  match e with
  | ReadPool _ => true
  | Delete => false
  end.

Lemma exec_run requests c :
  run c (fst (exec requests c)) (snd (exec requests c)).
Proof.
  revert c. induction requests as [| [|] rest IH]; intros c; cbn.
  - constructor.
  - destruct (pool c) as [p c1] eqn:Ep. specialize (IH c1).
    destruct (exec rest c1) as [es c2]. cbn in *.
    apply (run_cons _ _ c1); [| done].
    pose proof (step_pool c) as Hs. by rewrite Ep in Hs.
  - specialize (IH (__del__ c)). destruct (exec rest (__del__ c)) as [es c2].
    cbn in *. apply (run_cons _ _ (__del__ c)); [constructor | done].
Qed.

(** The object is deterministic: the events and the final
    configuration of a run are those the requests of the run compute. *)
Theorem run_exec c es c' :
  run c es c' -> exec (map is_read es) c = (es, c').
Proof.
  induction 1 as [c | c e c' es c'' Hstep _ IH]; [done |].
  destruct Hstep as [c | c]; cbn [map is_read exec].
  - destruct (pool c) as [p c1]. cbn in *. by rewrite IH.
  - by rewrite IH.
Qed.

End Facts.

(** * The object on examples *)

Section Examples.

Lemma reachable_inv_witness :
  inv (snd (exec [true; true; false; true] initial)).
Proof.
  apply (reachable_inv (fst (exec [true; true; false; true] initial))).
  apply exec_run.
Defined.

Lemma del_closes_all_witness :
  ~ is_open (snd (__del__ (snd (pool initial)))) 0.
Proof. apply del_closes_all, inv_pool, inv_initial. Defined.


Lemma step_refines_witness :
  spec_step ∅ Cold (ReadPool 0) (Hot 0).
Proof. exact (step_refines initial _ _ (step_pool initial)). Defined.

Lemma run_created_witness :
  created (snd (snd (exec [true; true; false; true] initial))) = 2.
Proof.
  exact (run_created initial _ _ (exec_run [true; true; false; true] initial)).
Defined.

Lemma run_exec_witness :
  exec (map is_read [ReadPool 0; Delete]) initial
  = ([ReadPool 0; Delete], (hot_pool, close 0 (snd (snd (pool initial))))).
Proof.
  apply run_exec. apply (run_cons _ _ (snd (pool initial))); [apply (step_pool initial) |].
  apply (run_cons _ _ (__del__ (snd (pool initial)))); [apply step_del |].
  apply run_nil.
Defined.

(** Two reads return the pool 0; after a deletion the next
    read returns a new pool, 1, and the pool 0 is closed. *)
Example keep_alive_run :
  exec [true; true; false; true] initial
  = ([ReadPool 0; ReadPool 0; Delete; ReadPool 1],
     ({| _pool := Some 1 |}, {| created := 2; closed := {[ 0 ]} ∪ ∅ |})).
Proof. reflexivity. Qed.

End Examples.
