(* ===== verification/KFermi.v ===== *)
(** * The Fermi momentum of a series of momentum distribution curves

    [src/arpes/analysis/kfermi.py]: [kfermi_from_mdcs] chooses the name
    of the parameter that holds the peak position, reads its value in
    every fit of the series, drops the energies at which the fit has no
    such parameter, fits a line through the rest and evaluates the line
    at the Fermi level, [eV = 0].

    The names of the parameters of a series form a Python set.  The
    function only tests membership in it and takes the single item of a
    selection, so that the set is a list here and no result depends on
    its order.  The accessors [F.parameter_names], [F.p] and
    [G.filter_coord] and the class [LinearModel] are not in the
    repository; they are modelled from what they document. *)

From stdpp Require Import prelude strings.
From Stdlib Require Import QArith.
From S2P Require Import Prelude PyStr PyDict Itertools Arrays Params Mixin.
Close Scope Q_scope.

(** * Definitions *)

Section Defs.
Context {F : Type} {Fops : ScalarOps F} {L : Lmfit F}.

(** [results.F.parameter_names]: the names of the parameters of the
    fits of the series, each once. *)
Definition parameter_names (results : Grid F (option (ModelResult F)))
    : list string :=
  fold_left (fun names cell =>
               match cell with
               | Some r =>
                   fold_left (fun names n =>
                                if existsb (String.eqb n) names then names
                                else names ++ [n])
                             (dict_keys (mr_params r)) names
               | None => names
               end)
            (g_cells results) [].

(** The choice of the parameter. *)
Definition real_param_name (param_names : list string) (param : string)
    : pyres string :=
  if existsb (String.eqb param) param_names then Ok param
  else
    (let best_names := List.filter (contains "center") param_names in
     let best_names :=
       if String.eqb param "" then List.filter (contains param) best_names
       else best_names in
     let* _ := py_assert (length best_names =? 1) in
     py_index best_names 0)%py.

(** [results.F.p(name)]: the value of the parameter in every fit,
    not-a-number where the fit does not have it. *)
Definition F_p (results : Grid F (option (ModelResult F))) (name : string)
    : pyres (Grid F (pyfloat F)) :=
  (let* values := pymap (param_getter name true) (g_cells results) in
   Ok {| g_dims := g_dims results; g_coords := g_coords results;
         g_cells := values |})%py.

(** The inner function [nan_sieve] on the single value of a slice. *)
Definition nan_sieve (x : pyfloat F) : pyres bool :=
  match x with
  | Num _ => Ok true
  | NaN => Ok false
  | PyNone => Raise TypeError
  end.

(** [arr.G.filter_coord(coordinate_name, sieve)] for the sieve above:
    the ticks at which the sieve holds are kept.  The sieve reads the
    slice at a tick by [item()], which raises unless the slice has one
    value; an empty selection is an index array of floats, which xarray
    refuses. *)
Definition filter_coord (arr : Grid F (pyfloat F)) (coordinate_name : string)
    : pyres (Grid F F) :=
  (let* ticks := coords_of arr coordinate_name in
   let* _ := if length (g_cells arr) =? length ticks then Ok tt
             else Raise ValueError in
   let* sieved := pymap (fun tx => let* keep := nan_sieve (snd tx) in
                                   Ok (tx, keep))
                        (combine ticks (g_cells arr)) in
   let kept := omap (fun txk => match txk with
                                | ((t, Num x), true) => Some (t, x)
                                | _ => None
                                end) sieved in
   match kept with
   | [] => Raise TypeError
   | _ =>
       Ok {| g_dims := g_dims arr;
             g_coords := map (fun dc => if String.eqb (fst dc) coordinate_name
                                        then map fst kept else snd dc)
                             (coords_dict arr);
             g_cells := map snd kept |}
   end)%py.

(** [arpes.fits.LinearModel]: the line [slope * x + intercept]. *)
Definition LinearModel : Model F :=
  Basic "" ["slope"; "intercept"]%string 1
        (fun ps x => match ps with
                     | [slope; intercept] => (slope * x + intercept)%sc
                     | _ => s_zero
                     end).

(** [result.eval(x=x)]: the model of the result on its fitted
    parameters. *)
Definition result_eval (r : ModelResult F) (x : F) : pyres F :=
  model_eval (mr_model r) (mr_params r) x.

Definition kfermi_from_mdcs (mdc_results : Grid F (option (ModelResult F)))
    (param : string) : pyres F :=
  (let param_names := parameter_names mdc_results in
   let* real_param_name := real_param_name param_names param in
   let* centers := F_p mdc_results real_param_name in
   let* data := filter_coord centers "eV" in
   let* fit := guess_fit LinearModel (DataArray data) None None
                         true true false None in
   result_eval fit s_zero)%py.

End Defs.

(** * Example data *)

(** Fits of two peaks at three energies; the second energy has only the
    first peak.  The stand-in for the fit of the line returns the line
    through the first and the last point it is given. *)
Section ExampleData.
Local Open Scope string_scope.

Definition ex_mdc (names : list string) (center : Q) : option (ModelResult Q) :=
  Some {| mr_model := ex_peak "a_";
          mr_params := map (fun n => (n, ex_param center)) names;
          mr_best_fit := []; mr_residual := [] |}.

Definition ex_series : Grid Q (option (ModelResult Q)) :=
  {| g_dims := ["eV"]; g_coords := [[-2; -1; 1]%Q];
     g_cells := [ex_mdc ["a_center"; "a_sigma"] 5;
                 ex_mdc ["a_sigma"] 0;
                 ex_mdc ["a_center"; "a_sigma"] 8] |}.

Definition ex_two_peaks : Grid Q (option (ModelResult Q)) :=
  {| g_dims := ["eV"]; g_coords := [[-1; 1]%Q];
     g_cells := [ex_mdc ["a_center"; "b_center"] 5;
                 ex_mdc ["a_center"; "b_center"] 8] |}.

(** The line through the first and the last of the points. *)
Definition line_through (xs ys : list Q) : list (string * Param Q) :=
  let x0 := default 0%Q (head xs) in
  let x1 := default 1%Q (last xs) in
  let y0 := default 0%Q (head ys) in
  let y1 := default 0%Q (last ys) in
  let slope := Qred ((y1 - y0) / (x1 - x0)) in
  [("slope", ex_start slope); ("intercept", ex_start (Qred (y0 - slope * x0)))].

Definition ex_line_fit : Lmfit Q := {|
  lm_parameter := lm_parameter (Lmfit := ex_lmfit);
  lm_guess := lm_guess (Lmfit := ex_lmfit);
  lm_make_params := lm_make_params (Lmfit := ex_lmfit);
  lm_fit m data params coord_values weights :=
    (let* x := dict_item coord_values "x" in
     Ok {| mr_model := m;
           mr_params := line_through (nd_values x) (nd_values data);
           mr_best_fit := nd_values data;
           mr_residual := map (fun _ => 0%Q) (nd_values data) |})%py;
  lm_dimension_order := lm_dimension_order (Lmfit := ex_lmfit)
|}.

End ExampleData.

(** * Facts *)

Section Facts.
Context {F : Type} {Fops : ScalarOps F} {L : Lmfit F}.
Implicit Types (names : list string) (param : string).

(** The choice for a name the fits do not have. *)
Lemma real_param_name_absent names param :
  ~ In param names ->
  real_param_name names param
  = (let best_names := List.filter (contains "center") names in
     let* _ := py_assert (length best_names =? 1) in
     py_index best_names 0)%py.
Proof.
  intros Hnot. unfold real_param_name.
  destruct (existsb (String.eqb param) names) eqn:E.
  { apply existsb_exists in E as (x & Hin & ->%String.eqb_eq). done. }
  destruct (String.eqb_spec param ""); [| done]. subst. cbv zeta.
  replace (List.filter (contains "") (List.filter (contains "center") names))
    with (List.filter (contains "center") names); [done |].
  induction (List.filter (contains "center") names) as [| x l IH]; [done |].
  cbn. by rewrite contains_empty, <- IH.
Qed.

(** Claim C33. The parameter asked for is used when the fits have it.
    Otherwise the name is the single parameter name that contains
    [center]; when none or several do, the assertion fails. *)
Theorem real_param_name_cases names param :
  (In param names -> real_param_name names param = Ok param)
  /\ (~ In param names ->
      forall n, List.filter (contains "center") names = [n] ->
                real_param_name names param = Ok n)
  /\ (~ In param names ->
      length (List.filter (contains "center") names) <> 1 ->
      real_param_name names param = Raise AssertionError).
Proof.
  split; [| split].
  - intros Hin. unfold real_param_name.
    rewrite (proj2 (existsb_exists _ _)); [done |].
    exists param. by rewrite String.eqb_refl.
  - intros Hnot n E. by rewrite real_param_name_absent, E.
  - intros Hnot Hlen. rewrite real_param_name_absent by done. cbv zeta.
    by destruct (Nat.eqb_spec (length (List.filter (contains "center") names)) 1).
Qed.

(** A parameter name the fits do not have has no influence
    on the choice: the selection by the name runs only when the name is
    empty, and then keeps every candidate. *)
Theorem real_param_name_ignores_hint names param param' :
  ~ In param names -> ~ In param' names ->
  real_param_name names param = real_param_name names param'.
Proof. intros Hp Hp'. by rewrite !real_param_name_absent. Qed.

Lemma F_p_inv (results : Grid F (option (ModelResult F))) (name : string)
    (centers : Grid F (pyfloat F)) :
  F_p results name = Ok centers ->
  Forall (fun cell => is_Some cell) (g_cells results)
  /\ g_dims centers = g_dims results /\ g_coords centers = g_coords results
  /\ length (g_cells centers) = length (g_cells results).
Proof.
  unfold F_p. intros E. py_head E. injection E as <-. cbn.
  match goal with H : pymap _ _ = Ok _ |- _ => rename H into Hmap end.
  split; [| by rewrite (pymap_length _ _ _ Hmap)].
  apply pymap_Forall2 in Hmap.
  induction Hmap as [| [r |] v cells values Hv _ IH]; by constructor.
Qed.

(** When [kfermi_from_mdcs] returns a value, every cell of
    the series holds a fit: a missing fit is not treated like a fit
    without the parameter. *)
Theorem kfermi_needs_every_fit (mdc_results : Grid F (option (ModelResult F)))
    (param : string) (k : F) :
  kfermi_from_mdcs mdc_results param = Ok k ->
  Forall (fun cell => is_Some cell) (g_cells mdc_results).
Proof.
  unfold kfermi_from_mdcs. intros E. py_head E.
  match goal with H : F_p _ _ = Ok _ |- _ => by apply F_p_inv in H as [? _] end.
Qed.

End Facts.

(** * The function on the example data *)

Section Examples.
Local Open Scope string_scope.
#[local] Existing Instance ex_line_fit.

Lemma real_param_name_ignores_hint_witness :
  real_param_name ["a_center"; "b_center"] "a_"
  = real_param_name ["a_center"; "b_center"] "".
Proof.
  apply real_param_name_ignores_hint; cbn; intros [E | [E | []]]; discriminate E.
Defined.

Lemma kfermi_needs_every_fit_witness :
  Forall (fun cell => is_Some cell) (g_cells ex_series).
Proof.
  eapply (kfermi_needs_every_fit (L := ex_line_fit) ex_series "").
  by vm_compute.
Defined.

(** On three fits of which the second has no centre, the
    line goes through the centres 5 at -2 and 8 at 1, and the Fermi
    momentum is its value 7 at the energy 0. *)
Example kfermi_skips_missing_center :
  kfermi_from_mdcs ex_series "" = Ok 7%Q.
Proof. by vm_compute. Qed.

(** With two peaks the prefix of one of them does not select
    its centre: the assertion fails unless the name is given in
    full. *)
Example kfermi_prefix_is_no_hint :
  kfermi_from_mdcs ex_two_peaks "a_" = Raise AssertionError
  /\ pybind (kfermi_from_mdcs ex_two_peaks "a_center") (fun k => Ok (Qred k))
     = Ok (13 # 2)%Q.
Proof. by vm_compute. Qed.

End Examples.
