(* ===== verification/Tarpes.v ===== *)
(** * Time-resolved spectra

    [src/arpes/analysis/tarpes.py]: the conversion of a mirror position
    to a delay, the assembly of a series of measurements along a new
    axis [delay], the subtraction of the spectrum before the pump
    arrives, with and without normalisation, and the search of the delay
    of maximum intensity.

    A measurement is an array with its attributes and its scalar
    coordinates.  [normalize_dim] of [arpes.preparation] is an operation
    of the class [Preparation]; [xr.concat] is written out for arrays of
    the same dimensions and ticks and left to the class for others.
    Where numpy would produce not-a-number or infinity, the case is
    decided before the division: the carrier has neither. *)

From stdpp Require Import prelude strings.
From Stdlib Require Import QArith Lqa.
From S2P Require Import Prelude PyDict Itertools Arrays.
Close Scope Q_scope.

(** * Definitions *)

Section Defs.
Context {F : Type} {Fops : ScalarOps F}.

(** ** Delays *)

(** The factor [3.335640951981521]: femtoseconds per micron of path. *)
Definition FS_PER_UM : F :=
  (s_of_Z 3335640951981521 / s_of_Z 1000000000000000)%sc.

Definition delaytime_fs (mirror_movement_um : F) : F :=
  (FS_PER_UM * mirror_movement_um)%sc.

Definition position_to_delaytime (position_mm delayline_offset_mm : F) : F :=
  delaytime_fs (s_of_Z 2 * (position_mm - delayline_offset_mm) * s_of_Z 1000)%sc.

(** ** build_crosscorrelation *)

(** A measurement: the array, its attributes and its scalar
    coordinates. *)
Record Measurement : Type := mkMeasurement {
  m_data : Grid F F;
  m_attrs : list (string * F);
  m_coords : list (string * F)
}.

(** What the sources ask of xarray for arrays that do not line up. *)
Class Concat : Type :=
  concat_misaligned : list (F * Grid F F) -> string -> pyres (Grid F F).

(** What they ask of [arpes.preparation]. *)
Class Preparation : Type :=
  normalize_dim : Grid F F -> string -> pyres (Grid F F).

Context {X : Concat} {P : Preparation}.

(** [float(spectrum_arr[name])]: a scalar coordinate, or a dimension
    with a single tick. *)
Definition coord_float (m : Measurement) (name : string) : pyres F :=
  match dict_get (m_coords m) name with
  | Some x => Ok x
  | None =>
      (let* ticks := coords_of (m_data m) name in
       match ticks with
       | [x] => Ok x
       | _ => Raise TypeError
       end)%py
  end.

(** The two arrays have the same dimensions and ticks. *)
Definition aligned (a b : Grid F F) : bool :=
  bool_decide (g_dims a = g_dims b)
  && bool_decide (map length (g_coords a) = map length (g_coords b))
  && forallb (fun tt' => forallb (fun xy => s_eqb (fst xy) (snd xy))
                                 (combine (fst tt') (snd tt')))
             (combine (g_coords a) (g_coords b)).

(** [xr.concat(arrays, dim=dim)] of arrays that were each expanded by
    the dimension [dim] with one tick. *)
Definition xr_concat (arrays : list (F * Grid F F)) (dim : string)
    : pyres (Grid F F) :=
  match arrays with
  | [] => Raise ValueError
  | (_, first) :: _ =>
      if forallb (fun a => aligned first (snd a)) arrays then
        Ok {| g_dims := dim :: g_dims first;
              g_coords := map fst arrays :: g_coords first;
              g_cells := concat (map (fun a => g_cells (snd a)) arrays) |}
      else concat_misaligned arrays dim
  end.

(** The body of the loop: the delay of a measurement with its array. *)
Definition with_delay (delayline_dim : string) (delayline_origin : F)
    (convert_position_to_time : bool) (spectrum : Measurement)
    : pyres (F * Grid F F) :=
  (let* delay_time :=
     if convert_position_to_time then
       let* position := dict_item (m_attrs spectrum) delayline_dim in
       Ok (position - delayline_origin)%sc
     else
       let* position := coord_float spectrum delayline_dim in
       Ok (position_to_delaytime position delayline_origin) in
   if existsb (String.eqb "delay") (g_dims (m_data spectrum))
   then Raise ValueError
   else Ok (delay_time, m_data spectrum))%py.

Definition build_crosscorrelation (datalist : list Measurement)
    (delayline_dim : string) (delayline_origin : F)
    (convert_position_to_time : bool) : pyres (Grid F F) :=
  (let* cross_correlations :=
     pymap (with_delay delayline_dim delayline_origin convert_position_to_time)
           datalist in
   xr_concat cross_correlations "delay")%py.

(** ** Reductions along a dimension *)

(** A coordinate without its entry for the dimension [d]. *)
Definition without (d : string) (coordinate : list (string * F))
    : list (string * F) :=
  List.filter (fun kv => negb (String.eqb (fst kv) d)) coordinate.

(** [data - m] for an array [m] that lacks the dimension [d] of [data]:
    [m] is repeated along [d]. *)
Definition sub_broadcast (data m : Grid F F) (d : string) : pyres (Grid F F) :=
  (let* cells := pymap (fun item =>
                          let* b := cell_at m (without d (fst item)) in
                          Ok (snd item - b)%sc)
                       (enumerate_dataarray data) in
   Ok {| g_dims := g_dims data; g_coords := g_coords data; g_cells := cells |})%py.

(** [np.argmax]: the first index of the largest value.  The search
    keeps the index and the value of the largest item so far. *)
Fixpoint argmax_from (best_i : nat) (best : F) (i : nat) (l : list F) : nat :=
  match l with
  | [] => best_i
  | y :: rest =>
      if s_ltb best y then argmax_from i y (S i) rest
      else argmax_from best_i best (S i) rest
  end.

Definition np_argmax (l : list F) : pyres nat :=
  match l with
  | [] => Raise ValueError
  | x :: rest => Ok (argmax_from 0 x 1 rest)
  end.

(** ** find_t_for_max_intensity *)

(** The default [e_bound=0.02]. *)
Definition default_e_bound : F := (s_of_Z 1 / s_of_Z 50)%sc.

Definition find_t_for_max_intensity (data : Grid F F) (e_bound : F)
    : pyres F :=
  (let* _ := py_assert (existsb (String.eqb "delay") (g_dims data)) in
   let* _ := py_assert (existsb (String.eqb "eV") (g_dims data)) in
   let sum_dims :=
     List.filter (fun d => negb (String.eqb d "delay") && negb (String.eqb d "eV"))
                 (g_dims data) in
   let* summed := pyfold sum_dim sum_dims data in
   let* ranged := sel_range summed "eV" (Some e_bound) None in
   let* energies := coords_of ranged "eV" in
   let* delays := coords_of ranged "delay" in
   let* coord_max :=
     match energies with
     | [] => match delays with
             | [] => Raise ValueError
             | _ => Ok 0
             end
     | _ => let* m := mean_dim ranged "eV" in np_argmax (g_cells m)
     end in
   py_index delays (Z.of_nat coord_max))%py.

(** ** relative_change *)

(** The default [buffer=0.3]. *)
Definition default_buffer : F := (s_of_Z 3 / s_of_Z 10)%sc.

Definition relative_change (data : Grid F F) (t0 : option F) (buffer : F)
    (normalize_delay : bool) : pyres (Grid F F) :=
  (let* data := if normalize_delay then normalize_dim data "delay"
                else Ok data in
   let* delay_coords := coords_of data "delay" in
   let* delay_start := np_min delay_coords in
   let* t0 := match t0 with
              | Some t => Ok t
              | None => find_t_for_max_intensity data default_e_bound
              end in
   let* _ := py_assert (s_ltb delay_start (t0 - buffer))%sc in
   let* before_t0 := sel_range data "delay" None (Some (t0 - buffer)%sc) in
   let* m := mean_dim before_t0 "delay" in
   sub_broadcast data m "delay")%py.

(** ** normalized_relative_change *)

(** [subtracted / spectrum] with infinity and not-a-number, the
    quotients by zero, replaced by zero. *)
Definition divide_or_zero (subtracted spectrum : Grid F F) : Grid F F :=
  {| g_dims := g_dims subtracted; g_coords := g_coords subtracted;
     g_cells := zip_with (fun x y => if s_eqb y s_zero then s_zero
                                     else (x / y)%sc)
                         (g_cells subtracted) (g_cells spectrum) |}.

Definition normalized_relative_change (data : Grid F F) (t0 : option F)
    (buffer : F) (normalize_delay : bool) : pyres (Grid F F) :=
  (let* spectrum := if normalize_delay then normalize_dim data "delay"
                    else Ok data in
   let* subtracted := relative_change spectrum t0 buffer false in
   Ok (divide_or_zero subtracted spectrum))%py.

End Defs.

Arguments Measurement F : clear implicits.
Arguments Concat F : clear implicits.
Arguments Preparation F : clear implicits.

(** * Example data *)

(** Three delays by two energies; the pump arrives at the delay 2.  The
    stand-ins normalise nothing and refuse arrays that do not line
    up. *)
Section ExampleData.
Local Open Scope string_scope.

Definition ex_concat : Concat Q := fun _ _ => Raise ValueError.
Definition ex_preparation : Preparation Q := fun g _ => Ok g.

Definition ex_scan : Grid Q Q :=
  {| g_dims := ["delay"; "eV"]; g_coords := [[0; 1; 2; 3]%Q; [0; 1]%Q];
     g_cells := [1; 2; 3; 4; 1; 8; 0; 4]%Q |}.

Definition ex_measurement (position : Q) (cells : list Q) : Measurement Q :=
  {| m_data := {| g_dims := ["eV"]; g_coords := [[0; 1]%Q]; g_cells := cells |};
     m_attrs := [("position", position)];
     m_coords := [("position", position)] |}.

(** The result with every value as a reduced fraction. *)
Definition reduced (r : pyres (Grid Q Q)) : pyres (Grid Q Q) :=
  pybind r (fun g => Ok {| g_dims := g_dims g; g_coords := g_coords g;
                           g_cells := map Qred (g_cells g) |}).

End ExampleData.

(** * Facts *)

(** ** Delays *)

Section Delays.
Local Open Scope Q_scope.

Lemma position_to_delaytime_scale (position offset : Q) :
  position_to_delaytime position offset
  == (3335640951981521 # 500000000000) * (position - offset).
Proof.
  unfold position_to_delaytime, delaytime_fs, FS_PER_UM. cbn. field.
Qed.

(** The delay is proportional to the distance of the mirror
    from the position of zero delay, at twice 3335.640951981521
    femtoseconds per millimetre, since the light travels the distance
    twice; it is zero at that position. *)
Theorem position_to_delaytime_linear (position offset : Q) :
  position_to_delaytime position offset
  == (3335640951981521 # 500000000000) * (position - offset)
  /\ position_to_delaytime offset offset == 0.
Proof.
  split; [apply position_to_delaytime_scale |].
  rewrite position_to_delaytime_scale. ring.
Qed.

(** A mirror further from the source gives a later delay. *)
Theorem position_to_delaytime_monotone (p p' offset : Q) :
  p < p' -> position_to_delaytime p offset < position_to_delaytime p' offset.
Proof. intros Hlt. rewrite !position_to_delaytime_scale. lra. Qed.

End Delays.

(** ** The largest value *)

Section Argmax.
Context {F : Type} {Fops : ScalarOps F} {Ford : ScalarOrder F}.

Lemma argmax_from_spec (l seen : list F) (best_i : nat) (best : F) :
  seen !! best_i = Some best ->
  Forall (fun y => s_ltb best y = false) seen ->
  Forall (fun y => s_ltb y best = true) (take best_i seen) ->
  exists x,
    (seen ++ l) !! argmax_from best_i best (length seen) l = Some x
    /\ Forall (fun y => s_ltb x y = false) (seen ++ l)
    /\ Forall (fun y => s_ltb y x = true)
              (take (argmax_from best_i best (length seen) l) (seen ++ l)).
Proof.
  revert seen best_i best.
  induction l as [| y rest IH]; intros seen best_i best Hat Hmax Hfirst.
  - rewrite app_nil_r. by exists best.
  - cbn [argmax_from]. replace (seen ++ y :: rest) with ((seen ++ [y]) ++ rest)
      by by rewrite <- app_assoc.
    replace (S (length seen)) with (length (seen ++ [y]))
      by (rewrite length_app; cbn; lia).
    pose proof (lookup_lt_Some _ _ _ Hat) as Hlt.
    destruct (s_ltb best y) eqn:Hy; apply IH.
    + by rewrite lookup_app_r, Nat.sub_diag.
    + apply Forall_app. split; [| by rewrite Forall_singleton, s_ltb_irrefl].
      eapply Forall_impl; [exact Hmax |]. intros z Hz. cbv beta in Hz.
      destruct (s_ltb y z) eqn:Hyz; [| done].
      by rewrite (s_ltb_trans _ _ _ Hy Hyz) in Hz.
    + rewrite take_app_length. eapply Forall_impl; [exact Hmax |].
      intros z Hz. cbv beta in Hz.
      by destruct (s_ltb_cotrans _ z _ Hy) as [E | E]; [rewrite E in Hz |].
    + by rewrite lookup_app_l.
    + apply Forall_app. by rewrite Forall_singleton.
    + by rewrite take_app_le by lia.
Qed.

(** [np_argmax] returns the first index of the largest value:
    no value of the list is larger than the one at the index, and every
    value before the index is smaller. *)
Theorem np_argmax_first_largest (l : list F) (i : nat) :
  np_argmax l = Ok i ->
  exists x, l !! i = Some x
            /\ Forall (fun y => s_ltb x y = false) l
            /\ Forall (fun y => s_ltb y x = true) (take i l).
Proof.
  destruct l as [| x rest]; [done |]. intros [= <-].
  apply (argmax_from_spec rest [x] 0 x); [done | | done].
  by rewrite Forall_singleton, s_ltb_irrefl.
Qed.

End Argmax.

(** ** The subtraction of the spectrum before the pump *)

Section Change.
Context {F : Type} {Fops : ScalarOps F} {X : Concat F} {P : Preparation F}.
Implicit Types (data : Grid F F) (buffer : F).

Lemma sub_broadcast_shape data (m r : Grid F F) (d : string) :
  grid_wf data -> sub_broadcast data m d = Ok r ->
  g_dims r = g_dims data /\ g_coords r = g_coords data
  /\ length (g_cells r) = length (g_cells data).
Proof.
  unfold sub_broadcast. intros Hwf E. py_head E. injection E as <-. cbn.
  match goal with H : pymap _ _ = Ok _ |- _ => apply pymap_length in H as -> end.
  by rewrite enumerate_dataarray_length.
Qed.

(** [relative_change] asserts that the window before the pump
    is not empty: with a [t0] whose distance to the first delay is the
    buffer or less it raises [AssertionError]. *)
Theorem relative_change_needs_window data (t0 : F) buffer (delays : list F)
    (delay_start : F) :
  coords_of data "delay" = Ok delays -> np_min delays = Ok delay_start ->
  s_ltb delay_start (t0 - buffer)%sc = false ->
  relative_change data (Some t0) buffer false = Raise AssertionError.
Proof.
  intros Hd Hmin Hlt. unfold relative_change. cbn [pybind].
  rewrite Hd. cbn [pybind]. rewrite Hmin. cbn [pybind]. by rewrite Hlt.
Qed.

(** Without normalisation the result of [relative_change]
    has the dimensions, the ticks and the number of values of the
    data. *)
Theorem relative_change_shape data (t0 : option F) buffer (r : Grid F F) :
  grid_wf data -> relative_change data t0 buffer false = Ok r ->
  g_dims r = g_dims data /\ g_coords r = g_coords data
  /\ length (g_cells r) = length (g_cells data).
Proof.
  unfold relative_change. intros Hwf E. cbn [pybind] in E. py_head E.
  by eapply sub_broadcast_shape.
Qed.

(** Where the spectrum is zero the normalised change is
    zero, whatever was subtracted; elsewhere it is the quotient. *)
Theorem divide_or_zero_cells (subtracted spectrum : Grid F F) (i : nat)
    (x y : F) :
  g_cells subtracted !! i = Some x -> g_cells spectrum !! i = Some y ->
  g_cells (divide_or_zero subtracted spectrum) !! i
  = Some (if s_eqb y s_zero then s_zero else (x / y)%sc).
Proof.
  intros Hx Hy. unfold divide_or_zero. cbn.
  by rewrite lookup_zip_with, Hx, Hy.
Qed.

End Change.

(** ** The assembly of a series *)

Section Series.
Context {F : Type} {Fops : ScalarOps F} {Ford : ScalarOrder F}
        {X : Concat F} {P : Preparation F}.
Implicit Types (m first : Measurement F) (datalist : list (Measurement F)).

Lemma aligned_same (a b : Grid F F) :
  g_dims b = g_dims a -> g_coords b = g_coords a -> aligned a b = true.
Proof.
  intros Hd Hc. unfold aligned. rewrite Hd, Hc, !bool_decide_eq_true_2 by done.
  cbn [andb]. apply forallb_forall. intros [t t'] Hin. cbn [fst snd].
  apply forallb_forall. intros [x y] Hxy. cbn [fst snd].
  assert (forall (A : Type) (l : list A) (u v : A),
            In (u, v) (combine l l) -> u = v) as Hdiag.
  { intros A l. induction l as [| w l IH]; intros u v; [done |].
    intros [[= <- <-] | H]; [done | by apply IH]. }
  apply Hdiag in Hin as <-. apply Hdiag in Hxy as <-. apply s_eqb_refl.
Qed.

Lemma with_delay_attr m (delayline_dim : string) (origin position : F) :
  dict_get (m_attrs m) delayline_dim = Some position ->
  ~ In "delay"%string (g_dims (m_data m)) ->
  with_delay delayline_dim origin true m
  = Ok ((position - origin)%sc, m_data m).
Proof.
  intros Hattr Hdim. unfold with_delay, dict_item. rewrite Hattr.
  cbn [or_raise pybind]. destruct (existsb _ _) eqn:E; [| done].
  apply existsb_exists in E as (d & Hin & E%String.eqb_eq). by subst.
Qed.

(** Claim C31. With [convert_position_to_time] set, the positions are
    not converted: on measurements of the same dimensions and ticks the
    result has the new first dimension [delay], whose ticks are the
    attributes of the measurements minus the origin, and the values of
    the measurements one after the other. *)
Theorem build_crosscorrelation_positions first datalist
    (delayline_dim : string) (origin : F) (positions : list F) :
  Forall (fun m => g_dims (m_data m) = g_dims (m_data first)
                   /\ g_coords (m_data m) = g_coords (m_data first))
         datalist ->
  ~ In "delay"%string (g_dims (m_data first)) ->
  Forall2 (fun m position => dict_get (m_attrs m) delayline_dim = Some position)
          (first :: datalist) positions ->
  build_crosscorrelation (first :: datalist) delayline_dim origin true
  = Ok {| g_dims := "delay"%string :: g_dims (m_data first);
          g_coords := map (fun position => (position - origin)%sc) positions
                      :: g_coords (m_data first);
          g_cells := concat (map (fun m => g_cells (m_data m))
                                 (first :: datalist)) |}.
Proof.
  intros Hsame Hdelay Hpos. unfold build_crosscorrelation.
  assert (Forall (fun m => g_dims (m_data m) = g_dims (m_data first)
                           /\ g_coords (m_data m) = g_coords (m_data first))
                 (first :: datalist)) as Hall by by constructor.
  assert (pymap (with_delay delayline_dim origin true) (first :: datalist)
          = Ok (combine (map (fun position => (position - origin)%sc) positions)
                        (map m_data (first :: datalist)))) as ->.
  { clear Hsame. induction Hpos as [| m p l ps Hm _ IH]; [done |].
    inversion Hall as [| ? ? [Hd _] Hl]; subst. cbn [pymap map combine].
    rewrite (with_delay_attr m _ _ p), IH by (done || by rewrite Hd).
    done. }
  cbn [pybind]. apply Forall2_length in Hpos.
  destruct positions as [| p ps]; [done |]. cbn [map combine xr_concat snd].
  rewrite (proj2 (forallb_forall _ _)).
  - f_equal. f_equal.
    + f_equal. change (map fst (combine (map (fun q => (q - origin)%sc) (p :: ps))
                                        (map m_data (first :: datalist)))
                       = map (fun q => (q - origin)%sc) (p :: ps)).
      apply map_fst_combine. rewrite !length_map. cbn in *. lia.
    + change (concat (map (fun a => g_cells (snd a))
                (combine (map (fun q => (q - origin)%sc) (p :: ps))
                         (map m_data (first :: datalist))))
              = concat (map (fun m => g_cells (m_data m)) (first :: datalist))).
      f_equal. rewrite <- (map_map snd g_cells), map_snd_combine, map_map;
        [done |]. rewrite !length_map. cbn in *. lia.
  - intros [q g] Hin. cbn [snd].
    change (In (q, g) (combine (map (fun q => (q - origin)%sc) (p :: ps))
                               (map m_data (first :: datalist)))) in Hin.
    apply in_combine_r, in_map_iff in Hin as (m & <- & Hm).
    rewrite Forall_forall in Hall.
    destruct (Hall m) as [Hd Hc]; [by apply list_elem_of_In |].
    by apply aligned_same.
Qed.

End Series.

(** * The functions on the example data *)

Section Examples.
Local Open Scope string_scope.
#[local] Existing Instance ex_concat.
#[local] Existing Instance ex_preparation.

Lemma ex_scan_wf : grid_wf ex_scan.
Proof.
  split; [| by split]. cbn. apply NoDup_cons_2; [| apply NoDup_singleton].
  by intros [= ]%list_elem_of_singleton.
Qed.

Lemma position_to_delaytime_monotone_witness :
  (position_to_delaytime 1 1 < position_to_delaytime 2 1)%Q.
Proof. by apply position_to_delaytime_monotone. Defined.

Lemma np_argmax_first_largest_witness :
  exists x, [2; 4; 8; 8]%Q !! 2 = Some x
            /\ Forall (fun y => s_ltb x y = false) [2; 4; 8; 8]%Q
            /\ Forall (fun y => s_ltb y x = true) (take 2 [2; 4; 8; 8]%Q).
Proof. by apply (np_argmax_first_largest (F := Q)). Defined.

Lemma relative_change_needs_window_witness :
  relative_change ex_scan (Some 2%Q) 2%Q false = Raise AssertionError.
Proof.
  by apply (relative_change_needs_window ex_scan 2%Q 2%Q [0; 1; 2; 3]%Q 0%Q).
Defined.

Lemma relative_change_shape_witness :
  let r := match relative_change ex_scan (Some 2%Q) (1 # 2)%Q false with
           | Ok r => r
           | Raise _ => ex_scan
           end in
  g_dims r = g_dims ex_scan /\ g_coords r = g_coords ex_scan
  /\ length (g_cells r) = length (g_cells ex_scan).
Proof.
  apply (relative_change_shape ex_scan (Some 2%Q) (1 # 2)%Q);
    [apply ex_scan_wf | by vm_compute].
Defined.

Lemma divide_or_zero_cells_witness :
  g_cells (divide_or_zero ex_scan ex_scan) !! 6 = Some 0%Q.
Proof. exact (divide_or_zero_cells ex_scan ex_scan 6 0%Q 0%Q eq_refl eq_refl). Defined.

Lemma build_crosscorrelation_positions_witness :
  build_crosscorrelation [ex_measurement 1 [1; 2]; ex_measurement 3 [3; 4]]%Q
                         "position" 1%Q true
  = Ok {| g_dims := ["delay"; "eV"];
          g_coords := [[1 - 1; 3 - 1]%Q; [0; 1]%Q];
          g_cells := [1; 2; 3; 4]%Q |}.
Proof.
  refine (build_crosscorrelation_positions (F := Q)
            (ex_measurement 1 [1; 2]%Q) [ex_measurement 3 [3; 4]%Q]
            "position" 1%Q [1; 3]%Q _ _ _).
  - by repeat constructor.
  - cbn. by intros [E | []].
  - by repeat constructor.
Defined.

(** With the pump at the delay 2 and the buffer one half, the
    mean of the delays 0 and 1 is subtracted at each energy; without a
    [t0] the delay of largest mean intensity above the energy bound is
    found, which is 2 as well. *)
Example relative_change_scan :
  reduced (relative_change ex_scan (Some 2%Q) (1 # 2)%Q true)
  = Ok {| g_dims := ["delay"; "eV"]; g_coords := [[0; 1; 2; 3]%Q; [0; 1]%Q];
          g_cells := [-1; -1; 1; 1; -1; 5; -2; 1]%Q |}
  /\ find_t_for_max_intensity ex_scan default_e_bound = Ok 2%Q
  /\ relative_change ex_scan None (1 # 2)%Q true
     = relative_change ex_scan (Some 2%Q) (1 # 2)%Q true.
Proof. by vm_compute. Qed.

(** With an energy bound above every energy the means are
    not-a-number and the first delay is returned. *)
Example find_t_without_energies :
  find_t_for_max_intensity ex_scan 5%Q = Ok 0%Q.
Proof. by vm_compute. Qed.

(** Without [convert_position_to_time] the position is read
    from the coordinates and converted: a mirror 2 mm from the origin is
    a delay of 13342.563807926084 fs. *)
Example build_crosscorrelation_converts :
  pybind (build_crosscorrelation [ex_measurement 1 [1; 2]; ex_measurement 3 [3; 4]]%Q
                                 "position" 1%Q false)
         (fun g => Ok (map (map Qred) (g_coords g)))
  = Ok [[0; 3335640951981521 # 250000000000]%Q; [0; 1]%Q].
Proof. by vm_compute. Qed.

End Examples.
