(* ===== verification/EffectiveMass.v ===== *)
(** * The effective mass of a band

    [fit_for_effective_mass] of [src/arpes/analysis/band_analysis.py]:
    a peak is fitted along the momentum axis of the data, the centres of
    the peaks are fitted with a parabola, and the mass is the constant
    [HBAR_SQ_EV_PER_ELECTRON_MASS_ANGSTROM_SQ] over twice the curvature.
    On data in angles the centres are first taken to momentum.

    The function is glue between this repository and the package
    around it.  Its own part is modelled: the choice of the momentum
    axis, the choice of the branch, the pairing of the centres with the
    angles, the calls in their order and the formula.  The parabola in
    the momentum branch is fitted by [guess_fit] of [Mixin], the centres
    are read by [F_p] of [KFermi].  What the package provides is the
    class [Fits]: [broadcast_model] with its models, the conversion to
    momentum space, the nearest-neighbour selection of xarray and the
    constant. *)

From stdpp Require Import prelude strings.
From Stdlib Require Import QArith.
From S2P Require Import Prelude PyStr PyDict Itertools Arrays Params Mixin KFermi.
Close Scope Q_scope.

(** * Definitions *)

Section Defs.
Context {F : Type} {Fops : ScalarOps F} {L : Lmfit F} {K : Constants F}.
Local Open Scope string_scope.
Local Open Scope list_scope.

(** What the conversion to momentum space returns: an array or a
    dataset of arrays. *)
Inductive XrTypes : Type :=
| XrDataArray (arr : Grid F F)
| XrDataset (variables : list (string * Grid F F)).

(** The package around the function. *)
Class Fits (Kwargs : Type) : Type := {
  (** the empty dictionary of keyword arguments *)
  no_kwargs : Kwargs;
  (** [broadcast_model([LorentzianModel, AffineBackgroundModel], data=data,
      broadcast_dims=dim, **kwargs)], its results by position *)
  broadcast_model : Grid F F -> string -> Kwargs
                    -> pyres (Grid F (option (ModelResult F)));
  convert_coordinates_to_kspace_forward : Grid F F -> pyres XrTypes;
  (** [arr.sel(selector, method="nearest")] as a number *)
  sel_nearest : Grid F F -> list (string * F) -> pyres F;
  HBAR_SQ_EV_PER_ELECTRON_MASS_ANGSTROM_SQ : F
}.

Context {Kwargs : Type} {P : Fits Kwargs}.

(** [arpes.fits.QuadraticModel]: the parabola [a * x**2 + b * x + c]. *)
Definition QuadraticModel : Model F :=
  Basic "" ["a"; "b"; "c"] 1
        (fun ps x => match ps with
                     | [a; b; c] => (a * (x * x) + b * x + c)%sc
                     | _ => s_zero
                     end).

(** [next(dim for dim in candidates if present(dim))]. *)
Definition first_present (candidates : list string) (present : string -> bool)
    : pyres string :=
  or_raise StopIteration (head (filter (fun dim => present dim = true) candidates)).

(** A value of [arr.values] as a float. *)
Definition float_value (x : pyfloat F) : pyres F :=
  match x with
  | Num v => Ok v
  | NaN => Ok np_nan
  | PyNone => Raise TypeError
  end.

(** [results.F.p("a_center")] with floats for its values. *)
Definition centers_of (results : Grid F (option (ModelResult F)))
    : pyres (Grid F F) :=
  (let* centers := F_p results "a_center" in
   let* values := pymap float_value (g_cells centers) in
   Ok {| g_dims := g_dims centers; g_coords := g_coords centers;
         g_cells := values |})%py.

(** The mass of a fitted parabola. *)
Definition mass_of (quad_fit : ModelResult F) : pyres F :=
  (let* a := dict_item (mr_params quad_fit) "a" in
   Ok (HBAR_SQ_EV_PER_ELECTRON_MASS_ANGSTROM_SQ / (s_of_Z 2 * p_value a))%sc)%py.

(** The momenta of the centres: the loop runs over the pairs [zip] gives
    and [strict=True] raises at its end when one side is longer. *)
Definition momenta_of (momentum : Grid F F) (mom_dim : string)
    (eVs angles : list F) : pyres (list F) :=
  (let* kps := pymap (fun '(eV, ang) =>
                        sel_nearest momentum [(mom_dim, ang); ("eV", eV)])
                     (combine eVs angles) in
   let* _ := if Nat.eqb (length eVs) (length angles) then Ok tt
             else Raise ValueError in
   Ok kps)%py.

(** The branch for data in angles. *)
Definition mass_from_angles (data : Grid F F) (mom_dim : string)
    (results : Grid F (option (ModelResult F))) : pyres F :=
  (let* forward := convert_coordinates_to_kspace_forward data in
   let* forward := match forward with
                   | XrDataset variables => Ok variables
                   | XrDataArray _ => Raise AssertionError
                   end in
   let* final_mom := first_present ["kx"; "ky"; "kp"; "kz"] (dict_mem forward) in
   let* centers := centers_of results in
   let eVs := g_cells centers in
   let* angles := coords_of data mom_dim in
   let* momentum := dict_item forward final_mom in
   let* kps := momenta_of momentum mom_dim eVs angles in
   let* quad_fit :=
     lm_fit QuadraticModel (mkArray [length eVs] eVs)
            (lm_make_params QuadraticModel [])
            [("x", mkArray [length kps] kps)] None in
   mass_of quad_fit)%py.

(** The branch for data in momentum. *)
Definition mass_from_momenta (results : Grid F (option (ModelResult F)))
    : pyres F :=
  (let* centers := centers_of results in
   let* quad_fit := guess_fit QuadraticModel (DataArray centers) None None
                              true true false None in
   mass_of quad_fit)%py.

Definition fit_for_effective_mass (data : Grid F F) (fit_kwargs : option Kwargs)
    : pyres F :=
  (let fit_kwargs := default no_kwargs fit_kwargs in
   let* mom_dim :=
     first_present ["kp"; "kx"; "ky"; "kz"; "phi"; "beta"; "theta"]
                   (fun dim => bool_decide (dim ∈ g_dims data)) in
   let* results := broadcast_model data mom_dim fit_kwargs in
   if bool_decide (mom_dim ∈ ["phi"; "beta"; "theta"])
   then mass_from_angles data mom_dim results
   else mass_from_momenta results)%py.

End Defs.

Arguments XrTypes F : clear implicits.
Arguments Fits F Kwargs : clear implicits.

(** * Example data *)

Section ExampleData.
Local Open Scope string_scope.
Local Open Scope Q_scope.

Definition ex_nan : Constants Q := {| np_pi := 355 # 113; np_nan := -1 |}.

(** A fit at every tick of the axis, with the centre at the square of
    the tick. *)
Definition ex_results (ticks : list Q) (dim : string)
    : Grid Q (option (ModelResult Q)) :=
  {| g_dims := [dim]; g_coords := [ticks];
     g_cells := map (fun k => Some {| mr_model := ex_peak "a_";
                                      mr_params := ex_params "a_" (Qred (k * k));
                                      mr_best_fit := []; mr_residual := [] |})
                    ticks |}.

(** A package whose conversion gives the momentum [kx] as a tenth of
    the angle, and whose fits are those of [ex_results]. *)
Definition ex_fits : Fits Q unit :=
  {| no_kwargs := tt;
     broadcast_model data dim _ :=
       (let* ticks := coords_of data dim in Ok (ex_results ticks dim))%py;
     convert_coordinates_to_kspace_forward data :=
       Ok (XrDataset [("kx", data)]);
     sel_nearest _ selector :=
       (let* ang := dict_item selector "phi" in Ok (Qred (ang / 10)))%py;
     HBAR_SQ_EV_PER_ELECTRON_MASS_ANGSTROM_SQ := 7619964 # 1000000 |}.

Definition ex_cut (dim : string) : Grid Q Q :=
  {| g_dims := ["eV"; dim]; g_coords := [[0; 1]; [-1; 0; 1]];
     g_cells := [1; 2; 1; 3; 4; 3] |}.

End ExampleData.

(** * Facts *)

Section Facts.
Context {F : Type} {Fops : ScalarOps F} {L : Lmfit F} {K : Constants F}.
Context {Kwargs : Type} {P : Fits F Kwargs}.
Local Open Scope string_scope.
Local Open Scope list_scope.

(** ** The choice of an axis *)

(** The first candidate that is present is chosen. *)
Lemma first_present_first (before after : list string) (dim : string)
    (present : string -> bool) :
  Forall (fun c => present c = false) before -> present dim = true ->
  first_present (before ++ dim :: after) present = Ok dim.
Proof.
  intros Hb Hd. unfold first_present. rewrite filter_app, filter_cons_True by done.
  induction Hb as [| c before Hc _ IH]; [done |].
  rewrite filter_cons_False by by rewrite Hc. exact IH.
Qed.

Lemma first_present_none (candidates : list string) (present : string -> bool) :
  Forall (fun c => present c = false) candidates ->
  first_present candidates present = Raise StopIteration.
Proof.
  intros Hc. unfold first_present.
  induction Hc as [| c candidates Hc _ IH]; [done |].
  rewrite filter_cons_False by by rewrite Hc. exact IH.
Qed.

(** What is chosen is a candidate and present. *)
Lemma first_present_chosen (candidates : list string) (present : string -> bool)
    (dim : string) :
  first_present candidates present = Ok dim ->
  dim ∈ candidates /\ present dim = true.
Proof.
  unfold first_present.
  destruct (filter _ candidates) as [| d rest] eqn:E; [done |].
  intros [= <-].
  assert (d ∈ filter (fun d => present d = true) candidates) as Hin
    by (rewrite E; left).
  apply list_elem_of_filter in Hin as [Hp Hin]. done.
Qed.

(** ** The parabola *)

Lemma mass_of_curvature (quad_fit : ModelResult F) (a : Param F) :
  dict_get (mr_params quad_fit) "a" = Some a ->
  mass_of quad_fit
  = Ok (HBAR_SQ_EV_PER_ELECTRON_MASS_ANGSTROM_SQ / (s_of_Z 2 * p_value a))%sc.
Proof. intros Ha. unfold mass_of, dict_item. by rewrite Ha. Qed.

(** The momenta are returned when every centre has its angle: there are
    as many of them as centres. *)
Lemma momenta_of_lengths (momentum : Grid F F) (mom_dim : string)
    (eVs angles kps : list F) :
  momenta_of momentum mom_dim eVs angles = Ok kps ->
  length eVs = length angles /\ length kps = length eVs.
Proof.
  unfold momenta_of.
  destruct (pymap _ (combine eVs angles)) as [r |] eqn:Hr; [| done]. cbn [pybind].
  destruct (Nat.eqb_spec (length eVs) (length angles)) as [Hl |]; [| done].
  intros [= <-]. split; [done |].
  apply pymap_length in Hr. rewrite Hr, length_combine. lia.
Qed.

(** Centres and angles of different number raise, [ValueError] when the
    selection of the common pairs has raised nothing before. *)
Lemma momenta_of_mismatch (momentum : Grid F F) (mom_dim : string)
    (eVs angles : list F) :
  length eVs <> length angles ->
  exists e, momenta_of momentum mom_dim eVs angles = Raise e
            /\ (e = ValueError
                \/ pymap (fun '(eV, ang) =>
                            sel_nearest momentum [(mom_dim, ang); ("eV", eV)])
                         (combine eVs angles) = Raise e).
Proof.
  intros Hl. unfold momenta_of.
  destruct (pymap _ (combine eVs angles)) as [kps | e]; cbn [pybind].
  - apply Nat.eqb_neq in Hl as ->. by exists ValueError; split; [| left].
  - exists e. by split; [| right].
Qed.

(** ** The function *)

(** Claim C39. Data with none of the seven momentum and angle axes raise
    [StopIteration], before any fit. *)
Theorem fit_for_effective_mass_no_axis (data : Grid F F)
    (fit_kwargs : option Kwargs) :
  Forall (fun dim => dim ∉ g_dims data)
         ["kp"; "kx"; "ky"; "kz"; "phi"; "beta"; "theta"] ->
  fit_for_effective_mass data fit_kwargs = Raise StopIteration.
Proof.
  intros Hno. unfold fit_for_effective_mass. rewrite first_present_none; [done |].
  eapply Forall_impl; [exact Hno |]. intros dim Hd. by apply bool_decide_eq_false.
Qed.

(** Claim C30. On data with a momentum axis the mass is that of the parabola
    [guess_fit] fits to the centres along the first such axis in the
    order kp, kx, ky, kz; the conversion to momentum space is not
    called, whatever angle axes the data also have. *)
Theorem fit_for_effective_mass_momentum (data : Grid F F)
    (fit_kwargs : option Kwargs) (before after : list string) (dim : string) :
  ["kp"; "kx"; "ky"; "kz"] = before ++ dim :: after ->
  Forall (fun c => c ∉ g_dims data) before -> dim ∈ g_dims data ->
  fit_for_effective_mass data fit_kwargs
  = (let* results := broadcast_model data dim (default no_kwargs fit_kwargs) in
     mass_from_momenta results)%py.
Proof.
  intros Hc Hb Hd. unfold fit_for_effective_mass.
  change ["kp"; "kx"; "ky"; "kz"; "phi"; "beta"; "theta"]
    with (["kp"; "kx"; "ky"; "kz"] ++ ["phi"; "beta"; "theta"]).
  rewrite Hc, <- app_assoc. cbn [app].
  rewrite first_present_first; cycle 1.
  - eapply Forall_impl; [exact Hb |]. intros c Hn. by apply bool_decide_eq_false.
  - by apply bool_decide_eq_true.
  - cbn [pybind]. destruct (broadcast_model _ _ _) as [results |]; [| done].
    cbn [pybind].
    assert (dim ∈ ["kp"; "kx"; "ky"; "kz"]) as Hin
      by (rewrite Hc; apply elem_of_app; right; left).
    repeat (apply elem_of_cons in Hin as [-> | Hin]);
      [done.. | by apply elem_of_nil in Hin].
Qed.

(** On data in angles whose conversion to momentum space is an
    array and not a dataset the function raises [AssertionError], after
    the fits. *)
Theorem mass_from_angles_array (data arr : Grid F F) (mom_dim : string)
    (results : Grid F (option (ModelResult F))) :
  convert_coordinates_to_kspace_forward data = Ok (XrDataArray arr) ->
  mass_from_angles data mom_dim results = Raise AssertionError.
Proof. intros Hc. unfold mass_from_angles. by rewrite Hc. Qed.

End Facts.

(** * Examples *)

Section Examples.
Local Open Scope string_scope.
#[local] Existing Instance ex_lmfit.
#[local] Existing Instance ex_nan.
#[local] Existing Instance ex_fits.

Lemma first_present_first_witness :
  first_present (["kp"] ++ "kx" :: ["ky"; "kz"])
                (fun dim => bool_decide (dim ∈ ["eV"; "kx"; "kz"]))
  = Ok "kx".
Proof. by apply first_present_first; [repeat constructor |]. Defined.

Lemma fit_for_effective_mass_no_axis_witness :
  fit_for_effective_mass (ex_cut "x") None = Raise StopIteration.
Proof.
  apply fit_for_effective_mass_no_axis.
  repeat constructor; by apply (bool_decide_unpack _).
Defined.

Lemma fit_for_effective_mass_momentum_witness :
  fit_for_effective_mass (ex_cut "kx") None
  = (let* results := broadcast_model (ex_cut "kx") "kx" (default no_kwargs None) in
     mass_from_momenta results)%py.
Proof.
  apply (fit_for_effective_mass_momentum (ex_cut "kx") None ["kp"] ["ky"; "kz"] "kx");
    [done | |].
  - repeat constructor. by apply (bool_decide_unpack _).
  - by apply (bool_decide_unpack _).
Defined.

(** The stand-in for the fit adds one to the curvature it starts from:
    the two branches start from different parameters. *)
Example fit_for_effective_mass_values :
  fit_for_effective_mass (ex_cut "kx") None = Ok (7619964 # 4000000)%Q
  /\ fit_for_effective_mass (ex_cut "phi") None = Ok (7619964 # 2000000)%Q.
Proof. by vm_compute. Qed.

(** A cut with a momentum axis and an angle axis is fitted along the
    momentum axis. *)
Example fit_for_effective_mass_both_axes :
  fit_for_effective_mass
    {| g_dims := ["phi"; "kz"]; g_coords := [[0; 1]; [-1; 0; 1]]%Q;
       g_cells := [1; 2; 1; 3; 4; 3]%Q |} None
  = Ok (7619964 # 4000000)%Q.
Proof. by vm_compute. Qed.

Lemma mass_from_angles_array_witness :
  mass_from_angles
    (P := {| no_kwargs := tt;
             broadcast_model := broadcast_model (Fits := ex_fits);
             convert_coordinates_to_kspace_forward data := Ok (XrDataArray data);
             sel_nearest := sel_nearest (Fits := ex_fits);
             HBAR_SQ_EV_PER_ELECTRON_MASS_ANGSTROM_SQ := 1%Q |})
    (ex_cut "phi") "phi" (ex_results [-1; 0; 1]%Q "phi")
  = Raise AssertionError.
Proof. by eapply mass_from_angles_array. Defined.

Lemma momenta_of_lengths_witness :
  length [1; 0; 1]%Q = length [-1; 0; 1]%Q
  /\ length [-(1 # 10); 0; 1 # 10]%Q = length [1; 0; 1]%Q.
Proof. by apply (momenta_of_lengths (ex_cut "phi") "phi"). Defined.

Lemma momenta_of_mismatch_witness :
  exists e, momenta_of (ex_cut "phi") "phi" [1; 0]%Q [-1; 0; 1]%Q = Raise e
            /\ (e = ValueError
                \/ pymap (fun '(eV, ang) =>
                            sel_nearest (ex_cut "phi") [("phi", ang); ("eV", eV)])
                         (combine [1; 0]%Q [-1; 0; 1]%Q) = Raise e).
Proof. by apply momenta_of_mismatch. Defined.

End Examples.
