(* ===== verification/Bootstrap.v ===== *)
(** * Statistical bootstraps

    [src/arpes/bootstrap.py]: the estimate of the prior adjustment, the
    three ways of resampling an array ([resample_cycle], [resample],
    [resample_true_counts]), [bootstrap_counts], the distributions with
    [propagate_errors], and the functor [bootstrap] with
    [bootstrap_intensity_polarization].

    The random numbers come from a source, the class [Sampler]: a state
    and one function per kind of draw.  A computation that draws is a
    function from the state of the source to a result and the next
    state, or to an exception: the monad [rand], with [let!] for its
    bind.  The modelled functions thread a single state in the order in
    which the code draws.  What the module configures for logging and
    the messages it logs are left out, apart from the labels. *)

From stdpp Require Import prelude strings.
From Stdlib Require Import QArith.
From S2P Require Import Prelude PyStr PyDict Itertools Arrays Params.
Close Scope Q_scope.

(** * Definitions *)

(** ** Computations that draw random numbers *)

Section Monad.
Context {St : Type}.

Definition rand (A : Type) : Type := St -> pyres (A * St).

Definition rret {A} (a : A) : rand A := fun s => Ok (a, s).

Definition rbind {A B} (m : rand A) (k : A -> rand B) : rand B :=
  fun s => match m s with
           | Ok (a, s') => k a s'
           | Raise e => Raise e
           end.

(** A computation that draws nothing. *)
Definition rlift {A} (m : pyres A) : rand A :=
  fun s => pybind m (fun a => Ok (a, s)).

Definition rraise {A} (e : pyerr) : rand A := fun _ => Raise e.

(** One draw. *)
Definition rdraw {A} (d : St -> A * St) : rand A := fun s => Ok (d s).

(** A list comprehension whose body draws. *)
Fixpoint rmap {A B} (f : A -> rand B) (l : list A) : rand (list B) :=
  match l with
  | [] => rret []
  | x :: l' =>
      rbind (f x) (fun y => rbind (rmap f l') (fun ys => rret (y :: ys)))
  end.

(** [[m for _ in range(n)]]. *)
Definition rrepeat {A} (n : nat) (m : rand A) : rand (list A) :=
  rmap (fun _ => m) (seq 0 n).

(** A loop that updates [b] and draws. *)
Fixpoint rfold {A B} (f : B -> A -> rand B) (l : list A) (b : B) : rand B :=
  match l with
  | [] => rret b
  | x :: l' => rbind (f b x) (rfold f l')
  end.

End Monad.

Arguments rand St A : clear implicits.

Declare Scope rand_scope.
Delimit Scope rand_scope with rand.
Notation "'let!' x := m 'in' k" := (rbind m (fun x => k))
  (at level 10, x pattern, m at level 100, k at level 200) : rand_scope.

(** The source of random numbers: one draw of [random.randint(a, b)],
    of a Poisson variable of mean [lam], and of a normal variable, and
    the largest mean numpy accepts for a Poisson variable. *)
Class Sampler (F : Type) : Type := {
  rng : Type;
  randint_draw : Z -> Z -> rng -> Z * rng;
  poisson_draw : F -> rng -> Z * rng;
  poisson_lam_max : F;
  norm_draw : F -> F -> rng -> F * rng
}.

(** What the theorems ask of the source: [randint(a, b)] lies between
    its bounds. *)
Class SamplerLaws (F : Type) `{Sampler F} : Prop := {
  randint_range : forall (a b : Z) (s : rng),
    (a <= b)%Z -> (a <= fst (randint_draw a b s) <= b)%Z
}.

Section Defs.
Context {F : Type} {Fops : ScalarOps F} {S : Sampler F}.
Local Open Scope string_scope.

(** ** The libraries' draws *)

(** [random.randint(a, b)]: an empty range raises [ValueError]. *)
Definition randint (a b : Z) : rand rng Z :=
  if (b <? a)%Z then rraise ValueError else rdraw (randint_draw a b).

(** The means numpy accepts for a Poisson variable: neither negative
    nor too large, which also excludes not-a-number. *)
Definition poisson_accepts (lam : F) : bool :=
  s_leb s_zero lam && s_leb lam poisson_lam_max.

(** [Generator.poisson(lam=values, size=values.shape)]: the means are
    checked before the first draw. *)
Definition rg_poisson (lam : list F) : rand rng (list Z) :=
  if forallb poisson_accepts lam
  then rmap (fun l => rdraw (poisson_draw l)) lam
  else rraise ValueError.

(** [scipy.stats.norm.rvs(loc, scale=scale, size=size)]. *)
Definition norm_rvs (loc : F) (scale : option F) (size : Z)
    : rand rng (list F) :=
  match scale with
  | None => rraise TypeError
  | Some sc =>
      if s_leb s_zero sc then
        if (size <? 0)%Z then rraise ValueError
        else rrepeat (Z.to_nat size) (rdraw (norm_draw loc sc))
      else rraise ValueError
  end.

(** ** Arrays with a name and attributes *)

Record DataArray : Type := mkDataArray {
  da_grid : Grid F F;
  da_name : option string;
  da_attrs : list (string * string)
}.

Record Dataset : Type := mkDataset {
  ds_vars : list (string * DataArray);
  ds_attrs : list (string * string)
}.

Inductive DataType : Type :=
| DArray (a : DataArray)
| DSet (d : Dataset).

(** [arpes.utilities.lift_dataarray_to_generic]: a function of arrays
    applied to an array, or to every variable of a dataset; a result
    without a name takes the name of its variable, and the dataset
    keeps its attributes. *)
Definition lift_dataarray_to_generic (f : DataArray -> rand rng DataArray)
    (data : DataType) : rand rng DataType :=
  match data with
  | DArray a => (let! r := f a in rret (DArray r))%rand
  | DSet ds =>
      (let! new_vars :=
         rmap (fun kv =>
                 let! r := f (snd kv) in
                 rret (default (fst kv) (da_name r),
                       {| da_grid := da_grid r;
                          da_name := Some (default (fst kv) (da_name r));
                          da_attrs := da_attrs r |}))
              (ds_vars ds) in
       rret (DSet {| ds_vars := new_vars; ds_attrs := ds_attrs ds |}))%rand
  end.

(** [if "id" in attrs: del attrs["id"]]. *)
Definition del_id (attrs : list (string * string)) : list (string * string) :=
  if dict_mem attrs "id" then dict_del attrs "id" else attrs.

(** [xr.DataArray(values, coords=data.coords, dims=data.dims,
    attrs=data.attrs)]. *)
Definition with_counts (data : DataArray) (counts : list Z) : DataArray :=
  {| da_grid := {| g_dims := g_dims (da_grid data);
                   g_coords := g_coords (da_grid data);
                   g_cells := map s_of_Z counts |};
     da_name := None;
     da_attrs := da_attrs data |}.

Definition drop_id (a : DataArray) : DataArray :=
  {| da_grid := da_grid a; da_name := da_name a;
     da_attrs := del_id (da_attrs a) |}.

(** ** estimate_prior_adjustment *)

(** What the function asks of [arpes.utilities.region] and of the
    accessor [S] of the arrays. *)
Class SpectrumTools : Type := {
  Region : Type;
  normalize_region : string + Region -> pyres Region;
  zero_spectrometer_edges : DataArray -> pyres DataArray;
  region_sel : DataArray -> Region -> pyres DataArray
}.

(** [np.std] of a vector. *)
Definition np_std (l : list F) : F :=
  let m := np_mean l in
  s_sqrt (np_mean (map (fun x => let d := s_abs (x - m)%sc in (d * d)%sc) l)).

Definition estimate_prior_adjustment {T : SpectrumTools} (data : DataArray)
    (region : option (string + Region)) : pyres F :=
  (let region := default (inl "copper_prior") region in
   let* region := normalize_region region in
   let* data_array :=
     if existsb (String.eqb "cycle") (g_dims (da_grid data)) then
       let* summed := sum_dim (da_grid data) "cycle" in
       Ok {| da_grid := summed; da_name := da_name data; da_attrs := [] |}
     else Ok data in
   let* data_array := zero_spectrometer_edges data_array in
   let* data_array := region_sel data_array region in
   let values := g_cells (da_grid data_array) in
   let values := List.filter (fun v => negb (s_eqb v s_zero)) values in
   Ok (np_std values / np_mean values)%sc)%py.

(** ** Resampling *)

Definition cycle_indices (n_cycles : nat) : rand rng (list Z) :=
  rrepeat n_cycles (randint 0 (Z.of_nat n_cycles - 1)).

Definition resample_cycle (data : DataArray) : rand rng DataArray :=
  (let! cycle :=
     rlift (or_raise AttributeError
              (dict_get (coords_dict (da_grid data)) "cycle")) in
   let n_cycles := length cycle in
   let! which := cycle_indices n_cycles in
   let! selected := rlift (isel (da_grid data) "cycle" which) in
   let! summed := rlift (sum_dim selected "cycle") in
   let resampled := {| da_grid := summed; da_name := da_name data;
                       da_attrs := da_attrs data |} in
   rret (drop_id resampled))%rand.

Definition resample (data : DataArray) (prior_adjustment : F)
    : rand rng DataArray :=
  (let! counts :=
     rg_poisson (map (fun v => v * prior_adjustment)%sc
                     (g_cells (da_grid data))) in
   rret (drop_id (with_counts data counts)))%rand.

Definition resample_true_counts (data : DataArray) : rand rng DataArray :=
  (let! counts := rg_poisson (g_cells (da_grid data)) in
   rret (drop_id (with_counts data counts)))%rand.

(** ** bootstrap_counts *)

(** [np.stack(arrays, axis=0)] of flat arrays: [ValueError] without an
    array and for arrays of different sizes. *)
Definition np_stack (arrays : list (list F)) : pyres (list (list F)) :=
  match arrays with
  | [] => Raise ValueError
  | a :: rest =>
      if forallb (fun b => Nat.eqb (length b) (length a)) rest then Ok arrays
      else Raise ValueError
  end.

(** [reduce(stacked, axis=0)]: one value per cell, from the values of
    the cell in every array. *)
Definition along_axis_0 (reduce : list F -> F) (n_cells : nat)
    (stacked : list (list F)) : list F :=
  map (fun i => reduce (omap (fun a => a !! i) stacked)) (seq 0 n_cells).

(** [xr.DataArray(values, data.coords, tuple(data.dims))]. *)
Definition like (data : DataArray) (values : list F) : DataArray :=
  {| da_grid := {| g_dims := g_dims (da_grid data);
                   g_coords := g_coords (da_grid data);
                   g_cells := values |};
     da_name := None; da_attrs := [] |}.

Definition bootstrap_counts (data : DataArray) (n_samples : Z)
    (name : option string) : rand rng Dataset :=
  (let! _ := rlift (py_assert (bool_decide (is_Some (da_name data))
                               || bool_decide (is_Some name))) in
   let name := default (default "" name) (da_name data) in
   let! resampled_sets :=
     rrepeat (Z.to_nat n_samples) (resample_true_counts data) in
   let! resampled_arr :=
     rlift (np_stack (map (fun s => g_cells (da_grid s)) resampled_sets)) in
   let n_cells := length (g_cells (da_grid data)) in
   let std := like data (along_axis_0 np_std n_cells resampled_arr) in
   let mean := like data (along_axis_0 np_mean n_cells resampled_arr) in
   let data_vars := dict_set (dict_set [] name mean) (name +:+ "_std") std in
   rret {| ds_vars := data_vars; ds_attrs := da_attrs data |})%rand.

(** ** Distributions *)

Inductive Distribution : Type :=
| BaseDistribution
| Normal (center : F) (stderr : option F).

Definition DEFAULT_N_SAMPLES : Z := 1000.

Definition draw_samples (d : Distribution) (n_samples : Z)
    : rand rng (list F) :=
  match d with
  | BaseDistribution => rraise NotImplementedError
  | Normal center stderr => norm_rvs center stderr n_samples
  end.

(** [Normal.from_param]. *)
Definition from_param (model_param : Param F) : Distribution :=
  Normal (p_value model_param) (p_stderr model_param).

(** ** propagate_errors *)

Section Propagate.
Context {V R : Type} (of_sample : F -> V).

(** An argument of the wrapped function: a distribution or any other
    value. *)
Inductive argument : Type :=
| Plain (v : V)
| Dist (d : Distribution).

Definition is_distribution (a : argument) : bool :=
  match a with
  | Dist _ => true
  | Plain _ => false
  end.

(** The positions and the keywords of the arguments that are no
    distributions. *)
Definition exclude (args : list argument) (kwargs : list (string * argument))
    : list (nat + string) :=
  map (fun ia => inl (fst ia))
      (List.filter (fun ia => negb (is_distribution (snd ia))) (enumerate args))
  ++ map (fun kv => inr (fst kv))
         (List.filter (fun kv => negb (is_distribution (snd kv))) kwargs).

(** An argument as [np.vectorize] receives it: a value it passes on or
    an array of samples. *)
Inductive drawn : Type :=
| Fixed (v : V)
| Samples (l : list F).

Definition draw_argument (a : argument) : rand rng drawn :=
  match a with
  | Plain v => rret (Fixed v)
  | Dist d => (let! l := draw_samples d DEFAULT_N_SAMPLES in
               rret (Samples l))%rand
  end.

Definition at_sample (i : nat) (a : drawn) : pyres V :=
  match a with
  | Fixed v => Ok v
  | Samples l => or_raise IndexError (of_sample <$> l !! i)
  end.

Definition n_samples_of (a : drawn) : nat :=
  match a with
  | Fixed _ => 0
  | Samples l => length l
  end.

(** [np.vectorize(f, excluded=exclude)] on arrays of samples of one
    size: [f] at the first samples, at the second, and so on. *)
Definition vectorize (f : list V -> list (string * V) -> pyres R)
    (args : list drawn) (kwargs : list (string * drawn)) : pyres (list R) :=
  let size := list_max (map n_samples_of (args ++ map snd kwargs)) in
  pymap (fun i =>
           (let* a := pymap (at_sample i) args in
            let* k := pymap (fun kv => let* v := at_sample i (snd kv) in
                                       Ok (fst kv, v)) kwargs in
            f a k)%py)
        (seq 0 size).

(** What the wrapped function returns: the value of [f], or one value
    per sample. *)
Inductive propagated : Type :=
| Single (r : R)
| Sampled (rs : list R).

Definition propagate_errors (f : list V -> list (string * V) -> pyres R)
    (args : list argument) (kwargs : list (string * argument))
    : rand rng propagated :=
  if Nat.eqb (length (exclude args kwargs)) (length args + length kwargs) then
    let plain (a : argument) : pyres V :=
      match a with
      | Plain v => Ok v
      | Dist _ => Raise TypeError
      end in
    (let! a := rlift (pymap plain args) in
     let! k := rlift (pymap (fun kv => let* v := plain (snd kv) in
                                       Ok (fst kv, v))%py kwargs) in
     let! r := rlift (f a k) in
     rret (Single r))%rand
  else
    (let! a := rmap draw_argument args in
     let! k := rmap (fun kv => let! v := draw_argument (snd kv) in
                               rret (fst kv, v)) kwargs in
     let! res := rlift (vectorize f a k) in
     rret (Sampled res))%rand.

End Propagate.

(** ** bootstrap *)

(** The two functions [resample_fn] may be bound to. *)
Inductive resampler : Type :=
| Resample
| ResampleCycle.

(** [resample_fn(data, **keywords)] on an array: a keyword that is no
    parameter of the function raises [TypeError]. *)
Definition call_resampler (r : resampler) (keywords : list (string * F))
    (data : DataArray) : rand rng DataArray :=
  match r with
  | Resample =>
      if forallb (String.eqb "prior_adjustment") (dict_keys keywords) then
        resample data (dict_get_default keywords "prior_adjustment" s_one)
      else rraise TypeError
  | ResampleCycle =>
      if forallb (fun _ => false) (dict_keys keywords) then resample_cycle data
      else rraise TypeError
  end.

(** The binding of [resample_fn]: none for a method that is neither
    [None] nor ["cycle"]. *)
Definition resample_fn_of (resample_method : option string) : option resampler :=
  match resample_method with
  | None => Some Resample
  | Some m => if String.eqb m "cycle" then Some ResampleCycle else None
  end.

Section Bootstrapped.
Context {V R : Type}.

(** An argument of the bootstrapped function. *)
Inductive value : Type :=
| VData (d : DataType)
| VOther (v : V).

(** What the sources ask of the results: whether a result is an array
    or a dataset, and [xr.concat] along a new dimension. *)
Class ArrayLike : Type := {
  is_arraylike : R -> bool;
  concat_runs : list R -> string -> pyres R
}.
Context {AL : ArrayLike}.

Definition is_data (v : value) : bool :=
  match v with
  | VData _ => true
  | VOther _ => false
  end.

Definition is_dataarray (v : value) : bool :=
  match v with
  | VData (DArray _) => true
  | _ => false
  end.

(** The positions to resample: arrays and datasets whose position is
    not in [skip]. *)
Definition resample_indices (skip : list Z) (args : list value) : list nat :=
  map fst (List.filter
             (fun ia => is_data (snd ia)
                        && negb (existsb (Z.eqb (Z.of_nat (fst ia))) skip))
             (enumerate args)).

(** The keywords to resample: arrays; a keyword is a string and [skip]
    holds integers, so no keyword is in it. *)
Definition resample_kwargs (kwargs : list (string * value)) : list string :=
  map fst (List.filter (fun kv => is_dataarray (snd kv)) kwargs).

(** [get_label] of the function that logs what is resampled. *)
Definition get_label (arg : DataType) : string :=
  match arg with
  | DSet ds =>
      "xr.Dataset: [" +:+ String.concat ", " (dict_keys (ds_vars ds)) +:+ "]"
  | DArray a =>
      match da_name a with
      | Some (String c n) => String c n
      | _ => default "Label-less DataArray" (dict_get (da_attrs a) "id")
      end
  end.

(** The two messages the bootstrapped function logs before its loop. *)
Definition resampling_args_message (skip : list Z) (args : list value)
    : string :=
  "Resampling args: "
  +:+ String.concat ","
        (omap (fun i => match args !! i with
                        | Some (VData d) => Some (get_label d)
                        | _ => None
                        end)
              (resample_indices skip args)).

Definition resampling_kwargs_message (kwargs : list (string * value))
    : string :=
  "Resampling kwargs: " +:+ String.concat "," (resample_kwargs kwargs).

(** [resample_fn(arg, prior_adjustment=prior_adjustment)]. *)
Definition call_resample_fn (resample_fn : option resampler)
    (prior_adjustment : F) (arg : value) : rand rng value :=
  match resample_fn with
  | None => rraise NameError
  | Some r =>
      match arg with
      | VData d =>
          (let! resampled :=
             lift_dataarray_to_generic
               (call_resampler r [("prior_adjustment", prior_adjustment)]) d in
           rret (VData resampled))%rand
      | VOther _ => rraise AssertionError
      end
  end.

(** One round of the loop: the arguments resampled, then [fn]. *)
Definition bootstrap_run (fn : list value -> list (string * value) -> pyres R)
    (skip : list Z) (resample_fn : option resampler)
    (args : list value) (prior_adjustment : F)
    (kwargs : list (string * value)) : rand rng R :=
  (let! new_args :=
     rfold (fun new_args i =>
              let! arg := rlift (or_raise IndexError (args !! i)) in
              let! r := call_resample_fn resample_fn prior_adjustment arg in
              rret (<[i := r]> new_args))
           (resample_indices skip args) args in
   let! new_kwargs :=
     rfold (fun new_kwargs k =>
              let! arg := rlift (dict_item kwargs k) in
              let! r := call_resample_fn resample_fn prior_adjustment arg in
              rret (dict_set new_kwargs k r))
           (resample_kwargs kwargs) kwargs in
   rlift (fn new_args new_kwargs))%rand.

(** What the bootstrapped function returns: the list of the runs, or
    their concatenation. *)
Inductive bootstrap_result : Type :=
| Runs (runs : list R)
| Stacked (r : R).

Definition bootstrapped (fn : list value -> list (string * value) -> pyres R)
    (skip : list Z) (resample_fn : option resampler)
    (args : list value) (n : Z) (prior_adjustment : F)
    (kwargs : list (string * value)) : rand rng bootstrap_result :=
  (let! runs :=
     rrepeat (Z.to_nat n)
             (bootstrap_run fn skip resample_fn args prior_adjustment kwargs) in
   if existsb is_arraylike runs then
     if forallb is_arraylike runs then
       let! r := rlift (concat_runs runs "bootstrap") in
       rret (Stacked r)
     else rraise AttributeError
   else rret (Runs runs))%rand.

Definition bootstrap (fn : list value -> list (string * value) -> pyres R)
    (skip : option (list Z)) (resample_method : option string)
    : list value -> Z -> F -> list (string * value) -> rand rng bootstrap_result :=
  bootstrapped fn (default [] skip) (resample_fn_of resample_method).

End Bootstrapped.

(** ** bootstrap_intensity_polarization *)

(** [arpes.analysis.sarpes.to_intensity_polarization]. *)
Class Sarpes : Type :=
  to_intensity_polarization : Dataset -> pyres Dataset.

Definition bootstrap_intensity_polarization {P : Sarpes}
    {AL : ArrayLike (R := Dataset)} (data : Dataset) (n : Z)
    : rand rng (bootstrap_result (R := Dataset)) :=
  let fn (args : list (value (V := Empty_set)))
         (kwargs : list (string * value (V := Empty_set))) : pyres Dataset :=
    match args, kwargs with
    | [VData (DSet d)], [] => to_intensity_polarization d
    | _, _ => Raise TypeError
    end in
  bootstrap fn None None [VData (DSet data)] n s_one [].

End Defs.

Arguments DataArray F : clear implicits.
Arguments Dataset F : clear implicits.
Arguments DataType F : clear implicits.
Arguments Distribution F : clear implicits.
Arguments SpectrumTools F : clear implicits.
Arguments Sarpes F : clear implicits.
Arguments argument F V : clear implicits.
Arguments drawn F V : clear implicits.
Arguments propagated R : clear implicits.
Arguments value F V : clear implicits.
Arguments ArrayLike R : clear implicits.
Arguments bootstrap_result R : clear implicits.


(** An argument every value of which, times the prior adjustment, is a
    mean numpy accepts for a Poisson variable. *)
Definition accepted_array {F} `{ScalarOps F} `{Sampler F}
    (prior_adjustment : F) (a : DataArray F) : Prop :=
  Forall (fun c => poisson_accepts (c * prior_adjustment)%sc = true)
         (g_cells (da_grid a)).

Definition accepted {F V} `{ScalarOps F} `{Sampler F}
    (prior_adjustment : F) (v : value F V) : Prop :=
  match v with
  | VData (DArray a) => accepted_array prior_adjustment a
  | VData (DSet ds) =>
      Forall (fun kv => accepted_array prior_adjustment (snd kv)) (ds_vars ds)
  | VOther _ => True
  end.

(** * Example data *)

(** A source that reads its numbers from a tape, zero when the tape is
    used up: [randint(a, b)] is [a] plus the number modulo the size of
    the range, a Poisson draw the absolute value of the number, a normal
    draw the centre plus the number times the scale. *)
Section ExampleData.
Local Open Scope string_scope.

Definition tape_next (s : list Z) : Z * list Z :=
  match s with
  | [] => (0%Z, [])
  | z :: s' => (z, s')
  end.

Definition ex_sampler : Sampler Q :=
  {| rng := list Z;
     randint_draw a b s :=
       ((a + fst (tape_next s) mod (b - a + 1))%Z, snd (tape_next s));
     poisson_draw lam s := (Z.abs (fst (tape_next s)), snd (tape_next s));
     poisson_lam_max := inject_Z 9223372006484771840;
     norm_draw loc sc s :=
       ((loc + sc * inject_Z (fst (tape_next s)))%Q, snd (tape_next s)) |}.

(** Two cycles of three energies, with an identifier. *)
Definition ex_counts : DataArray Q :=
  {| da_grid := {| g_dims := ["cycle"; "eV"];
                   g_coords := [[0; 1]%Q; [0; 1; 2]%Q];
                   g_cells := [1; 2; 3; 10; 20; 30]%Q |};
     da_name := Some "spectrum";
     da_attrs := [("id", "7"); ("pol", "s")] |}.

(** Two energies, without a name. *)
Definition ex_line : DataArray Q :=
  {| da_grid := {| g_dims := ["eV"]; g_coords := [[0; 1]%Q];
                   g_cells := [4; 9]%Q |};
     da_name := None;
     da_attrs := [("id", "3")] |}.

(** A function to bootstrap: the sum of the values of its first
    argument, a number and so no array. *)
Definition ex_total (args : list (value Q unit))
    (kwargs : list (string * value Q unit)) : pyres Q :=
  match args with
  | VData (DArray a) :: _ => Ok (Qred (s_sum (g_cells (da_grid a))))
  | _ => Ok 0%Q
  end.

Definition ex_numbers : ArrayLike Q :=
  {| is_arraylike := fun _ => false;
     concat_runs := fun _ _ => Raise TypeError |}.

(** Stand-ins for the spin analysis and for [xr.concat] of datasets:
    the first leaves the dataset as it is, the second collects the
    variables of the runs. *)
Definition ex_sarpes : Sarpes Q := fun d => Ok d.

Definition ex_datasets : ArrayLike (Dataset Q) :=
  {| is_arraylike := fun _ => true;
     concat_runs := fun runs _ =>
       match runs with
       | [] => Raise ValueError
       | r :: _ => Ok {| ds_vars := flat_map ds_vars runs;
                         ds_attrs := ds_attrs r |}
       end |}.

(** Stand-ins for the regions and the accessor of the arrays: every
    region is the whole array and the edges are left as they are. *)
Definition ex_tools : SpectrumTools Q :=
  {| Region := unit;
     normalize_region := fun _ => Ok tt;
     zero_spectrometer_edges := fun a => Ok a;
     region_sel := fun a _ => Ok a |}.

(** A function of numbers to wrap: the sum of its positional
    arguments. *)
Definition ex_sum (args : list Q) (kwargs : list (string * Q)) : pyres Q :=
  Ok (Qred (s_sum args)).

End ExampleData.

(** * Facts *)

(** ** The monad *)

Section MonadFacts.
Context {St : Type}.

Lemma rbind_ret_l {A B} (a : A) (k : A -> rand St B) (s : St) :
  rbind (rret a) k s = k a s.
Proof. done. Qed.

Lemma rbind_ret_r {A} (m : rand St A) (s : St) : rbind m rret s = m s.
Proof. unfold rbind, rret. by destruct (m s) as [[a s'] | e]. Qed.

Lemma rbind_assoc {A B C} (m : rand St A) (k : A -> rand St B)
    (h : B -> rand St C) (s : St) :
  rbind (rbind m k) h s = rbind m (fun a => rbind (k a) h) s.
Proof. unfold rbind. by destruct (m s) as [[a s'] | e]. Qed.

Lemma rbind_Ok {A B} (m : rand St A) (k : A -> rand St B) (s s' : St) (b : B) :
  rbind m k s = Ok (b, s')
  <-> exists a s1, m s = Ok (a, s1) /\ k a s1 = Ok (b, s').
Proof.
  unfold rbind. destruct (m s) as [[a s1] | e]; split.
  - intros H. by exists a, s1.
  - by intros (? & ? & [= <- <-] & H).
  - done.
  - by intros (? & ? & ? & _).
Qed.

Lemma rbind_step {A B} (m : rand St A) (k : A -> rand St B) (s s1 : St) (a : A) :
  m s = Ok (a, s1) -> rbind m k s = k a s1.
Proof. unfold rbind. by intros ->. Qed.

Lemma rbind_raise {A B} (m : rand St A) (k : A -> rand St B) (s : St)
    (e : pyerr) :
  m s = Raise e -> rbind m k s = Raise e.
Proof. unfold rbind. by intros ->. Qed.

Lemma rbind_lift {A B} (m : pyres A) (k : A -> rand St B) (s : St) :
  rbind (rlift m) k s = match m with
                        | Ok a => k a s
                        | Raise e => Raise e
                        end.
Proof. unfold rbind, rlift. by destruct m. Qed.

Lemma rlift_Ok {A} (m : pyres A) (s s' : St) (a : A) :
  rlift m s = Ok (a, s') <-> m = Ok a /\ s' = s.
Proof.
  unfold rlift. destruct m as [a' | e]; cbn; split; try done.
  - by intros [= <- <-].
  - by intros [[= <-] ->].
  - by intros [? _].
Qed.

Lemma rdraw_total {A} (d : St -> A * St) (s : St) :
  exists a s', rdraw d s = Ok (a, s').
Proof. unfold rdraw. destruct (d s) as [a s']. by exists a, s'. Qed.

Lemma rmap_cons_Ok {A B} (f : A -> rand St B) (x : A) (l : list A)
    (s s' : St) (r : list B) :
  rmap f (x :: l) s = Ok (r, s')
  <-> exists y s1 ys,
        f x s = Ok (y, s1) /\ rmap f l s1 = Ok (ys, s') /\ r = y :: ys.
Proof.
  cbn [rmap]. rewrite rbind_Ok. split.
  - intros (y & s1 & Hy & (ys & s2 & Hys & [= <- <-])%rbind_Ok).
    by exists y, s1, ys.
  - intros (y & s1 & ys & Hy & Hys & ->). exists y, s1. split; [done |].
    apply rbind_Ok. by exists ys, s'.
Qed.

Lemma rmap_length {A B} (f : A -> rand St B) (l : list A) (s s' : St)
    (r : list B) :
  rmap f l s = Ok (r, s') -> length r = length l.
Proof.
  revert s r. induction l as [| x l IH]; intros s r H.
  - by injection H as <- _.
  - apply rmap_cons_Ok in H as (y & s1 & ys & _ & H & ->). cbn. f_equal.
    by eapply IH.
Qed.

Lemma rmap_Forall {A B} (P : B -> Prop) (f : A -> rand St B) (l : list A)
    (s s' : St) (r : list B) :
  (forall x s y s', f x s = Ok (y, s') -> P y) ->
  rmap f l s = Ok (r, s') -> Forall P r.
Proof.
  intros Hf. revert s r. induction l as [| x l IH]; intros s r H.
  - injection H as <- _. constructor.
  - apply rmap_cons_Ok in H as (y & s1 & ys & Hy & H & ->).
    constructor; [by eapply Hf | by eapply IH].
Qed.

Lemma rmap_Forall2 {A B} (P : A -> B -> Prop) (g : A -> rand St B)
    (l : list A) (s s' : St) (r : list B) :
  (forall x s y s', g x s = Ok (y, s') -> P x y) ->
  rmap g l s = Ok (r, s') -> Forall2 P l r.
Proof.
  intros Hg. revert s r. induction l as [| x l IH]; intros s r H.
  - injection H as <- _. constructor.
  - apply rmap_cons_Ok in H as (y & s1 & ys & Hy & H & ->).
    constructor; [by eapply Hg | by eapply IH].
Qed.

Lemma rmap_total {A B} (f : A -> rand St B) (l : list A) (s : St) :
  (forall x s, In x l -> exists y s', f x s = Ok (y, s')) ->
  exists r s', rmap f l s = Ok (r, s').
Proof.
  revert s. induction l as [| x l IH]; intros s Hf; cbn; [by eexists _, _ |].
  destruct (Hf x s) as (y & s1 & Hy); [by left |].
  destruct (IH s1) as (r & s' & Hr); [intros; apply Hf; by right |].
  exists (y :: r), s'. rewrite (rbind_step _ _ _ _ _ Hy).
  by rewrite (rbind_step _ _ _ _ _ Hr).
Qed.

Lemma rmap_pure {A B} (f : A -> rand St B) (g : A -> B) (l : list A) (s : St) :
  (forall x, In x l -> f x s = Ok (g x, s)) -> rmap f l s = Ok (map g l, s).
Proof.
  induction l as [| x l IH]; intros Hf; cbn; [done |].
  rewrite (rbind_step _ _ _ _ _ (Hf x (or_introl eq_refl))).
  rewrite (rbind_step _ _ _ _ _ (IH (fun y Hy => Hf y (or_intror Hy)))).
  done.
Qed.

Lemma rfold_total {A B} (f : B -> A -> rand St B) (l : list A) (b : B)
    (s : St) :
  (forall b x s, In x l -> exists b' s', f b x s = Ok (b', s')) ->
  exists b' s', rfold f l b s = Ok (b', s').
Proof.
  revert b s. induction l as [| x l IH]; intros b s Hf; cbn;
    [by eexists _, _ |].
  destruct (Hf b x s) as (b1 & s1 & H1); [by left |].
  rewrite (rbind_step _ _ _ _ _ H1). apply IH. intros. apply Hf. by right.
Qed.

Lemma rrepeat_length {A} (n : nat) (m : rand St A) (s s' : St) (r : list A) :
  rrepeat n m s = Ok (r, s') -> length r = n.
Proof. intros H%rmap_length. by rewrite length_seq in H. Qed.

Lemma rrepeat_pure {A} (n : nat) (m : rand St A) (a : A) (s : St) :
  m s = Ok (a, s) -> rrepeat n m s = Ok (replicate n a, s).
Proof.
  intros H. unfold rrepeat. rewrite (rmap_pure _ (fun _ => a)); [| done].
  f_equal. f_equal. generalize 0. induction n as [| n IH]; intros k; [done |].
  cbn. by rewrite IH.
Qed.

Lemma rrepeat_raise {A} (n : nat) (m : rand St A) (e : pyerr) (s : St) :
  0 < n -> m s = Raise e -> rrepeat n m s = Raise e.
Proof. destruct n; [lia |]. intros _ H. unfold rrepeat. cbn. by apply rbind_raise. Qed.

End MonadFacts.

(** The inversion of a computation that returned. *)
Ltac rand_inv H :=
  repeat match type of H with
         | rbind _ _ _ = Ok _ =>
             let a := fresh "a" in
             let s := fresh "s" in
             let E := fresh "E" in
             apply rbind_Ok in H as (a & s & E & H)
         end.

(** ** Resampling *)

Section Resampling.
Context {F : Type} {Fops : ScalarOps F} {S : Sampler F}.
Local Open Scope string_scope.
Implicit Types (data r : DataArray F) (s : rng).

Lemma rg_poisson_length (lam : list F) (counts : list Z) s s' :
  rg_poisson lam s = Ok (counts, s') -> length counts = length lam.
Proof.
  unfold rg_poisson. destruct (forallb poisson_accepts lam); [| done].
  apply rmap_length.
Qed.

Lemma rg_poisson_ok (lam : list F) s :
  forallb poisson_accepts lam = true ->
  exists counts s', rg_poisson lam s = Ok (counts, s').
Proof.
  intros H. unfold rg_poisson. rewrite H. apply rmap_total.
  intros l s0 _. apply rdraw_total.
Qed.

Lemma rg_poisson_rejects (lam : list F) (l : F) s :
  In l lam -> poisson_accepts l = false -> rg_poisson lam s = Raise ValueError.
Proof.
  intros Hin Hl. unfold rg_poisson.
  destruct (forallb poisson_accepts lam) eqn:E; [| done].
  rewrite forallb_forall in E. by rewrite (E l Hin) in Hl.
Qed.

(** After [del_id] the attributes have no identifier and keep their
    other entries. *)
Lemma del_id_spec (attrs : list (string * string)) (k : string) :
  dict_wf attrs = true ->
  dict_get (del_id attrs) k
  = if String.eqb k "id" then None else dict_get attrs k.
Proof.
  intros Hwf. unfold del_id, dict_mem.
  destruct (String.eqb_spec k "id") as [-> | Hne].
  - destruct (dict_get attrs "id") eqn:E; [| done].
    by apply dict_get_del_eq.
  - destruct (dict_get attrs "id"); [| done]. apply dict_get_del_ne.
    rewrite string_keq_eqb. apply String.eqb_neq. congruence.
Qed.

(** What [resample] and [resample_true_counts] return has the dimensions,
    the ticks and the number of values of the array, no name, and the
    attributes of the array without its identifier. *)
Lemma drop_id_with_counts data (counts : list Z) :
  length counts = length (g_cells (da_grid data)) ->
  let r := drop_id (with_counts data counts) in
  g_dims (da_grid r) = g_dims (da_grid data)
  /\ g_coords (da_grid r) = g_coords (da_grid data)
  /\ length (g_cells (da_grid r)) = length (g_cells (da_grid data))
  /\ da_name r = None
  /\ da_attrs r = del_id (da_attrs data).
Proof. intros Hlen. cbn. by rewrite length_map. Qed.

Theorem resample_shape data (prior_adjustment : F) r s s' :
  resample data prior_adjustment s = Ok (r, s') ->
  g_dims (da_grid r) = g_dims (da_grid data)
  /\ g_coords (da_grid r) = g_coords (da_grid data)
  /\ length (g_cells (da_grid r)) = length (g_cells (da_grid data))
  /\ da_name r = None
  /\ da_attrs r = del_id (da_attrs data).
Proof.
  unfold resample. intros H. rand_inv H. injection H as <- <-.
  apply drop_id_with_counts. apply rg_poisson_length in E.
  by rewrite length_map in E.
Qed.

(** [resample] returns when every mean is one numpy accepts. *)
Theorem resample_total data (prior_adjustment : F) s :
  Forall (fun v => poisson_accepts (v * prior_adjustment)%sc = true)
         (g_cells (da_grid data)) ->
  exists r s', resample data prior_adjustment s = Ok (r, s').
Proof.
  intros Hok. unfold resample.
  destruct (rg_poisson_ok (map (fun v => (v * prior_adjustment)%sc)
                               (g_cells (da_grid data))) s)
    as (counts & s' & E).
  { apply forallb_forall. intros l (v & <- & Hv)%in_map_iff.
    rewrite Forall_forall in Hok. by apply Hok, list_elem_of_In. }
  eexists _, _. by rewrite (rbind_step _ _ _ _ _ E).
Qed.

(** A value whose mean numpy refuses, a negative one for
    instance, makes [resample] raise [ValueError] before any draw. *)
Theorem resample_rejects data (prior_adjustment v : F) s :
  In v (g_cells (da_grid data)) ->
  poisson_accepts (v * prior_adjustment)%sc = false ->
  resample data prior_adjustment s = Raise ValueError.
Proof.
  intros Hin Hv. unfold resample. apply rbind_raise.
  apply (rg_poisson_rejects _ (v * prior_adjustment)%sc); [| done].
  apply in_map_iff. by exists v.
Qed.

(** [resample] with a prior adjustment that leaves the values as they
    are is [resample_true_counts]. *)
Theorem resample_true_counts_resample data (prior_adjustment : F) s :
  (forall v, In v (g_cells (da_grid data)) -> (v * prior_adjustment)%sc = v) ->
  resample data prior_adjustment s = resample_true_counts data s.
Proof.
  intros Hone. unfold resample, resample_true_counts.
  by rewrite (map_ext_in _ id), map_id.
Qed.

(** ** resample_cycle *)

(** Without a coordinate [cycle] the function raises
    [AttributeError]. *)
Theorem resample_cycle_needs_cycle data s :
  dict_get (coords_dict (da_grid data)) "cycle" = None ->
  resample_cycle data s = Raise AttributeError.
Proof. intros H. unfold resample_cycle. by rewrite rbind_lift, H. Qed.

Lemma randint_range_ok `{!SamplerLaws F} (n : nat) (z : Z) s s' :
  0 < n -> randint 0 (Z.of_nat n - 1) s = Ok (z, s') ->
  (0 <= z < Z.of_nat n)%Z.
Proof.
  intros Hn. unfold randint. destruct (Z.ltb_spec (Z.of_nat n - 1) 0); [lia |].
  unfold rdraw. intros [= E].
  pose proof (randint_range 0 (Z.of_nat n - 1) s) as Hr. rewrite E in Hr.
  cbn in Hr. lia.
Qed.

Lemma randint_total (a b : Z) s :
  (a <= b)%Z -> exists z s', randint a b s = Ok (z, s').
Proof.
  intros Hab. unfold randint. destruct (Z.ltb_spec b a); [lia |].
  apply rdraw_total.
Qed.

(** The draws of [cycle_indices] succeed and stay within the axis. *)
Lemma cycle_indices_ok `{!SamplerLaws F} (n : nat) s :
  exists which s',
    cycle_indices n s = Ok (which, s')
    /\ Forall (fun z => (0 <= z < Z.of_nat n)%Z) which.
Proof.
  destruct (rmap_total (fun _ : nat => randint 0 (Z.of_nat n - 1))
                       (seq 0 n) s) as (which & s' & Hw).
  { intros i s0 Hi%list_elem_of_In%elem_of_seq. apply randint_total. lia. }
  exists which, s'. split; [done |].
  eapply rmap_Forall; [| exact Hw]. cbn. intros i s0 z s1 Hz.
  destruct n; [by apply rmap_length in Hw; destruct which |].
  eapply randint_range_ok; [| exact Hz]. lia.
Qed.

(** Claim C20. One cycle is drawn per cycle of the data, and every index
    drawn is a position of the axis: the selection that follows never
    reads outside the array. *)
Theorem cycle_indices_in_range `{!SamplerLaws F} (n : nat) s :
  exists which s',
    cycle_indices n s = Ok (which, s')
    /\ length which = n
    /\ Forall (fun z => exists i, py_position n z = Ok i /\ i < n) which.
Proof.
  destruct (cycle_indices_ok n s) as (which & s' & Hw & Hr).
  exists which, s'. split; [done |]. split.
  - apply rrepeat_length in Hw. done.
  - eapply Forall_impl; [exact Hr |]. intros z Hz. cbv beta in Hz.
    exists (Z.to_nat z). split; [by apply py_position_ok | lia].
Qed.

(** The dimensions that remain after a sum along [d]. *)
Lemma sum_dim_dims (g g' : Grid F F) (d : string) :
  length (g_dims g) = length (g_coords g) ->
  sum_dim g d = Ok g' ->
  g_dims g' = List.filter (fun d' => negb (String.eqb d' d)) (g_dims g).
Proof.
  intros Hlen. unfold sum_dim. destruct (coords_of g d); [| done].
  cbn [pybind]. intros [= <-]. cbn [g_dims]. unfold coords_dict.
  revert Hlen. generalize (g_coords g).
  induction (g_dims g) as [| d0 dims IH]; intros [| t coords] Hlen;
    try done. cbn. rewrite string_keq_eqb.
  destruct (String.eqb d0 d); cbn; [| f_equal]; apply IH; cbn in Hlen; lia.
Qed.

(** On a well-formed array with a dimension [cycle], and a
    source whose [randint] respects its bounds, [resample_cycle] returns
    an array over the other dimensions, with the name of the array. *)
Theorem resample_cycle_total `{!SamplerLaws F} data s :
  grid_wf (da_grid data) -> In "cycle" (g_dims (da_grid data)) ->
  exists r s',
    resample_cycle data s = Ok (r, s')
    /\ g_dims (da_grid r)
       = List.filter (fun d => negb (String.eqb d "cycle"))
                     (g_dims (da_grid data))
    /\ da_name r = da_name data
    /\ da_attrs r = del_id (da_attrs data).
Proof.
  intros Hwf Hin. pose proof Hwf as (_ & Hlen & _).
  destruct (coords_of_ok _ _ Hlen Hin) as [cycle Hc].
  unfold resample_cycle. rewrite rbind_lift.
  pose proof Hc as Hget. unfold coords_of, dict_item in Hget.
  destruct (dict_get _ "cycle") as [cycle' |]; [| done].
  cbn in Hget. injection Hget as ->. cbn [or_raise].
  destruct (cycle_indices_ok (length cycle) s) as (which & s' & Hw & Hr).
  cbv zeta. rewrite (rbind_step _ _ _ _ _ Hw), rbind_lift.
  destruct (isel_ok (da_grid data) "cycle" which cycle Hwf Hc Hr)
    as (g' & -> & Hdims & Hcoords).
  rewrite rbind_lift.
  assert (length (g_dims g') = length (g_coords g')) as Hlen'
    by (rewrite Hdims; lia).
  destruct (coords_of_ok g' "cycle") as [t Ht]; [done | by rewrite Hdims |].
  destruct (sum_dim g' "cycle") as [summed | e] eqn:Es;
    [| by unfold sum_dim in Es; rewrite Ht in Es].
  eexists _, _. split; [done |]. cbn.
  by rewrite (sum_dim_dims _ _ _ Hlen' Es), Hdims.
Qed.

End Resampling.

(** ** bootstrap_counts *)

Section Counts.
Context {F : Type} {Fops : ScalarOps F} {S : Sampler F}.
Local Open Scope string_scope.
Implicit Types (data : DataArray F) (s : rng).

Lemma resample_true_counts_shape data (r : DataArray F) s s' :
  resample_true_counts data s = Ok (r, s') ->
  length (g_cells (da_grid r)) = length (g_cells (da_grid data)).
Proof.
  unfold resample_true_counts. intros H. rand_inv H. injection H as <- <-.
  apply rg_poisson_length in E. cbn. by rewrite length_map.
Qed.

Lemma resample_true_counts_total data s :
  forallb poisson_accepts (g_cells (da_grid data)) = true ->
  exists r s', resample_true_counts data s = Ok (r, s').
Proof.
  intros Hok. unfold resample_true_counts.
  destruct (rg_poisson_ok _ s Hok) as (counts & s' & E).
  eexists _, _. by rewrite (rbind_step _ _ _ _ _ E).
Qed.

Lemma np_stack_ok (a : list F) (rest : list (list F)) :
  Forall (fun b => length b = length a) rest ->
  np_stack (a :: rest) = Ok (a :: rest).
Proof.
  intros H. unfold np_stack.
  assert (forallb (fun b => Nat.eqb (length b) (length a)) rest = true) as ->;
    [| done].
  apply forallb_forall. intros b Hb%list_elem_of_In.
  rewrite Forall_forall in H. by apply Nat.eqb_eq, H.
Qed.

(** Without a name, of the array or given, the function fails its
    assertion. *)
Theorem bootstrap_counts_needs_name data (n_samples : Z) s :
  da_name data = None ->
  bootstrap_counts data n_samples None s = Raise AssertionError.
Proof. intros H. unfold bootstrap_counts. by rewrite rbind_lift, H. Qed.

Lemma assert_name_ok data (name : option string) :
  is_Some (da_name data) \/ is_Some name ->
  py_assert (bool_decide (is_Some (da_name data))
             || bool_decide (is_Some name)) = Ok tt.
Proof.
  intros [H | H]; [rewrite (bool_decide_eq_true_2 _ H) |
                   rewrite (bool_decide_eq_true_2 (is_Some name) H)];
    [done | by rewrite orb_true_r].
Qed.

(** With no sample to draw, [np.stack] has nothing to stack:
    the function raises [ValueError]. *)
Theorem bootstrap_counts_no_samples data (n_samples : Z)
    (name : option string) s :
  is_Some (da_name data) \/ is_Some name -> (n_samples <= 0)%Z ->
  bootstrap_counts data n_samples name s = Raise ValueError.
Proof.
  intros Hname Hn. unfold bootstrap_counts.
  rewrite rbind_lift, (assert_name_ok _ _ Hname).
  by replace (Z.to_nat n_samples) with 0 by lia.
Qed.

(** On counts numpy accepts as means and for one sample or
    more, [bootstrap_counts] returns a dataset of two variables, the mean
    under the name and the standard deviation under the name followed by
    [_std], each with the dimensions, the ticks and the number of values
    of the array, and with the attributes of the array. *)
Theorem bootstrap_counts_total data (n_samples : Z) (name : option string) s :
  is_Some (da_name data) \/ is_Some name -> (0 < n_samples)%Z ->
  forallb poisson_accepts (g_cells (da_grid data)) = true ->
  exists mean std s',
    let nm := default (default "" name) (da_name data) in
    bootstrap_counts data n_samples name s
    = Ok ({| ds_vars := [(nm, mean); (nm +:+ "_std", std)];
             ds_attrs := da_attrs data |}, s')
    /\ Forall (fun v => g_dims (da_grid v) = g_dims (da_grid data)
                        /\ g_coords (da_grid v) = g_coords (da_grid data)
                        /\ length (g_cells (da_grid v))
                           = length (g_cells (da_grid data)))
              [mean; std].
Proof.
  intros Hname Hn Hok. unfold bootstrap_counts.
  rewrite rbind_lift, (assert_name_ok _ _ Hname).
  destruct (rmap_total (fun _ : nat => resample_true_counts data)
                       (seq 0 (Z.to_nat n_samples)) s) as (sets & s' & Hsets).
  { intros _ s0 _. by apply resample_true_counts_total. }
  unfold rrepeat. rewrite (rbind_step _ _ _ _ _ Hsets), rbind_lift.
  pose proof (rmap_length _ _ _ _ _ Hsets) as Hlen.
  rewrite length_seq in Hlen.
  pose proof (rmap_Forall
                (fun r => length (g_cells (da_grid r))
                          = length (g_cells (da_grid data)))
                _ _ _ _ _ (fun _ s0 r s1 => resample_true_counts_shape data r s0 s1)
                Hsets) as Hshape.
  destruct sets as [| r0 sets]; [cbn in Hlen; lia |].
  apply Forall_cons in Hshape as [H0 Hrest]. cbn [map].
  rewrite np_stack_ok
    by (apply Forall_map; eapply Forall_impl; [exact Hrest |];
        cbn; intros; congruence).
  eexists _, _, s'. cbn zeta. split.
  - unfold rret. do 3 f_equal. cbn. rewrite string_keq_eqb.
    by rewrite (proj2 (String.eqb_neq _ _)
                      (append_suffix_ne _ "_std" ltac:(done))).
  - repeat constructor; cbn; unfold along_axis_0;
      by rewrite length_map, length_seq.
Qed.

End Counts.

(** ** Distributions *)

Section Distributions.
Context {F : Type} {Fops : ScalarOps F} {S : Sampler F}.
Implicit Types (d : Distribution F) (s : rng).

Lemma norm_rvs_length (loc : F) (scale : option F) (size : Z) (l : list F) s s' :
  norm_rvs loc scale size s = Ok (l, s') -> length l = Z.to_nat size.
Proof.
  unfold norm_rvs. destruct scale as [sc |]; [| done].
  destruct (s_leb s_zero sc); [| done]. destruct (size <? 0)%Z; [done |].
  apply rrepeat_length.
Qed.

Lemma draw_samples_length d (n_samples : Z) (l : list F) s s' :
  draw_samples d n_samples s = Ok (l, s') -> length l = Z.to_nat n_samples.
Proof. destruct d; [done | apply norm_rvs_length]. Qed.

(** The distribution of a parameter without a standard error, as a fit
    that estimated no uncertainties leaves it, cannot be sampled. *)
Lemma from_param_unfitted (p : Param F) (n_samples : Z) s :
  p_stderr p = None ->
  draw_samples (from_param p) n_samples s = Raise TypeError.
Proof. intros H. unfold from_param, draw_samples, norm_rvs. by rewrite H. Qed.

End Distributions.

(** ** propagate_errors *)

Section PropagateFacts.
Context {F : Type} {Fops : ScalarOps F} {S : Sampler F}.
Context {V R : Type} (of_sample : F -> V).
Context (f : list V -> list (string * V) -> pyres R).
Implicit Types (args : list (argument F V))
  (kwargs : list (string * argument F V)) (s : rng).

(** Every argument is excluded exactly when none is a distribution. *)
Lemma exclude_all args kwargs :
  length (exclude args kwargs) = length args + length kwargs
  <-> forallb (fun a => negb (is_distribution a)) args = true
      /\ forallb (fun kv => negb (is_distribution (snd kv))) kwargs = true.
Proof.
  unfold exclude. rewrite length_app, !length_map.
  pose proof (filter_length_le (fun ia : nat * argument F V =>
                                  negb (is_distribution (snd ia)))
                               (enumerate args)) as Ha.
  pose proof (filter_length_le (fun kv : string * argument F V =>
                                  negb (is_distribution (snd kv))) kwargs) as Hk.
  rewrite enumerate_length in Ha. split.
  - intros E. split.
    + assert (forallb (fun ia : nat * argument F V =>
                         negb (is_distribution (snd ia))) (enumerate args)
              = true) as Hall
        by (apply filter_length_forallb; rewrite enumerate_length; lia).
      rewrite forallb_forall in *. intros a Ha'.
      rewrite <- (enumerate_snd args) in Ha'.
      apply in_map_iff in Ha' as (ia & <- & Hia). by apply Hall.
    + apply filter_length_forallb. lia.
  - intros [Hargs Hkw]. rewrite (forallb_filter_id _ _ Hkw). f_equal.
    rewrite forallb_filter_id; [apply enumerate_length |].
    rewrite forallb_forall in *. intros ia Hia. apply Hargs.
    rewrite <- (enumerate_snd args). by apply in_map.
Qed.

(** Called on values only, the wrapped function is [f]: it
    draws nothing and returns what [f] returns. *)
Theorem propagate_errors_plain (vs : list V) (kvs : list (string * V)) s :
  propagate_errors of_sample f (map Plain vs)
                   (map (fun kv => (fst kv, Plain (snd kv))) kvs) s
  = match f vs kvs with
    | Ok r => Ok (Single r, s)
    | Raise e => Raise e
    end.
Proof.
  unfold propagate_errors.
  rewrite (proj2 (Nat.eqb_eq _ _)).
  - rewrite rbind_lift, (pymap_map _ (fun a => match a with
                                                | Plain v => v
                                                | Dist _ => of_sample s_zero
                                                end));
      [| by apply Forall_map, Forall_forall].
    rewrite map_map, map_id, rbind_lift.
    rewrite (pymap_map _ (fun kv => (fst kv, match snd kv with
                                             | Plain v => v
                                             | Dist _ => of_sample s_zero
                                             end)));
      [| by apply Forall_map, Forall_forall].
    rewrite map_map. cbn [fst snd].
    rewrite (map_ext _ id) by (by intros []). rewrite map_id, rbind_lift.
    by destruct (f vs kvs).
  - apply exclude_all. split; apply forallb_forall.
    + by intros a (v & <- & _)%in_map_iff.
    + by intros kv (v & <- & _)%in_map_iff.
Qed.

Lemma draw_argument_spec (a : argument F V) s (d : drawn F V) s' :
  draw_argument a s = Ok (d, s') ->
  n_samples_of d = if is_distribution a then Z.to_nat DEFAULT_N_SAMPLES else 0.
Proof.
  destruct a as [v | dist]; cbn.
  - by intros [= <- _].
  - intros H. rand_inv H. injection H as <- _. cbn.
    by apply draw_samples_length in E.
Qed.

Lemma draw_kwarg_spec (kv : string * argument F V) s
    (kd : string * drawn F V) s' :
  rbind (draw_argument (snd kv)) (fun v => rret (fst kv, v)) s = Ok (kd, s') ->
  n_samples_of (snd kd)
  = if is_distribution (snd kv) then Z.to_nat DEFAULT_N_SAMPLES else 0.
Proof.
  intros H. rand_inv H. injection H as <- _. cbn.
  by eapply draw_argument_spec.
Qed.

Lemma list_max_bounded (l : list nat) (n : nat) :
  Forall (fun k => k = n \/ k = 0) l -> In n l -> list_max l = n.
Proof.
  intros Hall Hin. apply Nat.le_antisymm.
  - apply list_max_le. eapply Forall_impl; [exact Hall |]. cbn. lia.
  - pose proof (proj1 (list_max_le l (list_max l)) (Nat.le_refl _)) as Hle.
    rewrite Forall_forall in Hle. by apply Hle, list_elem_of_In.
Qed.

(** Unless every argument was kept, one of them is a distribution. *)
Lemma exclude_some args kwargs :
  length (exclude args kwargs) <> length args + length kwargs ->
  (existsb is_distribution args
   || existsb (fun kv => is_distribution (snd kv)) kwargs) = true.
Proof.
  intros Hne. destruct (existsb is_distribution args) eqn:Ea; [done |].
  destruct (existsb _ kwargs) eqn:Ek; [done |]. destruct Hne.
  apply exclude_all.
  split; apply forallb_forall; intros x Hx; apply negb_true_iff, not_true_iff_false;
    intros Hx'; [apply not_true_iff_false in Ea; apply Ea
                | apply not_true_iff_false in Ek; apply Ek];
    apply existsb_exists; by exists x.
Qed.

(** What was drawn for arguments of which the distributions have [n]
    samples and the others none: every number of samples is [n] or
    zero, and [n] is among them when a distribution is among the
    arguments. *)
Lemma samples_drawn {A D} (is_dist : A -> bool) (samples : D -> nat) (n : nat)
    (l : list A) (ds : list D) :
  Forall2 (fun a d => samples d = if is_dist a then n else 0) l ds ->
  Forall (fun k => k = n \/ k = 0) (map samples ds)
  /\ (existsb is_dist l = true -> In n (map samples ds)).
Proof.
  intros Hall. split.
  - apply Forall_map. eapply Forall2_Forall_r; [exact Hall |].
    apply Forall_forall. intros x _ d ->. destruct (is_dist x); auto.
  - intros (x & Hx & Hxd)%existsb_exists.
    apply list_elem_of_In, list_elem_of_lookup_1 in Hx as [i Hi].
    destruct (Forall2_lookup_l _ _ _ _ _ Hall Hi) as (d & Hd & Hn).
    rewrite Hxd in Hn. rewrite <- Hn. apply in_map.
    by apply list_elem_of_In, (list_elem_of_lookup_2 _ i).
Qed.

(** Called with a distribution among its arguments, the
    wrapped function returns one value of [f] per sample: a thousand. *)
Theorem propagate_errors_sampled args kwargs (rs : list R) s s' :
  propagate_errors of_sample f args kwargs s = Ok (Sampled rs, s') ->
  length rs = 1000
  /\ (existsb is_distribution args
      || existsb (fun kv => is_distribution (snd kv)) kwargs) = true.
Proof.
  unfold propagate_errors.
  destruct (Nat.eqb_spec (length (exclude args kwargs))
                         (length args + length kwargs)) as [| Hne].
  { intros H. rand_inv H. by injection H. }
  intros H. rand_inv H. injection H as <- <-.
  apply rlift_Ok in E1 as [Ev _].
  pose proof (exclude_some _ _ Hne) as Hd. split; [| done].
  unfold vectorize in Ev. apply pymap_length in Ev.
  rewrite Ev, length_seq.
  destruct (samples_drawn is_distribution n_samples_of 1000 _ _
              (rmap_Forall2 _ _ _ _ _ _ draw_argument_spec E)) as [Ha Ha'].
  destruct (samples_drawn (fun kv => is_distribution (snd kv))
              (fun kd => n_samples_of (snd kd)) 1000 _ _
              (rmap_Forall2 _ _ _ _ _ _ draw_kwarg_spec E0)) as [Hk Hk'].
  apply list_max_bounded; rewrite map_app, map_map.
  - by apply Forall_app.
  - apply in_app_iff. apply orb_prop in Hd as [Hd | Hd]; auto.
Qed.

End PropagateFacts.

(** ** bootstrap *)

Section BootstrapFacts.
Context {F : Type} {Fops : ScalarOps F} {S : Sampler F}.
Context {V R : Type} {AL : ArrayLike R}.
Context (fn : list (value F V) -> list (string * value F V) -> pyres R).
Local Open Scope string_scope.
Implicit Types (args : list (value F V)) (kwargs : list (string * value F V))
  (skip : list Z) (s : rng) (resample_fn : option resampler).

(** A position that is resampled holds an array or a dataset and is not
    in [skip]. *)
Lemma resample_indices_In skip args (i : nat) :
  In i (resample_indices skip args) ->
  exists v, args !! i = Some v /\ is_data v = true /\ ~ In (Z.of_nat i) skip.
Proof.
  unfold resample_indices.
  intros ([i' v] & <- & [Hin [Hd Hs]%andb_prop]%filter_In)%in_map_iff.
  exists v. split; [by apply enumerate_In |]. split; [done |].
  cbn in Hs. apply negb_true_iff in Hs. intros Hi.
  apply not_true_iff_false in Hs. apply Hs, existsb_exists.
  exists (Z.of_nat i'). split; [done | apply Z.eqb_refl].
Qed.

(** A keyword that is resampled holds an array. *)
Lemma resample_kwargs_In kwargs (k : string) :
  In k (resample_kwargs kwargs) ->
  exists a, In (k, VData (DArray a)) kwargs.
Proof.
  unfold resample_kwargs.
  intros ([k' v] & <- & [Hin Hd]%filter_In)%in_map_iff.
  destruct v as [[a | ds] | v]; try done. by exists a.
Qed.

Lemma bootstrap_run_nothing skip resample_fn args (prior_adjustment : F)
    kwargs s :
  resample_indices skip args = [] -> resample_kwargs kwargs = [] ->
  bootstrap_run fn skip resample_fn args prior_adjustment kwargs s
  = rlift (fn args kwargs) s.
Proof. intros Hi Hk. unfold bootstrap_run. by rewrite Hi, Hk. Qed.

Lemma bootstrap_run_first_raises skip resample_fn args (prior_adjustment : F)
    kwargs (i : nat) (rest : list nat) (v : value F V) (e : pyerr) s :
  resample_indices skip args = i :: rest -> args !! i = Some v ->
  call_resample_fn resample_fn prior_adjustment v s = Raise e ->
  bootstrap_run fn skip resample_fn args prior_adjustment kwargs s = Raise e.
Proof.
  intros Hi Hv He. unfold bootstrap_run. rewrite Hi. cbn [rfold].
  apply rbind_raise, rbind_raise. rewrite rbind_lift, Hv. cbn [or_raise].
  by apply rbind_raise.
Qed.

(** With nothing to resample, the bootstrapped function
    calls [fn] on its arguments [n] times and draws nothing, whatever
    the method of resampling. *)
Theorem bootstrap_nothing_to_resample (skip : option (list Z))
    (resample_method : option string) args (n : Z) (prior_adjustment : F)
    kwargs (r : R) s :
  resample_indices (default [] skip) args = [] -> resample_kwargs kwargs = [] ->
  fn args kwargs = Ok r -> is_arraylike r = false ->
  bootstrap fn skip resample_method args n prior_adjustment kwargs s
  = Ok (Runs (replicate (Z.to_nat n) r), s).
Proof.
  intros Hi Hk Hfn Hr. unfold bootstrap, bootstrapped.
  rewrite (rbind_step _ _ _ s (replicate (Z.to_nat n) r)).
  - assert (existsb is_arraylike (replicate (Z.to_nat n) r) = false) as ->;
      [| done].
    induction (Z.to_nat n) as [| k IH]; [done |]. cbn. by rewrite Hr.
  - apply rrepeat_pure. by rewrite bootstrap_run_nothing, Hfn.
Qed.

(** Claim C26. With the method ["cycle"], resampling an array calls
    [resample_cycle] with the keyword [prior_adjustment], which is no
    parameter of it: the bootstrapped function raises [TypeError] in its
    first round. *)
Theorem bootstrap_cycle_raises (skip : option (list Z)) args (n : Z)
    (prior_adjustment : F) kwargs (i : nat) (rest : list nat)
    (a : DataArray F) s :
  resample_indices (default [] skip) args = i :: rest ->
  args !! i = Some (VData (DArray a)) -> (0 < n)%Z ->
  bootstrap fn skip (Some "cycle") args n prior_adjustment kwargs s
  = Raise TypeError.
Proof.
  intros Hi Ha Hn. unfold bootstrap, bootstrapped.
  apply rbind_raise, rrepeat_raise; [lia |].
  by eapply bootstrap_run_first_raises.
Qed.

(** With a method that is neither [None] nor ["cycle"] the
    name [resample_fn] is never bound: the bootstrapped function raises
    [NameError] as soon as it has something to resample. *)
Theorem bootstrap_unknown_method (skip : option (list Z)) (method : string)
    args (n : Z) (prior_adjustment : F) kwargs (i : nat) (rest : list nat) s :
  method <> "cycle" ->
  resample_indices (default [] skip) args = i :: rest -> (0 < n)%Z ->
  bootstrap fn skip (Some method) args n prior_adjustment kwargs s
  = Raise NameError.
Proof.
  intros Hm Hi Hn. unfold bootstrap, bootstrapped, resample_fn_of.
  rewrite (proj2 (String.eqb_neq _ _) Hm).
  destruct (resample_indices_In (default [] skip) args i) as (v & Hv & _);
    [rewrite Hi; by left |].
  apply rbind_raise, rrepeat_raise; [lia |].
  by eapply bootstrap_run_first_raises.
Qed.

(** The list the bootstrapped function returns has [n] runs, none of
    which is an array. *)
Theorem bootstrap_runs (skip : option (list Z)) (resample_method : option string)
    args (n : Z) (prior_adjustment : F) kwargs (runs : list R) s s' :
  bootstrap fn skip resample_method args n prior_adjustment kwargs s
  = Ok (Runs runs, s') ->
  length runs = Z.to_nat n /\ existsb is_arraylike runs = false.
Proof.
  unfold bootstrap, bootstrapped. intros H.
  apply rbind_Ok in H as (runs' & s1 & Hruns & H).
  apply rrepeat_length in Hruns.
  destruct (existsb is_arraylike runs') eqn:E.
  - destruct (forallb is_arraylike runs'); [| done].
    rand_inv H. by injection H.
  - by injection H as <- _.
Qed.

(** The array the bootstrapped function returns is the concatenation of
    [n] runs, all arrays, along a new dimension [bootstrap]. *)
Theorem bootstrap_stacked (skip : option (list Z))
    (resample_method : option string) args (n : Z) (prior_adjustment : F)
    kwargs (r : R) s s' :
  bootstrap fn skip resample_method args n prior_adjustment kwargs s
  = Ok (Stacked r, s') ->
  exists runs,
    length runs = Z.to_nat n /\ (0 < n)%Z
    /\ forallb is_arraylike runs = true
    /\ concat_runs runs "bootstrap" = Ok r.
Proof.
  unfold bootstrap, bootstrapped. intros H.
  apply rbind_Ok in H as (runs & s1 & Hruns & H).
  apply rrepeat_length in Hruns. exists runs.
  destruct (existsb is_arraylike runs) eqn:E; [| by injection H].
  destruct (forallb is_arraylike runs) eqn:Ea; [| done].
  rand_inv H. injection H as <- _. apply rlift_Ok in E0 as [Hc _].
  repeat split; try done. destruct runs; [done |]. cbn in Hruns. lia.
Qed.

Lemma call_resample_total (prior_adjustment : F) (v : value F V) s :
  is_data v = true -> accepted prior_adjustment v ->
  exists r s', call_resample_fn (Some Resample) prior_adjustment v s = Ok (r, s').
Proof.
  destruct v as [[a | ds] | v]; [| | done]; intros _ Hv;
    unfold call_resample_fn, lift_dataarray_to_generic.
  - destruct (resample_total a prior_adjustment s Hv) as (r & s' & Hr).
    eexists _, _. rewrite (rbind_step _ _ _ s' (DArray r)); [done |].
    apply rbind_Ok. by exists r, s'.
  - destruct (rmap_total
                (fun kv : string * DataArray F =>
                   (let! r := call_resampler
                                Resample [("prior_adjustment", prior_adjustment)]
                                (snd kv) in
                    rret (default (fst kv) (da_name r),
                          {| da_grid := da_grid r;
                             da_name := Some (default (fst kv) (da_name r));
                             da_attrs := da_attrs r |}))%rand)
                (ds_vars ds) s) as (vars & s' & Hvars).
    { intros kv s0 Hkv. cbn in Hv. rewrite Forall_forall in Hv.
      destruct (resample_total (snd kv) prior_adjustment s0) as (r & s1 & Hr);
        [by apply Hv, list_elem_of_In |].
      eexists _, s1. apply rbind_Ok. by exists r, s1. }
    eexists _, _. apply rbind_Ok. eexists _, s'. split; [| done].
    apply rbind_Ok. by exists vars, s'.
Qed.

Lemma bootstrap_run_total skip args (prior_adjustment : F) kwargs s :
  (forall a k, exists r, fn a k = Ok r) ->
  Forall (accepted prior_adjustment) args ->
  Forall (fun kv => accepted prior_adjustment (snd kv)) kwargs ->
  NoDup (dict_keys kwargs) ->
  exists r s',
    bootstrap_run fn skip (Some Resample) args prior_adjustment kwargs s
    = Ok (r, s').
Proof.
  intros Hfn Hargs Hkwargs Hnd. unfold bootstrap_run.
  match goal with
  | |- context [rfold ?f (resample_indices skip args) args] =>
      destruct (rfold_total f (resample_indices skip args) args s)
        as (new_args & s1 & E1)
  end.
  { intros b i s0 (v & Hv & Hd & _)%resample_indices_In.
    rewrite rbind_lift, Hv. cbn [or_raise].
    destruct (call_resample_total prior_adjustment v s0 Hd) as (r & s' & Hr).
    - rewrite Forall_forall in Hargs. by eapply Hargs, list_elem_of_lookup_2.
    - eexists _, _. by rewrite (rbind_step _ _ _ _ _ Hr). }
  rewrite (rbind_step _ _ _ _ _ E1).
  match goal with
  | |- context [rfold ?f (resample_kwargs kwargs) kwargs] =>
      destruct (rfold_total f (resample_kwargs kwargs) kwargs s1)
        as (new_kwargs & s2 & E2)
  end.
  { intros b k s0 [a Ha]%resample_kwargs_In.
    rewrite rbind_lift. unfold dict_item.
    rewrite (dict_get_NoDup _ _ _ Hnd Ha). cbn [or_raise].
    destruct (call_resample_total prior_adjustment (VData (DArray a)) s0)
      as (r & s' & Hr); [done | |].
    - rewrite Forall_forall in Hkwargs.
      by apply (Hkwargs (k, VData (DArray a))), list_elem_of_In.
    - eexists _, _. by rewrite (rbind_step _ _ _ _ _ Hr). }
  rewrite (rbind_step _ _ _ _ _ E2).
  destruct (Hfn new_args new_kwargs) as [r Hr].
  exists r, s2. unfold rlift. by rewrite Hr.
Qed.

Lemma bootstrap_run_result skip resample_fn args (prior_adjustment : F)
    kwargs (r : R) s s' :
  bootstrap_run fn skip resample_fn args prior_adjustment kwargs s = Ok (r, s') ->
  exists a k, fn a k = Ok r.
Proof.
  unfold bootstrap_run. intros H. rand_inv H.
  apply rlift_Ok in H as [H _]. by eexists _, _.
Qed.

(** Claim C13. With the default method, arguments whose values numpy
    accepts as means and a function [fn] that returns values that are no
    arrays, the bootstrapped function returns the list of its [n]
    runs. *)
Theorem bootstrap_total (skip : option (list Z)) args (n : Z)
    (prior_adjustment : F) kwargs s :
  (forall a k, exists r, fn a k = Ok r /\ is_arraylike r = false) ->
  Forall (accepted prior_adjustment) args ->
  Forall (fun kv => accepted prior_adjustment (snd kv)) kwargs ->
  NoDup (dict_keys kwargs) ->
  exists runs s',
    bootstrap fn skip None args n prior_adjustment kwargs s = Ok (Runs runs, s')
    /\ length runs = Z.to_nat n.
Proof.
  intros Hfn Hargs Hkwargs Hnd. unfold bootstrap, bootstrapped, resample_fn_of.
  destruct (rmap_total
              (fun _ : nat => bootstrap_run fn (default [] skip) (Some Resample)
                                args prior_adjustment kwargs)
              (seq 0 (Z.to_nat n)) s) as (runs & s' & Hruns).
  { intros _ s0 _. apply bootstrap_run_total; try done.
    intros a k. destruct (Hfn a k) as (r & Hr & _). by exists r. }
  exists runs, s'. unfold rrepeat. rewrite (rbind_step _ _ _ _ _ Hruns).
  assert (existsb is_arraylike runs = false) as ->.
  { apply not_true_iff_false. intros (r & Hr & Ha)%existsb_exists.
    pose proof (rmap_Forall (fun r => exists a k, fn a k = Ok r) _ _ _ _ _
                  (fun _ s0 r s1 => bootstrap_run_result _ _ _ _ _ r s0 s1)
                  Hruns) as Hall.
    rewrite Forall_forall in Hall.
    destruct (Hall r) as (a & k & Hak); [by apply list_elem_of_In |].
    destruct (Hfn a k) as (r' & Hr' & Hna). congruence. }
  split; [done |]. apply rmap_length in Hruns. by rewrite length_seq in Hruns.
Qed.

End BootstrapFacts.

(** * The theorems at work *)

Section Examples.
Local Open Scope string_scope.
#[local] Existing Instance ex_sampler.
#[local] Existing Instance ex_numbers.

#[local] Instance ex_sampler_laws : SamplerLaws Q.
Proof.
  constructor. intros a b s Hab. cbn.
  pose proof (Z.mod_pos_bound (fst (tape_next s)) (b - a + 1)). lia.
Qed.

Lemma ex_counts_wf : grid_wf (da_grid ex_counts).
Proof.
  split; [| by split]. cbn. apply NoDup_cons_2; [| apply NoDup_singleton].
  by intros [= ]%list_elem_of_singleton.
Qed.

Lemma resample_shape_witness :
  let r := {| da_grid := {| g_dims := ["eV"]; g_coords := [[0; 1]%Q];
                            g_cells := [inject_Z 5; inject_Z 3] |};
              da_name := None; da_attrs := [] |} in
  g_dims (da_grid r) = g_dims (da_grid ex_line)
  /\ g_coords (da_grid r) = g_coords (da_grid ex_line)
  /\ length (g_cells (da_grid r)) = length (g_cells (da_grid ex_line))
  /\ da_name r = None
  /\ da_attrs r = del_id (da_attrs ex_line).
Proof.
  exact (resample_shape ex_line 2%Q _ [5; -3; 8]%Z [8]%Z eq_refl).
Defined.

Lemma resample_total_witness :
  exists r s', resample ex_counts 2%Q [5; -3]%Z = Ok (r, s').
Proof.
  apply resample_total. unfold ex_counts. cbn [g_cells da_grid].
  repeat (apply Forall_cons_2; [reflexivity |]). apply Forall_nil_2.
Defined.

Lemma resample_rejects_witness :
  resample ex_counts (-1)%Q [5; -3]%Z = Raise ValueError.
Proof.
  apply (resample_rejects ex_counts (-1)%Q 1%Q); [by left | reflexivity].
Defined.

Lemma resample_cycle_needs_cycle_witness :
  resample_cycle ex_line [5; -3]%Z = Raise AttributeError.
Proof. by apply resample_cycle_needs_cycle. Defined.

Lemma cycle_indices_in_range_witness :
  exists which s',
    cycle_indices 3 [7; -1; 3]%Z = Ok (which, s')
    /\ length which = 3
    /\ Forall (fun z => exists i, py_position 3 z = Ok i /\ i < 3) which.
Proof. exact (cycle_indices_in_range 3 [7; -1; 3]%Z). Defined.

(** Three draws for three cycles, each the number on the tape modulo
    three. *)
Example cycle_indices_of_three :
  cycle_indices 3 [7; -1; 3]%Z = Ok ([1; 2; 0]%Z, []).
Proof. by vm_compute. Qed.

Lemma resample_cycle_total_witness :
  exists r s',
    resample_cycle ex_counts [1; 0]%Z = Ok (r, s')
    /\ g_dims (da_grid r)
       = List.filter (fun d => negb (String.eqb d "cycle"))
                     (g_dims (da_grid ex_counts))
    /\ da_name r = da_name ex_counts
    /\ da_attrs r = del_id (da_attrs ex_counts).
Proof.
  apply resample_cycle_total; [apply ex_counts_wf | by left].
Defined.

(** The second cycle drawn first and the first cycle second: the sum of
    the two cycles, without the identifier. *)
Example resample_cycle_both :
  resample_cycle ex_counts [1; 0]%Z
  = Ok ({| da_grid := {| g_dims := ["eV"]; g_coords := [[0; 1; 2]%Q];
                         g_cells := [11; 22; 33]%Q |};
           da_name := Some "spectrum"; da_attrs := [("pol", "s")] |}, []).
Proof. by vm_compute. Qed.

(** The second cycle drawn twice: twice the second cycle. *)
Example resample_cycle_repeats :
  resample_cycle ex_counts [1; 1; 4]%Z
  = Ok ({| da_grid := {| g_dims := ["eV"]; g_coords := [[0; 1; 2]%Q];
                         g_cells := [20; 40; 60]%Q |};
           da_name := Some "spectrum"; da_attrs := [("pol", "s")] |}, [4%Z]).
Proof. by vm_compute. Qed.

Lemma bootstrap_counts_no_samples_witness :
  bootstrap_counts ex_line 0 (Some "up") [1; 3]%Z = Raise ValueError.
Proof. apply bootstrap_counts_no_samples; [right; by eexists | lia]. Defined.

Lemma bootstrap_counts_total_witness :
  exists mean std s',
    let nm := default (default "" (Some "up")) (da_name ex_line) in
    bootstrap_counts ex_line 2 (Some "up") [1; 3; 5; 7; 11]%Z
    = Ok ({| ds_vars := [(nm, mean); (nm +:+ "_std", std)];
             ds_attrs := da_attrs ex_line |}, s')
    /\ Forall (fun v => g_dims (da_grid v) = g_dims (da_grid ex_line)
                        /\ g_coords (da_grid v) = g_coords (da_grid ex_line)
                        /\ length (g_cells (da_grid v))
                           = length (g_cells (da_grid ex_line)))
              [mean; std].
Proof.
  apply bootstrap_counts_total; [right; by eexists | lia | reflexivity].
Defined.

(** Two samples, [1; 3] and [5; 7]: the means are 3 and 5 and the
    standard deviations 2 and 2. *)
Example bootstrap_counts_two_samples :
  pybind (bootstrap_counts ex_line 2 (Some "up") [1; 3; 5; 7; 11]%Z)
         (fun r => Ok (map (fun kv => (fst kv,
                                       map Qred (g_cells (da_grid (snd kv)))))
                           (ds_vars (fst r)), snd r))
  = Ok ([("up", [3; 5]%Q); ("up_std", [2; 2]%Q)], [11%Z]).
Proof. by vm_compute. Qed.

Lemma propagate_errors_sampled_witness :
  let args := [Dist (Normal 10%Q (Some 2%Q)); Plain 1%Q] in
  length ([13; 9]%Q ++ replicate 998 11%Q) = 1000
  /\ (existsb is_distribution args
      || existsb (fun kv : string * argument Q Q => is_distribution (snd kv)) [])
     = true.
Proof.
  refine (propagate_errors_sampled id ex_sum _ [] _ [1; -1]%Z [] _).
  vm_compute. reflexivity.
Defined.

(** The first samples are 12 and 8, to which the function adds 1; the
    tape is then used up and the other samples are the centre. *)
Example propagate_errors_first_samples :
  pybind (propagate_errors id ex_sum
            [Dist (Normal 10%Q (Some 2%Q)); Plain 1%Q] [] [1; -1]%Z)
         (fun r => match fst r with
                   | Sampled rs => Ok (take 3 rs)
                   | Single _ => Raise TypeError
                   end)
  = Ok [13; 9; 11]%Q.
Proof. by vm_compute. Qed.

Lemma bootstrap_nothing_to_resample_witness :
  bootstrap ex_total (Some [0%Z]) (Some "jackknife")
            [VData (DArray ex_counts)] 3 1%Q [] [5; -3]%Z
  = Ok (Runs (replicate (Z.to_nat 3) 66%Q), [5; -3]%Z).
Proof.
  exact (bootstrap_nothing_to_resample ex_total (Some [0%Z]) (Some "jackknife")
           [VData (DArray ex_counts)] 3 1%Q [] 66%Q [5; -3]%Z
           eq_refl eq_refl eq_refl eq_refl).
Defined.

Lemma bootstrap_cycle_raises_witness :
  bootstrap ex_total None (Some "cycle") [VData (DArray ex_counts)] 2 1%Q []
            [1; 0]%Z
  = Raise TypeError.
Proof.
  apply (bootstrap_cycle_raises ex_total None _ 2 1%Q [] 0 [] ex_counts);
    [reflexivity | reflexivity | lia].
Defined.

Lemma bootstrap_unknown_method_witness :
  bootstrap ex_total None (Some "jackknife") [VData (DArray ex_counts)] 2 1%Q
            [] [1; 0]%Z
  = Raise NameError.
Proof.
  apply (bootstrap_unknown_method ex_total None "jackknife" _ 2 1%Q [] 0 []);
    [done | reflexivity | lia].
Defined.

Lemma bootstrap_total_witness :
  exists runs s',
    bootstrap ex_total None None [VData (DArray ex_counts)] 2 1%Q []
              [1; 2; 3; 4; 5; 6; 7]%Z
    = Ok (Runs runs, s')
    /\ length runs = Z.to_nat 2.
Proof.
  apply bootstrap_total.
  - intros [| [[a | ds] | v] args] k; eexists; by split.
  - apply Forall_cons_2; [| apply Forall_nil_2]. unfold ex_counts.
    cbn [accepted accepted_array g_cells da_grid].
    repeat (apply Forall_cons_2; [reflexivity |]). apply Forall_nil_2.
  - apply Forall_nil_2.
  - apply NoDup_nil_2.
Defined.

(** The first round draws the six numbers 1 to 6 and the second the
    number 7 and zeros. *)
Example bootstrap_two_runs :
  bootstrap ex_total None None [VData (DArray ex_counts)] 2 1%Q []
            [1; 2; 3; 4; 5; 6; 7]%Z
  = Ok (Runs [21; 7]%Q, []).
Proof. by vm_compute. Qed.

Lemma bootstrap_runs_witness :
  length [21; 7]%Q = Z.to_nat 2 /\ existsb is_arraylike [21; 7]%Q = false.
Proof.
  exact (bootstrap_runs ex_total None None [VData (DArray ex_counts)] 2 1%Q []
           _ [1; 2; 3; 4; 5; 6; 7]%Z [] eq_refl).
Defined.

(** A dataset passed by keyword is not resampled, one passed by position
    is. *)
Example bootstrap_keyword_dataset :
  let ds := {| ds_vars := [("up", ex_line)]; ds_attrs := [] |} in
  resample_kwargs (V := unit) [("data", VData (DSet ds))] = []
  /\ resample_indices (V := unit) [] [VData (DSet ds)] = [0].
Proof. done. Qed.

(** The spin analysis bootstrapped twice over a dataset of one variable:
    each run resamples the variable, which takes the name of its
    variable and loses its identifier, and the runs are concatenated. *)
Example bootstrap_intensity_polarization_runs :
  let ds := {| ds_vars := [("up", ex_line)]; ds_attrs := [("pol", "s")] |} in
  let run (counts : list Q) :=
    ("up", {| da_grid := {| g_dims := ["eV"]; g_coords := [[0; 1]%Q];
                            g_cells := counts |};
              da_name := Some "up"; da_attrs := [] |}) in
  bootstrap_intensity_polarization (P := ex_sarpes) (AL := ex_datasets) ds 2
                                   [1; 2; 3]%Z
  = Ok (Stacked {| ds_vars := [run [1; 2]%Q; run [3; 0]%Q];
                   ds_attrs := [("pol", "s")] |}, []).
Proof. by vm_compute. Qed.

(** The two cycles are summed, the zero is left out, and the adjustment
    is the deviation of 11, 22 and 33 over their mean 22. *)
Example estimate_prior_adjustment_counts :
  let data := {| da_grid := {| g_dims := ["cycle"; "eV"];
                               g_coords := [[0; 1]%Q; [0; 1; 2; 3]%Q];
                               g_cells := [1; 2; 3; 0; 10; 20; 30; 0]%Q |};
                 da_name := None; da_attrs := [] |} in
  estimate_prior_adjustment (T := ex_tools) data None
  = Ok (np_std [11; 22; 33]%Q / np_mean [11; 22; 33]%Q)%Q.
Proof. by vm_compute. Qed.

(** The distribution of a parameter as [lmfit] creates it has no
    standard error and cannot be sampled; with one, the samples are the
    centre plus the numbers of the tape times the error. *)
Example draw_samples_of_parameter :
  draw_samples (from_param (parameter_of_value 10%Q)) 3 [1; -1; 4; 8]%Z
  = Raise TypeError
  /\ draw_samples (Normal 10%Q (Some 2%Q)) 3 [1; -1; 4; 8]%Z
     = Ok ([12; 8; 18]%Q, [8%Z]).
Proof. by vm_compute. Qed.

End Examples.
