(* ===== verification/Maestro.v ===== *)
(** * The MAESTRO endstations

    [src/arpes/endstations/plugin/MAESTRO.py]: the two endstations of
    beamline 7 with their tables of names, the transforms of the
    attributes [START_T] and [SF_SLITN], the renaming of the coordinates
    in [load], and for the nano endstation the conversion of units, the
    unified spatial coordinates of [update_hierarchical_coordinates] and
    the unwinding of serpentine scans.

    A scan is a dataset: its coordinates, scalars or vectors along one
    dimension, its variables with their dimensions, shape and values in
    row-major order, and its attributes.  The reading of the file, which
    the classes inherit, is an operation of the class [BaseEndstation],
    and so are [int] and [float] of a string (class [Parsers]).  The
    spectra of a dataset share their attributes with its variables and
    carry a copy of its coordinates: what the code assigns to the
    coordinates of a spectrum is lost, and only the exceptions of these
    assignments are kept.  The numbers [np.pi] and [np.nan] are
    parameters (class [Constants]). *)

From stdpp Require Import prelude strings.
From Stdlib Require Import QArith Ascii.
From S2P Require Import Prelude PyStr PyDict Itertools.
Close Scope Q_scope.

(** * Definitions *)

Section Defs.
Context {F : Type} {Fops : ScalarOps F} {K : Constants F}.

(** ** Scans *)

(** The value of an attribute. *)
Inductive attr : Type :=
| AStr (s : string)
| ABool (b : bool)
| AInt (n : Z)
| ANum (x : F)
| ANone.

(** A coordinate: a scalar, or a vector along a dimension. *)
Inductive coordinate : Type :=
| CScalar (x : F)
| CArray (dim : string) (xs : list F).

Record DataVar : Type := mkDataVar {
  v_dims : list string;
  v_shape : list nat;
  v_values : list F;
  v_attrs : list (string * attr)
}.

Record Scan : Type := mkScan {
  s_coords : list (string * coordinate);
  s_vars : list (string * DataVar);
  s_attrs : list (string * attr)
}.

(** The class attributes of an endstation. *)
Record Endstation : Type := mkEndstation {
  PRINCIPAL_NAME : string;
  ALIASES : list string;
  ANALYZER_INFORMATION : list (string * attr);
  RENAME_KEYS : list (string * string);
  RENAME_COORDS : list (string * string);
  MERGE_ATTRS : list (string * attr);
  ENSURE_COORDS_EXIST : list string
}.

(** ** The tables *)

Definition MAESTROMicroARPESEndstation : Endstation :=
  {| PRINCIPAL_NAME := "ALS-BL7";
     ALIASES := ["BL7"; "BL7.0.2"; "ALS-BL7.0.2"; "MAESTRO"];
     ANALYZER_INFORMATION :=
       [("analyzer", AStr "R4000");
        ("analyzer_name", AStr "Scienta R4000");
        ("parallel_deflectors", ABool false);
        ("perpendicular_deflectors", ABool true);
        ("analyzer_radius", ANum np_nan);
        ("analyzer_type", AStr "hemispherical")];
     RENAME_KEYS :=
       [("LMOTOR0", "x"); ("LMOTOR1", "y"); ("LMOTOR2", "z");
        ("Scan X", "scan_x"); ("Scan Y", "scan_y"); ("Scan Z", "scan_z");
        ("LMOTOR3", "theta"); ("LMOTOR4", "beta"); ("LMOTOR5", "chi");
        ("LMOTOR6", "alpha"); ("LMOTOR9", "psi");
        ("mono_eV", "hv"); ("SF_HV", "hv"); ("SS_HV", "hv");
        ("Slit Defl", "psi"); ("S_Volts", "volts");
        ("SFRGN0", "fixed_region_name"); ("SFE_0", "daq_center_energy");
        ("SFLNM0", "lens_mode_name"); ("SFPE_0", "pass_energy");
        ("UNDHARM", "undulator_harmonic"); ("RINGCURR", "beam_current");
        ("SFFR_0", "frames_per_slice"); ("SFBA_0", "phi_prebinning");
        ("SFBE0", "eV_prebinning"); ("LWLVNM", "daq_type")];
     RENAME_COORDS := [("X", "x"); ("Y", "y"); ("Z", "z")];
     MERGE_ATTRS :=
       [("mcp_voltage", ANum np_nan);
        ("repetition_rate", AInt 500000000);
        ("undulator_type", AStr "elliptically_polarized_undulator");
        ("undulator_gap", ANone);
        ("undulator_z", ANone);
        ("undulator_polarization", ANone)];
     ENSURE_COORDS_EXIST := [] |}.

Definition MAESTRONanoARPESEndstation : Endstation :=
  {| PRINCIPAL_NAME := "ALS-BL7-nano";
     ALIASES := ["BL7-nano"; "BL7.0.2-nano"; "ALS-BL7.0.2-nano"; "MAESTRO-nano"];
     ANALYZER_INFORMATION :=
       [("analyzer", AStr "DA-30");
        ("analyzer_name", AStr "Scienta DA-30");
        ("parallel_deflectors", ABool false);
        ("perpendicular_deflectors", ABool false);
        ("analyzer_radius", ANum np_nan);
        ("analyzer_type", AStr "hemispherical")];
     RENAME_KEYS :=
       [("LMOTOR0", "long_x"); ("LMOTOR1", "long_z"); ("LMOTOR2", "long_y");
        ("PMOTOR0", "physical_long_x"); ("PMOTOR1", "physical_long_z");
        ("PMOTOR2", "physical_long_y");
        ("LMOTOR3", "chi"); ("LMOTOR4", "theta");
        ("LMOTOR5", "order_sorting_aperature_x");
        ("LMOTOR6", "order_sorting_aperature_z");
        ("LMOTOR7", "order_sorting_aperature_y");
        ("LMOTOR8", "optics_insertion"); ("LMOTOR9", "optics_select");
        ("LMOTOR10", "short_x"); ("LMOTOR11", "short_z");
        ("LMOTOR12", "short_y"); ("LMOTOR13", "psi"); ("LMOTOR14", "alpha");
        ("LMOTOR15", "optics_pitch"); ("LMOTOR16", "optics_yaw");
        ("LMOTOR17", "aperature_x"); ("LMOTOR18", "aperature_y");
        ("LMOTOR19", "sample_float");
        ("MONO_E", "hv"); ("E_RESOLU", "probe_linewidth");
        ("EPU_E", "undulator_hv"); ("EPU_POL", "probe_polarization");
        ("EPU_Z", "undulator_z"); ("EPU_GAP", "undulator_gap");
        ("UNDHARM", "undulator_harmonic"); ("RINGCURR", "beam_current");
        ("SF_HV", "hv"); ("SS_HV", "hv"); ("Slit Defl.", "psi");
        ("SFRGN0", "fixed_region_name"); ("SFE_0", "daq_center_energy");
        ("SFLNM0", "lens_mode_name"); ("SFPE_0", "pass_energy");
        ("SFFR_0", "frames_per_slice"); ("SFBA_0", "phi_prebinning");
        ("SFBE0", "eV_prebinning"); ("LWLVNM", "daq_type")];
     RENAME_COORDS :=
       [("X", "long_x"); ("Y", "long_y"); ("Z", "long_z");
        ("Scan X", "short_x"); ("Scan Y", "short_y"); ("Scan Z", "short_z");
        ("Sample X", "long_x"); ("Sample Y", "long_y"); ("Sample Z", "long_z");
        ("Optics Stage", "optics_insertion"); ("Pitch", "pitch");
        ("S_Volts", "volts"); ("Slit Defl.", "psi")];
     MERGE_ATTRS :=
       [("mcp_voltage", ANum np_nan);
        ("beta", AInt 0);
        ("repetition_rate", AInt 500000000);
        ("undulator_type", AStr "elliptically_polarized_undulator");
        ("undulator_gap", ANone);
        ("undulator_z", ANone);
        ("undulator_polarization", ANone)];
     ENSURE_COORDS_EXIST :=
       ["long_x"; "long_y"; "long_z"; "short_x"; "short_y"; "short_z";
        "theta"; "beta"; "chi"; "hv"; "alpha"; "psi";
        "physical_long_x"; "physical_long_y"; "physical_long_z"] |}.

(** ** The transforms of the attributes *)

(** [int] and [float] of a string. *)
Class Parsers : Type := {
  py_int : string -> pyres Z;
  py_float : string -> pyres F
}.
Context {P : Parsers}.

(** The transform of [START_T]: the text before the first space is the
    date, the rest in lower case the time. *)
Definition START_T (v : string) : list (string * attr) :=
  [("time", AStr (lower (join_with " "%char (tail (split_on " "%char v)))));
   ("date", AStr (hd EmptyString (split_on " "%char v)))].

(** The transform of [SF_SLITN]: the number of the slit, its shape and
    its width, from the first, the last and the third word. *)
Definition SF_SLITN (v : string) : pyres (list (string * attr)) :=
  (let pieces := split_on " "%char v in
   let* slit_number := py_int (hd EmptyString pieces) in
   let slit_shape := lower (List.last pieces EmptyString) in
   let* third := py_index pieces 2 in
   let* slit_width := py_float third in
   Ok [("slit_number", AInt slit_number);
       ("slit_shape", AStr slit_shape);
       ("slit_width", ANum slit_width)])%py.

(** [ATTR_TRANSFORMS], the same for both endstations. *)
Definition ATTR_TRANSFORMS
    : list (string * (string -> pyres (list (string * attr)))) :=
  [("START_T", fun v => Ok (START_T v)); ("SF_SLITN", SF_SLITN)].

(** ** xarray on scans *)

(** The names of the coordinates and of the variables. *)
Definition names_of (scan : Scan) : list string :=
  dict_keys (s_coords scan) ++ dict_keys (s_vars scan).

(** The dimensions of a scan. *)
Definition dims_of (scan : Scan) : list string :=
  omap (fun nc => match snd nc with
                  | CArray d _ => Some d
                  | CScalar _ => None
                  end) (s_coords scan)
  ++ flat_map (fun nv => v_dims (snd nv)) (s_vars scan).

Definition rename_of (name_dict : list (string * string)) (k : string) : string :=
  default k (dict_get name_dict k).

(** [scan.rename(name_dict)]: every key names a coordinate, a variable
    or a dimension, and no two coordinates or variables end up with one
    name; [ValueError] otherwise. *)
Definition ds_rename (name_dict : list (string * string)) (scan : Scan)
    : pyres Scan :=
  if negb (forallb (fun k => existsb (String.eqb k)
                                     (names_of scan ++ dims_of scan))
                   (dict_keys name_dict))
  then Raise ValueError
  else if negb (bool_decide (NoDup (map (rename_of name_dict) (names_of scan))))
  then Raise ValueError
  else
    Ok {| s_coords :=
            map (fun nc =>
                   (rename_of name_dict (fst nc),
                    match snd nc with
                    | CArray d xs => CArray (rename_of name_dict d) xs
                    | CScalar x => CScalar x
                    end)) (s_coords scan);
          s_vars :=
            map (fun nv =>
                   (rename_of name_dict (fst nv),
                    {| v_dims := map (rename_of name_dict) (v_dims (snd nv));
                       v_shape := v_shape (snd nv);
                       v_values := v_values (snd nv);
                       v_attrs := v_attrs (snd nv) |})) (s_vars scan);
          s_attrs := s_attrs scan |}.

(** [np.flip(values, axis)] on values in row-major order. *)
Fixpoint np_flip {A} (shape : list nat) (axis : nat) (values : list A)
    : list A :=
  match shape with
  | [] => values
  | n :: rest =>
      let pieces := chunks n (nat_prod rest) values in
      match axis with
      | 0 => concat (rev pieces)
      | S axis' => concat (map (np_flip rest axis') pieces)
      end
  end.

(** [dims.index(d)]: [ValueError] for a name that is no dimension. *)
Fixpoint index_of (d : string) (dims : list string) : pyres nat :=
  match dims with
  | [] => Raise ValueError
  | d' :: rest =>
      if String.eqb d' d then Ok 0
      else pybind (index_of d rest) (fun i => Ok (S i))
  end.

Definition set_values (v : DataVar) (values : list F) : DataVar :=
  {| v_dims := v_dims v; v_shape := v_shape v; v_values := values;
     v_attrs := v_attrs v |}.

(** ** load *)

(** The coordinates to rename and their new names. *)
Definition will_rename (E : Endstation) (coord_names : list string)
    : list (string * string) :=
  fold_left (fun acc coord_name =>
               match dict_get (RENAME_KEYS E) coord_name with
               | Some v => dict_set acc coord_name v
               | None => acc
               end)
            coord_names [].

(** The coordinates that carry a new name already are deleted. *)
Definition delete_targets (targets : list string) (scan : Scan) : Scan :=
  fold_left (fun sc v =>
               if dict_mem (s_coords sc) v
               then {| s_coords := dict_del (s_coords sc) v;
                       s_vars := s_vars sc; s_attrs := s_attrs sc |}
               else sc)
            targets scan.

(** The spectra of a scan along [scan_x] are flipped along it. *)
Definition flip_spectra (scan_ : Scan) : pyres Scan :=
  (let* vars :=
     pymap (fun nv =>
              if contains "spectrum" (fst nv) then
                let* axis := index_of "scan_x" (v_dims (snd nv)) in
                Ok (fst nv,
                    set_values (snd nv)
                      (np_flip (v_shape (snd nv)) axis (v_values (snd nv))))
              else Ok nv)
           (s_vars scan_) in
   Ok {| s_coords := s_coords scan_; s_vars := vars;
         s_attrs := s_attrs scan_ |})%py.

(** [load] after the loading of the classes it inherits from. *)
Definition load (E : Endstation) (scan : Scan) : pyres Scan :=
  (let coord_names := dict_keys (s_coords scan) in
   let will_rename := will_rename E coord_names in
   let scan := delete_targets (dict_values will_rename) scan in
   let* renamed := ds_rename will_rename scan in
   if dict_mem (s_coords renamed) "scan_x" then flip_spectra renamed
   else Ok renamed)%py.

(** ** Serpentine scans *)

(** [np.roll(row, shift)] along the axis of the list. *)
Definition np_roll {A} (shift : nat) (row : list A) : list A :=
  let n := length row in
  let k := n - shift mod n in
  drop k row ++ take k row.

(** One row of a serpentine scan unwound: reversed, then rolled by
    two. *)
Definition unwind_row {A} (row : list A) : list A := np_roll 2 (rev row).

(** The values of a spectrum unwound: every second row along the first
    axis, starting with the second, is unwound along the second axis. *)
Definition unwind_values (shape : list nat) (values : list F)
    : pyres (list F) :=
  match shape with
  | n0 :: n1 :: rest =>
      let k := nat_prod rest in
      Ok (concat
            (imap (fun i row =>
                     if Nat.odd i
                     then concat (unwind_row (chunks n1 k row))
                     else row)
                  (chunks n0 (n1 * k) values)))
  | _ => Raise IndexError
  end.

(** The spectra of a dataset, by name. *)
Definition is_spectrum (name : string) : bool := contains "spectrum" name.

Definition unwind_serptentine (data : Scan) : pyres Scan :=
  (let* vars :=
     pymap (fun nv =>
              if is_spectrum (fst nv) then
                let* first := or_raise IndexError (head (v_dims (snd nv))) in
                let* _ := dict_item (s_coords data) first in
                let* values := unwind_values (v_shape (snd nv))
                                             (v_values (snd nv)) in
                Ok (fst nv, set_values (snd nv) values)
              else Ok nv)
           (s_vars data) in
   Ok {| s_coords := s_coords data; s_vars := vars;
         s_attrs := s_attrs data |})%py.

(** ** postprocess_final of the base class *)

(** What the classes inherit from the endstations of [arpes]. *)
Class BaseEndstation : Type :=
  super_postprocess_final : Scan -> pyres Scan.
Context {B : BaseEndstation}.

(** [{"G201b": 600}.get(grating)]. *)
Definition grating_lines_per_mm (grating : attr) : attr :=
  match grating with
  | AStr g => if String.eqb g "G201b" then AInt 600 else ANone
  | _ => ANone
  end.

(** The body of the loop over the dataset and its spectra. *)
Definition analyzer_attrs (E : Endstation) (attrs : list (string * attr))
    : list (string * attr) :=
  let attrs := dict_update attrs (ANALYZER_INFORMATION E) in
  match dict_get attrs "GRATING" with
  | Some grating =>
      dict_set attrs "grating_lines_per_mm" (grating_lines_per_mm grating)
  | None => attrs
  end.

(** A change of the attributes of the dataset and of its spectra, which
    share them with the variables. *)
Definition on_attrs
    (f : list (string * attr) -> pyres (list (string * attr))) (data : Scan)
    : pyres Scan :=
  (let* attrs := f (s_attrs data) in
   let* vars :=
     pymap (fun nv =>
              if is_spectrum (fst nv) then
                let* a := f (v_attrs (snd nv)) in
                Ok (fst nv, {| v_dims := v_dims (snd nv);
                               v_shape := v_shape (snd nv);
                               v_values := v_values (snd nv);
                               v_attrs := a |})
              else Ok nv)
           (s_vars data) in
   Ok {| s_coords := s_coords data; s_vars := vars; s_attrs := attrs |})%py.

Definition postprocess_final_base (E : Endstation) (data : Scan)
    : pyres Scan :=
  (let* data := on_attrs (fun attrs => Ok (analyzer_attrs E attrs)) data in
   super_postprocess_final data)%py.

(** ** Coordinates as numbers *)

(** What an arithmetic expression of the code works on: a number or a
    vector. *)
Inductive operand : Type :=
| OScalar (x : F)
| OArray (xs : list F).

Definition operand_of_coord (c : coordinate) : operand :=
  match c with
  | CScalar x => OScalar x
  | CArray _ xs => OArray xs
  end.

(** An attribute as a number: a string and [None] raise [TypeError]. *)
Definition operand_of_attr (a : attr) : pyres operand :=
  match a with
  | ANum x => Ok (OScalar x)
  | AInt n => Ok (OScalar (s_of_Z n))
  | ABool b => Ok (OScalar (if b then s_one else s_zero))
  | AStr _ | ANone => Raise TypeError
  end.

Definition op_map (f : F -> F) (o : operand) : operand :=
  match o with
  | OScalar x => OScalar (f x)
  | OArray xs => OArray (map f xs)
  end.

(** [-a]. *)
Definition op_neg (o : operand) : operand := op_map (s_sub s_zero) o.

(** [a - b] with numpy's broadcasting. *)
Definition op_sub (a b : operand) : pyres operand :=
  match a, b with
  | OScalar x, OScalar y => Ok (OScalar (x - y)%sc)
  | OScalar x, OArray ys => Ok (OArray (map (fun y => (x - y)%sc) ys))
  | OArray xs, OScalar y => Ok (OArray (map (fun x => (x - y)%sc) xs))
  | OArray xs, OArray ys =>
      if length xs =? length ys then Ok (OArray (zip_with s_sub xs ys))
      else match xs, ys with
           | [x], _ => Ok (OArray (map (fun y => (x - y)%sc) ys))
           | _, [y] => Ok (OArray (map (fun x => (x - y)%sc) xs))
           | _, _ => Raise ValueError
           end
  end.

Definition coord_map (f : F -> F) (c : coordinate) : coordinate :=
  match c with
  | CScalar x => CScalar (f x)
  | CArray d xs => CArray d (map f xs)
  end.

(** An attribute through a function of numbers. *)
Definition attr_map (f : F -> F) (a : attr) : pyres attr :=
  (let* o := operand_of_attr a in
   match o with
   | OScalar x => Ok (ANum (f x))
   | OArray _ => Raise TypeError
   end)%py.

(** [np.deg2rad]. *)
Definition deg2rad (x : F) : F := (x * (np_pi / s_of_Z 180))%sc.

(** The sizes a scan records for a dimension. *)
Definition dim_sizes (data : Scan) (d : string) : list nat :=
  omap (fun nc => match snd nc with
                  | CArray d' xs => if String.eqb d' d then Some (length xs)
                                    else None
                  | CScalar _ => None
                  end) (s_coords data)
  ++ flat_map (fun nv =>
                 omap (fun dn => if String.eqb (fst dn) d then Some (snd dn)
                                 else None)
                      (combine (v_dims (snd nv)) (v_shape (snd nv))))
              (s_vars data).

Definition set_coord (data : Scan) (name : string) (c : coordinate) : Scan :=
  {| s_coords := dict_set (s_coords data) name c; s_vars := s_vars data;
     s_attrs := s_attrs data |}.

(** [data.assign_coords(name=value)]: a number is a scalar coordinate, a
    vector a coordinate along the dimension of its name, whose size it
    must have when the dimension exists. *)
Definition assign_coord (data : Scan) (name : string) (value : operand)
    : pyres Scan :=
  match value with
  | OScalar x => Ok (set_coord data name (CScalar x))
  | OArray xs =>
      let others :=
        {| s_coords := dict_del (s_coords data) name; s_vars := s_vars data;
           s_attrs := s_attrs data |} in
      if forallb (Nat.eqb (length xs)) (dim_sizes others name)
      then Ok (set_coord data name (CArray name xs))
      else Raise ValueError
  end.

(** ** update_hierarchical_coordinates *)

(** What [lookup] finds under a name: a coordinate, whose values are an
    array of numpy even for a scalar, or an attribute. *)
Inductive looked_up : Type :=
| LCoord (c : coordinate)
| LAttr (a : attr).

(** [data.S.lookup_coord(name)] with the values of a coordinate. *)
Definition lookup (data : Scan) (name : string) : pyres looked_up :=
  match dict_get (s_coords data) name with
  | Some c => Ok (LCoord c)
  | None =>
      match dict_get (s_attrs data) name with
      | Some a => Ok (LAttr a)
      | None => Raise ValueError
      end
  end.

(** [isinstance(c, np.ndarray)]. *)
Definition is_ndarray (c : looked_up) : bool :=
  match c with
  | LCoord _ => true
  | LAttr _ => false
  end.

Definition operand_of (c : looked_up) : pyres operand :=
  match c with
  | LCoord c => Ok (operand_of_coord c)
  | LAttr a => operand_of_attr a
  end.

(** One round of the loop, for the direction [d_name]. *)
Definition update_direction (data : Scan) (d_name : string) : pyres Scan :=
  (let short := "short_" +:+ d_name in
   let long := "long_" +:+ d_name in
   let phys := "physical_long_" +:+ d_name in
   let* c_short := lookup data short in
   let* c_long := lookup data long in
   let* c_phys := dict_item (s_coords data) phys in
   let data := set_coord data phys (coord_map (s_sub s_zero) c_phys) in
   let scan_coord_name :=
     if is_ndarray c_short then Some short
     else if is_ndarray c_long then Some long
     else None in
   let total :=
     (let* s := operand_of c_short in
      let* l := operand_of c_long in
      op_sub (op_neg s) l) in
   match scan_coord_name with
   | Some name =>
       let* data := ds_rename [(name, d_name)] data in
       let* total := total in
       let* own := (if String.eqb name short
                    then pybind (operand_of c_short) (fun s => Ok (op_neg s))
                    else pybind (operand_of c_long) (fun l => Ok (op_neg l))) in
       let* data := assign_coord data d_name total in
       assign_coord data name own
   | None =>
       let* total := total in
       assign_coord data d_name total
   end)%py.

Definition update_hierarchical_coordinates (data : Scan) : pyres Scan :=
  pyfold update_direction ["x"; "y"; "z"] data.

(** ** postprocess_final of the nano endstation *)

(** The coordinates a spectrum of the dataset carries: the scalars and
    the vectors along its dimensions. *)
Definition spectrum_has_coord (data : Scan) (v : DataVar) (c : string) : bool :=
  match dict_get (s_coords data) c with
  | Some (CScalar _) => true
  | Some (CArray d _) => existsb (String.eqb d) (v_dims v)
  | None => false
  end.

(** [a_data.coords[c]] on every spectrum: [KeyError] when one does not
    carry the coordinate. *)
Definition spectra_have_coord (data : Scan) (c : string) : pyres unit :=
  if forallb (fun nv => negb (is_spectrum (fst nv))
                        || spectrum_has_coord data (snd nv) c)
             (s_vars data)
  then Ok tt else Raise KeyError.

(** [attrs[c] = f(attrs[c])] when the attribute is there. *)
Definition update_attr (f : F -> F) (c : string)
    (attrs : list (string * attr)) : pyres (list (string * attr)) :=
  match dict_get attrs c with
  | Some a => pybind (attr_map f a) (fun a' => Ok (dict_set attrs c a'))
  | None => Ok attrs
  end.

(** [a_data.coords[c]] on a spectrum: [KeyError] when it does not carry
    the coordinate. *)
Definition spectrum_coord (data : Scan) (v : DataVar) (c : string)
    : pyres unit :=
  if spectrum_has_coord data v c then Ok tt else Raise KeyError.

(** The body of the two loops that convert units, on the dataset and on
    its spectra in turn: the coordinate [c] and, when there is one, the
    attribute [c] go through [f].  The first loop converts the attribute
    first, the second the coordinate. *)
Definition convert (attribute_first : bool) (f : F -> F) (data : Scan)
    (c : string) : pyres Scan :=
  (let in_order {A} (attribute : pyres A) (coord : pyres unit) : pyres A :=
     if attribute_first
     then (let* a := attribute in let* _ := coord in Ok a)
     else (let* _ := coord in attribute) in
   let* attrs :=
     in_order (update_attr f c (s_attrs data))
              (pybind (dict_item (s_coords data) c) (fun _ => Ok tt)) in
   let* coord := dict_item (s_coords data) c in
   let* vars :=
     pymap (fun nv =>
              if is_spectrum (fst nv) then
                let* a := in_order (update_attr f c (v_attrs (snd nv)))
                                   (spectrum_coord data (snd nv) c) in
                Ok (fst nv, {| v_dims := v_dims (snd nv);
                               v_shape := v_shape (snd nv);
                               v_values := v_values (snd nv);
                               v_attrs := a |})
              else Ok nv)
           (s_vars data) in
   Ok {| s_coords := dict_set (s_coords data) c (coord_map f coord);
         s_vars := vars; s_attrs := attrs |})%py.

Definition microns_to_mm (x : F) : F := (x / s_of_Z 1000)%sc.

Definition MICRON_COORDS : list string :=
  ["short_x"; "short_y"; "short_z";
   "physical_long_x"; "physical_long_y"; "physical_long_z"].

(** The angle [alpha], the offset of [phi] and the halving of [phi]. *)
Definition fix_angles (data : Scan) : pyres Scan :=
  (let half_pi := (np_pi / s_of_Z 2)%sc in
   let set_attrs (attrs : list (string * attr)) :=
     dict_set (dict_set attrs "alpha" (ANum half_pi))
              "phi_offset" (ANum (s_of_Z 2 / s_of_Z 5)%sc) in
   let data := set_coord data "alpha" (CScalar half_pi) in
   let* phi := dict_item (s_coords data) "phi" in
   let* _ := spectra_have_coord data "phi" in
   let data := set_coord data "phi"
                 (coord_map (fun x => (x / s_of_Z 2)%sc) phi) in
   on_attrs (fun attrs => Ok (set_attrs attrs)) data)%py.

Definition postprocess_final (data : Scan) : pyres Scan :=
  (let E := MAESTRONanoARPESEndstation in
   let* data :=
     ds_rename (List.filter (fun kv => dict_mem (s_coords data) (fst kv))
                            (RENAME_COORDS E)) data in
   let* data := postprocess_final_base E data in
   let* data := pyfold (convert true microns_to_mm) MICRON_COORDS data in
   let* data := update_hierarchical_coordinates data in
   let* daq_type := dict_item (s_attrs data) "daq_type" in
   let* data := (match daq_type with
                 | AStr t => if String.eqb t "MotorSerpentine"
                             then unwind_serptentine data else Ok data
                 | _ => Ok data
                 end) in
   let* data := fix_angles data in
   pyfold (convert false deg2rad) ["theta"; "psi"; "beta"] data)%py.

End Defs.

Arguments attr F : clear implicits.
Arguments coordinate F : clear implicits.
Arguments DataVar F : clear implicits.
Arguments Scan F : clear implicits.
Arguments Endstation F : clear implicits.
Arguments Parsers F : clear implicits.
Arguments BaseEndstation F : clear implicits.
Arguments operand F : clear implicits.
Arguments looked_up F : clear implicits.

(** A variable is well formed when it has a size per dimension and a
    value per place. *)
Definition var_wf {F} (v : DataVar F) : Prop :=
  length (v_dims v) = length (v_shape v)
  /\ length (v_values v) = nat_prod (v_shape v).

(** * Example data *)

(** Stand-ins over the rationals: 355/113 for [np.pi] and -1 for
    [np.nan], parsers for plain decimal numbers, and a base class that
    leaves the dataset as it is. *)
Section ExampleData.
Local Open Scope string_scope.

Definition ex_constants : Constants Q :=
  {| np_pi := (355 # 113)%Q; np_nan := (-1)%Q |}.

Definition digit_of (c : ascii) : option Z :=
  let n := nat_of_ascii c in
  if (48 <=? n)%nat && (n <=? 57)%nat then Some (Z.of_nat (n - 48)) else None.

Fixpoint digits_from (acc : Z) (s : string) : option Z :=
  match s with
  | EmptyString => Some acc
  | String c rest =>
      match digit_of c with
      | Some d => digits_from (10 * acc + d) rest
      | None => None
      end
  end.

Definition ex_int (s : string) : pyres Z :=
  match s with
  | EmptyString => Raise ValueError
  | _ => or_raise ValueError (digits_from 0 s)
  end.

Definition ex_float (s : string) : pyres Q :=
  match split_on "."%char s with
  | [whole] => pybind (ex_int whole) (fun n => Ok (inject_Z n))
  | [whole; frac] =>
      pybind (ex_int whole) (fun n =>
      pybind (ex_int frac) (fun f =>
      Ok (Qred (inject_Z n
                + inject_Z f
                  / inject_Z (10 ^ Z.of_nat (String.length frac)))%Q)))
  | _ => Raise ValueError
  end.

Definition ex_parsers : Parsers Q := {| py_int := ex_int; py_float := ex_float |}.

Definition ex_base : BaseEndstation Q := fun data => Ok data.

(** A scan of the micro endstation: three positions of the scan stage
    by two energies. *)
Definition ex_micro_scan : Scan Q :=
  {| s_coords := [("LMOTOR0", CScalar 1%Q);
                  ("Scan X", CArray "Scan X" [0; 1; 2]%Q);
                  ("eV", CArray "eV" [10; 20]%Q);
                  ("SF_HV", CScalar 90%Q)];
     s_vars := [("spectrum", {| v_dims := ["Scan X"; "eV"];
                                v_shape := [3; 2]%nat;
                                v_values := [1; 2; 3; 4; 5; 6]%Q;
                                v_attrs := [] |})];
     s_attrs := [] |}.

(** A scan of the nano endstation along the coarse stage: three
    positions [long_x] by two angles, the fine stage at rest. *)
Definition ex_nano_scan (daq_type : string) : Scan Q :=
  {| s_coords := [("long_x", CArray "long_x" [1; 2; 3]%Q);
                  ("phi", CArray "phi" [4; 8]%Q);
                  ("long_y", CScalar 5%Q); ("long_z", CScalar 6%Q);
                  ("short_x", CScalar 1000%Q); ("short_y", CScalar 2000%Q);
                  ("short_z", CScalar 3000%Q);
                  ("physical_long_x", CScalar 1000%Q);
                  ("physical_long_y", CScalar 0%Q);
                  ("physical_long_z", CScalar 0%Q);
                  ("theta", CScalar 180%Q); ("psi", CScalar 0%Q);
                  ("beta", CScalar 90%Q)];
     s_vars := [("spectrum", {| v_dims := ["long_x"; "phi"];
                                v_shape := [3; 2]%nat;
                                v_values := [1; 2; 3; 4; 5; 6]%Q;
                                v_attrs := [("GRATING", AStr "G201b")] |})];
     s_attrs := [("daq_type", AStr daq_type); ("short_x", ANum 1000%Q)] |}.

End ExampleData.

(** * Facts *)

(** ** Rows of a serpentine scan *)

Section Rows.
Context {A : Type}.
Implicit Types (row : list A).

Lemma np_roll_length (shift : nat) row : length (np_roll shift row) = length row.
Proof.
  unfold np_roll. rewrite length_app, length_drop, length_take. lia.
Qed.

Lemma unwind_row_length row : length (unwind_row row) = length row.
Proof. unfold unwind_row. by rewrite np_roll_length, length_rev. Qed.

(** A row unwound is the row reversed and then rotated: it has the items
    of the row. *)
Lemma unwind_row_Permutation row : Permutation (unwind_row row) row.
Proof.
  unfold unwind_row, np_roll. rewrite Permutation_app_comm, take_drop.
  symmetry. apply Permutation_rev.
Qed.

Lemma unwind_row_Forall (P : A -> Prop) row :
  Forall P row -> Forall P (unwind_row row).
Proof. intros H. by rewrite unwind_row_Permutation. Qed.

(** The row unwound and reversed is the row rotated to the left by
    two. *)
Lemma rev_unwind_row row :
  rev (unwind_row row)
  = drop (2 mod length row) row ++ take (2 mod length row) row.
Proof.
  unfold unwind_row, np_roll. rewrite length_rev, rev_app_distr.
  rewrite firstn_rev, skipn_rev, !rev_involutive.
  destruct row as [| a row]; [done |].
  set (n := length (a :: row)).
  assert (2 mod n < n) by (apply Nat.mod_upper_bound; by subst n).
  by replace (n - (n - 2 mod n)) with (2 mod n) by lia.
Qed.

(** Unwinding a row twice gives the row back. *)
Theorem unwind_row_involutive row : unwind_row (unwind_row row) = row.
Proof.
  unfold unwind_row at 1. rewrite rev_unwind_row. unfold np_roll.
  destruct row as [| a row]; [done |].
  set (l := a :: row). set (m := 2 mod length l).
  assert (m < length l) by (apply Nat.mod_upper_bound; by subst l).
  rewrite length_app, length_drop, length_take.
  replace (length l - m + m `min` length l) with (length l) by lia.
  replace (2 mod length l) with m by done.
  rewrite drop_app_length', take_app_length'
    by (rewrite length_drop; lia).
  apply take_drop.
Qed.

End Rows.

(** ** Flipping and unwinding values *)

Section Values.
Context {A : Type}.
Implicit Types (values : list A) (shape : list nat).

Lemma concat_length_uniform (c : nat) (l : list (list A)) :
  Forall (fun ch => length ch = c) l -> length (concat l) = length l * c.
Proof.
  induction 1 as [| ch l Hch _ IH]; [done |].
  cbn. rewrite length_app, IH. lia.
Qed.

Lemma np_flip_length shape (axis : nat) values :
  length values = nat_prod shape ->
  length (np_flip shape axis values) = length values.
Proof.
  revert axis values. induction shape as [| n rest IH]; intros axis values Hl;
    [done |].
  cbn [np_flip]. cbn [nat_prod fold_right] in Hl.
  destruct (chunks_shape n (nat_prod rest) values Hl) as [Hn Hch].
  destruct axis as [| axis].
  - rewrite (concat_length_uniform (nat_prod rest)).
    + rewrite length_rev, Hn. by rewrite Hl.
    + by apply Forall_rev.
  - rewrite (concat_length_uniform (nat_prod rest)).
    + rewrite length_map, Hn. by rewrite Hl.
    + apply Forall_map. eapply Forall_impl; [exact Hch |].
      intros ch Hc. cbn. rewrite IH; [done |]. by rewrite Hc.
Qed.

(** Flipping twice along an axis gives the values back. *)
Theorem np_flip_involutive shape (axis : nat) values :
  length values = nat_prod shape ->
  np_flip shape axis (np_flip shape axis values) = values.
Proof.
  revert axis values. induction shape as [| n rest IH]; intros axis values Hl;
    [done |].
  cbn [np_flip]. cbn [nat_prod fold_right] in Hl.
  destruct (chunks_shape n (nat_prod rest) values Hl) as [Hn Hch].
  destruct axis as [| axis].
  - rewrite <- (length_rev (chunks n _ values)) in Hn at 1.
    rewrite <- Hn at 1. rewrite chunks_concat by (by apply Forall_rev).
    rewrite rev_involutive. by apply concat_chunks.
  - assert (Forall (fun ch => length ch = nat_prod rest)
                   (map (np_flip rest axis) (chunks n (nat_prod rest) values)))
      as Hch'.
    { apply Forall_map. eapply Forall_impl; [exact Hch |].
      intros ch Hc. cbn. rewrite np_flip_length; [done |]. by rewrite Hc. }
    rewrite <- (length_map (np_flip rest axis)) in Hn at 1.
    rewrite <- Hn at 1. rewrite chunks_concat by done.
    rewrite map_map, (map_ext_in _ id), map_id; [by apply concat_chunks |].
    intros ch Hin. apply IH. rewrite Forall_forall in Hch.
    by apply Hch, list_elem_of_In.
Qed.

End Values.

Section Unwinding.
Context {F : Type} {Fops : ScalarOps F} {K : Constants F}.
Implicit Types (values : list F) (shape : list nat).

Lemma imap_imap {A B C} (f : nat -> B -> C) (g : nat -> A -> B) (l : list A) :
  imap f (imap g l) = imap (fun i x => f i (g i x)) l.
Proof.
  revert f g. induction l as [| x l IH]; intros f g; [done |].
  cbn. f_equal. apply IH.
Qed.

Lemma imap_Forall {A B} (P : A -> Prop) (Q : B -> Prop) (f : nat -> A -> B)
    (l : list A) :
  (forall i x, P x -> Q (f i x)) -> Forall P l -> Forall Q (imap f l).
Proof.
  intros Hf H. revert f Hf. induction H as [| x l Hx _ IH]; intros f Hf;
    [constructor |].
  cbn. constructor; [by apply Hf |]. apply IH. intros i y. apply Hf.
Qed.

Lemma imap_id_in {A} (P : A -> Prop) (f : nat -> A -> A) (l : list A) :
  (forall i x, P x -> f i x = x) -> Forall P l -> imap f l = l.
Proof.
  intros Hf H. revert f Hf. induction H as [| x l Hx _ IH]; intros f Hf;
    [done |].
  cbn. rewrite (Hf 0 x Hx). f_equal. apply IH. intros i y. apply Hf.
Qed.

(** The unwinding of one row of [n1] columns of [k] values. *)
Lemma unwind_chunks_length (n1 k : nat) (row : list F) :
  length row = n1 * k ->
  length (concat (unwind_row (chunks n1 k row))) = n1 * k.
Proof.
  intros Hl. destruct (chunks_shape n1 k row Hl) as [Hn Hch].
  rewrite (concat_length_uniform k).
  - by rewrite unwind_row_length, Hn.
  - by apply unwind_row_Forall.
Qed.

Lemma unwind_chunks_involutive (n1 k : nat) (row : list F) :
  length row = n1 * k ->
  concat (unwind_row (chunks n1 k (concat (unwind_row (chunks n1 k row)))))
  = row.
Proof.
  intros Hl. destruct (chunks_shape n1 k row Hl) as [Hn Hch].
  rewrite <- (unwind_row_length (chunks n1 k row)) in Hn.
  rewrite <- Hn at 1. rewrite chunks_concat.
  - rewrite unwind_row_involutive. by apply concat_chunks.
  - by apply unwind_row_Forall.
Qed.

(** The values of an array of one dimension cannot be unwound. *)
Lemma unwind_values_one_dimension (n : nat) values :
  unwind_values [n] values = Raise IndexError.
Proof. done. Qed.

Lemma unwind_values_length shape values (unwound : list F) :
  length values = nat_prod shape ->
  unwind_values shape values = Ok unwound -> length unwound = length values.
Proof.
  destruct shape as [| n0 [| n1 rest]]; try done.
  intros Hl.
  change (nat_prod (n0 :: n1 :: rest)) with (n0 * (n1 * nat_prod rest)) in Hl.
  cbn [unwind_values]. intros [= <-].
  destruct (chunks_shape n0 _ values Hl) as [Hn Hch].
  rewrite (concat_length_uniform (n1 * nat_prod rest)).
  - by rewrite length_imap, Hn, Hl.
  - eapply imap_Forall; [| exact Hch]. cbn. intros i row Hrow.
    destruct (Nat.odd i); [by apply unwind_chunks_length | done].
Qed.

(** Unwinding the values twice gives the values back: the
    unwinding of a serpentine scan is its own inverse. *)
Theorem unwind_values_involutive shape values (unwound : list F) :
  length values = nat_prod shape ->
  unwind_values shape values = Ok unwound ->
  unwind_values shape unwound = Ok values.
Proof.
  destruct shape as [| n0 [| n1 rest]]; try done.
  intros Hl.
  change (nat_prod (n0 :: n1 :: rest)) with (n0 * (n1 * nat_prod rest)) in Hl.
  cbn [unwind_values]. intros [= <-]. f_equal.
  destruct (chunks_shape n0 _ values Hl) as [Hn Hch].
  set (g := fun (i : nat) (row : list F) =>
              if Nat.odd i
              then concat (unwind_row (chunks n1 (nat_prod rest) row))
              else row).
  assert (Forall (fun row => length row = n1 * nat_prod rest)
                 (imap g (chunks n0 (n1 * nat_prod rest) values))) as Hch'.
  { eapply imap_Forall; [| exact Hch]. cbn. intros i row Hrow. unfold g.
    destruct (Nat.odd i); [by apply unwind_chunks_length | done]. }
  rewrite <- (length_imap g) in Hn. rewrite <- Hn at 1.
  rewrite chunks_concat by done. rewrite imap_imap.
  rewrite (imap_id_in (fun row => length row = n1 * nat_prod rest));
    [by apply concat_chunks | | done].
  intros i row Hrow. unfold g.
  destruct (Nat.odd i); [by apply unwind_chunks_involutive | done].
Qed.

(** The rows of even position are left as they are. *)
Lemma unwind_values_single_row (n1 : nat) (rest : list nat) values :
  length values = n1 * nat_prod rest ->
  unwind_values (1 :: n1 :: rest) values = Ok values.
Proof.
  intros Hl. cbn [unwind_values].
  change (chunks 1 ?c values) with [take c (drop (0 * c) values)].
  change (0 * ?c) with 0. rewrite drop_0, firstn_all2 by lia.
  cbn [imap Nat.odd Nat.even negb concat]. by rewrite app_nil_r.
Qed.

(** Claim C15. Unwinding the spectra of a dataset twice gives the
    dataset back: the unwinding of serpentine scans is its own
    inverse. *)
Theorem unwind_serptentine_involutive (data data' : Scan F) :
  Forall (fun nv => var_wf (snd nv)) (s_vars data) ->
  unwind_serptentine data = Ok data' ->
  unwind_serptentine data' = Ok data.
Proof.
  unfold unwind_serptentine. intros Hwf H. py_head H. injection H as <-. cbn.
  match goal with Hm : pymap _ _ = Ok _ |- _ =>
    erewrite pymap_inverse; [| | exact Hm]; [by destruct data |] end.
  eapply Forall_impl; [exact Hwf |]. intros [n v] [_ Hlen] [n' v'].
  cbn [fst snd] in *. fold (is_spectrum n) (is_spectrum n').
  destruct (is_spectrum n) eqn:En; [| intros [= <- <-]; by rewrite En].
  intros H. py_head H. injection H as <- <-. rewrite En.
  cbn [set_values v_dims v_shape v_values].
  match goal with
  | H0 : or_raise _ _ = Ok _, H1 : dict_item _ _ = Ok _,
    Hu : unwind_values _ _ = Ok _ |- _ =>
      rewrite H0; cbn [pybind]; rewrite H1; cbn [pybind];
      rewrite (unwind_values_involutive _ _ _ Hlen Hu)
  end.
  by destruct v.
Qed.

End Unwinding.

(** ** The transforms of the attributes *)

Section Transforms.
Context {F : Type} {Fops : ScalarOps F} {K : Constants F} {P : Parsers F}.
Implicit Types (v : string).

(** Of a value with a space, [START_T] keeps the text
    before the first space as the date and the text after it, in lower
    case, as the time: the date, a space and the time are the value up
    to the case of the time. *)
Theorem START_T_split v :
  has_char " " v = true ->
  exists date time,
    v = date +:+ String " " time
    /\ has_char " " date = false
    /\ START_T (F := F) v
       = [("time", AStr (lower time)); ("date", AStr date)].
Proof.
  intros Hv. destruct (split_once_cases " " v)
    as [[Hno _] | (date & time & _ & -> & Hdate)]; [congruence |].
  exists date, time. split; [done |]. split; [done |].
  unfold START_T. rewrite (split_on_first _ _ _ Hdate). cbn [tail hd].
  by rewrite join_split.
Qed.

(** Of a value without a space the date is the value and the time is
    empty. *)
Lemma START_T_no_space v :
  has_char " " v = false ->
  START_T (F := F) v = [("time", AStr EmptyString); ("date", AStr v)].
Proof. intros Hv. unfold START_T. by rewrite (split_on_no_sep _ _ Hv). Qed.

(** [SF_SLITN] reads the number of the slit from the first
    word, its width from the third and its shape from the last. *)
Theorem SF_SLITN_fields v (w0 w1 w2 : string) (ws : list string) (n : Z)
    (x : F) :
  split_on " " v = w0 :: w1 :: w2 :: ws ->
  py_int w0 = Ok n -> py_float w2 = Ok x ->
  SF_SLITN v = Ok [("slit_number", AInt n);
                   ("slit_shape", AStr (lower (List.last (w2 :: ws) EmptyString)));
                   ("slit_width", ANum x)].
Proof.
  intros Hs Hn Hx. unfold SF_SLITN. rewrite Hs. cbn [hd]. rewrite Hn.
  cbn [pybind]. change (py_index (w0 :: w1 :: w2 :: ws) 2) with (Ok w2).
  cbn [pybind]. by rewrite Hx.
Qed.

(** With fewer than three words there is no width to read:
    [IndexError], once the first word is a number. *)
Theorem SF_SLITN_too_short v (n : Z) :
  length (split_on " " v) < 3 ->
  py_int (hd EmptyString (split_on " " v)) = Ok n ->
  SF_SLITN v = Raise IndexError.
Proof.
  intros Hlen Hn. unfold SF_SLITN. rewrite Hn. cbn [pybind].
  by destruct (split_on " " v) as [| w0 [| w1 [| w2 ws]]]; [.. | cbn in Hlen; lia].
Qed.

End Transforms.

(** ** load *)

Section Loading.
Context {F : Type} {Fops : ScalarOps F} {K : Constants F}.
Implicit Types (E : Endstation F) (scan : Scan F) (names : list string).

Lemma existsb_eqb_In (k : string) names :
  existsb (String.eqb k) names = true <-> In k names.
Proof.
  rewrite existsb_exists. split.
  - by intros (x & Hx & ->%String.eqb_eq).
  - intros Hk. exists k. split; [done | apply String.eqb_refl].
Qed.

(** The dictionary of the names to change holds the coordinates that
    the table knows, with their new names. *)
Lemma will_rename_get E names (k : string) :
  dict_get (will_rename E names) k
  = if existsb (String.eqb k) names then dict_get (RENAME_KEYS E) k else None.
Proof.
  unfold will_rename. induction names as [| x names IH] using rev_ind; [done |].
  rewrite fold_left_app, existsb_app. cbn [fold_left existsb].
  rewrite orb_false_r.
  destruct (dict_get (RENAME_KEYS E) x) as [t |] eqn:Ex.
  - rewrite dict_get_set, IH, string_keq_eqb.
    destruct (String.eqb_spec x k) as [-> | Hne].
    + by rewrite String.eqb_refl, orb_true_r, Ex.
    + rewrite (proj2 (String.eqb_neq k x)) by congruence.
      by rewrite orb_false_r.
  - rewrite IH. destruct (String.eqb_spec k x) as [-> | Hne].
    + rewrite orb_true_r, Ex. by destruct (existsb _ names).
    + by rewrite orb_false_r.
Qed.

Lemma will_rename_keys E names (k : string) :
  In k (dict_keys (will_rename E names)) ->
  In k names /\ is_Some (dict_get (RENAME_KEYS E) k).
Proof.
  intros H%dict_get_is_Some. rewrite will_rename_get in H.
  destruct (existsb _ names) eqn:Ek; [| by destruct H].
  by apply existsb_eqb_In in Ek.
Qed.

Lemma will_rename_values E names (v : string) :
  In v (dict_values (will_rename E names)) ->
  In v (dict_values (RENAME_KEYS E)).
Proof.
  unfold will_rename. induction names as [| x names IH] using rev_ind; [done |].
  rewrite fold_left_app. cbn [fold_left].
  destruct (dict_get (RENAME_KEYS E) x) as [t |] eqn:Ex; [| done].
  intros Hin. unfold dict_values in *.
  apply in_map_iff in Hin as ([k v'] & <- & Hin).
  destruct (decide ((k, v') = (x, t))) as [[= -> ->] | Hne].
  - apply dict_get_In_exact in Ex. by apply (in_map snd) in Ex.
  - apply IH, in_map_iff. exists (k, v'). split; [done |].
    clear -Hin Hne. induction (fold_left _ names []) as [| [k0 v0] d IHd].
    + cbn in Hin. by destruct Hin as [[= -> ->] | []].
    + cbn in Hin. rewrite string_keq_eqb in Hin.
      destruct (String.eqb_spec k0 x) as [-> | _].
      * destruct Hin as [[= -> ->] | Hin]; [done | by right].
      * destruct Hin as [Heq | Hin]; [by left | right; by apply IHd].
Qed.

(** Nothing is deleted from a scan none of whose coordinates carries a
    new name. *)
Lemma delete_targets_none (targets : list string) scan :
  Forall (fun v => dict_mem (s_coords scan) v = false) targets ->
  delete_targets targets scan = scan.
Proof.
  unfold delete_targets. induction 1 as [| v targets Hv _ IH]; [done |].
  cbn [fold_left]. by rewrite Hv.
Qed.

Lemma rename_of_nil (k : string) : rename_of [] k = k.
Proof. done. Qed.

(** Renaming nothing leaves the scan as it is. *)
Lemma ds_rename_nil scan :
  NoDup (names_of scan) -> ds_rename [] scan = Ok scan.
Proof.
  intros Hnd. unfold ds_rename. cbn [dict_keys map forallb negb].
  rewrite (map_ext _ id), map_id by done.
  rewrite (bool_decide_eq_true_2 _ Hnd). cbn [negb]. f_equal.
  destruct scan as [coords vars attrs]. cbn. f_equal.
  - rewrite <- (map_id coords) at 2. apply map_ext.
    by intros [k [x | d xs]].
  - rewrite <- (map_id vars) at 2. apply map_ext.
    intros [k [dims shape values vattrs]]. cbn.
    by rewrite (map_ext _ id), map_id.
Qed.

Lemma will_rename_nil E names :
  Forall (fun k => dict_get (RENAME_KEYS E) k = None) names ->
  will_rename E names = [].
Proof.
  unfold will_rename. induction names as [| k names IH] using rev_ind;
    [done |].
  intros [Hnames [Hk _]%Forall_cons]%Forall_app.
  rewrite fold_left_app. cbn. by rewrite Hk, IH.
Qed.

(** A scan none of whose coordinates is in the table of the
    endstation, and which has no coordinate [scan_x], is loaded as it
    is. *)
Theorem load_unknown_names E scan :
  NoDup (names_of scan) ->
  Forall (fun k => dict_get (RENAME_KEYS E) k = None)
         (dict_keys (s_coords scan)) ->
  dict_mem (s_coords scan) "scan_x" = false ->
  load E scan = Ok scan.
Proof.
  intros Hnd Hnone Hx. unfold load. cbv zeta.
  rewrite (will_rename_nil _ _ Hnone). cbn [dict_values map delete_targets fold_left].
  rewrite (ds_rename_nil _ Hnd). cbn [pybind]. by rewrite Hx.
Qed.

Lemma NoDup_map_eq {A B} (f : A -> B) (l : list A) (x y : A) :
  NoDup (map f l) -> In x l -> In y l -> f x = f y -> x = y.
Proof.
  induction l as [| a l IH]; [done |]. cbn.
  intros [Ha Hl]%NoDup_cons [-> | Hx] [-> | Hy] Heq; [done | | | by apply IH].
  - destruct Ha. rewrite Heq. by apply list_elem_of_In, in_map.
  - destruct Ha. rewrite <- Heq. by apply list_elem_of_In, in_map.
Qed.

(** Claim C24. Two coordinates to which the table gives one new name
    make [load] raise [ValueError], the error of [rename] for names that
    collide. *)
Theorem load_conflict E scan (k1 k2 t : string) :
  Forall (fun v => dict_mem (s_coords scan) v = false)
         (dict_values (RENAME_KEYS E)) ->
  k1 <> k2 ->
  In k1 (dict_keys (s_coords scan)) -> In k2 (dict_keys (s_coords scan)) ->
  dict_get (RENAME_KEYS E) k1 = Some t -> dict_get (RENAME_KEYS E) k2 = Some t ->
  load E scan = Raise ValueError.
Proof.
  intros Hfresh Hne H1 H2 E1 E2. unfold load. cbv zeta.
  rewrite delete_targets_none.
  2:{ apply Forall_forall. intros v Hv%list_elem_of_In%will_rename_values.
      rewrite Forall_forall in Hfresh. by apply Hfresh, list_elem_of_In. }
  unfold ds_rename.
  destruct (forallb _ (dict_keys (will_rename E _))); [| done]. cbn [negb].
  rewrite bool_decide_eq_false_2; [done |]. intros Hnd. apply Hne.
  apply (NoDup_map_eq _ _ k1 k2 Hnd).
  - unfold names_of. apply in_app_iff. by left.
  - unfold names_of. apply in_app_iff. by left.
  - unfold rename_of. rewrite !will_rename_get.
    by rewrite !(proj2 (existsb_eqb_In _ _)), E1, E2.
Qed.

(** With a coordinate [scan_x] that is no dimension of the
    spectra, a single position for instance, the index of the axis to
    flip does not exist: [ValueError]. *)
Theorem flip_spectra_no_axis scan :
  Exists (fun nv => contains "spectrum" (fst nv) = true) (s_vars scan) ->
  Forall (fun nv => ~ In "scan_x" (v_dims (snd nv))) (s_vars scan) ->
  flip_spectra scan = Raise ValueError.
Proof.
  intros Hex Hall. unfold flip_spectra.
  assert (forall dims, ~ In "scan_x" dims ->
                       index_of "scan_x" dims = Raise ValueError) as Hidx.
  { induction dims as [| d dims IH]; [done |]. cbn [index_of In]. intros Hn.
    destruct (String.eqb_spec d "scan_x") as [-> | _]; [tauto |].
    rewrite IH; [done | tauto]. }
  induction Hex as [nv vars Hs | nv vars _ IH];
    apply Forall_cons in Hall as [Hnv Hall]; cbn [pymap].
  - by rewrite Hs, (Hidx _ Hnv).
  - destruct (contains "spectrum" (fst nv)); cbn [pybind].
    + by rewrite (Hidx _ Hnv).
    + specialize (IH Hall).
      by destruct (pymap _ vars).
Qed.

(** Flipping the spectra of a scan twice gives the scan
    back. *)
Theorem flip_spectra_involutive (scan scan' : Scan F) :
  Forall (fun nv => var_wf (snd nv)) (s_vars scan) ->
  flip_spectra scan = Ok scan' -> flip_spectra scan' = Ok scan.
Proof.
  unfold flip_spectra. intros Hwf H. py_head H. injection H as <-. cbn.
  match goal with Hm : pymap _ _ = Ok _ |- _ =>
    erewrite pymap_inverse; [| | exact Hm]; [by destruct scan |] end.
  eapply Forall_impl; [exact Hwf |]. intros [n v] [_ Hlen] [n' v'].
  cbn [fst snd] in *.
  destruct (contains "spectrum" n) eqn:En; [| intros [= <- <-]; by rewrite En].
  intros H. py_head H. injection H as <- <-. rewrite En.
  cbn [set_values v_dims v_shape v_values].
  match goal with Hx : index_of _ _ = Ok _ |- _ => rewrite Hx end.
  cbn [pybind]. rewrite np_flip_involutive by done. by destruct v.
Qed.

End Loading.

(** ** The unified coordinates and the units *)

Section Hierarchy.
Context {F : Type} {Fops : ScalarOps F} {K : Constants F}.
Implicit Types (data : Scan F) (d c : string).

Lemma prefixed_ne (p d : string) : p <> EmptyString -> p +:+ d <> d.
Proof.
  intros Hp E. apply (f_equal String.length) in E.
  rewrite string_length_append in E. destruct p; [done |]. cbn in E. lia.
Qed.

Lemma assign_coord_vars data (name : string) (value : operand F) data' :
  assign_coord data name value = Ok data' ->
  s_vars data' = s_vars data
  /\ s_coords data' = dict_set (s_coords data) name
                        match value with
                        | OScalar x => CScalar x
                        | OArray xs => CArray name xs
                        end.
Proof.
  unfold assign_coord. destruct value as [x | xs].
  - by intros [= <-].
  - destruct (forallb _ _); [| done]. by intros [= <-].
Qed.

(** Claim C28. A scalar coordinate [short_d] is taken for the scanned
    axis, because the values of a coordinate are an array of numpy even
    for a scalar: when the scan runs along [long_d], the dimension
    [long_d] is not renamed, only [short_d] is, and the sum of the two
    becomes a coordinate [d] along a dimension of its own. *)
Theorem update_direction_scalar_short data d (s : F) (ls : list F) data' :
  dict_get (s_coords data) ("short_" +:+ d) = Some (CScalar s) ->
  dict_get (s_coords data) ("long_" +:+ d)
  = Some (CArray ("long_" +:+ d) ls) ->
  update_direction data d = Ok data' ->
  dict_get (s_coords data') d
  = Some (CArray d (map (fun l => (s_zero - s - l)%sc) ls))
  /\ map (fun nv => v_dims (snd nv)) (s_vars data')
     = map (fun nv => map (rename_of [("short_" +:+ d, d)]) (v_dims (snd nv)))
           (s_vars data).
Proof.
  intros Hs Hl. unfold update_direction, lookup. rewrite Hs, Hl.
  cbn [pybind is_ndarray operand_of operand_of_coord op_neg op_map op_sub].
  rewrite String.eqb_refl. cbn [pybind].
  intros H. py_head H. py_head H. py_head H.
  apply assign_coord_vars in H as [Hv2 Hc2].
  match goal with
  | E : assign_coord _ d _ = Ok _ |- _ =>
      apply assign_coord_vars in E as [Hv1 Hc1]
  end.
  split.
  - rewrite Hc2, dict_get_set_ne, Hc1, dict_get_set_eq; [done | |];
      rewrite string_keq_eqb; [apply String.eqb_refl |].
    apply String.eqb_neq. by apply prefixed_ne.
  - rewrite Hv2, Hv1.
    match goal with
    | E : ds_rename _ _ = Ok _ |- _ => unfold ds_rename in E
    end.
    repeat case_match; try done. inv_res. cbn [s_vars set_coord].
    by rewrite map_map.
Qed.

(** A conversion of units reads the coordinate: on success the
    coordinate was there and went through the function. *)
Lemma convert_coords (first : bool) (f : F -> F) data c data' :
  convert first f data c = Ok data' ->
  exists coord,
    dict_get (s_coords data) c = Some coord
    /\ s_coords data' = dict_set (s_coords data) c (coord_map f coord).
Proof.
  unfold convert. cbv zeta. intros H.
  destruct (dict_item (s_coords data) c) as [coord | e] eqn:Ec.
  - exists coord. unfold dict_item in Ec.
    destruct (dict_get (s_coords data) c); [| done]. cbn in Ec.
    injection Ec as ->. split; [done |]. cbn [pybind] in H.
    py_head H. py_head H. by injection H as <-.
  - by destruct first, (update_attr f c (s_attrs data)).
Qed.

Lemma dict_set_is_Some {V} (dict : list (string * V)) (k k' : string) (v : V) :
  is_Some (dict_get dict k) ->
  (is_Some (dict_get (dict_set dict k v) k') <-> is_Some (dict_get dict k')).
Proof.
  intros Hk. rewrite dict_get_set, string_keq_eqb.
  destruct (String.eqb_spec k k') as [<- | _]; [| done].
  split; [done | by eexists].
Qed.

(** The conversions of a list of coordinates succeed only on
    a dataset that has all of them: a missing coordinate raises
    [KeyError]. *)
Theorem conversion_needs_coords (first : bool) (f : F -> F)
    (cs : list string) data data' :
  pyfold (convert first f) cs data = Ok data' ->
  Forall (fun c => is_Some (dict_get (s_coords data) c)) cs.
Proof.
  revert data. induction cs as [| c cs IH]; intros data H; [constructor |].
  rewrite pyfold_cons in H.
  destruct (convert first f data c) as [data1 |] eqn:E; [| done].
  cbn [pybind] in H. apply convert_coords in E as (coord & Hc & Hset).
  constructor; [by rewrite Hc |].
  eapply Forall_impl; [exact (IH _ H) |]. cbn. intros c' Hc'.
  rewrite Hset in Hc'. eapply dict_set_is_Some; [| exact Hc'].
  by rewrite Hc.
Qed.

Lemma convert_missing (f : F -> F) data c :
  dict_get (s_coords data) c = None -> dict_get (s_attrs data) c = None ->
  forall first, convert first f data c = Raise KeyError.
Proof.
  intros Hc Ha first. unfold convert, update_attr, dict_item. cbv zeta.
  rewrite Hc, Ha. by destruct first.
Qed.

End Hierarchy.

(** * The theorems at work *)

Section Examples.
Local Open Scope string_scope.
#[local] Existing Instance ex_constants.
#[local] Existing Instance ex_parsers.
#[local] Existing Instance ex_base.

(** In both tables no key occurs twice and no new name is a key; in
    both, three keys share the new name [hv] and two the name [psi]. *)
Example rename_keys_tables :
  Forall (fun E : Endstation Q =>
            dict_wf (RENAME_KEYS E) = true
            /\ forallb (fun v => negb (dict_mem (RENAME_KEYS E) v))
                       (dict_values (RENAME_KEYS E)) = true
            /\ length (List.filter (String.eqb "hv")
                                   (dict_values (RENAME_KEYS E))) = 3
            /\ length (List.filter (String.eqb "psi")
                                   (dict_values (RENAME_KEYS E))) = 2)
         [MAESTROMicroARPESEndstation; MAESTRONanoARPESEndstation].
Proof. by repeat constructor. Qed.

Lemma START_T_split_witness :
  exists date time,
    "2019-03-05 10:15:22 PM" = date +:+ String " " time
    /\ has_char " " date = false
    /\ START_T (F := Q) "2019-03-05 10:15:22 PM"
       = [("time", AStr (lower time)); ("date", AStr date)].
Proof. by apply START_T_split. Defined.

Example START_T_evening :
  START_T (F := Q) "2019-03-05 10:15:22 PM"
  = [("time", AStr "10:15:22 pm"); ("date", AStr "2019-03-05")].
Proof. by vm_compute. Qed.

Lemma SF_SLITN_fields_witness :
  SF_SLITN "7 straight 0.5 Curved"
  = Ok [("slit_number", AInt 7);
        ("slit_shape", AStr (lower (List.last ["0.5"; "Curved"] EmptyString)));
        ("slit_width", ANum (1 # 2)%Q)].
Proof.
  by apply (SF_SLITN_fields "7 straight 0.5 Curved" "7" "straight" "0.5"
              ["Curved"]).
Defined.

Lemma SF_SLITN_too_short_witness : SF_SLITN "7 straight" = Raise IndexError.
Proof. apply (SF_SLITN_too_short _ 7); [cbn; lia | reflexivity]. Defined.

Lemma np_flip_involutive_witness :
  np_flip [3; 2] 0 (np_flip [3; 2] 0 [1; 2; 3; 4; 5; 6]%Q)
  = [1; 2; 3; 4; 5; 6]%Q.
Proof. by apply np_flip_involutive. Defined.

(** Three rows of two values flipped along the first axis and along the
    second. *)
Example np_flip_axes :
  np_flip [3; 2] 0 [1; 2; 3; 4; 5; 6]%Q = [5; 6; 3; 4; 1; 2]%Q
  /\ np_flip [3; 2] 1 [1; 2; 3; 4; 5; 6]%Q = [2; 1; 4; 3; 6; 5]%Q.
Proof. by vm_compute. Qed.

Lemma unwind_values_involutive_witness :
  unwind_values [2; 5] [0; 1; 2; 3; 4; 11; 10; 14; 13; 12]%Q
  = Ok [0; 1; 2; 3; 4; 10; 11; 12; 13; 14]%Q.
Proof.
  by apply (unwind_values_involutive [2; 5] [0; 1; 2; 3; 4; 10; 11; 12; 13; 14]%Q).
Defined.

(** The second row of a scan of two rows, reversed and rolled by two. *)
Example unwind_second_row :
  unwind_values [2; 5] [0; 1; 2; 3; 4; 10; 11; 12; 13; 14]%Q
  = Ok [0; 1; 2; 3; 4; 11; 10; 14; 13; 12]%Q.
Proof. by vm_compute. Qed.

Lemma load_unknown_names_witness :
  let scan := {| s_coords := [("eV", CArray "eV" [10; 20]%Q)];
                 s_vars := [("spectrum", {| v_dims := ["eV"]; v_shape := [2];
                                            v_values := [1; 2]%Q;
                                            v_attrs := [] |})];
                 s_attrs := [] |} in
  load MAESTROMicroARPESEndstation scan = Ok scan.
Proof.
  cbv zeta. apply load_unknown_names; [| by repeat constructor | done].
  by apply (bool_decide_unpack _).
Defined.

(** The scan of the example loaded: the coordinates carry their new
    names and the spectrum is flipped along [scan_x]. *)
Example load_micro_scan :
  load MAESTROMicroARPESEndstation ex_micro_scan
  = Ok {| s_coords := [("x", CScalar 1%Q);
                       ("scan_x", CArray "scan_x" [0; 1; 2]%Q);
                       ("eV", CArray "eV" [10; 20]%Q);
                       ("hv", CScalar 90%Q)];
          s_vars := [("spectrum", {| v_dims := ["scan_x"; "eV"];
                                     v_shape := [3; 2];
                                     v_values := [5; 6; 3; 4; 1; 2]%Q;
                                     v_attrs := [] |})];
          s_attrs := [] |}.
Proof. by vm_compute. Qed.

Lemma load_conflict_witness :
  load MAESTROMicroARPESEndstation
       {| s_coords := s_coords ex_micro_scan ++ [("SS_HV", CScalar 90%Q)];
          s_vars := s_vars ex_micro_scan; s_attrs := [] |}
  = Raise ValueError.
Proof.
  apply (load_conflict _ _ "SF_HV" "SS_HV" "hv"); try done.
  - by apply Forall_forall, Forall_forall; vm_compute; repeat constructor.
  - cbn. tauto.
  - cbn. tauto.
Defined.

Lemma flip_spectra_no_axis_witness :
  flip_spectra {| s_coords := [("scan_x", CScalar 0%Q)];
                  s_vars := s_vars ex_micro_scan; s_attrs := [] |}
  = Raise ValueError.
Proof.
  apply flip_spectra_no_axis.
  - by left.
  - apply Forall_cons_2; [| apply Forall_nil_2]. cbn.
    intros [H | [H | []]]; discriminate.
Defined.

Lemma flip_spectra_involutive_witness :
  flip_spectra
    {| s_coords := [("scan_x", CArray "scan_x" [0; 1; 2]%Q)];
       s_vars := [("spectrum", {| v_dims := ["scan_x"; "eV"]; v_shape := [3; 2];
                                  v_values := [5; 6; 3; 4; 1; 2]%Q;
                                  v_attrs := [] |})];
       s_attrs := [] |}
  = Ok {| s_coords := [("scan_x", CArray "scan_x" [0; 1; 2]%Q)];
          s_vars := [("spectrum", {| v_dims := ["scan_x"; "eV"];
                                     v_shape := [3; 2];
                                     v_values := [1; 2; 3; 4; 5; 6]%Q;
                                     v_attrs := [] |})];
          s_attrs := [] |}.
Proof.
  apply flip_spectra_involutive; [| by vm_compute].
  apply Forall_cons_2; [by split | constructor].
Defined.

Lemma unwind_serptentine_involutive_witness :
  unwind_serptentine
    {| s_coords := s_coords (ex_nano_scan "MotorSerpentine");
       s_vars := [("spectrum", {| v_dims := ["long_x"; "phi"]; v_shape := [3; 2];
                                  v_values := [1; 2; 4; 3; 5; 6]%Q;
                                  v_attrs := [("GRATING", AStr "G201b")] |})];
       s_attrs := s_attrs (ex_nano_scan "MotorSerpentine") |}
  = Ok (ex_nano_scan "MotorSerpentine").
Proof.
  apply unwind_serptentine_involutive; [| by vm_compute].
  apply Forall_cons_2; [by split | constructor].
Defined.

Lemma update_direction_scalar_short_witness :
  let data := ex_nano_scan "MotorScan" in
  let data' := match update_direction data "x" with
               | Ok r => r
               | Raise _ => data
               end in
  dict_get (s_coords data') "x"
  = Some (CArray "x" (map (fun l => (0 - 1000 - l)%Q) [1; 2; 3]%Q))
  /\ map (fun nv => v_dims (snd nv)) (s_vars data')
     = map (fun nv => map (rename_of [("short_" +:+ "x", "x")])
                          (v_dims (snd nv)))
           (s_vars data).
Proof.
  exact (update_direction_scalar_short (ex_nano_scan "MotorScan") "x"
           1000%Q [1; 2; 3]%Q _ eq_refl eq_refl eq_refl).
Defined.

(** The scan of the example along the coarse stage: the coordinate [x]
    has a dimension of its own and the spectrum keeps the dimension
    [long_x]. *)
Example update_hierarchical_coordinates_long_scan :
  pybind (update_hierarchical_coordinates (ex_nano_scan "MotorScan"))
         (fun data => Ok (dict_get (s_coords data) "x",
                          map (fun nv => v_dims (snd nv)) (s_vars data)))
  = Ok (Some (CArray "x" [-1001; -1002; -1003]%Q), [["long_x"; "phi"]]).
Proof. by vm_compute. Qed.

Lemma conversion_needs_coords_witness :
  Forall (fun c => is_Some (dict_get (s_coords (ex_nano_scan "MotorScan")) c))
         MICRON_COORDS.
Proof.
  refine (conversion_needs_coords true microns_to_mm MICRON_COORDS
            (ex_nano_scan "MotorScan")
            match pyfold (convert true microns_to_mm) MICRON_COORDS
                         (ex_nano_scan "MotorScan") with
            | Ok r => r
            | Raise _ => ex_nano_scan "MotorScan"
            end _).
  by vm_compute.
Defined.

(** The whole of [postprocess_final] on a serpentine scan: the positions
    in millimetres and negated, the angles in radians, [phi] halved, and
    the second row of the spectrum unwound. *)
Example postprocess_final_serpentine :
  pybind (postprocess_final (ex_nano_scan "MotorSerpentine"))
         (fun data =>
            Ok (omap (fun c => match dict_get (s_coords data) c with
                               | Some (CScalar x) => Some (c, Qred x)
                               | _ => None
                               end)
                     ["short_x"; "physical_long_x"; "y"; "theta"; "alpha"],
                option_map (coord_map Qred) (dict_get (s_coords data) "phi"),
                map (fun nv => v_values (snd nv)) (s_vars data)))
  = Ok ([("short_x", -1); ("physical_long_x", -1); ("y", -7);
         ("theta", 355 # 113); ("alpha", 355 # 226)]%Q,
        Some (CArray "phi" [2; 4]%Q),
        [[1; 2; 4; 3; 5; 6]%Q]).
Proof. by vm_compute. Qed.

End Examples.
