(* ===== verification/Methods.v ===== *)
(** * Methods

    A method of an object that Python keeps after an exception: a
    function from the state to a result, or an exception, and the state
    afterwards (the type [ui]).  What a statement assigned before an
    exception was raised stays assigned.  The notation [let# x := m in
    k] is the sequence of two statements; [ucatch] is [try ... except],
    [ufor] a [for] loop and [uwhen] an [if] without [else].

    The judgements [keeps], [returns] and [raises] state what a method
    does to an invariant; their rules follow the structure of a method,
    and the tactics [keeps_step], [keeps_with] and [returns_step] apply
    them down to assignments and to the methods of the hint databases
    [keeps] and [returns]. *)

From stdpp Require Import prelude.
From S2P Require Import Prelude.

(** * Definitions *)

Section Monad.
Context {St : Type}.

Definition ui (A : Type) : Type := St -> pyres A * St.

Definition uret {A} (a : A) : ui A := fun s => (Ok a, s).

Definition ubind {A B} (m : ui A) (k : A -> ui B) : ui B :=
  fun s => match m s with
           | (Ok a, s') => k a s'
           | (Raise e, s') => (Raise e, s')
           end.

(** An expression that reads the state. *)
Definition uread {A} (f : St -> pyres A) : ui A := fun s => (f s, s).

(** An assignment. *)
Definition uwrite (f : St -> St) : ui unit := fun s => (Ok tt, f s).

Definition ulift {A} (m : pyres A) : ui A := uread (fun _ => m).

(** [try: m except e: pass]. *)
Definition ucatch (e : pyerr) (m : ui unit) : ui unit :=
  fun s => match m s with
           | (Raise e', s') =>
               if decide (e' = e) then (Ok tt, s') else (Raise e', s')
           | r => r
           end.

(** [for x in l: f x]. *)
Fixpoint ufor {A} (f : A -> ui unit) (l : list A) : ui unit :=
  match l with
  | [] => uret tt
  | x :: l' => ubind (f x) (fun _ => ufor f l')
  end.

(** [if b: m]. *)
Definition uwhen (b : bool) (m : ui unit) : ui unit :=
  if b then m else uret tt.

(** [hoare P m Q]: from a state in [P] the method [m] ends, with a result
    or an exception, in a state that [Q] relates to it. *)
Definition hoare {A} (P : St -> Prop) (m : ui A)
    (Q : pyres A -> St -> Prop) : Prop :=
  forall s, P s -> Q (fst (m s)) (snd (m s)).

(** [m] keeps [I], whether it returns or raises. *)
Definition keeps {A} (I : St -> Prop) (m : ui A) : Prop :=
  hoare I m (fun _ => I).

(** From a state in [J] the method [m] returns a value in [R] and a
    state in [J]. *)
Definition returns {A} (J : St -> Prop) (m : ui A) (R : A -> Prop) : Prop :=
  hoare J m (fun r s => J s /\ exists a, r = Ok a /\ R a).

(** From a state in [J] the method [m] raises [e]. *)
Definition raises {A} (J : St -> Prop) (m : ui A) (e : pyerr) : Prop :=
  hoare J m (fun r _ => r = Raise e).

End Monad.

Arguments ui St A : clear implicits.

Declare Scope ui_scope.
Delimit Scope ui_scope with ui.
Notation "'let#' x := m 'in' k" := (ubind m (fun x => k))
  (at level 10, x pattern, m at level 100, k at level 200) : ui_scope.

(** * Facts *)

Section MethodFacts.
Context {St : Type}.
Implicit Types (P I : St -> Prop).

(** A method that returns left a state its continuation started
    from. *)
Lemma ubind_Ok {A B} (m : ui St A) (k : A -> ui St B) (s s' : St) (b : B) :
  ubind m k s = (Ok b, s')
  <-> exists a s1, m s = (Ok a, s1) /\ k a s1 = (Ok b, s').
Proof.
  unfold ubind. destruct (m s) as [[a | e] s1]; split.
  - intros H. by exists a, s1.
  - by intros (? & ? & [= <- <-] & H).
  - done.
  - by intros (? & ? & ? & _).
Qed.

Lemma ubind_step {A B} (m : ui St A) (k : A -> ui St B) (s s1 : St) (a : A) :
  m s = (Ok a, s1) -> ubind m k s = k a s1.
Proof. unfold ubind. by intros ->. Qed.

Lemma ubind_raise {A B} (m : ui St A) (k : A -> ui St B) (s s1 : St)
    (e : pyerr) :
  m s = (Raise e, s1) -> ubind m k s = (Raise e, s1).
Proof. unfold ubind. by intros ->. Qed.

Lemma ubind_read {A B} (f : St -> pyres A) (k : A -> ui St B) (s : St) :
  ubind (uread f) k s = match f s with
                        | Ok a => k a s
                        | Raise e => (Raise e, s)
                        end.
Proof. unfold ubind, uread. by destruct (f s). Qed.

Lemma ubind_write {B} (f : St -> St) (k : unit -> ui St B) (s : St) :
  ubind (uwrite f) k s = k tt (f s).
Proof. done. Qed.

Lemma hoare_conseq {A} P P' (m : ui St A) (Q Q' : pyres A -> St -> Prop) :
  hoare P' m Q' -> (forall s, P s -> P' s) ->
  (forall r s, Q' r s -> Q r s) -> hoare P m Q.
Proof. intros H HP HQ s Hs. by apply HQ, H, HP. Qed.

Lemma hoare_ret {A} P (a : A) (Q : pyres A -> St -> Prop) :
  (forall s, P s -> Q (Ok a) s) -> hoare P (uret a) Q.
Proof. intros H s Hs. by apply H. Qed.

Lemma hoare_read {A} P (f : St -> pyres A) (Q : pyres A -> St -> Prop) :
  (forall s, P s -> Q (f s) s) -> hoare P (uread f) Q.
Proof. intros H s Hs. by apply H. Qed.

Lemma hoare_write P (f : St -> St) (Q : pyres unit -> St -> Prop) :
  (forall s, P s -> Q (Ok tt) (f s)) -> hoare P (uwrite f) Q.
Proof. intros H s Hs. by apply H. Qed.

Lemma hoare_bind {A B} P (m : ui St A) (k : A -> ui St B)
    (R : pyres A -> St -> Prop) (Q : pyres B -> St -> Prop) :
  hoare P m R -> (forall a, hoare (R (Ok a)) (k a) Q) ->
  (forall e s, R (Raise e) s -> Q (Raise e) s) ->
  hoare P (ubind m k) Q.
Proof.
  intros Hm Hk He s Hs. specialize (Hm s Hs). unfold ubind.
  destruct (m s) as [[a | e] s']; cbn in *; [by apply Hk | by apply He].
Qed.

Lemma keeps_ret {A} I (a : A) : keeps I (uret a).
Proof. by apply hoare_ret. Qed.

Lemma keeps_read {A} I (f : St -> pyres A) : keeps I (uread f).
Proof. by apply hoare_read. Qed.

Lemma keeps_lift {A} I (m : pyres A) : keeps I (ulift m).
Proof. apply keeps_read. Qed.

Lemma keeps_write I (f : St -> St) : (forall s, I s -> I (f s)) -> keeps I (uwrite f).
Proof. intros H. by apply hoare_write. Qed.

Lemma keeps_bind {A B} I (m : ui St A) (k : A -> ui St B) :
  keeps I m -> (forall a, keeps I (k a)) -> keeps I (ubind m k).
Proof. intros Hm Hk. by apply (hoare_bind _ _ _ (fun _ => I)). Qed.

(** A bind whose continuation may use what the first method returned
    in the state it left. *)
Lemma keeps_bind_with {A B} I (m : ui St A) (k : A -> ui St B)
    (R : A -> St -> Prop) :
  hoare I m (fun r s => I s /\ forall a, r = Ok a -> R a s) ->
  (forall a, hoare (fun s => I s /\ R a s) (k a) (fun _ => I)) ->
  keeps I (ubind m k).
Proof.
  intros Hm Hk. eapply hoare_bind; [exact Hm | |].
  - intros a s [Hs HR]. apply Hk. split; [done | by apply HR].
  - by intros e s [Hs _].
Qed.

(** The continuation of a read is only run on what can be read in a
    state of the invariant. *)
Lemma keeps_bind_read {A B} I (f : St -> pyres A) (k : A -> ui St B) :
  (forall a s0, I s0 -> f s0 = Ok a -> keeps I (k a)) ->
  keeps I (ubind (uread f) k).
Proof.
  intros H s Hs. rewrite ubind_read. destruct (f s) as [a | e] eqn:E; [| done].
  by apply (H a s Hs E).
Qed.

Lemma keeps_catch I (e : pyerr) (m : ui St unit) : keeps I m -> keeps I (ucatch e m).
Proof.
  intros Hm s Hs. specialize (Hm s Hs). unfold ucatch.
  destruct (m s) as [[[] | e'] s']; [done |]. by destruct (decide (e' = e)).
Qed.

Lemma keeps_when I (b : bool) (m : ui St unit) : keeps I m -> keeps I (uwhen b m).
Proof. intros Hm. destruct b; [done | apply keeps_ret]. Qed.

Lemma keeps_for {A} I (f : A -> ui St unit) (l : list A) :
  (forall x, In x l -> keeps I (f x)) -> keeps I (ufor f l).
Proof.
  induction l as [| x l IH]; intros Hf; [apply keeps_ret |].
  apply keeps_bind; [apply Hf; by left |]. intros _. apply IH.
  intros y Hy. apply Hf. by right.
Qed.

Lemma keeps_and {A} I I' (m : ui St A) :
  keeps I m -> keeps I' m -> keeps (fun s => I s /\ I' s) m.
Proof. intros H H' s [Hs Hs']. split; [by apply H | by apply H']. Qed.

(** *** Methods that return and methods that raise *)

Lemma returns_ret {A} I (a : A) (R : A -> Prop) : R a -> returns I (uret a) R.
Proof. intros HR s Hs. split; [done |]. by exists a. Qed.

Lemma returns_read {A} I (f : St -> pyres A) (R : A -> Prop) :
  (forall s, I s -> exists a, f s = Ok a /\ R a) -> returns I (uread f) R.
Proof. intros H s Hs. split; [done |]. by apply H. Qed.

Lemma returns_lift {A} I (m : pyres A) (a : A) (R : A -> Prop) :
  m = Ok a -> R a -> returns I (ulift m) R.
Proof. intros -> HR. apply returns_read. intros s _. by exists a. Qed.

Lemma returns_write I (f : St -> St) (R : unit -> Prop) :
  (forall s, I s -> I (f s)) -> R tt -> returns I (uwrite f) R.
Proof. intros H HR s Hs. split; [by apply H |]. by exists tt. Qed.

Lemma returns_bind {A B} I (m : ui St A) (k : A -> ui St B)
    (R : A -> Prop) (R' : B -> Prop) :
  returns I m R -> (forall a, R a -> returns I (k a) R') ->
  returns I (ubind m k) R'.
Proof.
  intros Hm Hk s Hs. destruct (Hm s Hs) as (Hs' & a & Ha & HR).
  unfold ubind. destruct (m s) as [r s']. cbn in *. subst r.
  by apply Hk.
Qed.

Lemma returns_when I (b : bool) (m : ui St unit) (R : unit -> Prop) :
  (b = true -> returns I m R) -> R tt -> returns I (uwhen b m) R.
Proof. intros Hm HR. destruct b; [by apply Hm | by apply returns_ret]. Qed.

Lemma returns_weaken {A} I (m : ui St A) (R R' : A -> Prop) :
  returns I m R -> (forall a, R a -> R' a) -> returns I m R'.
Proof.
  intros Hm HR s Hs. destruct (Hm s Hs) as (Hs' & a & Ha & Hr).
  split; [done |]. exists a. split; [done | by apply HR].
Qed.

Lemma raises_read {A} I (f : St -> pyres A) (e : pyerr) :
  (forall s, I s -> f s = Raise e) -> raises I (uread f) e.
Proof. intros H s Hs. by apply H. Qed.

Lemma raises_lift {A} I (e : pyerr) : raises I (ulift (A := A) (Raise e)) e.
Proof. by apply raises_read. Qed.

Lemma raises_bind_now {A B} I (m : ui St A) (k : A -> ui St B) (e : pyerr) :
  raises I m e -> raises I (ubind m k) e.
Proof.
  intros Hm s Hs. specialize (Hm s Hs). unfold ubind.
  destruct (m s) as [r s']. cbn in *. by subst r.
Qed.

Lemma raises_bind_later {A B} I (m : ui St A) (k : A -> ui St B)
    (R : A -> Prop) (e : pyerr) :
  returns I m R -> (forall a, R a -> raises I (k a) e) ->
  raises I (ubind m k) e.
Proof.
  intros Hm Hk s Hs. destruct (Hm s Hs) as (Hs' & a & Ha & HR).
  unfold ubind. destruct (m s) as [r s']. cbn in *. subst r.
  by apply Hk.
Qed.

End MethodFacts.

(** The steps of a proof that a method keeps an invariant: the structure
    of the method is followed down to its assignments and to the methods
    the hint database [keeps] knows. *)
Create HintDb keeps discriminated.

Ltac keeps_step :=
  lazymatch goal with
  | |- keeps _ (uret _) => apply keeps_ret
  | |- keeps _ (ulift _) => apply keeps_lift
  | |- keeps _ (uread _) => apply keeps_read
  | |- keeps _ (uwhen _ _) => apply keeps_when
  | |- keeps _ (ucatch _ _) => apply keeps_catch
  | |- keeps _ (ufor _ _) => apply keeps_for; intros ? _
  | |- keeps _ (ubind _ _) => apply keeps_bind; [| intros ?]
  | |- keeps _ (match ?x with _ => _ end) => destruct x
  | |- keeps _ _ => solve [auto with keeps nocore]
  end.

Ltac keeps_with tac :=
  repeat first
    [ keeps_step
    | lazymatch goal with
      | |- keeps _ (uwrite _) => apply keeps_write; intros ? ?; solve [tac]
      end ].

(** The same for methods that return: the structure is followed, and
    what the reads return is left to the proof. *)
Create HintDb returns discriminated.

Ltac returns_step :=
  lazymatch goal with
  | |- returns _ (uret _) _ => apply returns_ret; exact I
  | |- returns _ (uwhen _ _) _ =>
      apply (returns_when _ _ _ (fun _ => True));
      [let Hb := fresh in intros Hb; try discriminate Hb; clear Hb | exact I]
  | |- returns _ (ubind _ _) _ => eapply returns_bind; [| intros ? ?]
  | |- returns _ (uwrite _) _ =>
      apply (returns_write _ _ (fun _ => True)); [done | exact I]
  | |- returns _ (ulift _) _ =>
      eapply (returns_lift _ _ _ (fun _ => True)); [reflexivity | exact I]
  | |- returns _ _ _ => solve [eauto with returns nocore]
  end.
