(* ===== verification/Jupyter.v ===== *)
(** * Notebook information

    [src/arpes/utilities/jupyter.py]: the search of the running servers
    for the session of this kernel ([get_full_notebook_information]),
    the name of the notebook, the path of the log file, and the recent
    history and logs of the shell.  [wrap_tqdm] of the same module is in
    [Patterned], beside the loop that calls it.

    What the functions read of the machine is the class [Jupyter]: what
    the imports find, the connection file of the kernel, the servers,
    the sessions a server answers with, the shell and its history, the
    configuration, the files and the clock.  What they change is the
    record [World]: the warnings issued and the number of times the
    clock was read.  A function that warns or reads the clock is a
    method on the world (the type [ui] of [Methods]); the others are
    plain results.

    The answer of a server is untyped JSON ([json]); [SessionInfo] is
    the declared type of a session as a predicate on it.  An iterable is
    a sequence, which can be iterated again and subscripted, or an
    iterator, which gives each item once ([iterable]): the functions of
    Jupyter and IPython the module calls return iterators.  Bytes are
    lists of characters and their decoding is an operation of the
    class.  Paths are POSIX paths; numbers in JSON are integers. *)

From stdpp Require Import prelude strings.
From Stdlib Require Import Ascii.
From S2P Require Import Prelude PyStr PyDict Methods.

(** * Definitions *)

(** ** Iterables *)

Inductive iterable (A : Type) : Type :=
| Sequence (items : list A)
| Iterator (rest : list A).
Arguments Sequence {A} items.
Arguments Iterator {A} rest.

(** [list(it)], or a [for] loop to its end: the items and the iterable
    afterwards. *)
Definition iterate {A} (it : iterable A) : list A * iterable A :=
  match it with
  | Sequence items => (items, Sequence items)
  | Iterator rest => (rest, Iterator [])
  end.

(** [it[i]]. *)
Definition subscript {A} (it : iterable A) (i : Z) : pyres A :=
  match it with
  | Sequence items => py_index items i
  | Iterator _ => Raise TypeError
  end.

(** ** JSON *)

#[warnings="-register-all"] Inductive json : Type :=
| JNull
| JBool (b : bool)
| JNumber (n : Z)
| JString (s : string)
| JArray (items : list json)
| JObject (members : list (string * json)).

(** [v[key]] for a key that is a string. *)
Definition json_getitem (v : json) (key : string) : pyres json :=
  match v with
  | JObject members => dict_item members key
  | _ => Raise TypeError
  end.

(** The items of [for x in v]. *)
Definition json_iter (v : json) : pyres (list json) :=
  match v with
  | JArray items => Ok items
  | JObject members => Ok (map (fun kv => JString (fst kv)) members)
  | JString s =>
      Ok (map (fun c => JString (String c EmptyString)) (String.list_ascii_of_string s))
  | _ => Raise TypeError
  end.

(** [v == s] for a string [s]. *)
Definition json_is (v : json) (s : string) : bool :=
  match v with
  | JString s' => String.eqb s' s
  | _ => false
  end.

Definition is_str (v : json) : bool :=
  match v with JString _ => true | _ => false end.

Definition is_int (v : json) : bool :=
  match v with JNumber _ => true | _ => false end.

(** [dict[str, T]]. *)
Definition is_dict_of (T : json -> bool) (v : json) : bool :=
  match v with
  | JObject members => forallb (fun kv => T (snd kv)) members
  | _ => false
  end.

(** A key of a [TypedDict] with [total=False]: absent, or of its type. *)
Definition field_is (members : list (string * json)) (key : string)
    (T : json -> bool) : bool :=
  match dict_get members key with
  | Some v => T v
  | None => true
  end.

(** ** pathlib *)

(** [s.rfind(c)] for a character. *)
Fixpoint rfind (c : ascii) (s : string) : option nat :=
  match s with
  | EmptyString => None
  | String a rest =>
      match rfind c rest with
      | Some i => Some (S i)
      | None => if Ascii.eqb a c then Some 0 else None
      end
  end.

(** [Path(s).name]: the last component, empty components and [.] left
    out. *)
Definition path_name (s : string) : string :=
  default EmptyString
    (last (filter (fun part => part <> EmptyString /\ part <> "."%string)
             (split_on "/" s))).

(** [Path(s).stem]. *)
Definition path_stem (s : string) : string :=
  let name := path_name s in
  match rfind "." name with
  | Some i =>
      if (0 <? i) && (i <? String.length name - 1) then String.substring 0 i name
      else name
  | None => name
  end.

(** [Path(a) / b]. *)
Definition path_join (a b : string) : string :=
  if startswith b "/" then b else (a +:+ "/" +:+ b)%string.

(** ** datetime *)

Record datetime : Type := {
  year : Z; month : Z; day : Z;
  hour : Z; minute : Z; second : Z; microsecond : Z
}.

Definition digit (n : Z) : ascii := ascii_of_nat (48 + Z.to_nat (n mod 10)).

(** [n] written with [width] digits, zeros in front. *)
Fixpoint zero_padded (width : nat) (n : Z) : string :=
  match width with
  | 0 => EmptyString
  | S w => (zero_padded w (n / 10) +:+ String (digit n) EmptyString)%string
  end.

(** [d.date().isoformat()]. *)
Definition date_isoformat (d : datetime) : string :=
  (zero_padded 4 (year d) +:+ "-" +:+ zero_padded 2 (month d) +:+ "-"
   +:+ zero_padded 2 (day d))%string.

(** [d.time().isoformat()]: the microseconds are written when there are
    some. *)
Definition time_isoformat (d : datetime) : string :=
  (zero_padded 2 (hour d) +:+ ":" +:+ zero_padded 2 (minute d) +:+ ":"
   +:+ zero_padded 2 (second d)
   +:+ (if (microsecond d =? 0)%Z then EmptyString
        else "." +:+ zero_padded 6 (microsecond d)))%string.

(** A character that is not a digit. *)
Definition no_digit (c : ascii) : Prop :=
  nat_of_ascii c < 48 \/ 57 < nat_of_ascii c.

(** Hours, minutes and seconds with [sep] between them. *)
Definition clock_text (sep : ascii) (d : datetime) : string :=
  (zero_padded 2 (hour d) +:+ String sep (zero_padded 2 (minute d))
   +:+ String sep (zero_padded 2 (second d)))%string.

(** ** Files *)

(** [file.seek(offset, SEEK_END)] on a file of [size] bytes: the new
    position, [OSError] before the start of the file. *)
Definition seek_end (size : nat) (offset : Z) : pyres nat :=
  if (Z.of_nat size + offset <? 0)%Z then Raise OSError
  else Ok (Z.to_nat (Z.of_nat size + offset)).

(** [file.readlines()] on the bytes that remain: the lines with their
    line ends. *)
Fixpoint readlines (content : list ascii) : list (list ascii) :=
  match content with
  | [] => []
  | c :: rest =>
      if Ascii.eqb c "010" then [c] :: readlines rest
      else match readlines rest with
           | [] => [[c]]
           | line :: lines => (c :: line) :: lines
           end
  end.

(** ** The module *)

(** What a running server says of itself. *)
Record ServerInfo : Type := {
  base_url : option string;
  password : option bool;
  pid : option Z;
  port : option Z;
  root_dir : option string;
  secure : option bool;
  sock : option string;
  token : option string;
  url : option string;
  version : option string
}.

(** The declared type of a session. *)
Definition SessionInfo (v : json) : bool :=
  match v with
  | JObject members =>
      field_is members "id" is_str && field_is members "path" is_str
      && field_is members "name" is_str && field_is members "type" is_str
      && field_is members "kernel" (is_dict_of (fun v => is_str v || is_int v))
      && field_is members "notebook" (is_dict_of is_str)
  | _ => false
  end.

Record NoteBookInfomation : Type := {
  server : ServerInfo;
  session : json
}.

(** An entry of the history: the session, the line and the input. *)
Definition history_entry : Type := Z * Z * string.

Record HistoryManager : Type := {
  get_tail : Z -> iterable history_entry
}.

Record InteractiveShell : Type := {
  history_manager : option HistoryManager
}.

(** The entries of [arpes.config.CONFIG] the module reads. *)
Record Config : Type := {
  LOGGING_STARTED : bool;
  LOGGING_FILE : option string
}.

(** What the module reads of the machine it runs on. *)
Class Jupyter : Type := {
  (** [ipykernel] and [jupyter_server] can be imported *)
  import_jupyter : bool;
  (** [ipykernel.get_connection_file()] *)
  get_connection_file : pyres string;
  (** [serverapp.list_running_servers()] *)
  list_running_servers : iterable ServerInfo;
  (** [json.load(urllib.request.urlopen(url))] *)
  load_sessions : string -> pyres json;
  (** [IPython] can be imported *)
  import_ipython : bool;
  (** [get_ipython()], when it is an [InteractiveShell] *)
  get_ipython : option InteractiveShell;
  CONFIG : Config;
  (** the bytes of [Path(name).open("rb")] *)
  open_rb : string -> pyres (list ascii);
  (** [bytes.decode()] *)
  decode : list ascii -> pyres string;
  (** what [datetime.datetime.now] returns at its n-th call *)
  clock : nat -> datetime
}.

(** What the module changes. *)
Record World : Type := {
  warnings : list string;
  now_calls : nat
}.

Section Defs.
Context {J : Jupyter}.
Local Open Scope string_scope.
Local Open Scope list_scope.

(** [warnings.warn(msg)]. *)
Definition warn (msg : string) : ui World unit :=
  uwrite (fun w => {| warnings := warnings w ++ [msg]; now_calls := now_calls w |}).

(** [datetime.datetime.now(UTC)]. *)
Definition now : ui World datetime :=
  fun w => (Ok (clock (now_calls w)),
            {| warnings := warnings w; now_calls := S (now_calls w) |}).

(** The identifier of the kernel in the stem of its connection file: what
    follows the first hyphen, or the stem itself. *)
Definition kernel_id_of (connection_file : string) : pyres string :=
  if contains "-" connection_file
  then py_index (split_once "-" connection_file) 1
  else Ok connection_file.

(** [not server["token"] and not server["password"]]. *)
Definition passwordless_of (server : ServerInfo) : pyres bool :=
  (let* token := or_raise KeyError (token server) in
   if bool_decide (token = "") then
     let* password := or_raise KeyError (password server) in
     Ok (negb password)
   else Ok false)%py.

(** The address of the sessions of a server. *)
Definition sessions_url (server : ServerInfo) : pyres string :=
  (let* passwordless := passwordless_of server in
   let* url := or_raise KeyError (url server) in
   let* query :=
     if passwordless then Ok ""
     else (let* token := or_raise KeyError (token server) in
           Ok ("?token=" +:+ token)) in
   Ok (url +:+ "api/sessions" +:+ query))%py.

(** [sess["kernel"]["id"]]. *)
Definition session_kernel_id (sess : json) : pyres json :=
  (let* kernel := json_getitem sess "kernel" in
   json_getitem kernel "id")%py.

(** A session of another kernel. *)
Definition other_kernel (kernel_id : string) (sess : json) : Prop :=
  exists id, session_kernel_id sess = Ok id /\ json_is id kernel_id = false.

(** The loop over the sessions of a server, which returns at the first
    session of the kernel. *)
Fixpoint find_session (kernel_id : string) (server : ServerInfo)
    (sessions : list json) : pyres (option NoteBookInfomation) :=
  match sessions with
  | [] => Ok None
  | sess :: rest =>
      (let* id := session_kernel_id sess in
       if json_is id kernel_id
       then Ok (Some {| server := server; session := sess |})
       else find_session kernel_id server rest)%py
  end.

(** The body of the [try] block for one server. *)
Definition ask_server (kernel_id : string) (server : ServerInfo)
    : pyres (option NoteBookInfomation) :=
  (let* url := sessions_url server in
   if negb (startswith url "http:" || startswith url "https:")
   then Raise ValueError
   else
     let* sessions := load_sessions url in
     let* sessions := json_iter sessions in
     find_session kernel_id server sessions)%py.

(** One turn of the loop over the servers: [KeyError] and [TypeError]
    pass to the next server. *)
Definition try_server (kernel_id : string) (server : ServerInfo)
    : pyres (option NoteBookInfomation) :=
  match ask_server kernel_id server with
  | Raise KeyError | Raise TypeError => Ok None
  | r => r
  end.

Fixpoint search_servers (kernel_id : string) (servers : list ServerInfo)
    : pyres (option NoteBookInfomation) :=
  match servers with
  | [] => Ok None
  | server :: rest =>
      (let* found := try_server kernel_id server in
       match found with
       | Some info => Ok (Some info)
       | None => search_servers kernel_id rest
       end)%py
  end.

Definition get_full_notebook_information : ui World (option NoteBookInfomation) :=
  if negb import_jupyter then
    (let# _ := warn "Check your installation about ipykernel & jupyter_server (newer should be better)." in
     uret None)%ui
  else
    match get_connection_file with
    | Raise MultipleInstanceError | Raise RuntimeError => uret None
    | Raise e => ulift (Raise e)
    | Ok file =>
        let connection_file := path_stem file in
        ulift
          (let* kernel_id := kernel_id_of connection_file in
           let servers := list_running_servers in
           (* the debug message holds list(servers) *)
           let '(_, servers) := iterate servers in
           let '(servers, _) := iterate servers in
           search_servers kernel_id servers)%py
    end.

(** [Path(jupyter_info["session"]["notebook"]["name"]).stem]. *)
Definition notebook_stem (info : NoteBookInfomation) : pyres string :=
  (let* notebook := json_getitem (session info) "notebook" in
   let* name := json_getitem notebook "name" in
   match name with
   | JString s => Ok (path_stem s)
   | _ => Raise TypeError
   end)%py.

Definition get_notebook_name : ui World (option string) :=
  (let# jupyter_info := get_full_notebook_information in
   match jupyter_info with
   | Some info => let# name := ulift (notebook_stem info) in uret (Some name)
   | None => uret None
   end)%ui.

(** The time of day in the name of the log file. *)
Definition logfile_time (d : datetime) : pyres string :=
  (let* whole := py_index (split_on "." (time_isoformat d)) 0 in
   Ok (replace_char ":" "-" whole))%py.

Definition generate_logfile_path : ui World string :=
  (let# name := get_notebook_name in
   let base_name :=
     match name with
     | Some s => if bool_decide (s = "") then "unnamed" else s
     | None => "unnamed"
     end in
   let# today := now in
   let# at_time := now in
   let# time := ulift (logfile_time at_time) in
   let full_name :=
     base_name +:+ "_" +:+ date_isoformat today +:+ "_" +:+ time +:+ ".log" in
   uret (path_join "logs" full_name))%ui.

(** The shell the two history functions start from: the imports, the
    call of [get_ipython] and the assertion. *)
Definition the_shell : pyres InteractiveShell :=
  if import_ipython then or_raise AssertionError get_ipython
  else Raise ImportError.

(** [ipython.history_manager.get_tail(n=n, include_latest=True)]. *)
Definition history_tail (ipython : InteractiveShell) (n : Z)
    : pyres (iterable history_entry) :=
  (let* manager := or_raise AttributeError (history_manager ipython) in
   Ok (get_tail manager n))%py.

(** What the [except] clause of the two history functions catches. *)
Definition no_shell (e : pyerr) : bool :=
  match e with
  | ImportError | AttributeError | AssertionError => true
  | _ => false
  end.

Definition get_recent_history (n_items : Z) : pyres (list string) :=
  match (let* ipython := the_shell in
         let* tail := history_tail ipython n_items in
         Ok (map snd (fst (iterate tail))))%py with
  | Ok inputs => Ok inputs
  | Raise e => if no_shell e then Ok ["No accessible history."] else Raise e
  end.

(** The position the file is read from: [n_bytes] before its end, or its
    start when it is shorter. *)
Definition tail_position (size : nat) (n_bytes : Z) : pyres nat :=
  match seek_end size (- n_bytes) with
  | Raise OSError => Ok 0
  | r => r
  end.

(** The body of the [try] block of [get_recent_logs]: [None] when logging
    has not started. *)
Definition recent_logs (n_bytes : Z) : pyres (option (list string)) :=
  (let* ipython := the_shell in
   if LOGGING_STARTED CONFIG then
     let* logging_file := or_raise AssertionError (LOGGING_FILE CONFIG) in
     let* content := open_rb logging_file in
     let* position := tail_position (length content) n_bytes in
     let lines := readlines (drop position content) in
     let* tail := history_tail ipython 1 in
     let* latest := subscript tail 0 in
     let final_cell := snd latest in
     let* decoded := pymap decode lines in
     Ok (Some (decoded ++ [final_cell]))
   else Ok None)%py.

Definition get_recent_logs (n_bytes : Z) : pyres (list string) :=
  let unavailable :=
    ["No logging available. Logging is only available inside Jupyter."] in
  match recent_logs n_bytes with
  | Ok (Some logs) => Ok logs
  | Ok None => Ok unavailable
  | Raise e => if no_shell e then Ok unavailable else Raise e
  end.

End Defs.

(** * Example data *)

Section ExampleData.
Local Open Scope string_scope.

Definition ex_server (tok address : string) : ServerInfo :=
  {| base_url := Some "/"; password := Some false; pid := Some 4242%Z;
     port := Some 8888%Z; root_dir := Some "/home/user"; secure := Some false;
     sock := Some ""; token := Some tok; url := Some address;
     version := Some "2.14.0" |}.

Definition ex_session (kernel name : string) : json :=
  JObject [("id", JString "6e1d"); ("path", JString name); ("name", JString name);
           ("type", JString "notebook");
           ("kernel", JObject [("id", JString kernel); ("name", JString "python3")]);
           ("notebook", JObject [("path", JString name); ("name", JString name)])].

Definition ex_servers : list ServerInfo :=
  [ex_server "" "http://localhost:8888/"; ex_server "abc" "http://localhost:8889/"].

Definition ex_history : list history_entry :=
  [(1, 1, "import arpes"); (1, 2, "data = load(1)"); (1, 3, "fit(data)")]%Z.

Definition ex_log : list ascii :=
  String.list_ascii_of_string
    ("load 1" +:+ String "010" ("fit started" +:+ String "010" "fit done")).

Definition ex_evening : datetime :=
  {| year := 2024; month := 3; day := 9; hour := 23; minute := 59;
     second := 59; microsecond := 900000 |}%Z.

Definition ex_morning : datetime :=
  {| year := 2024; month := 3; day := 10; hour := 0; minute := 0;
     second := 0; microsecond := 100 |}%Z.

Definition ex_manager (tail : list history_entry -> iterable history_entry)
    : HistoryManager :=
  {| get_tail n := tail (drop (length ex_history - Z.to_nat n) ex_history) |}.

Definition ex_shell (tail : list history_entry -> iterable history_entry)
    : InteractiveShell :=
  {| history_manager := Some (ex_manager tail) |}.

(** A machine with two servers, of which the second has the session of
    the kernel; [servers] and [tail] say how the servers and the history
    are handed out, and the clock passes midnight between its first two
    readings. *)
Definition ex_jupyter (servers : list ServerInfo -> iterable ServerInfo)
    (tail : list history_entry -> iterable history_entry) : Jupyter :=
  {| import_jupyter := true;
     get_connection_file := Ok "/run/user/1000/jupyter/runtime/kernel-3f2a-77c1.json";
     list_running_servers := servers ex_servers;
     load_sessions address :=
       if String.eqb address "http://localhost:8888/api/sessions"
       then Ok (JArray [ex_session "0000-1111" "Other.ipynb"])
       else if String.eqb address "http://localhost:8889/api/sessions?token=abc"
       then Ok (JArray [ex_session "9999" "Third.ipynb";
                        ex_session "3f2a-77c1" "work/Doping-Analysis.ipynb"])
       else Raise OSError;
     import_ipython := true;
     get_ipython := Some (ex_shell tail);
     CONFIG := {| LOGGING_STARTED := true; LOGGING_FILE := Some "logs/run.log" |};
     open_rb name := if String.eqb name "logs/run.log" then Ok ex_log else Raise OSError;
     decode bytes :=
       if forallb (fun c => Nat.ltb (nat_of_ascii c) 128) bytes
       then Ok (String.string_of_list_ascii bytes) else Raise ValueError;
     clock n := match n with 0 => ex_evening | _ => ex_morning end |}.

Definition ex_world : World := {| warnings := []; now_calls := 0 |}.

(** The machine as Jupyter and IPython hand their collections out, and
    the machine the code is written for. *)
Definition ex_iterators : Jupyter := ex_jupyter Iterator Iterator.
Definition ex_sequences : Jupyter := ex_jupyter Sequence Sequence.

(** What the second server knows of the notebook of the kernel. *)
Definition ex_information : NoteBookInfomation :=
  {| server := ex_server "abc" "http://localhost:8889/";
     session := ex_session "3f2a-77c1" "work/Doping-Analysis.ipynb" |}.

End ExampleData.

(** * Facts *)

(** ** Iterables *)

(** What is left of an iterable after [list]: a sequence gives its items
    again, an iterator none. *)
Lemma iterate_again {A} (it : iterable A) :
  fst (iterate (snd (iterate it)))
  = match it with Sequence items => items | Iterator _ => [] end.
Proof. by destruct it. Qed.

(** ** Paths *)

Section Paths.
Local Open Scope string_scope.

Lemma rfind_absent (c : ascii) (s : string) :
  has_char c s = false -> rfind c s = None.
Proof.
  induction s as [| a s IH]; [done |]. cbn [has_char rfind].
  intros [-> Hs]%orb_false_elim. by rewrite (IH Hs).
Qed.

(** The last occurrence is the one nothing follows. *)
Lemma rfind_last (c : ascii) (a b : string) :
  has_char c b = false -> rfind c (a +:+ String c b) = Some (String.length a).
Proof.
  intros Hb. induction a as [| x a IH].
  - change (EmptyString +:+ ?y) with y. cbn [rfind].
    by rewrite (rfind_absent _ _ Hb), Ascii.eqb_refl.
  - rewrite append_cons. cbn [rfind String.length]. by rewrite IH.
Qed.

Lemma substring_prefix (a b : string) :
  String.substring 0 (String.length a) (a +:+ b) = a.
Proof.
  induction a as [| x a IH]; [by destruct b |].
  rewrite append_cons. cbn [String.length String.substring]. by rewrite IH.
Qed.

(** The name of a path is its last component. *)
Lemma path_name_last (dir name : string) :
  has_char "/" name = false -> name <> "" -> name <> "." ->
  path_name (dir +:+ String "/" name) = name.
Proof.
  intros Hslash Hne Hdot. unfold path_name.
  rewrite split_on_append, (split_on_no_sep _ name Hslash).
  rewrite filter_app, filter_cons_True, filter_nil by done.
  by rewrite last_snoc.
Qed.

(** The stem of a name is what stands before its last dot, when
    something stands on both sides of it. *)
Lemma path_stem_name (dir base ext : string) :
  has_char "/" base = false -> has_char "/" ext = false ->
  has_char "." ext = false -> base <> "" -> ext <> "" ->
  path_stem (dir +:+ String "/" (base +:+ String "." ext)) = base.
Proof.
  intros Hb He Hdot Hbase Hext. unfold path_stem.
  rewrite path_name_last; cycle 1.
  - rewrite has_char_append. cbn [has_char]. by rewrite Hb, He.
  - by destruct base.
  - destruct base as [| x [| y base]]; [done | | done]. by destruct ext.
  - rewrite (rfind_last _ _ _ Hdot), string_length_append.
    cbn [String.length].
    destruct base as [| x base]; [done |]. destruct ext as [| y ext]; [done |].
    cbn [String.length].
    rewrite !(proj2 (Nat.ltb_lt _ _)) by lia.
    apply (substring_prefix (String x base)).
Qed.

End Paths.

(** ** Dates and times *)

Section Time.
Local Open Scope string_scope.

Lemma digit_range (n : Z) :
  48 <= nat_of_ascii (digit n) /\ nat_of_ascii (digit n) <= 57.
Proof.
  unfold digit. pose proof (Z.mod_pos_bound n 10 eq_refl).
  rewrite nat_ascii_embedding; lia.
Qed.

Lemma zero_padded_digits (c : ascii) (width : nat) (n : Z) :
  no_digit c -> has_char c (zero_padded width n) = false.
Proof.
  intros Hc. revert n. induction width as [| w IH]; intros n; [done |].
  cbn [zero_padded]. rewrite has_char_append, IH. cbn [has_char orb].
  rewrite orb_false_r. apply Ascii.eqb_neq. intros E.
  pose proof (digit_range n). rewrite E in *. unfold no_digit in Hc. lia.
Qed.

Lemma zero_padded_length (width : nat) (n : Z) :
  String.length (zero_padded width n) = width.
Proof.
  revert n. induction width as [| w IH]; intros n; [done |].
  cbn [zero_padded]. rewrite string_length_append, IH. cbn. lia.
Qed.

Lemma time_isoformat_clock (d : datetime) :
  time_isoformat d
  = clock_text ":" d
    +:+ (if (microsecond d =? 0)%Z then ""
         else String "." (zero_padded 6 (microsecond d))).
Proof.
  unfold time_isoformat, clock_text.
  rewrite !append_assoc, !append_cons. by destruct (_ =? _)%Z.
Qed.

Lemma clock_text_no (c sep : ascii) (d : datetime) :
  no_digit c -> c <> sep -> has_char c (clock_text sep d) = false.
Proof.
  intros Hc Hsep%Ascii.eqb_neq. unfold clock_text.
  rewrite !has_char_append. cbn [has_char].
  rewrite Ascii.eqb_sym in Hsep. by rewrite Hsep, !zero_padded_digits.
Qed.

Lemma replace_clock_text (old new : ascii) (d : datetime) :
  no_digit old -> replace_char old new (clock_text old d) = clock_text new d.
Proof.
  intros Hold. unfold clock_text.
  rewrite !replace_char_append. cbn [replace_char].
  by rewrite Ascii.eqb_refl, !replace_char_absent by by apply zero_padded_digits.
Qed.

End Time.

(** ** Files *)

Section Files.

(** The lines of a file are its bytes, cut and not changed. *)
Theorem readlines_concat (content : list ascii) :
  concat (readlines content) = content.
Proof.
  induction content as [| c rest IH]; [done |]. cbn [readlines].
  destruct (Ascii.eqb c "010"); [by cbn; rewrite IH |].
  destruct (readlines rest) as [| line lines]; cbn in *; by rewrite <- IH.
Qed.

Lemma readlines_nonempty (content : list ascii) :
  Forall (fun line => line <> []) (readlines content).
Proof.
  induction content as [| c rest IH]; [constructor |]. cbn [readlines].
  destruct (Ascii.eqb c "010"); [by constructor |].
  destruct (readlines rest) as [| line lines]; [by repeat constructor |].
  apply Forall_cons in IH as [_ IH]. by constructor.
Qed.

(** A line ends at its first line end: a line end stands last in its
    line or nowhere. *)
Lemma readlines_line_ends (content : list ascii) :
  Forall (fun line => forall before after,
            line = before ++ "010"%char :: after -> after = [])
    (readlines content).
Proof.
  induction content as [| c rest IH]; [constructor |]. cbn [readlines].
  destruct (Ascii.eqb_spec c "010") as [-> | Hc].
  - constructor; [| done]. intros [| b before] after [= E]; [done |].
    by destruct before.
  - destruct (readlines rest) as [| line lines].
    + repeat constructor. intros [| b before] after [= E]; [done |].
      by destruct before.
    + apply Forall_cons in IH as [Hline IH]. constructor; [| done].
      intros [| b before] after [= E]; [done |]. by eapply Hline.
Qed.

(** [tail_position] raises nothing: the position is the size less
    [n_bytes], and the start of the file when that lies before it. *)
Lemma tail_position_cases (size : nat) (n_bytes : Z) :
  tail_position size n_bytes = Ok (Z.to_nat (Z.of_nat size - n_bytes)).
Proof.
  unfold tail_position, seek_end.
  destruct (Z.ltb_spec (Z.of_nat size + - n_bytes) 0); f_equal; lia.
Qed.

(** Of a file with at least [n_bytes] bytes the last [n_bytes] are
    read, of a shorter file all of them: what is read is an end of the
    file of [min n_bytes size] bytes. *)
Theorem tail_position_bound (content : list ascii) (n_bytes : Z) :
  (0 <= n_bytes)%Z ->
  exists position,
    tail_position (length content) n_bytes = Ok position
    /\ length (drop position content)
       = Z.to_nat (Z.min n_bytes (Z.of_nat (length content)))
    /\ concat (readlines (drop position content)) = drop position content.
Proof.
  intros Hn. eexists. split; [apply tail_position_cases |].
  split; [| apply readlines_concat]. rewrite length_drop. lia.
Qed.

End Files.

(** ** The name of the log file *)

Section LogFile.
Local Open Scope string_scope.

Lemma append_empty_r (s : string) : s +:+ "" = s.
Proof. induction s as [| c s IH]; [done |]. by rewrite append_cons, IH. Qed.

(** The time in the name of the log file is the time of day with hyphens,
    whether the clock shows microseconds or not. *)
Theorem logfile_time_clock (d : datetime) :
  logfile_time d = Ok (clock_text "-" d).
Proof.
  assert (no_digit "."%char) as Hdot by (left; by apply Nat.ltb_lt).
  assert (no_digit ":"%char) as Hcolon by (right; by apply Nat.ltb_lt).
  unfold logfile_time. rewrite time_isoformat_clock.
  destruct (microsecond d =? 0)%Z.
  - rewrite append_empty_r, split_on_no_sep by by apply clock_text_no.
    rewrite (py_index_nat _ 0). cbn [lookup list_lookup or_raise pybind].
    by rewrite replace_clock_text.
  - rewrite split_on_first by by apply clock_text_no.
    rewrite (py_index_nat _ 0). cbn [lookup list_lookup or_raise pybind].
    by rewrite replace_clock_text.
Qed.

(** The identifier of the kernel is what follows the first hyphen of the
    stem, and the stem when it has no hyphen: [kernel_id_of] raises
    nothing. *)
Theorem kernel_id_of_cases (stem : string) :
  (has_char "-" stem = false /\ kernel_id_of stem = Ok stem)
  \/ exists before after,
       stem = before +:+ String "-" after
       /\ has_char "-" before = false
       /\ kernel_id_of stem = Ok after.
Proof.
  unfold kernel_id_of. rewrite contains_char.
  destruct (split_once_cases "-" stem) as [[Hno E] | (b & a & E & -> & Hb)].
  - left. by rewrite Hno.
  - right. exists b, a. rewrite E, has_char_append. cbn [has_char].
    by rewrite Ascii.eqb_refl, orb_true_r.
Qed.

End LogFile.

(** ** The search of the servers *)

Section Search.
Context {J : Jupyter}.
Local Open Scope string_scope.
Implicit Types (server : ServerInfo) (sess : json) (kernel_id : string).

Lemma find_session_skip kernel_id server (before rest : list json) :
  Forall (other_kernel kernel_id) before ->
  find_session kernel_id server (before ++ rest)
  = find_session kernel_id server rest.
Proof.
  induction 1 as [| sess before (id & Hid & Hne) _ IH]; [done |].
  cbn [app find_session]. by rewrite Hid; cbn; rewrite Hne.
Qed.

(** The loop over the sessions returns the first session of the
    kernel. *)
Lemma find_session_first kernel_id server (before after : list json) sess id :
  Forall (other_kernel kernel_id) before ->
  session_kernel_id sess = Ok id -> json_is id kernel_id = true ->
  find_session kernel_id server (before ++ sess :: after)
  = Ok (Some {| server := server; session := sess |}).
Proof.
  intros Hb Hid Heq. rewrite (find_session_skip _ _ _ _ Hb).
  cbn [find_session]. by rewrite Hid; cbn; rewrite Heq.
Qed.

(** What the loop returns is one of the sessions, with the server. *)
Lemma find_session_found kernel_id (asked : ServerInfo) (sessions : list json) info :
  find_session kernel_id asked sessions = Ok (Some info) ->
  server info = asked /\ session info ∈ sessions
  /\ exists id, session_kernel_id (session info) = Ok id
                /\ json_is id kernel_id = true.
Proof.
  induction sessions as [| sess rest IH]; [done |]. cbn [find_session].
  destruct (session_kernel_id sess) as [id |] eqn:Hid; [| done]. cbn.
  destruct (json_is id kernel_id) eqn:Heq.
  - intros [= <-]. cbn. split; [done |]. split; [left | by exists id].
  - intros (-> & Hin & Hk)%IH. split; [done |]. split; [by right | done].
Qed.

Lemma search_servers_skip kernel_id (before rest : list ServerInfo) :
  Forall (fun server => try_server kernel_id server = Ok None) before ->
  search_servers kernel_id (before ++ rest) = search_servers kernel_id rest.
Proof.
  induction 1 as [| server before Hs _ IH]; [done |].
  cbn [app search_servers]. by rewrite Hs.
Qed.

(** The search returns what the first server that has the session
    answers; the servers after it are not asked. *)
Theorem search_servers_first kernel_id (before after : list ServerInfo)
    server info :
  Forall (fun server => try_server kernel_id server = Ok None) before ->
  try_server kernel_id server = Ok (Some info) ->
  search_servers kernel_id (before ++ server :: after) = Ok (Some info).
Proof.
  intros Hb Hs. rewrite (search_servers_skip _ _ _ Hb).
  cbn [search_servers]. by rewrite Hs.
Qed.

(** A server whose address does not start with [http:] or
    [https:] ends the search with [ValueError], which the loop does not
    catch: the servers after it are not asked. *)
Theorem search_servers_bad_url kernel_id (before after : list ServerInfo)
    server address :
  Forall (fun server => try_server kernel_id server = Ok None) before ->
  sessions_url server = Ok address ->
  startswith address "http:" = false -> startswith address "https:" = false ->
  search_servers kernel_id (before ++ server :: after) = Raise ValueError.
Proof.
  intros Hb Hu H1 H2. rewrite (search_servers_skip _ _ _ Hb).
  cbn [search_servers]. unfold try_server, ask_server.
  by rewrite Hu; cbn; rewrite H1, H2.
Qed.

(** A server without token or address, or with an answer that is not a
    collection of sessions, is passed over. *)
Lemma try_server_passes kernel_id server e :
  ask_server kernel_id server = Raise e -> e = KeyError \/ e = TypeError ->
  try_server kernel_id server = Ok None.
Proof. unfold try_server. by intros -> [-> | ->]. Qed.

End Search.

(** ** Sessions of the declared type *)

Section Types.
Local Open Scope string_scope.

(** A JSON object has no order: what the search reads of a session, and
    whether the session has the declared type, depends on its members
    as a dictionary only. *)
#[export] Instance json_getitem_proper :
  Proper (dict_equiv ==> eq ==> eq) (fun members => json_getitem (JObject members)).
Proof. intros m m' E key ? <-. cbn [json_getitem]. by rewrite E. Qed.

#[export] Instance field_is_proper :
  Proper (dict_equiv ==> eq ==> eq ==> eq) field_is.
Proof. intros m m' E key ? <- T ? <-. unfold field_is. by rewrite E. Qed.

#[export] Instance session_kernel_id_proper :
  Proper (dict_equiv ==> eq) (fun members => session_kernel_id (JObject members)).
Proof. intros m m' E. unfold session_kernel_id. cbn [json_getitem]. by rewrite E. Qed.

#[export] Instance SessionInfo_proper :
  Proper (dict_equiv ==> eq) (fun members => SessionInfo (JObject members)).
Proof. intros m m' E. cbn [SessionInfo]. by rewrite E. Qed.

(** A session of another kernel is one in whatever order its members
    come. *)
#[export] Instance other_kernel_proper (kernel_id : string) :
  Proper (dict_equiv ==> iff) (fun members => other_kernel kernel_id (JObject members)).
Proof.
  intros m m' E. unfold other_kernel.
  by pose proof (session_kernel_id_proper _ _ E) as ->.
Qed.

(** A key of a typed dictionary is absent or of its type. *)
Lemma field_is_item (members : list (string * json)) (key : string)
    (T : json -> bool) :
  field_is members key T = true ->
  dict_item members key = Raise KeyError
  \/ exists v, dict_item members key = Ok v /\ T v = true.
Proof.
  unfold field_is, dict_item. destruct (dict_get members key); cbn; eauto.
Qed.

Lemma SessionInfo_fields (sess : json) :
  SessionInfo sess = true ->
  exists members,
    sess = JObject members
    /\ field_is members "kernel" (is_dict_of (fun v => is_str v || is_int v)) = true
    /\ field_is members "notebook" (is_dict_of is_str) = true.
Proof.
  destruct sess as [| | | | | members]; try done. cbn [SessionInfo].
  rewrite !andb_true_iff. intros [[_ Hk] Hn]. by exists members.
Qed.

(** A dictionary raises [KeyError] or gives a value of its type. *)
Lemma is_dict_of_getitem (T : json -> bool) (v : json) (key : string) :
  is_dict_of T v = true ->
  json_getitem v key = Raise KeyError
  \/ exists x, json_getitem v key = Ok x /\ T x = true.
Proof.
  destruct v as [| | | | | members]; try done. cbn [is_dict_of json_getitem].
  intros Hall. unfold dict_item.
  induction members as [| [k x] members IH]; [by left |].
  cbn in Hall. apply andb_true_iff in Hall as [Hx Hall]. cbn [dict_get].
  destruct (keq k key); [right; by exists x | by apply IH].
Qed.

Lemma session_kernel_id_typed (sess : json) :
  SessionInfo sess = true ->
  session_kernel_id sess = Raise KeyError
  \/ exists id, session_kernel_id sess = Ok id.
Proof.
  intros Hs. unfold session_kernel_id.
  destruct (SessionInfo_fields sess Hs) as (members & -> & Hk & _).
  cbn [json_getitem].
  destruct (field_is_item _ _ _ Hk) as [-> | (v & -> & Hv)]; [by left |].
  cbn. destruct (is_dict_of_getitem _ v "id" Hv) as [-> | (id & -> & _)]; eauto.
Qed.

(** Claim C23. On sessions of the declared type the loop over the sessions
    raises nothing but [KeyError]: the [TypeError] the search also
    catches comes from answers that are not of that type. *)
Theorem find_session_typed (kernel_id : string) (server : ServerInfo)
    (sessions : list json) :
  Forall (fun sess => SessionInfo sess = true) sessions ->
  find_session kernel_id server sessions = Raise KeyError
  \/ exists found, find_session kernel_id server sessions = Ok found.
Proof.
  induction 1 as [| sess rest Hs _ IH]; [right; by eexists |].
  cbn [find_session].
  destruct (session_kernel_id_typed sess Hs) as [-> | (id & ->)]; [by left |].
  cbn. destruct (json_is id kernel_id); [right; by eexists | done].
Qed.

(** Of a session of the declared type the name of the notebook is a
    string, or [KeyError] is raised. *)
Theorem notebook_stem_typed (info : NoteBookInfomation) :
  SessionInfo (session info) = true ->
  notebook_stem info = Raise KeyError
  \/ exists name, notebook_stem info = Ok name.
Proof.
  intros Hs. unfold notebook_stem.
  destruct (SessionInfo_fields _ Hs) as (members & -> & _ & Hn).
  cbn [json_getitem].
  destruct (field_is_item _ _ _ Hn) as [-> | (v & -> & Hv)]; [by left |].
  cbn. destruct (is_dict_of_getitem _ v "name" Hv) as [-> | (x & -> & Hx)];
    [by left |].
  cbn. destruct x; try done. eauto.
Qed.

End Types.

(** ** The notebook of the kernel *)

Section Information.
Context {J : Jupyter}.
Local Open Scope string_scope.

(** Only a failed import changes the world, by its warning. *)
Lemma get_full_notebook_information_world (w : World) :
  snd (get_full_notebook_information w)
  = if import_jupyter then w
    else {| warnings := warnings w ++ ["Check your installation about ipykernel & jupyter_server (newer should be better)."];
            now_calls := now_calls w |}.
Proof.
  unfold get_full_notebook_information.
  destruct import_jupyter; [| done]. cbn [negb].
  by destruct get_connection_file as [file | []].
Qed.

(** With the servers as an iterator no session is found. *)
Lemma information_of_iterator (rest : list ServerInfo) (w : World)
    (info : NoteBookInfomation) :
  list_running_servers = Iterator rest ->
  fst (get_full_notebook_information w) <> Ok (Some info).
Proof.
  intros Hit. unfold get_full_notebook_information.
  destruct import_jupyter; [| done]. cbn [negb].
  destruct get_connection_file as [file | []]; try done.
  cbn. rewrite Hit. by destruct (kernel_id_of _).
Qed.

(** When the servers come as a sequence the function is the search of
    them for the kernel of the connection file. *)
Theorem get_full_notebook_information_sequence (servers : list ServerInfo)
    (file kernel_id : string) (w : World) :
  import_jupyter = true -> get_connection_file = Ok file ->
  kernel_id_of (path_stem file) = Ok kernel_id ->
  list_running_servers = Sequence servers ->
  get_full_notebook_information w = (search_servers kernel_id servers, w).
Proof.
  intros Hi Hf Hk Hs. unfold get_full_notebook_information.
  rewrite Hi, Hf. cbn. by rewrite Hk, Hs.
Qed.

(** Without a session there is no name. *)
Lemma get_notebook_name_none (w w' : World) :
  get_full_notebook_information w = (Ok None, w') ->
  get_notebook_name w = (Ok None, w').
Proof. intros E. unfold get_notebook_name, ubind. by rewrite E. Qed.

(** Claim C19. When the servers come as an iterator, as Jupyter hands them out,
    the search finds no session and the notebook has no name, whatever
    the servers answer: the debug message has taken every server before
    the loop starts. *)
Theorem get_full_notebook_information_iterator (rest : list ServerInfo)
    (w : World) :
  list_running_servers = Iterator rest ->
  (forall info, fst (get_full_notebook_information w) <> Ok (Some info))
  /\ (forall name, fst (get_notebook_name w) <> Ok (Some name)).
Proof.
  intros Hit. split; [intros info; by eapply information_of_iterator |].
  intros name. unfold get_notebook_name, ubind.
  pose proof (information_of_iterator rest w) as Hno.
  destruct (get_full_notebook_information w) as [[[info |] | e] w']; try done.
  by destruct (Hno info Hit).
Qed.

(** With a session, the name is the stem of the name of its notebook. *)
Lemma get_notebook_name_some (w w' : World) (info : NoteBookInfomation) :
  get_full_notebook_information w = (Ok (Some info), w') ->
  get_notebook_name w
  = (match notebook_stem info with Ok name => Ok (Some name) | Raise e => Raise e end,
     w').
Proof.
  intros E. unfold get_notebook_name, ubind. rewrite E. unfold ulift, uread.
  by destruct (notebook_stem info).
Qed.

(** When the servers come as a sequence and one of them has the session
    of the kernel, the name of the notebook is the stem of the name the
    session gives. *)
Theorem get_notebook_name_found (servers : list ServerInfo)
    (file kernel_id name : string) (info : NoteBookInfomation) (w : World) :
  import_jupyter = true -> get_connection_file = Ok file ->
  kernel_id_of (path_stem file) = Ok kernel_id ->
  list_running_servers = Sequence servers ->
  search_servers kernel_id servers = Ok (Some info) ->
  notebook_stem info = Ok name ->
  get_notebook_name w = (Ok (Some name), w).
Proof.
  intros Hi Hf Hk Hs Hfound Hname.
  rewrite (get_notebook_name_some w w info), Hname; [done |].
  by rewrite (get_full_notebook_information_sequence servers file kernel_id),
       Hfound.
Qed.

(** With a notebook of a name that is not empty, the log file has the
    name of the notebook. *)
Theorem generate_logfile_path_named (w w' : World) (c : ascii) (name : string) :
  get_notebook_name w = (Ok (Some (String c name)), w') -> c <> "/"%char ->
  generate_logfile_path w
  = (Ok ("logs/" +:+ String c name +:+ "_"
         +:+ date_isoformat (clock (now_calls w'))
         +:+ "_" +:+ clock_text "-" (clock (S (now_calls w'))) +:+ ".log"),
     {| warnings := warnings w'; now_calls := S (S (now_calls w')) |}).
Proof.
  intros E Hc. unfold generate_logfile_path, ubind. rewrite E.
  rewrite bool_decide_eq_false_2 by done. cbn [now fst snd uret ulift uread].
  rewrite logfile_time_clock. unfold path_join, startswith.
  rewrite append_cons, prefix_cons, bool_decide_eq_false_2 by congruence.
  done.
Qed.

(** Without a notebook the log file is [unnamed], with the date of
    one reading of the clock and the time of day of the next. *)
Theorem generate_logfile_path_unnamed (w w' : World) :
  get_full_notebook_information w = (Ok None, w') ->
  generate_logfile_path w
  = (Ok ("logs/unnamed_" +:+ date_isoformat (clock (now_calls w')) +:+ "_"
         +:+ clock_text "-" (clock (S (now_calls w'))) +:+ ".log"),
     {| warnings := warnings w'; now_calls := S (S (now_calls w')) |}).
Proof.
  intros E%get_notebook_name_none. unfold generate_logfile_path, ubind.
  rewrite E. cbn. by rewrite logfile_time_clock.
Qed.

End Information.

(** ** History and logs *)

Section History.
Context {J : Jupyter}.
Local Open Scope string_scope.
Local Open Scope list_scope.

(** [get_recent_history] raises nothing: without a shell or a
    history it returns its message. *)
Theorem get_recent_history_total (n_items : Z) :
  exists inputs, get_recent_history n_items = Ok inputs.
Proof.
  unfold get_recent_history, the_shell, history_tail.
  destruct import_ipython; [| by eexists].
  destruct get_ipython as [[[manager |]] |]; by eexists.
Qed.

(** In a shell the history is the inputs of the tail, of a sequence or of
    an iterator. *)
Theorem get_recent_history_inputs (n_items : Z) (ipython : InteractiveShell)
    (manager : HistoryManager) :
  the_shell = Ok ipython -> history_manager ipython = Some manager ->
  get_recent_history n_items
  = Ok (map snd (fst (iterate (get_tail manager n_items)))).
Proof.
  intros Hs Hm. unfold get_recent_history, history_tail.
  rewrite Hs. cbn [pybind]. by rewrite Hm.
Qed.

(** Before logging has started there are no logs, whatever the shell. *)
Theorem get_recent_logs_not_started (n_bytes : Z) :
  LOGGING_STARTED CONFIG = false ->
  get_recent_logs n_bytes
  = Ok ["No logging available. Logging is only available inside Jupyter."].
Proof.
  intros Hl. unfold get_recent_logs, recent_logs, the_shell. rewrite Hl.
  destruct import_ipython; [| done]. by destruct get_ipython.
Qed.

Section Started.
Variables (ipython : InteractiveShell) (manager : HistoryManager).
Variables (logging_file : string) (content : list ascii).
Hypothesis Hshell : the_shell = Ok ipython.
Hypothesis Hmanager : history_manager ipython = Some manager.
Hypothesis Hstarted : LOGGING_STARTED CONFIG = true.
Hypothesis Hfile : LOGGING_FILE CONFIG = Some logging_file.
Hypothesis Hopen : open_rb logging_file = Ok content.

(** The logs once the file is read, by what the history returns. *)
Lemma recent_logs_read (n_bytes : Z) :
  recent_logs n_bytes
  = (let* latest := subscript (get_tail manager 1) 0 in
     let* decoded :=
       pymap decode
         (readlines (drop (Z.to_nat (Z.of_nat (length content) - n_bytes)) content)) in
     Ok (Some (decoded ++ [snd latest])))%py.
Proof.
  unfold recent_logs, history_tail.
  rewrite Hshell. cbn [pybind]. rewrite Hstarted, Hfile. cbn [pybind or_raise].
  rewrite Hopen. cbn [pybind]. rewrite tail_position_cases. cbn [pybind].
  by rewrite Hmanager.
Qed.

(** Claim C27. When the history comes as an iterator, as IPython hands it
    out, [get_recent_logs] raises [TypeError] once logging has started:
    it subscripts the tail of the history. *)
Theorem get_recent_logs_iterator (n_bytes : Z) (rest : list history_entry) :
  get_tail manager 1 = Iterator rest ->
  get_recent_logs n_bytes = Raise TypeError.
Proof.
  intros Hit. unfold get_recent_logs. by rewrite recent_logs_read, Hit.
Qed.

(** With a history that is a sequence the logs are the lines of the end
    of the file, decoded, and the latest input. *)
Theorem get_recent_logs_sequence (n_bytes : Z) (latest : history_entry)
    (lines : list string) :
  get_tail manager 1 = Sequence [latest] ->
  pymap decode
    (readlines (drop (Z.to_nat (Z.of_nat (length content) - n_bytes)) content))
  = Ok lines ->
  get_recent_logs n_bytes = Ok (lines ++ [snd latest]).
Proof.
  intros Hs Hd. unfold get_recent_logs. rewrite recent_logs_read, Hs.
  cbn. by rewrite Hd.
Qed.

(** An empty history raises [IndexError]. *)
Theorem get_recent_logs_empty_history (n_bytes : Z) :
  get_tail manager 1 = Sequence [] ->
  get_recent_logs n_bytes = Raise IndexError.
Proof.
  intros Hs. unfold get_recent_logs. by rewrite recent_logs_read, Hs.
Qed.

End Started.

End History.

(** * Examples *)

Section Examples.
Local Open Scope string_scope.
Local Open Scope list_scope.

Example path_stem_names :
  map path_stem ["/run/jupyter/kernel-3f2a-77c1.json"; "work/Doping-Analysis.ipynb";
                 "a/b/.profile"; "a/b/data.tar.gz"; "a/b/"; "name."; ""]
  = ["kernel-3f2a-77c1"; "Doping-Analysis"; ".profile"; "data.tar"; "b"; "name."; ""].
Proof. reflexivity. Qed.

Lemma path_stem_name_witness :
  path_stem ("/run/jupyter" +:+ String "/" ("kernel-3f2a" +:+ String "." "json"))
  = "kernel-3f2a".
Proof. by apply path_stem_name. Defined.

Example kernel_id_of_connection_files :
  map kernel_id_of ["kernel-3f2a-77c1"; "3f2a"; "kernel-"; ""]
  = [Ok "3f2a-77c1"; Ok "3f2a"; Ok ""; Ok ""].
Proof. reflexivity. Qed.

Example logfile_time_of_clock :
  logfile_time ex_evening = Ok "23-59-59" /\ logfile_time ex_morning = Ok "00-00-00".
Proof. by vm_compute. Qed.

Example readlines_of_log :
  map String.string_of_list_ascii (readlines ex_log)
  = ["load 1" +:+ String "010" ""; "fit started" +:+ String "010" ""; "fit done"].
Proof. reflexivity. Qed.

Lemma tail_position_bound_witness :
  exists position,
    tail_position (length ex_log) 12 = Ok position
    /\ length (drop position ex_log) = Z.to_nat (Z.min 12 (Z.of_nat (length ex_log)))
    /\ concat (readlines (drop position ex_log)) = drop position ex_log.
Proof. by apply tail_position_bound. Defined.

Lemma find_session_first_witness :
  find_session "3f2a-77c1" (ex_server "abc" "http://localhost:8889/")
    ([ex_session "9999" "Third.ipynb"]
     ++ ex_session "3f2a-77c1" "work/Doping-Analysis.ipynb" :: [])
  = Ok (Some ex_information).
Proof.
  apply (find_session_first _ _ _ _ _ (JString "3f2a-77c1")); [| done..].
  repeat constructor. by exists (JString "9999").
Defined.

Lemma find_session_typed_witness :
  find_session "3f2a" (ex_server "" "http://localhost/")
    [ex_session "9999" "Third.ipynb"; JObject [("id", JString "6e1d")]]
  = Raise KeyError
  \/ exists found,
       find_session "3f2a" (ex_server "" "http://localhost/")
         [ex_session "9999" "Third.ipynb"; JObject [("id", JString "6e1d")]]
       = Ok found.
Proof. apply find_session_typed. by repeat constructor. Defined.

(** A session whose kernel is not a dictionary is not of the declared
    type, and the loop raises [TypeError] on it. *)
Example find_session_untyped :
  find_session "3f2a" (ex_server "" "http://localhost/")
    [JObject [("kernel", JString "3f2a")]]
  = Raise TypeError.
Proof. reflexivity. Qed.

Lemma notebook_stem_typed_witness :
  notebook_stem ex_information = Raise KeyError
  \/ exists name, notebook_stem ex_information = Ok name.
Proof. by apply notebook_stem_typed. Defined.

Lemma search_servers_first_witness :
  search_servers (J := ex_sequences) "3f2a-77c1"
    ([ex_server "" "http://localhost:8888/"]
     ++ ex_server "abc" "http://localhost:8889/" :: [])
  = Ok (Some ex_information).
Proof. apply search_servers_first; [by repeat constructor | by vm_compute]. Defined.

(** The server that has the session is not asked when a server before it
    gives an address of another scheme. *)
Lemma search_servers_bad_url_witness :
  search_servers (J := ex_sequences) "3f2a-77c1"
    ([ex_server "" "http://localhost:8888/"]
     ++ ex_server "" "file:///srv/" :: [ex_server "abc" "http://localhost:8889/"])
  = Raise ValueError.
Proof.
  apply (search_servers_bad_url _ _ _ _ "file:///srv/api/sessions");
    [by repeat constructor | done..].
Defined.

Lemma get_full_notebook_information_iterator_witness :
  (forall info,
     fst (get_full_notebook_information (J := ex_iterators) ex_world) <> Ok (Some info))
  /\ (forall name,
        fst (get_notebook_name (J := ex_iterators) ex_world) <> Ok (Some name)).
Proof. by apply (get_full_notebook_information_iterator ex_servers). Defined.

Lemma get_full_notebook_information_sequence_witness :
  get_full_notebook_information (J := ex_sequences) ex_world
  = (search_servers (J := ex_sequences) "3f2a-77c1" ex_servers, ex_world).
Proof.
  by apply (get_full_notebook_information_sequence ex_servers
              "/run/user/1000/jupyter/runtime/kernel-3f2a-77c1.json").
Defined.

(** The same machine, the servers once as a sequence and once as an
    iterator. *)
Example get_full_notebook_information_both :
  fst (get_full_notebook_information (J := ex_sequences) ex_world)
  = Ok (Some ex_information)
  /\ fst (get_full_notebook_information (J := ex_iterators) ex_world) = Ok None.
Proof. by vm_compute. Qed.

Lemma get_notebook_name_found_witness :
  get_notebook_name (J := ex_sequences) ex_world
  = (Ok (Some "Doping-Analysis"), ex_world).
Proof.
  by apply (get_notebook_name_found (J := ex_sequences) ex_servers
              "/run/user/1000/jupyter/runtime/kernel-3f2a-77c1.json"
              "3f2a-77c1" "Doping-Analysis" ex_information).
Defined.

Lemma generate_logfile_path_named_witness :
  generate_logfile_path (J := ex_sequences) ex_world
  = (Ok ("logs/" +:+ "Doping-Analysis" +:+ "_" +:+ date_isoformat ex_evening
         +:+ "_" +:+ clock_text "-" ex_morning +:+ ".log"),
     {| warnings := []; now_calls := 2 |}).
Proof.
  by apply (generate_logfile_path_named (J := ex_sequences) ex_world ex_world
              "D" "oping-Analysis").
Defined.

Example get_notebook_name_sequence :
  fst (get_notebook_name (J := ex_sequences) ex_world) = Ok (Some "Doping-Analysis").
Proof. by vm_compute. Qed.

(** The clock passes midnight between the two readings: the name holds
    the date of the evening and the time of the morning. *)
Lemma generate_logfile_path_unnamed_witness :
  generate_logfile_path (J := ex_iterators) ex_world
  = (Ok ("logs/unnamed_" +:+ date_isoformat ex_evening +:+ "_"
         +:+ clock_text "-" ex_morning +:+ ".log"),
     {| warnings := []; now_calls := 2 |}).
Proof. by apply (generate_logfile_path_unnamed (J := ex_iterators) ex_world ex_world). Defined.

Example generate_logfile_path_midnight :
  fst (generate_logfile_path (J := ex_iterators) ex_world)
  = Ok "logs/unnamed_2024-03-09_00-00-00.log".
Proof. by vm_compute. Qed.

Lemma get_recent_history_inputs_witness :
  get_recent_history (J := ex_iterators) 2 = Ok ["data = load(1)"; "fit(data)"].
Proof.
  by apply (get_recent_history_inputs (J := ex_iterators) 2
              (ex_shell Iterator) (ex_manager Iterator)).
Defined.

Lemma get_recent_logs_iterator_witness :
  get_recent_logs (J := ex_iterators) 12 = Raise TypeError.
Proof.
  by apply (get_recent_logs_iterator (J := ex_iterators)
              (ex_shell Iterator) (ex_manager Iterator) "logs/run.log" ex_log
              eq_refl eq_refl eq_refl eq_refl eq_refl 12 [(1, 3, "fit(data)")%Z]).
Defined.

Lemma get_recent_logs_sequence_witness :
  get_recent_logs (J := ex_sequences) 12
  = Ok (["ted" +:+ String "010" ""; "fit done"] ++ ["fit(data)"]).
Proof.
  by apply (get_recent_logs_sequence (J := ex_sequences)
              (ex_shell Sequence) (ex_manager Sequence) "logs/run.log" ex_log
              eq_refl eq_refl eq_refl eq_refl eq_refl 12 (1, 3, "fit(data)")%Z).
Defined.

Lemma get_recent_logs_empty_history_witness :
  get_recent_logs (J := ex_jupyter Sequence (fun _ => Sequence [])) 12
  = Raise IndexError.
Proof.
  by apply (get_recent_logs_empty_history
              (J := ex_jupyter Sequence (fun _ => Sequence []))
              (ex_shell (fun _ => Sequence [])) (ex_manager (fun _ => Sequence []))
              "logs/run.log" ex_log).
Defined.

End Examples.
