(* ===== verification/FitTool.v ===== *)
(** * The fit inspection tool

    [legacy_files/plotting/qt/fit_tool/__init__.py]: the application
    [FitTool], which shows the fits of a dataset under a cursor, and its
    window [FitToolWindow], which turns key presses into calls of the
    application.

    What is kept of Qt is what the code reads back or what decides an
    exception: the widgets with what they show, the cursor lines with
    their location, the layouts with what was placed in them, the
    message of the status bar and the warnings.  A widget or a line is
    known by its number in the order of creation, so that the views, the
    reactive records and the registered cursors refer to the same
    objects.  Sizes, colours and links between plots are left out.

    An exception that a method raises leaves the application as it was
    at that moment, and Qt goes on with the next event: a method is a
    function from the application to a result and the application
    afterwards (the type [ui]).

    The base classes [SimpleApp] and [SimpleWindow], the widgets and the
    accessors [F.fit_dimensions] and [S.transpose_to_back] are not in the
    repository; they are modelled from what they document.  A cursor
    line that [set_location] moves reports its new place to the
    application, which already has it: this call changes nothing and is
    left out. *)

From stdpp Require Import prelude strings.
From Stdlib Require Import QArith.
From S2P Require Import Prelude PyStr PyDict Itertools Arrays Methods.
Close Scope Q_scope.

(** * Definitions *)

(** [int(x)] of a float. *)
Class FloatInt (F : Type) : Type := s_trunc : F -> Z.

(** [arpes.fits.utilities.result_to_hints], on the result a fit view
    holds, which is [None] before the first fit is shown. *)
Class FitUtilities (Res Hint : Type) : Type :=
  result_to_hints : option Res -> pyres Hint.

#[export] Instance Z_keq : KeyEq Z := Z.eqb.

(** [np.clip(v, lo, hi)]. *)
Definition np_clip (v lo hi : Z) : Z := Z.min hi (Z.max v lo).

(** The positions a slice from [lo] to [hi] selects on an axis of [len]
    places. *)
Definition slice_positions (len : nat) (lo hi : Z) : list Z :=
  let a := slice_bound len 0 (Some lo) in
  let b := slice_bound len (Z.of_nat len) (Some hi) in
  map Z.of_nat (seq a (b - a)).

(** The keys of Qt the window knows, and the others by their code. *)
Inductive Key : Type :=
| Key_Left
| Key_Right
| Key_Up
| Key_Down
| Key_I
| Key_C
| Key_T
| Key_Y
| Key_N
| Key_M
| Key_Other (code : Z).

#[export] Instance Key_eq_dec : EqDecision Key.
Proof. solve_decision. Defined.

#[export] Instance Key_keq : KeyEq Key := fun a b => bool_decide (a = b).

(** A key press: the key and the modifiers that were held. *)
Record QKeyEvent : Type := mkQKeyEvent {
  key : Key;
  nativeModifiers : Z
}.

Section Defs.
Context {F : Type} {Fops : ScalarOps F} {FI : FloatInt F}.
Context {Res Hint : Type} {FU : FitUtilities Res Hint}.
Local Open Scope string_scope.
Local Open Scope list_scope.

(** ** The data *)

Inductive DataKey : Type :=
| Data
| Residual
| NormalizedResidual.

Definition DataKey_value (k : DataKey) : string :=
  match k with
  | Data => "data"
  | Residual => "residual"
  | NormalizedResidual => "norm_residual"
  end.

(** A dataset of fits: the arrays of numbers by name, and the array
    [results] of the fits. *)
Record FitData : Type := mkFitData {
  fd_vars : list (string * Grid F F);
  fd_results : option (Grid F Res)
}.

(** [arr.isel({d: slice(lo, hi)})]. *)
Definition isel_slice {A} (g : Grid F A) (ds : string * (Z * Z))
    : pyres (Grid F A) :=
  let '(d, (lo, hi)) := ds in
  let len := length (default [] (dict_get (coords_dict g) d)) in
  isel g d (slice_positions len lo hi).

(** [arr.isel(select_coord)] for a dictionary of slices. *)
Definition isel_slices {A} (g : Grid F A) (select_coord : list (string * (Z * Z)))
    : pyres (Grid F A) :=
  pyfold isel_slice select_coord g.

(** [arr.mean(dims)]. *)
Definition mean_dims (g : Grid F F) (dims : list string) : pyres (Grid F F) :=
  pyfold mean_dim dims g.

(** [arr.item()]: the value of an array of one cell. *)
Definition item {A} (g : Grid F A) : pyres A :=
  match g_cells g with
  | [x] => Ok x
  | _ => Raise ValueError
  end.

(** ** Widgets *)

Inductive PlotOrientation : Type :=
| Horizontal
| Vertical.

Inductive ViewClass : Type :=
| DataArrayImageView
| FitInspectionPlot
| DataArrayPlot
| PlotWidget.

(** What a widget shows: the image of [setImage], the fit of
    [set_model_result], or what [plot] drew. *)
Inductive Shown : Type :=
| Image (image_data : Grid F F) (keep_levels : bool)
| ModelResult (result : Res)
| PlotArray (for_plot : Grid F F)
| PlotValues (x : list F) (y : option (list Z)).

Record Widget : Type := mkWidget {
  w_class : ViewClass;
  w_name : string;
  w_orientation : PlotOrientation;
  w_items : list nat;
  w_shown : option Shown
}.

(** A cursor line: its orientation and where it stands. *)
Record CursorRegion : Type := mkCursorRegion {
  c_vertical : bool;
  c_location : option F
}.

Record ReactivePlotRecord : Type := mkReactivePlotRecord {
  r_dims : list Z;
  r_view : nat;
  r_orientation : PlotOrientation
}.

Inductive LayoutRef : Type :=
| MainLayout
| ContentLayout.

Inductive LayoutItem : Type :=
| ItemWidget (w : nat)
| ItemLayout (l : LayoutRef)
| ItemTabs.

(** ** The application *)

Record FitTool : Type := mkFitTool {
  data_key : DataKey;
  dataset : option FitData;
  content_layout : option LayoutRef;
  main_layout : option LayoutRef;
  _layout : option LayoutRef;
  placed : list (LayoutRef * LayoutItem * Z * Z);
  context : list (string * list F);
  views : list (string * nat);
  widgets : list Widget;
  cursors : list CursorRegion;
  registered_cursors : list (Z * list nat);
  reactive_views : list ReactivePlotRecord;
  status_message : option (list (string * F));
  warned : list string;
  tabs : list string;
  info_tab_widgets : list string;
  binning_tab_widgets : list Z;
  colormap : option string;
  clipboard : option Hint
}.

(** Assignments to the attributes. *)
Definition set_data_key (v : DataKey) (self : FitTool) : FitTool :=
  {| data_key := v; dataset := dataset self; content_layout :=
  content_layout self; main_layout := main_layout self; _layout := _layout
  self; placed := placed self; context := context self; views := views self;
  widgets := widgets self; cursors := cursors self; registered_cursors :=
  registered_cursors self; reactive_views := reactive_views self;
  status_message := status_message self; warned := warned self; tabs := tabs
  self; info_tab_widgets := info_tab_widgets self; binning_tab_widgets :=
  binning_tab_widgets self; colormap := colormap self; clipboard :=
  clipboard self |}.
Definition set_dataset (v : option FitData) (self : FitTool) : FitTool :=
  {| data_key := data_key self; dataset := v; content_layout :=
  content_layout self; main_layout := main_layout self; _layout := _layout
  self; placed := placed self; context := context self; views := views self;
  widgets := widgets self; cursors := cursors self; registered_cursors :=
  registered_cursors self; reactive_views := reactive_views self;
  status_message := status_message self; warned := warned self; tabs := tabs
  self; info_tab_widgets := info_tab_widgets self; binning_tab_widgets :=
  binning_tab_widgets self; colormap := colormap self; clipboard :=
  clipboard self |}.
Definition set_content_layout (v : option LayoutRef) (self : FitTool) : FitTool :=
  {| data_key := data_key self; dataset := dataset self; content_layout :=
  v; main_layout := main_layout self; _layout := _layout self; placed :=
  placed self; context := context self; views := views self; widgets :=
  widgets self; cursors := cursors self; registered_cursors :=
  registered_cursors self; reactive_views := reactive_views self;
  status_message := status_message self; warned := warned self; tabs := tabs
  self; info_tab_widgets := info_tab_widgets self; binning_tab_widgets :=
  binning_tab_widgets self; colormap := colormap self; clipboard :=
  clipboard self |}.
Definition set_main_layout (v : option LayoutRef) (self : FitTool) : FitTool :=
  {| data_key := data_key self; dataset := dataset self; content_layout :=
  content_layout self; main_layout := v; _layout := _layout self; placed :=
  placed self; context := context self; views := views self; widgets :=
  widgets self; cursors := cursors self; registered_cursors :=
  registered_cursors self; reactive_views := reactive_views self;
  status_message := status_message self; warned := warned self; tabs := tabs
  self; info_tab_widgets := info_tab_widgets self; binning_tab_widgets :=
  binning_tab_widgets self; colormap := colormap self; clipboard :=
  clipboard self |}.
Definition set_base_layout (v : option LayoutRef) (self : FitTool) : FitTool :=
  {| data_key := data_key self; dataset := dataset self; content_layout :=
  content_layout self; main_layout := main_layout self; _layout := v; placed
  := placed self; context := context self; views := views self; widgets :=
  widgets self; cursors := cursors self; registered_cursors :=
  registered_cursors self; reactive_views := reactive_views self;
  status_message := status_message self; warned := warned self; tabs := tabs
  self; info_tab_widgets := info_tab_widgets self; binning_tab_widgets :=
  binning_tab_widgets self; colormap := colormap self; clipboard :=
  clipboard self |}.
Definition set_placed (v : list (LayoutRef * LayoutItem * Z * Z)) (self : FitTool) : FitTool :=
  {| data_key := data_key self; dataset := dataset self; content_layout :=
  content_layout self; main_layout := main_layout self; _layout := _layout
  self; placed := v; context := context self; views := views self; widgets
  := widgets self; cursors := cursors self; registered_cursors :=
  registered_cursors self; reactive_views := reactive_views self;
  status_message := status_message self; warned := warned self; tabs := tabs
  self; info_tab_widgets := info_tab_widgets self; binning_tab_widgets :=
  binning_tab_widgets self; colormap := colormap self; clipboard :=
  clipboard self |}.
Definition set_context (v : list (string * list F)) (self : FitTool) : FitTool :=
  {| data_key := data_key self; dataset := dataset self; content_layout :=
  content_layout self; main_layout := main_layout self; _layout := _layout
  self; placed := placed self; context := v; views := views self; widgets :=
  widgets self; cursors := cursors self; registered_cursors :=
  registered_cursors self; reactive_views := reactive_views self;
  status_message := status_message self; warned := warned self; tabs := tabs
  self; info_tab_widgets := info_tab_widgets self; binning_tab_widgets :=
  binning_tab_widgets self; colormap := colormap self; clipboard :=
  clipboard self |}.
Definition set_views (v : list (string * nat)) (self : FitTool) : FitTool :=
  {| data_key := data_key self; dataset := dataset self; content_layout :=
  content_layout self; main_layout := main_layout self; _layout := _layout
  self; placed := placed self; context := context self; views := v; widgets
  := widgets self; cursors := cursors self; registered_cursors :=
  registered_cursors self; reactive_views := reactive_views self;
  status_message := status_message self; warned := warned self; tabs := tabs
  self; info_tab_widgets := info_tab_widgets self; binning_tab_widgets :=
  binning_tab_widgets self; colormap := colormap self; clipboard :=
  clipboard self |}.
Definition set_widgets (v : list Widget) (self : FitTool) : FitTool :=
  {| data_key := data_key self; dataset := dataset self; content_layout :=
  content_layout self; main_layout := main_layout self; _layout := _layout
  self; placed := placed self; context := context self; views := views self;
  widgets := v; cursors := cursors self; registered_cursors :=
  registered_cursors self; reactive_views := reactive_views self;
  status_message := status_message self; warned := warned self; tabs := tabs
  self; info_tab_widgets := info_tab_widgets self; binning_tab_widgets :=
  binning_tab_widgets self; colormap := colormap self; clipboard :=
  clipboard self |}.
Definition set_cursors (v : list CursorRegion) (self : FitTool) : FitTool :=
  {| data_key := data_key self; dataset := dataset self; content_layout :=
  content_layout self; main_layout := main_layout self; _layout := _layout
  self; placed := placed self; context := context self; views := views self;
  widgets := widgets self; cursors := v; registered_cursors :=
  registered_cursors self; reactive_views := reactive_views self;
  status_message := status_message self; warned := warned self; tabs := tabs
  self; info_tab_widgets := info_tab_widgets self; binning_tab_widgets :=
  binning_tab_widgets self; colormap := colormap self; clipboard :=
  clipboard self |}.
Definition set_registered_cursors (v : list (Z * list nat)) (self : FitTool) : FitTool :=
  {| data_key := data_key self; dataset := dataset self; content_layout :=
  content_layout self; main_layout := main_layout self; _layout := _layout
  self; placed := placed self; context := context self; views := views self;
  widgets := widgets self; cursors := cursors self; registered_cursors := v;
  reactive_views := reactive_views self; status_message := status_message
  self; warned := warned self; tabs := tabs self; info_tab_widgets :=
  info_tab_widgets self; binning_tab_widgets := binning_tab_widgets self;
  colormap := colormap self; clipboard := clipboard self |}.
Definition set_reactive_views (v : list ReactivePlotRecord) (self : FitTool) : FitTool :=
  {| data_key := data_key self; dataset := dataset self; content_layout :=
  content_layout self; main_layout := main_layout self; _layout := _layout
  self; placed := placed self; context := context self; views := views self;
  widgets := widgets self; cursors := cursors self; registered_cursors :=
  registered_cursors self; reactive_views := v; status_message :=
  status_message self; warned := warned self; tabs := tabs self;
  info_tab_widgets := info_tab_widgets self; binning_tab_widgets :=
  binning_tab_widgets self; colormap := colormap self; clipboard :=
  clipboard self |}.
Definition set_status_message (v : option (list (string * F))) (self : FitTool) : FitTool :=
  {| data_key := data_key self; dataset := dataset self; content_layout :=
  content_layout self; main_layout := main_layout self; _layout := _layout
  self; placed := placed self; context := context self; views := views self;
  widgets := widgets self; cursors := cursors self; registered_cursors :=
  registered_cursors self; reactive_views := reactive_views self;
  status_message := v; warned := warned self; tabs := tabs self;
  info_tab_widgets := info_tab_widgets self; binning_tab_widgets :=
  binning_tab_widgets self; colormap := colormap self; clipboard :=
  clipboard self |}.
Definition set_warned (v : list string) (self : FitTool) : FitTool :=
  {| data_key := data_key self; dataset := dataset self; content_layout :=
  content_layout self; main_layout := main_layout self; _layout := _layout
  self; placed := placed self; context := context self; views := views self;
  widgets := widgets self; cursors := cursors self; registered_cursors :=
  registered_cursors self; reactive_views := reactive_views self;
  status_message := status_message self; warned := v; tabs := tabs self;
  info_tab_widgets := info_tab_widgets self; binning_tab_widgets :=
  binning_tab_widgets self; colormap := colormap self; clipboard :=
  clipboard self |}.
Definition set_tabs (v : list string) (self : FitTool) : FitTool :=
  {| data_key := data_key self; dataset := dataset self; content_layout :=
  content_layout self; main_layout := main_layout self; _layout := _layout
  self; placed := placed self; context := context self; views := views self;
  widgets := widgets self; cursors := cursors self; registered_cursors :=
  registered_cursors self; reactive_views := reactive_views self;
  status_message := status_message self; warned := warned self; tabs := v;
  info_tab_widgets := info_tab_widgets self; binning_tab_widgets :=
  binning_tab_widgets self; colormap := colormap self; clipboard :=
  clipboard self |}.
Definition set_info_tab_widgets (v : list string) (self : FitTool) : FitTool :=
  {| data_key := data_key self; dataset := dataset self; content_layout :=
  content_layout self; main_layout := main_layout self; _layout := _layout
  self; placed := placed self; context := context self; views := views self;
  widgets := widgets self; cursors := cursors self; registered_cursors :=
  registered_cursors self; reactive_views := reactive_views self;
  status_message := status_message self; warned := warned self; tabs := tabs
  self; info_tab_widgets := v; binning_tab_widgets := binning_tab_widgets
  self; colormap := colormap self; clipboard := clipboard self |}.
Definition set_binning_tab_widgets (v : list Z) (self : FitTool) : FitTool :=
  {| data_key := data_key self; dataset := dataset self; content_layout :=
  content_layout self; main_layout := main_layout self; _layout := _layout
  self; placed := placed self; context := context self; views := views self;
  widgets := widgets self; cursors := cursors self; registered_cursors :=
  registered_cursors self; reactive_views := reactive_views self;
  status_message := status_message self; warned := warned self; tabs := tabs
  self; info_tab_widgets := info_tab_widgets self; binning_tab_widgets := v;
  colormap := colormap self; clipboard := clipboard self |}.
Definition set_colormap (v : option string) (self : FitTool) : FitTool :=
  {| data_key := data_key self; dataset := dataset self; content_layout :=
  content_layout self; main_layout := main_layout self; _layout := _layout
  self; placed := placed self; context := context self; views := views self;
  widgets := widgets self; cursors := cursors self; registered_cursors :=
  registered_cursors self; reactive_views := reactive_views self;
  status_message := status_message self; warned := warned self; tabs := tabs
  self; info_tab_widgets := info_tab_widgets self; binning_tab_widgets :=
  binning_tab_widgets self; colormap := v; clipboard := clipboard self |}.
Definition set_clipboard (v : option Hint) (self : FitTool) : FitTool :=
  {| data_key := data_key self; dataset := dataset self; content_layout :=
  content_layout self; main_layout := main_layout self; _layout := _layout
  self; placed := placed self; context := context self; views := views self;
  widgets := widgets self; cursors := cursors self; registered_cursors :=
  registered_cursors self; reactive_views := reactive_views self;
  status_message := status_message self; warned := warned self; tabs := tabs
  self; info_tab_widgets := info_tab_widgets self; binning_tab_widgets :=
  binning_tab_widgets self; colormap := colormap self; clipboard := v |}.

(** [FitTool()]. *)
Definition __init__ : FitTool :=
  {| data_key := Data; dataset := None; content_layout := None;
     main_layout := None; _layout := None; placed := []; context := [];
     views := []; widgets := []; cursors := []; registered_cursors := [];
     reactive_views := []; status_message := None; warned := []; tabs := [];
     info_tab_widgets := []; binning_tab_widgets := []; colormap := None;
     clipboard := None |}.

(** The property [data]. *)
Definition data (self : FitTool) : pyres (Grid F F) :=
  match dataset self with
  | None => Raise TypeError
  | Some ds => dict_item (fd_vars ds) (DataKey_value (data_key self))
  end.

(** The setter of [data], which refuses every value. *)
Definition data_setter (new_data : Grid F F) : ui FitTool unit :=
  ulift (Raise TypeError).

(** [self.data.dims]. *)
Definition data_dims (self : FitTool) : pyres (list string) :=
  pybind (data self) (fun d => Ok (g_dims d)).

(** [self.dataset.results]. *)
Definition results (self : FitTool) : pyres (Grid F Res) :=
  match dataset self with
  | None => Raise AttributeError
  | Some ds => or_raise AttributeError (fd_results ds)
  end.

(** [self.context["cursor"]]. *)
Definition context_cursor (self : FitTool) : pyres (list F) :=
  dict_item (context self) "cursor".

(** ** update_cursor_position *)

Definition index_to_value (self : FitTool) (index : F) (dim : Z) : pyres F :=
  (let* d := data_dims self in
   let* d := py_index d dim in
   let* arr := data self in
   let* c := coords_of arr d in
   let* c0 := py_index c 0 in
   let* c1 := py_index c 1 in
   Ok (c0 + index * (c1 - c0))%sc)%py.

(** The end of [safe_slice]: bounds that are equal are moved apart,
    within the axis of [rng] ticks. *)
Definition widen (rng vlow vhigh : Z) : Z * Z :=
  let vhigh := if (vlow =? vhigh)%Z then (vlow + 1)%Z else vhigh in
  let '(vlow, vhigh) := (np_clip vlow 0 rng, np_clip vhigh 0 rng) in
  let vlow := if (vlow =? vhigh)%Z then (vhigh - 1)%Z else vlow in
  (vlow, vhigh).

(** The slice of [safe_slice] on an axis of [rng] ticks. *)
Definition safe_slice_in (rng vlow vhigh : Z) : Z * Z :=
  let '(vlow, vhigh) := (Z.min vlow vhigh, Z.max vlow vhigh) in
  let '(vlow, vhigh) := (np_clip vlow 0 rng, np_clip vhigh 0 rng) in
  widen rng vlow vhigh.

(** The inner function [safe_slice], which the code calls with
    integers, on which [int] is the identity. *)
Definition safe_slice (self : FitTool) (vlow vhigh : Z) (axis : Z)
    : pyres (Z * Z) :=
  (let* dims := data_dims self in
   let* d := py_index dims axis in
   let* arr := data self in
   let* ticks := coords_of arr d in
   Ok (safe_slice_in (Z.of_nat (length ticks)) vlow vhigh))%py.

(** [select_coord]: for every dimension of the view its name and the
    slice of one position under the cursor. *)
Definition select_coord_of (self : FitTool) (reactive : ReactivePlotRecord)
    (new_cursor : list F) : pyres (list (string * (Z * Z))) :=
  (let* names := pymap (fun i => let* dims := data_dims self in
                                 py_index dims i)
                       (r_dims reactive) in
   let* slices := pymap (fun i => let* lo := py_index new_cursor i in
                                  let* hi := py_index new_cursor i in
                                  safe_slice self (s_trunc lo)
                                             (s_trunc (hi + 1)%sc) i)
                        (r_dims reactive) in
   Ok (dict_of_list (combine names slices)))%py.

(** What is under the cursor of an array of numbers: the mean over the
    slices, when there is a slice. *)
Definition under_cursor (self : FitTool)
    (select_coord : list (string * (Z * Z))) : pyres (Grid F F) :=
  (let* arr := data self in
   let* selected := isel_slices arr select_coord in
   match select_coord with
   | [] => Ok selected
   | _ => mean_dims selected (dict_keys select_coord)
   end)%py.

(** The fit under the cursor. *)
Definition result_under_cursor (self : FitTool)
    (select_coord : list (string * (Z * Z))) : pyres Res :=
  (let* results_coord :=
     pymap (fun kv => let* rs := results self in
                      Ok (kv, existsb (String.eqb (fst kv)) (g_dims rs)))
           select_coord in
   let results_coord := map fst (List.filter snd results_coord) in
   let* rs := results self in
   let* result := isel_slices rs results_coord in
   item result)%py.

(** A widget shows something new. *)
Definition show (view : nat) (shown : option Shown) : ui FitTool unit :=
  uwrite (fun self =>
    set_widgets
      (alter (fun w => {| w_class := w_class w; w_name := w_name w;
                          w_orientation := w_orientation w;
                          w_items := w_items w; w_shown := shown |})
             view (widgets self))
      self).

(** The body of the [try] block: one view redrawn. *)
Definition redraw (reactive : ReactivePlotRecord) (new_cursor : list F)
    (keep_levels : bool) : ui FitTool unit :=
  (let# select_coord :=
     uread (fun self => select_coord_of self reactive new_cursor) in
   let# _ := uread (fun self => py_assert (bool_decide (is_Some (dataset self)))) in
   let# view := uread (fun self => Ok (widgets self !! r_view reactive)) in
   match option_map w_class view with
   | None => uret tt
   | Some DataArrayImageView =>
       let# image_data := uread (fun self => under_cursor self select_coord) in
       show (r_view reactive) (Some (Image image_data keep_levels))
   | Some FitInspectionPlot =>
       let# result := uread (fun self => result_under_cursor self select_coord) in
       show (r_view reactive) (Some (ModelResult result))
   | Some DataArrayPlot =>
       let# for_plot := uread (fun self => under_cursor self select_coord) in
       let# _ := show (r_view reactive) None in
       show (r_view reactive) (Some (PlotArray for_plot))
   | Some PlotWidget =>
       let# for_plot := uread (fun self => under_cursor self select_coord) in
       let# _ := show (r_view reactive) None in
       match r_orientation reactive with
       | Horizontal =>
           show (r_view reactive) (Some (PlotValues (g_cells for_plot) None))
       | Vertical =>
           show (r_view reactive)
                (Some (PlotValues (g_cells for_plot)
                         (Some (map Z.of_nat
                                    (seq 0 (length (g_cells for_plot)))))))
       end
   end)%ui.

Definition update_cursor_position (new_cursor : list F)
    (force keep_levels : bool) : ui FitTool unit :=
  (let# old_cursor := uread context_cursor in
   let# _ := uwrite (fun self =>
               set_context (dict_set (context self) "cursor" new_cursor) self) in
   let# value_cursor :=
     uread (fun self =>
              pymap (fun iv => index_to_value self (snd iv) (Z.of_nat (fst iv)))
                    (enumerate new_cursor)) in
   let# _ := uwrite (fun self =>
               set_context (dict_set (context self) "value_cursor" value_cursor)
                           self) in
   let# changed_dimensions :=
     ulift (let* pairs := zip_strict old_cursor new_cursor in
            Ok (map (fun ixy => Z.of_nat (fst ixy))
                    (List.filter (fun ixy => negb (fst (snd ixy) =? snd (snd ixy))%sc)
                                 (enumerate pairs))))%py in
   let# cursor_text :=
     uread (fun self =>
              let* dims := data_dims self in
              let* value_cursor := dict_item (context self) "value_cursor" in
              zip_strict dims value_cursor)%py in
   let# _ := uwrite (set_status_message (Some cursor_text)) in
   let# reactive_views := uread (fun self => Ok (reactive_views self)) in
   ufor (fun reactive =>
           uwhen (existsb (fun i => existsb (Z.eqb i) changed_dimensions)
                          (r_dims reactive)
                  || force)
                 (ucatch IndexError (redraw reactive new_cursor keep_levels)))
        reactive_views)%ui.

(** ** Cursor lines *)

(** [cursor.set_location(value)]. *)
Definition set_location (line : nat) (value : F) : ui FitTool unit :=
  uwrite (fun self =>
    set_cursors
      (alter (fun c => {| c_vertical := c_vertical c; c_location := Some value |})
             line (cursors self))
      self).

(** The loop that moves the registered cursor lines to the cursor. *)
Definition move_cursors (new_cursor : list F) : ui FitTool unit :=
  (let# registered := uread (fun self => Ok (registered_cursors self)) in
   ufor (fun ic =>
           ufor (fun line => let# value := ulift (py_index new_cursor (fst ic)) in
                             set_location line value)
                (snd ic))
        registered)%ui.

(** ** center_cursor, scroll and reset_intensity *)

(** The middle of every axis of the data: half the number of its
    ticks. *)
Definition centred (self : FitTool) : pyres (list F) :=
  (let* dims := data_dims self in
   pymap (fun d => let* arr := data self in
                   let* c := coords_of arr d in
                   Ok (s_of_Z (Z.of_nat (length c)) / s_of_Z 2)%sc)
         dims)%py.

Definition center_cursor : ui FitTool unit :=
  (let# new_cursor := uread centred in
   let# _ := update_cursor_position new_cursor false true in
   move_cursors new_cursor)%ui.

Definition scroll (delta : Z * Z) : ui FitTool unit :=
  (let# cursor := uread context_cursor in
   if (Z.of_nat (length cursor) <=? fst delta)%Z then
     uwrite (fun self =>
       set_warned (warned self ++ ["Tried to scroll a non-existent dimension."])
                  self)
   else
     let# cursor := uread context_cursor in
     let# place := ulift (py_position (length cursor) (fst delta)) in
     let cursor := alter (fun x => (x + s_of_Z (snd delta))%sc) place cursor in
     let# _ := update_cursor_position cursor false true in
     move_cursors cursor)%ui.

Definition reset_intensity : ui FitTool unit :=
  (let# cursor := uread context_cursor in
   update_cursor_position cursor true false)%ui.

(** ** transpose and transpose_to_front *)

(** What [transpose_to_front] is called with, and what a list of
    dimensions holds: a name or an integer. *)
Inductive dim_arg : Type :=
| DStr (s : string)
| DInt (i : Z).

(** [==] between names and integers. *)
Definition dim_eqb (a b : dim_arg) : bool :=
  match a, b with
  | DStr s, DStr t => String.eqb s t
  | DInt i, DInt j => Z.eqb i j
  | _, _ => false
  end.

(** [tuple.index(x)]: [ValueError] for a value the tuple does not
    hold. *)
Fixpoint tuple_index (x : dim_arg) (l : list dim_arg) : pyres Z :=
  match l with
  | [] => Raise ValueError
  | y :: rest =>
      if dim_eqb y x then Ok 0%Z
      else pybind (tuple_index x rest) (fun i => Ok (i + 1)%Z)
  end.

(** [list.remove(x)]: the first occurrence goes, [ValueError] when
    there is none. *)
Fixpoint list_remove (x : dim_arg) (l : list dim_arg) : pyres (list dim_arg) :=
  match l with
  | [] => Raise ValueError
  | y :: rest =>
      if dim_eqb y x then Ok rest
      else pybind (list_remove x rest) (fun r => Ok (y :: r))
  end.

(** The data transposed to the order: an integer is no dimension. *)
Definition transposed (self : FitTool) (transpose_order : list dim_arg)
    : pyres (Grid F F) :=
  (let* arr := data self in
   let* names := pymap (fun t => match t with
                                 | DStr s => Ok s
                                 | DInt _ => Raise ValueError
                                 end) transpose_order in
   xr_transpose arr names)%py.

Definition transpose (transpose_order : list dim_arg) : ui FitTool unit :=
  (let# reindex_order :=
     uread (fun self =>
              pymap (fun t => let* dims := data_dims self in
                              tuple_index t (map DStr dims))
                    transpose_order)%py in
   let# new_data := uread (fun self => transposed self transpose_order) in
   let# _ := data_setter new_data in
   let# new_cursor :=
     uread (fun self => pymap (fun i => let* cursor := context_cursor self in
                                        py_index cursor i)
                              reindex_order)%py in
   let# _ := update_cursor_position new_cursor true true in
   move_cursors new_cursor)%ui.

Definition transpose_to_front (dim : dim_arg) : ui FitTool unit :=
  (let# dim :=
     match dim with
     | DStr _ => uret dim
     | DInt _ =>
         uread (fun self => let* dims := data_dims self in
                            let* i := tuple_index dim (map DStr dims) in
                            Ok (DInt i))%py
     end in
   let# order := uread (fun self => let* dims := data_dims self in
                                    Ok (map DStr dims))%py in
   let# order := ulift (list_remove dim order) in
   let order := dim :: order in
   transpose order)%ui.

(** ** The views *)

(** A new widget, which shows nothing yet. *)
Definition new_widget (cls : ViewClass) (name : string)
    (orientation : PlotOrientation) : ui FitTool nat :=
  fun self =>
    (Ok (length (widgets self)),
     set_widgets (widgets self
                  ++ [{| w_class := cls; w_name := name;
                         w_orientation := orientation; w_items := [];
                         w_shown := None |}])
                 self).

(** [CursorRegion(orientation, movable=True)]. *)
Definition new_cursor_region (vertical : bool) : ui FitTool nat :=
  fun self =>
    (Ok (length (cursors self)),
     set_cursors (cursors self
                  ++ [{| c_vertical := vertical; c_location := None |}])
                 self).

(** [widget.addItem(cursor)]. *)
Definition addItem (view line : nat) : ui FitTool unit :=
  uwrite (fun self =>
    set_widgets
      (alter (fun w => {| w_class := w_class w; w_name := w_name w;
                          w_orientation := w_orientation w;
                          w_items := w_items w ++ [line];
                          w_shown := w_shown w |})
             view (widgets self))
      self).

(** [connect_cursor] of the base class: the line is registered under
    the dimension. *)
Definition connect_cursor (dimension : Z) (the_line : nat) : ui FitTool unit :=
  uwrite (fun self =>
    set_registered_cursors
      (dict_set (registered_cursors self) dimension
                (dict_get_default (registered_cursors self) dimension []
                 ++ [the_line]))
      self).

(** The dimensions of the data that are not among [dimensions]. *)
Definition remaining_dims_of (self : FitTool) (dimensions : list Z)
    : pyres (list Z) :=
  (let* dims := data_dims self in
   Ok (List.filter (fun i => negb (existsb (Z.eqb i) dimensions))
                   (map Z.of_nat (seq 0 (length dims)))))%py.

(** [layout.addWidget(item, a, b)] and [layout.addLayout(item, a, b)]. *)
Definition addWidget (layout : LayoutRef) (item : LayoutItem) (a b : Z)
    : ui FitTool unit :=
  uwrite (fun self => set_placed (placed self ++ [(layout, item, a, b)]) self).

(** The layout a view goes to: the one given, or the layout of the
    application; the assertion fails when there is none. *)
Definition layout_or_default (layout : option LayoutRef) : ui FitTool LayoutRef :=
  uread (fun self =>
           or_raise AssertionError
                    (match layout with
                     | None => _layout self
                     | Some l => Some l
                     end)).

(** [generate_marginal_for] of the base class: a plot with one cursor
    line when one dimension remains, an image with two when two
    remain. *)
Definition generate_marginal_for (dimensions : list Z) (column row : Z)
    (name : string) (orientation : PlotOrientation) (cursors : bool)
    (layout : option LayoutRef) : ui FitTool nat :=
  (let# layout := layout_or_default layout in
   let# remaining_dims := uread (fun self => remaining_dims_of self dimensions) in
   let# widget :=
     match remaining_dims with
     | [d0] =>
         let# widget := new_widget DataArrayPlot name orientation in
         let# _ := uwrite (fun self =>
                     set_views (dict_set (views self) name widget) self) in
         let# _ :=
           uwhen cursors
             (let# cursor := new_cursor_region
                               (match orientation with
                                | Vertical => true
                                | Horizontal => false
                                end) in
              let# _ := addItem widget cursor in
              connect_cursor d0 cursor) in
         uret widget
     | _ =>
         let# _ := ulift (py_assert (Nat.eqb (length remaining_dims) 2)) in
         let# widget := new_widget DataArrayImageView name Horizontal in
         let# _ := uwrite (fun self =>
                     set_views (dict_set (views self) name widget) self) in
         let# _ :=
           uwhen cursors
             (let# cursor_vert := new_cursor_region true in
              let# cursor_horiz := new_cursor_region false in
              let# _ := addItem widget cursor_vert in
              let# _ := addItem widget cursor_horiz in
              let# d0 := ulift (py_index remaining_dims 0) in
              let# _ := connect_cursor d0 cursor_vert in
              let# d1 := ulift (py_index remaining_dims 1) in
              connect_cursor d1 cursor_horiz) in
         uret widget
     end in
   let# _ := uwrite (fun self =>
               set_reactive_views
                 (reactive_views self
                  ++ [{| r_dims := dimensions; r_view := widget;
                         r_orientation := orientation |}])
                 self) in
   let# _ := addWidget layout (ItemWidget widget) column row in
   uret widget)%ui.

Definition generate_fit_marginal_for (dimensions : list Z)
    (column_row : Z * Z) (name : string) (orientation : PlotOrientation)
    (cursors : bool) (layout : option LayoutRef) : ui FitTool nat :=
  (let '(column, row) := column_row in
   let# layout := layout_or_default layout in
   let# remaining_dims := uread (fun self => remaining_dims_of self dimensions) in
   let# widget := new_widget FitInspectionPlot name orientation in
   let# _ := uwrite (fun self =>
               set_views (dict_set (views self) name widget) self) in
   let# _ :=
     uwhen cursors
       (let# cursor := new_cursor_region
                         (match orientation with
                          | Vertical => true
                          | Horizontal => false
                          end) in
        let# _ := addItem widget cursor in
        let# last := ulift (py_index remaining_dims (-1)) in
        connect_cursor last cursor) in
   let# _ := uwrite (fun self =>
               set_reactive_views
                 (reactive_views self
                  ++ [{| r_dims := dimensions; r_view := widget;
                         r_orientation := orientation |}])
                 self) in
   let# _ := addWidget layout (ItemWidget widget) column row in
   uret widget)%ui.

(** [len(self.data.dims)]. *)
Definition n_dims (self : FitTool) : pyres Z :=
  pybind (data_dims self) (fun dims => Ok (Z.of_nat (length dims))).

Definition configure_image_widgets : ui FitTool unit :=
  (let# n := uread n_dims in
   let# _ :=
     uwhen (n =? 2)%Z
       (let# layout := uread (fun self => Ok (content_layout self)) in
        let# _ := generate_marginal_for [] 0 0 "xy" Horizontal true layout in
        let# layout := uread (fun self => Ok (content_layout self)) in
        let# _ := generate_fit_marginal_for [0; 1]%Z (0, 1)%Z "fit" Vertical
                                            false layout in
        let# _ := uread (fun self => dict_item (views self) "xy") in
        let# _ := uread (fun self => dict_item (views self) "fit") in
        uret tt) in
   let# n := uread n_dims in
   let# _ :=
     uwhen (n =? 3)%Z
       (let# layout := uread (fun self => Ok (content_layout self)) in
        let# _ := generate_marginal_for [2]%Z 1 0 "xy" Horizontal true layout in
        let# layout := uread (fun self => Ok (content_layout self)) in
        let# _ := generate_fit_marginal_for [0; 1; 2]%Z (0, 0)%Z "fit"
                                            Horizontal true layout in
        uret tt) in
   let# n := uread n_dims in
   uwhen (n =? 4)%Z
     (let# layout := uread (fun self => Ok (content_layout self)) in
      let# _ := generate_marginal_for [1; 3]%Z 1 0 "xz" Horizontal true layout in
      let# layout := uread (fun self => Ok (content_layout self)) in
      let# _ := generate_marginal_for [2; 3]%Z 0 1 "xy" Horizontal true layout in
      let# layout := uread (fun self => Ok (content_layout self)) in
      let# _ := generate_marginal_for [0; 3]%Z 1 1 "yz" Horizontal false layout in
      let# layout := uread (fun self => Ok (content_layout self)) in
      let# _ := generate_fit_marginal_for [0; 1; 2; 3]%Z (0, 0)%Z "fit"
                                          Horizontal true layout in
      uret tt))%ui.

(** ** The tabs *)

(** The widgets of the binning tab: one, for the last axis. *)
Definition construct_binning_tab : ui FitTool (list Z) :=
  (let# n := uread n_dims in
   uret [(n - 1)%Z])%ui.

Definition copy_parameter_hint : ui FitTool unit :=
  (let# fit := uread (fun self => dict_item (views self) "fit") in
   let# result :=
     uread (fun self =>
              match widgets self !! fit with
              | Some {| w_class := FitInspectionPlot;
                        w_shown := Some (ModelResult r) |} => Ok (Some r)
              | Some {| w_class := FitInspectionPlot |} => Ok None
              | _ => Raise AttributeError
              end) in
   let# hint := ulift (result_to_hints result) in
   uwrite (set_clipboard (Some hint)))%ui.

(** The widgets of the info tab: the button that copies the hint. *)
Definition construct_info_tab : ui FitTool (list string) :=
  uret ["Copy parameters as hint"].

Definition add_contextual_widgets : ui FitTool unit :=
  (let# main := uread (fun self => or_raise AssertionError (main_layout self)) in
   let# content := uread (fun self => or_raise TypeError (content_layout self)) in
   let# _ := addWidget main (ItemLayout content) 0 0 in
   let# info_tab_widgets := construct_info_tab in
   let# _ := uwrite (set_info_tab_widgets info_tab_widgets) in
   let# binning_tab_widgets := construct_binning_tab in
   let# _ := uwrite (set_binning_tab_widgets binning_tab_widgets) in
   let# _ := uwrite (set_tabs ["Info"; "Binning"]) in
   let# content := uread (fun self => or_raise TypeError (content_layout self)) in
   let# _ := addWidget main (ItemLayout content) 0 0 in
   addWidget main ItemTabs 1 0)%ui.

(** ** The life of the application *)

(** [layout]: two new layouts, which hold nothing. *)
Definition layout : ui FitTool LayoutRef :=
  (let# _ := uwrite (set_placed []) in
   let# _ := uwrite (set_main_layout (Some MainLayout)) in
   let# _ := uwrite (set_content_layout (Some ContentLayout)) in
   uret MainLayout)%ui.

Definition before_show : ui FitTool unit :=
  (let# _ := configure_image_widgets in
   let# _ := add_contextual_widgets in
   uwrite (set_colormap (Some "viridis")))%ui.

Definition after_show : ui FitTool unit :=
  (let# cursor :=
     uread (fun self =>
              let* dims := data_dims self in
              pymap (fun d => let* arr := data self in
                              let* c := coords_of arr d in
                              Ok (np_mean c))
                    dims)%py in
   let# _ := uwrite (fun self =>
               set_context (dict_update (context self) [("cursor", cursor)])
                           self) in
   let# cursor := uread context_cursor in
   let# _ := update_cursor_position cursor true false in
   center_cursor)%ui.

(** [start] of the base class: the layout, then the two hooks around
    the showing of the window. *)
Definition start : ui FitTool unit :=
  (let# main := layout in
   let# _ := uwrite (set_base_layout (Some main)) in
   let# _ := before_show in
   after_show)%ui.

(** ** set_data *)

(** [dataset.F.fit_dimensions]: the dimensions of the data that are no
    dimensions of the results. *)
Definition fit_dimensions (ds : FitData) : pyres (list string) :=
  (let* arr := or_raise AttributeError (dict_get (fd_vars ds) "data") in
   let* rs := or_raise AttributeError (fd_results ds) in
   Ok (List.filter (fun d => negb (existsb (String.eqb d) (g_dims rs)))
                   (g_dims arr)))%py.

(** The dimensions of a dataset, each once, in the order in which its
    variables bring them. *)
Definition dataset_dims (ds : FitData) : list string :=
  remove_dups (flat_map (fun nv => g_dims (snd nv)) (fd_vars ds)
               ++ from_option g_dims [] (fd_results ds)).

(** [Dataset.transpose]: every variable takes the order of those of the
    dimensions that it has. *)
Definition dataset_transpose (ds : FitData) (order : list string)
    : pyres FitData :=
  (let own {A} (g : Grid F A) :=
     List.filter (fun d => existsb (String.eqb d) (g_dims g)) order in
   let* _ := if same_dims order (dataset_dims ds) then Ok tt
             else Raise ValueError in
   let* vars := pymap (fun nv => let* g := xr_transpose (snd nv) (own (snd nv)) in
                                 Ok (fst nv, g))
                      (fd_vars ds) in
   let* rs := match fd_results ds with
              | Some rs => pybind (xr_transpose rs (own rs))
                                  (fun g => Ok (Some g))
              | None => Ok None
              end in
   Ok {| fd_vars := vars; fd_results := rs |})%py.

(** [dataset.S.transpose_to_back(dim)]. *)
Definition transpose_to_back (ds : FitData) (dim : string) : pyres FitData :=
  (let dims := dataset_dims ds in
   let* _ := py_assert (existsb (String.eqb dim) dims) in
   let dims := List.filter (fun d => negb (String.eqb d dim)) dims in
   dataset_transpose ds (dims ++ [dim]))%py.

Definition set_data (new_data : FitData) : ui FitTool unit :=
  (let# _ := uwrite (set_dataset (Some new_data)) in
   let# _ := uwrite (set_data_key Data) in
   let# fit_dims := ulift (fit_dimensions new_data) in
   let# _ := ulift (py_assert (Nat.eqb (length fit_dims) 1)) in
   let# transposed :=
     ulift (match fit_dims with
            | [dim] => transpose_to_back new_data dim
            | _ => Raise TypeError
            end) in
   uwrite (set_dataset (Some transposed)))%ui.

(** ** _fit_tool *)

(** What the tool is started with: a dataset or something else, as it
    is or pickled. *)
Inductive py_object : Type :=
| ADataset (ds : FitData)
| AnObject.

Inductive tool_input : Type :=
| Pickled (o : py_object)
| Plain (o : py_object).

Definition _fit_tool (data_ : tool_input) : pyres FitTool :=
  (let data_ := match data_ with
                | Pickled o => o
                | Plain o => o
                end in
   let* ds := match data_ with
              | ADataset ds => Ok ds
              | AnObject => Raise AssertionError
              end in
   let* _ := py_assert (bool_decide (is_Some (fd_results ds))) in
   let tool := __init__ in
   match (let# _ := set_data ds in start)%ui tool with
   | (Ok _, tool) => Ok tool
   | (Raise e, _) => Raise e
   end)%py.

(** ** The window *)

(** The window holds a weak reference to the application, which is
    [None] once the application is gone. *)
Record FitToolWindow : Type := mkFitToolWindow {
  app : option FitTool
}.

(** [self.app().m()]. *)
Definition on_app {A} (m : ui FitTool A) : ui FitToolWindow A :=
  fun w => match app w with
           | Some tool => let '(r, tool') := m tool in
                          (r, {| app := Some tool' |})
           | None => (Raise AttributeError, w)
           end.

Definition window_center_cursor : ui FitToolWindow unit := on_app center_cursor.

Definition transpose_roll : ui FitToolWindow unit :=
  on_app (transpose_to_front (DInt (-1))).

Definition transpose_swap : ui FitToolWindow unit :=
  on_app (transpose_to_front (DInt 1)).

Definition _update_scroll_delta (delta : option (Z * Z)) (event : QKeyEvent)
    : pyres (option (Z * Z)) :=
  (let scaled (factor : Z) (delta : option (Z * Z)) :=
     match delta with
     | Some d => Ok (Some (fst d, snd d * factor)%Z)
     | None => Raise TypeError
     end in
   let* delta := if negb (Z.land (nativeModifiers event) 1 =? 0)%Z
                 then scaled 5%Z delta else Ok delta in
   let* delta := if negb (Z.land (nativeModifiers event) 2 =? 0)%Z
                 then scaled 20%Z delta else Ok delta in
   Ok delta)%py.

Definition window_reset_intensity : ui FitToolWindow unit :=
  on_app reset_intensity.

(** The end of [scroll] and [scroll_z]: the application scrolls when
    there is a delta and an application. *)
Definition scroll_app (delta : option (Z * Z)) : ui FitToolWindow unit :=
  fun w => match delta, app w with
           | Some delta, Some _ => on_app (scroll delta) w
           | _, _ => (Ok tt, w)
           end.

Definition scroll_z (event : QKeyEvent) : ui FitToolWindow unit :=
  (let key_map := [(Key_N, (2, -1)%Z); (Key_M, (2, 1)%Z)] in
   let# delta := ulift (_update_scroll_delta (dict_get key_map (key event))
                                             event) in
   scroll_app delta)%ui.

Definition window_scroll (event : QKeyEvent) : ui FitToolWindow unit :=
  (let key_map := [(Key_Left, (0, -1)%Z); (Key_Right, (0, 1)%Z);
                   (Key_Down, (1, -1)%Z); (Key_Up, (1, 1)%Z)] in
   let# delta :=
     ulift (_update_scroll_delta
              (Some (dict_get_default key_map (key event) (0, 0)%Z)) event) in
   scroll_app delta)%ui.

(** The handlers of the key bindings. *)
Inductive handler : Type :=
| handle_scroll
| handle_reset_intensity
| handle_center_cursor
| handle_transpose_roll
| handle_transpose_swap.

(** The bindings of the window itself; those of the base class, help
    and close, are left out. *)
Definition compile_key_bindings : list (string * list Key * handler) :=
  [("Scroll Cursor", [Key_Left; Key_Right; Key_Up; Key_Down], handle_scroll);
   ("Reset Intensity", [Key_I], handle_reset_intensity);
   ("Center Cursor", [Key_C], handle_center_cursor);
   ("Transpose - Roll Axis", [Key_T], handle_transpose_roll);
   ("Transpose - Swap Front Axes", [Key_Y], handle_transpose_swap)].

Definition call_handler (h : handler) (event : QKeyEvent)
    : ui FitToolWindow unit :=
  match h with
  | handle_scroll => window_scroll event
  | handle_reset_intensity => window_reset_intensity
  | handle_center_cursor => window_center_cursor
  | handle_transpose_roll => transpose_roll
  | handle_transpose_swap => transpose_swap
  end.

(** [handleKeyPressEvent] of the base class: every binding of the key is
    called. *)
Definition handleKeyPressEvent (event : QKeyEvent) : ui FitToolWindow unit :=
  ufor (fun binding =>
          uwhen (existsb (keq (key event)) (snd (fst binding)))
                (call_handler (snd binding) event))
       compile_key_bindings.

(** ** Cursor lines moved by hand *)

(** The function [connect_cursor] connects to a line: the cursor takes
    the place of the line along its dimension. *)
Definition connected_cursor (dimension : Z) (line : nat) : ui FitTool unit :=
  (let# new_cursor := uread context_cursor in
   let# region := uread (fun self =>
                    or_raise TypeError
                      (mbind c_location (cursors self !! line))) in
   let# place := ulift (py_position (length new_cursor) dimension) in
   let new_cursor := <[place := region]> new_cursor in
   update_cursor_position new_cursor false true)%ui.

(** A line is dragged to a new place. *)
Definition cursor_moved (line : nat) (value : F) : ui FitTool unit :=
  (let# _ := set_location line value in
   let# registered := uread (fun self => Ok (registered_cursors self)) in
   ufor (fun ic => uwhen (existsb (Nat.eqb line) (snd ic))
                         (connected_cursor (fst ic) line))
        registered)%ui.

(** ** Events *)

(** What happens to a window: a key is pressed, [scroll_z] is called,
    which no key is bound to, a cursor line is dragged, the button of
    the info tab is pressed. *)
Inductive event : Type :=
| KeyPress (e : QKeyEvent)
| ScrollZ (e : QKeyEvent)
| CursorMoved (line : nat) (value : F)
| CopyHint.

Definition handle (ev : event) : ui FitToolWindow unit :=
  match ev with
  | KeyPress e => handleKeyPressEvent e
  | ScrollZ e => scroll_z e
  | CursorMoved line value => on_app (cursor_moved line value)
  | CopyHint => on_app copy_parameter_hint
  end.

(** Qt reports the exception of a handler and goes on. *)
Definition step (w : FitToolWindow) (ev : event) : FitToolWindow :=
  snd (handle ev w).

(** The windows a started tool can get to. *)
Inductive reachable (tool : FitTool) : FitToolWindow -> Prop :=
| reachable_start : reachable tool {| app := Some tool |}
| reachable_step w ev : reachable tool w -> reachable tool (step w ev).

(** ** What the events keep *)

(** The shape of a widget: everything but what it shows. *)
Definition widget_shape (w : Widget)
    : ViewClass * string * PlotOrientation * list nat :=
  (w_class w, w_name w, w_orientation w, w_items w).

(** What no event changes: the data, the layouts, the views with the
    shapes of their widgets, the cursor lines and their dimensions, the
    tabs. *)
Definition frame (self : FitTool) :=
  (data_key self, dataset self, content_layout self, main_layout self,
   _layout self, placed self, views self, map widget_shape (widgets self),
   map c_vertical (cursors self), registered_cursors self,
   reactive_views self, tabs self, info_tab_widgets self,
   binning_tab_widgets self, colormap self).

(** The tool has the frame [fr]. *)
Definition has_frame_of fr (self : FitTool) : Prop := frame self = fr.

(** The tool has data of the dimensions [dims] and a content layout. *)
Definition has_layout (dims : list string) (content : LayoutRef)
    (self : FitTool) : Prop :=
  data_dims self = Ok dims /\ content_layout self = Some content.

(** There is a cursor, and it satisfies [P]. *)
Definition cursor_sat (P : list F -> Prop) (self : FitTool) : Prop :=
  exists cursor, context_cursor self = Ok cursor /\ P cursor.

(** The cursor has [n] entries. *)
Definition cursor_fits (n : nat) : FitTool -> Prop :=
  cursor_sat (fun cursor => length cursor = n).

(** The invariant of a tool that was started as [tool0]: it has the
    frame of [tool0] and a cursor with one entry per dimension of the
    data. *)
Definition tool_inv (tool0 tool : FitTool) : Prop :=
  frame tool = frame tool0
  /\ exists dims, data_dims tool0 = Ok dims /\ cursor_fits (length dims) tool.

(** The invariant of its window: the application is there. *)
Definition window_inv (tool0 : FitTool) (w : FitToolWindow) : Prop :=
  exists tool, app w = Some tool /\ tool_inv tool0 tool.

(** ** The cursor machine

    What the window promises of its cursor, without the views: a key
    moves the cursor along an axis or puts it in the middle, a line that
    is dragged sets the entries of its dimensions, and nothing else
    changes it. *)

(** The factor of the modifiers that are held. *)
Definition factor_of (modifiers : Z) : Z :=
  ((if Z.land modifiers 1 =? 0 then 1 else 5)
   * (if Z.land modifiers 2 =? 0 then 1 else 20))%Z.

(** The cursor moved by [d] along [axis], when it has that axis. *)
Definition scrolled (axis d : Z) (cursor : list F) : list F :=
  if (Z.of_nat (length cursor) <=? axis)%Z then cursor
  else alter (fun x => (x + s_of_Z d)%sc) (Z.to_nat axis) cursor.

(** The cursor after a key, [centre] being the middle of the data. *)
Definition key_cursor (centre : pyres (list F)) (e : QKeyEvent)
    (cursor : list F) : list F :=
  let f := factor_of (nativeModifiers e) in
  match key e with
  | Key_Left => scrolled 0 (-1 * f) cursor
  | Key_Right => scrolled 0 (1 * f) cursor
  | Key_Down => scrolled 1 (-1 * f) cursor
  | Key_Up => scrolled 1 (1 * f) cursor
  | Key_C => match centre with Ok c => c | Raise _ => cursor end
  | _ => cursor
  end.

(** The cursor after [scroll_z]. *)
Definition scroll_z_cursor (e : QKeyEvent) (cursor : list F) : list F :=
  let f := factor_of (nativeModifiers e) in
  match key e with
  | Key_N => scrolled 2 (-1 * f) cursor
  | Key_M => scrolled 2 (1 * f) cursor
  | _ => cursor
  end.

(** The cursor with [value] along [dimension]. *)
Definition drag_along (value : F) (cursor : list F) (dimension : Z) : list F :=
  match py_position (length cursor) dimension with
  | Ok place => <[place := value]> cursor
  | Raise _ => cursor
  end.

(** The cursor after the line [line], dragged to [value], has reported
    to one registration [ic] of a dimension with its lines. *)
Definition drag_one (line : nat) (value : F) (cursor : list F)
    (ic : Z * list nat) : list F :=
  if existsb (Nat.eqb line) (snd ic) then drag_along value cursor (fst ic)
  else cursor.

(** The line [line] is at [value], if it is anywhere. *)
Definition line_at (line : nat) (value : F) (self : FitTool) : Prop :=
  forall region,
    mbind c_location (cursors self !! line) = Some region -> region = value.

(** A step of the machine.  A drag reports to the registrations in their
    order and may stop after any of them. *)
Inductive cursor_step (centre : pyres (list F))
    (registered : list (Z * list nat)) : event -> list F -> list F -> Prop :=
| cursor_key e cursor :
    cursor_step centre registered (KeyPress e) cursor (key_cursor centre e cursor)
| cursor_scroll_z e cursor :
    cursor_step centre registered (ScrollZ e) cursor (scroll_z_cursor e cursor)
| cursor_drag line value cursor n :
    cursor_step centre registered (CursorMoved line value) cursor
      (fold_left (drag_one line value) (take n registered) cursor)
| cursor_copy cursor :
    cursor_step centre registered CopyHint cursor cursor.

(** The cursors the machine gets to from [start]. *)
Inductive cursor_reachable (centre : pyres (list F))
    (registered : list (Z * list nat)) (start : list F) : list F -> Prop :=
| cursor_start : cursor_reachable centre registered start start
| cursor_next ev cursor cursor' :
    cursor_reachable centre registered start cursor ->
    cursor_step centre registered ev cursor cursor' ->
    cursor_reachable centre registered start cursor'.

(** The window shows the cursor [cursor]. *)
Definition window_cursor (w : FitToolWindow) (cursor : list F) : Prop :=
  exists tool, app w = Some tool /\ context_cursor tool = Ok cursor.

End Defs.

Arguments FitData F Res : clear implicits.
Arguments FitTool F Res Hint : clear implicits.
Arguments FitToolWindow F Res Hint : clear implicits.
Arguments Widget F Res : clear implicits.
Arguments Shown F Res : clear implicits.
Arguments CursorRegion F : clear implicits.
Arguments event F : clear implicits.

(** * Example data *)

(** Over the rationals, with fits that are known by a name: fits of a
    peak along [eV] at three places [x], stored with [eV] first. *)
Section ExampleData.
Local Open Scope string_scope.

Definition ex_float_int : FloatInt Q :=
  fun q => Z.quot (Qnum q) (Z.pos (Qden q)).

Definition ex_utilities : FitUtilities string string :=
  fun result => match result with
                | Some r => Ok ("hint of " +:+ r)
                | None => Raise AttributeError
                end.

Definition ex_fits : FitData Q string :=
  {| fd_vars :=
       [("data", {| g_dims := ["eV"; "x"];
                    g_coords := [[10; 20]%Q; [0; 1; 2]%Q];
                    g_cells := [1; 2; 3; 4; 5; 6]%Q |});
        ("residual", {| g_dims := ["eV"; "x"];
                        g_coords := [[10; 20]%Q; [0; 1; 2]%Q];
                        g_cells := [0; 0; 0; 0; 0; 0]%Q |})];
     fd_results := Some {| g_dims := ["x"]; g_coords := [[0; 1; 2]%Q];
                           g_cells := ["fit 0"; "fit 1"; "fit 2"] |} |}.

(** The same fits at two places [y] more: data of three dimensions. *)
Definition ex_fits_3d : FitData Q string :=
  {| fd_vars :=
       [("data", {| g_dims := ["x"; "y"; "eV"];
                    g_coords := [[0; 1]%Q; [0; 1]%Q; [10; 20]%Q];
                    g_cells := [1; 2; 3; 4; 5; 6; 7; 8]%Q |})];
     fd_results := Some {| g_dims := ["x"; "y"];
                           g_coords := [[0; 1]%Q; [0; 1]%Q];
                           g_cells := ["fit 00"; "fit 01"; "fit 10"; "fit 11"] |} |}.

(** The tool [_fit_tool] starts on the fits of the example, or an empty
    tool. *)
Definition ex_tool `{!FloatInt Q} `{!FitUtilities string string}
    : FitTool Q string string :=
  match _fit_tool (Plain (ADataset ex_fits)) with
  | Ok tool => tool
  | Raise _ => __init__
  end.

Definition press (k : Key) (modifiers : Z) : event Q :=
  KeyPress {| key := k; nativeModifiers := modifiers |}.

End ExampleData.

(** * Facts *)

(** ** Slices *)

Section Slices.
Local Open Scope Z_scope.

Lemma np_clip_range (v lo hi : Z) : lo <= hi -> lo <= np_clip v lo hi <= hi.
Proof. unfold np_clip. lia. Qed.

Lemma np_clip_inside (v lo hi : Z) : lo <= v <= hi -> np_clip v lo hi = v.
Proof. unfold np_clip. lia. Qed.

Lemma np_clip_below (v lo hi : Z) : v <= lo <= hi -> np_clip v lo hi = lo.
Proof. unfold np_clip. lia. Qed.

Lemma np_clip_above (v lo hi : Z) : lo <= hi <= v -> np_clip v lo hi = hi.
Proof. unfold np_clip. lia. Qed.

Lemma np_clip_mono (v w lo hi : Z) :
  v <= w -> np_clip v lo hi <= np_clip w lo hi.
Proof. unfold np_clip. lia. Qed.

(** Bounds that differ are kept. *)
Lemma widen_apart (rng a b : Z) : 0 <= a < b -> b <= rng -> widen rng a b = (a, b).
Proof.
  intros Ha Hb. unfold widen. destruct (Z.eqb_spec a b); [lia |].
  rewrite !np_clip_inside by lia. by destruct (Z.eqb_spec a b).
Qed.

(** Equal bounds within the axis become a slice of one position. *)
Lemma widen_equal (rng a : Z) : 0 <= a < rng -> widen rng a a = (a, a + 1).
Proof.
  intros Ha. unfold widen. rewrite Z.eqb_refl, !np_clip_inside by lia.
  by destruct (Z.eqb_spec a (a + 1)); [lia |].
Qed.

(** Equal bounds at the end of the axis become its last position. *)
Lemma widen_end (rng : Z) : 0 <= rng -> widen rng rng rng = (rng - 1, rng).
Proof.
  intros Hrng. unfold widen.
  rewrite Z.eqb_refl, np_clip_inside, np_clip_above by lia.
  by rewrite Z.eqb_refl.
Qed.

(** The cases of [widen] on bounds in order within the axis. *)
Lemma widen_cases (rng a b : Z) :
  0 <= a <= b -> b <= rng ->
  widen rng a b = (a, b) /\ a < b
  \/ widen rng a b = (a, a + 1) /\ a = b /\ a < rng
  \/ widen rng a b = (rng - 1, rng) /\ a = rng /\ b = rng.
Proof.
  intros Ha Hb. destruct (Z.eq_dec a b) as [<- |].
  - destruct (Z.eq_dec a rng) as [-> |].
    + right; right. rewrite widen_end by lia. done.
    + right; left. rewrite widen_equal by lia. repeat split; lia.
  - left. rewrite widen_apart by lia. split; [done | lia].
Qed.

(** On an axis with a tick, the slice that [safe_slice] returns
    for a position and the next lies within the axis and holds one
    position: the position itself when it is on the axis, the first
    position below the axis and the last beyond it. *)
Theorem safe_slice_in_one_position (rng vlow vhigh : Z) :
  0 < rng -> 0 <= vhigh - vlow <= 1 ->
  exists lo,
    safe_slice_in rng vlow vhigh = (lo, lo + 1)
    /\ 0 <= lo < rng
    /\ lo = np_clip vlow 0 (rng - 1).
Proof.
  intros Hrng Hw. unfold safe_slice_in. rewrite Z.min_l, Z.max_r by lia.
  exists (np_clip vlow 0 (rng - 1)).
  split; [| split; [pose proof (np_clip_range vlow 0 (rng - 1)); lia | done]].
  destruct (Z_lt_le_dec vlow 0); [| destruct (Z_lt_le_dec vlow rng)].
  - rewrite !(np_clip_below vlow), (np_clip_below vhigh) by lia.
    by rewrite widen_equal by lia.
  - rewrite !(np_clip_inside vlow), (np_clip_inside vhigh) by lia.
    destruct (Z.eq_dec vhigh vlow) as [-> |];
      [by rewrite widen_equal | rewrite widen_apart by lia; f_equal; lia].
  - rewrite !(np_clip_above vlow), (np_clip_above vhigh) by lia.
    rewrite widen_end by lia. f_equal. lia.
Qed.

(** Whatever the bounds, the slice is not empty and lies within the
    axis. *)
Lemma safe_slice_in_bounds (rng vlow vhigh : Z) :
  0 < rng ->
  0 <= fst (safe_slice_in rng vlow vhigh)
  /\ fst (safe_slice_in rng vlow vhigh) < snd (safe_slice_in rng vlow vhigh)
  /\ snd (safe_slice_in rng vlow vhigh) <= rng.
Proof.
  intros Hrng. unfold safe_slice_in.
  pose proof (np_clip_range (Z.min vlow vhigh) 0 rng ltac:(lia)) as Ha.
  pose proof (np_clip_range (Z.max vlow vhigh) 0 rng ltac:(lia)) as Hb.
  pose proof (np_clip_mono (Z.min vlow vhigh) (Z.max vlow vhigh) 0 rng
                ltac:(lia)) as Hab.
  destruct (widen_cases rng _ _ (conj (proj1 Ha) Hab) (proj2 Hb))
    as [[-> ?] | [[-> ?] | [-> ?]]]; cbn; lia.
Qed.

(** An axis without ticks gets the slice from -1 to 0, which selects
    nothing. *)
Lemma safe_slice_in_empty_axis (vlow vhigh : Z) :
  safe_slice_in 0 vlow vhigh = (-1, 0).
Proof.
  unfold safe_slice_in.
  assert (forall v, np_clip v 0 0 = 0) as Hclip by (unfold np_clip; lia).
  rewrite !Hclip. by rewrite widen_end.
Qed.

Lemma slice_positions_one (len : nat) (lo : Z) :
  0 <= lo < Z.of_nat len -> slice_positions len lo (lo + 1) = [lo].
Proof.
  intros Hlo. unfold slice_positions, slice_bound.
  destruct (Z.ltb_spec lo 0); [lia |]. destruct (Z.ltb_spec (lo + 1) 0); [lia |].
  rewrite !Z.min_l by lia.
  replace (Z.to_nat (lo + 1) - Z.to_nat lo)%nat with 1%nat by lia.
  cbn. f_equal. lia.
Qed.

End Slices.

(** ** The keys *)

Section Keys.
Context {F : Type} {Fops : ScalarOps F} {FI : FloatInt F}.
Context {Res Hint : Type} {FU : FitUtilities Res Hint}.
Implicit Types (event : QKeyEvent) (w : FitToolWindow F Res Hint).

(** With the modifier of bit 0 the step of a scroll is
    multiplied by 5, with the modifier of bit 1 by 20, with both by
    100; the axis stays. *)
Theorem update_scroll_delta_factor (axis d : Z) event :
  _update_scroll_delta (Some (axis, d)) event
  = Ok (Some (axis, d * factor_of (nativeModifiers event))%Z).
Proof.
  unfold _update_scroll_delta, factor_of.
  destruct (Z.land (nativeModifiers event) 1 =? 0)%Z,
           (Z.land (nativeModifiers event) 2 =? 0)%Z; cbn;
    do 3 f_equal; lia.
Qed.

(** Without a delta the function returns [None] when no modifier is
    held and raises [TypeError] when one is: it subscripts [None]. *)
Theorem update_scroll_delta_none event :
  _update_scroll_delta None event
  = if ((Z.land (nativeModifiers event) 1 =? 0)
        && (Z.land (nativeModifiers event) 2 =? 0))%Z
    then Ok None else Raise TypeError.
Proof.
  unfold _update_scroll_delta.
  by destruct (Z.land (nativeModifiers event) 1 =? 0)%Z,
              (Z.land (nativeModifiers event) 2 =? 0)%Z.
Qed.

(** [scroll_z] on a key that is neither N nor M has no delta: it
    does nothing when no modifier is held and raises [TypeError] when
    one is; the window stays as it is. *)
Theorem scroll_z_other_key event w :
  key event <> Key_N -> key event <> Key_M ->
  scroll_z event w
  = (if ((Z.land (nativeModifiers event) 1 =? 0)
         && (Z.land (nativeModifiers event) 2 =? 0))%Z
     then Ok tt else Raise TypeError, w).
Proof.
  intros HN HM. unfold scroll_z. cbv zeta.
  assert (dict_get [(Key_N, (2, -1)%Z); (Key_M, (2, 1)%Z)] (key event) = None)
    as ->.
  { cbn. unfold keq, Key_keq. by rewrite !bool_decide_eq_false_2. }
  unfold ulift. rewrite ubind_read, update_scroll_delta_none.
  by destruct (_ && _).
Qed.

(** The arrows scroll the first two axes by one place. *)
Lemma window_scroll_delta event w :
  window_scroll event w
  = match _update_scroll_delta
            (Some (match key event with
                   | Key_Left => (0, -1)
                   | Key_Right => (0, 1)
                   | Key_Down => (1, -1)
                   | Key_Up => (1, 1)
                   | _ => (0, 0)
                   end)%Z) event with
    | Ok delta => scroll_app delta w
    | Raise e => (Raise e, w)
    end.
Proof.
  unfold window_scroll. cbv zeta. unfold ulift. rewrite ubind_read.
  by destruct (key event).
Qed.

(** An arrow scrolls its axis by one place times the factor of the
    modifiers. *)
Lemma window_scroll_arrow event w (axis d : Z) :
  match key event with
  | Key_Left => (0, -1)
  | Key_Right => (0, 1)
  | Key_Down => (1, -1)
  | Key_Up => (1, 1)
  | _ => (0, 0)
  end%Z = (axis, d) ->
  window_scroll event w
  = scroll_app (Some (axis, d * factor_of (nativeModifiers event))%Z) w.
Proof.
  intros Hk. by rewrite window_scroll_delta, Hk, update_scroll_delta_factor.
Qed.

(** [scroll_z] on N and M scrolls the third axis. *)
Lemma scroll_z_key event w (d : Z) :
  dict_get [(Key_N, (2, -1)%Z); (Key_M, (2, 1)%Z)] (key event) = Some (2, d)%Z ->
  scroll_z event w
  = scroll_app (Some (2, d * factor_of (nativeModifiers event))%Z) w.
Proof.
  intros Hk. unfold scroll_z. cbv zeta. rewrite Hk.
  unfold ulift. by rewrite ubind_read, update_scroll_delta_factor.
Qed.

(** A key calls the handler it is bound to; the others call nothing. *)
Lemma handleKeyPressEvent_key event w :
  snd (handleKeyPressEvent event w)
  = snd (match key event with
         | Key_Left | Key_Right | Key_Up | Key_Down => window_scroll event
         | Key_I => window_reset_intensity
         | Key_C => window_center_cursor
         | Key_T => transpose_roll
         | Key_Y => transpose_swap
         | _ => uret tt
         end w).
Proof.
  unfold handleKeyPressEvent, compile_key_bindings.
  destruct (key event) eqn:Hk; cbn [ufor existsb fst snd];
    repeat match goal with
           | |- context [keq ?a ?b] =>
               let v := eval vm_compute in (keq a b) in change (keq a b) with v
           end;
    cbn [orb uwhen call_handler]; unfold ubind, uret;
    repeat match goal with
           | |- context [match ?m w with _ => _ end] =>
               destruct (m w) as [[[] |] ?]
           end; done.
Qed.

End Keys.

(** ** transpose *)

Section Transposition.
Context {F : Type} {Fops : ScalarOps F} {FI : FloatInt F}.
Context {Res Hint : Type} {FU : FitUtilities Res Hint}.
Implicit Types (self : FitTool F Res Hint) (w : FitToolWindow F Res Hint).

(** An integer is the name of no dimension. *)
Lemma tuple_index_int (i : Z) (dims : list string) :
  tuple_index (DInt i) (map DStr dims) = Raise ValueError.
Proof. induction dims as [| d dims IH]; [done |]. cbn. by rewrite IH. Qed.

(** [transpose] always raises and changes nothing: when the order
    names the dimensions of the data, the assignment to [data] is
    refused with [TypeError], and the cursor is never permuted. *)
Theorem transpose_raises (transpose_order : list dim_arg) self :
  exists e, transpose transpose_order self = (Raise e, self).
Proof.
  unfold transpose. rewrite ubind_read.
  destruct (pymap _ transpose_order) as [reindex_order | e]; [| by exists e].
  rewrite ubind_read. destruct (transposed self _) as [new_data | e];
    [| by exists e].
  by exists TypeError.
Qed.

(** [transpose_to_front] always raises and changes nothing: an
    integer is looked for among the names of the dimensions, where it
    is not ([ValueError]), and a name ends in [transpose]. *)
Theorem transpose_to_front_raises (dim : dim_arg) self :
  exists e, transpose_to_front dim self = (Raise e, self).
Proof.
  unfold transpose_to_front. destruct dim as [s | i].
  - rewrite ubind_step with (a := DStr s) (s1 := self) by done.
    rewrite ubind_read. destruct (data_dims self) as [dims | e]; [| by exists e].
    cbn [pybind]. unfold ulift. rewrite ubind_read.
    destruct (list_remove _ _) as [order | e]; [| by exists e].
    apply transpose_raises.
  - rewrite ubind_read. destruct (data_dims self) as [dims | e]; [| by exists e].
    cbn [pybind]. rewrite tuple_index_int. by exists ValueError.
Qed.

(** With data at hand, the integer raises [ValueError]. *)
Lemma transpose_to_front_int (i : Z) self (arr : Grid F F) :
  data self = Ok arr ->
  transpose_to_front (DInt i) self = (Raise ValueError, self).
Proof.
  intros Hd. unfold transpose_to_front. rewrite ubind_read.
  unfold data_dims. rewrite Hd. cbn [pybind]. by rewrite tuple_index_int.
Qed.

(** A method that changes nothing changes no window. *)
Lemma on_app_unchanged {A} (m : ui (FitTool F Res Hint) A) w :
  (forall self, snd (m self) = self) -> snd (on_app m w) = w.
Proof.
  intros Hm. unfold on_app. destruct w as [[tool |]]; [| done]. cbn.
  specialize (Hm tool). by destruct (m tool) as [r tool']; cbn in *; subst.
Qed.

(** Claim C34. The keys T and Y transpose nothing: the handlers of both
    raise, [ValueError] when the tool has data, and leave the window as
    it is. *)
Theorem transpose_keys_raise w :
  (exists e, transpose_roll w = (Raise e, w))
  /\ (exists e, transpose_swap w = (Raise e, w)).
Proof.
  unfold transpose_roll, transpose_swap, on_app.
  destruct w as [[tool |]]; [| by split; exists AttributeError].
  cbn [app]. split.
  - destruct (transpose_to_front_raises (DInt (-1)) tool) as [e ->]. by exists e.
  - destruct (transpose_to_front_raises (DInt 1) tool) as [e ->]. by exists e.
Qed.

End Transposition.

(** ** set_data *)

Section SetData.
Context {F : Type} {Fops : ScalarOps F} {FI : FloatInt F}.
Context {Res Hint : Type} {FU : FitUtilities Res Hint}.
Implicit Types (self : FitTool F Res Hint) (new_data : FitData F Res).

(** Of the dimensions [dims ++ [dim]] an array that has [dim] keeps it
    last. *)
Lemma own_last (has : string -> bool) (dims : list string) (dim : string) :
  has dim = true ->
  last (List.filter has (dims ++ [dim])) = Some dim.
Proof.
  intros Hd. rewrite List.filter_app. cbn [List.filter]. rewrite Hd.
  apply last_snoc.
Qed.

(** Every variable of a dataset taken to the back along [dim] that has
    the dimension has it last. *)
Lemma transpose_to_back_last new_data (dim : string) (ds : FitData F Res) :
  transpose_to_back new_data dim = Ok ds ->
  Forall (fun nv => (dim ∈ g_dims (snd nv)) -> last (g_dims (snd nv)) = Some dim)
         (fd_vars ds).
Proof.
  unfold transpose_to_back, dataset_transpose. intros H. py_head H.
  py_head H. py_head H. py_head H. injection H as <-. cbn [fd_vars].
  match goal with Hm : pymap _ _ = Ok _ |- _ => apply pymap_Forall2 in Hm;
    eapply Forall2_Forall_r; [exact Hm |] end.
  apply Forall_forall. intros [name g] _ [name' g'] Hg. py_inv Hg.
  injection Hg as <- <-. cbn [snd] in *.
  match goal with Ht : xr_transpose _ _ = Ok _ |- _ =>
    apply xr_transpose_dims in Ht as [-> Hsame] end.
  intros Hin. apply own_last.
  by apply list_elem_of_In, List.filter_In in Hin as [_ Hin].
Qed.

(** [set_data] takes datasets with one fit dimension only: with none or
    with several its assertion fails, and the tool keeps the dataset it
    was given. *)
Theorem set_data_asserts new_data self (fit_dims : list string) :
  fit_dimensions new_data = Ok fit_dims -> length fit_dims <> 1 ->
  set_data new_data self
  = (Raise AssertionError, set_data_key Data (set_dataset (Some new_data) self)).
Proof.
  intros Hf Hlen. unfold set_data. rewrite !ubind_write. unfold ulift.
  rewrite ubind_read, Hf, ubind_read.
  by apply Nat.eqb_neq in Hlen as ->.
Qed.

(** When [set_data] returns, the tool holds the dataset with the fit
    dimension last in every variable that has it. *)
Theorem set_data_fit_dimension_last new_data self tool :
  set_data new_data self = (Ok tt, tool) ->
  exists dim ds,
    fit_dimensions new_data = Ok [dim]
    /\ dataset tool = Some ds
    /\ Forall (fun nv => dim ∈ g_dims (snd nv) -> last (g_dims (snd nv)) = Some dim)
              (fd_vars ds).
Proof.
  unfold set_data. rewrite !ubind_write. unfold ulift. rewrite ubind_read.
  destruct (fit_dimensions new_data) as [fit_dims |]; [| done].
  rewrite ubind_read.
  destruct fit_dims as [| dim [| ? ?]]; try done. cbn [py_assert length Nat.eqb].
  rewrite ubind_read.
  destruct (transpose_to_back new_data dim) as [ds |] eqn:Ht; [| done].
  unfold uwrite. intros [= <-]. exists dim, ds.
  split; [done |]. split; [done |]. by eapply transpose_to_back_last.
Qed.

End SetData.

(** ** The views *)

Section Views.
Context {F : Type} {Fops : ScalarOps F} {FI : FloatInt F}.
Context {Res Hint : Type} {FU : FitUtilities Res Hint}.
Implicit Types (self : FitTool F Res Hint) (dimensions : list Z).
Local Open Scope string_scope.

Variables (dims : list string) (content : LayoutRef).
Local Notation "'laid_out'" :=
  (has_layout (F := F) (Res := Res) (Hint := Hint) dims content)
  (only parsing).

Lemma new_widget_returns (cls : ViewClass) (name : string)
    (orientation : PlotOrientation) :
  returns laid_out (new_widget (Res := Res) cls name orientation)
          (fun _ => True).
Proof. intros s Hs. split; [done |]. by eexists. Qed.

Lemma new_cursor_region_returns (vertical : bool) :
  returns laid_out (new_cursor_region (Res := Res) vertical) (fun _ => True).
Proof. intros s Hs. split; [done |]. by eexists. Qed.

Lemma addItem_returns (view line : nat) :
  returns laid_out (addItem (Res := Res) view line) (fun _ => True).
Proof. by apply returns_write. Qed.

Lemma connect_cursor_returns (dimension : Z) (line : nat) :
  returns laid_out (connect_cursor (Res := Res) dimension line) (fun _ => True).
Proof. by apply returns_write. Qed.

Lemma addWidget_returns (layout : LayoutRef) (item : LayoutItem) (a b : Z) :
  returns laid_out (addWidget (Res := Res) layout item a b) (fun _ => True).
Proof. by apply returns_write. Qed.

Lemma layout_or_default_returns (layout : LayoutRef) :
  returns laid_out (layout_or_default (Res := Res) (Some layout))
          (fun _ => True).
Proof. apply returns_read. intros s _. by eexists. Qed.

Lemma content_layout_returns :
  returns laid_out
          (uread (fun self : FitTool F Res Hint => Ok (content_layout self)))
          (fun layout => layout = Some content).
Proof. apply returns_read. intros s [_ Hl]. by eexists. Qed.

Lemma n_dims_returns :
  returns laid_out (uread (n_dims (Res := Res)))
          (fun n => n = Z.of_nat (length dims)).
Proof.
  apply returns_read. intros s [Hd _]. unfold n_dims. rewrite Hd. by eexists.
Qed.

Lemma remaining_dims_returns dimensions :
  returns laid_out
    (uread (fun self : FitTool F Res Hint => remaining_dims_of self dimensions))
    (fun remaining =>
       remaining = List.filter (fun i => negb (existsb (Z.eqb i) dimensions))
                               (map Z.of_nat (seq 0 (length dims)))).
Proof.
  apply returns_read. intros s [Hd _]. unfold remaining_dims_of.
  rewrite Hd. by eexists.
Qed.

#[local] Hint Resolve new_widget_returns new_cursor_region_returns
  addItem_returns connect_cursor_returns addWidget_returns
  layout_or_default_returns content_layout_returns n_dims_returns
  remaining_dims_returns : returns.

(** With two dimensions that remain, [generate_marginal_for] returns. *)
Lemma generate_marginal_for_returns dimensions (column row : Z)
    (name : string) (orientation : PlotOrientation) (cursors : bool)
    (layout : LayoutRef) (d0 d1 : Z) :
  List.filter (fun i => negb (existsb (Z.eqb i) dimensions))
              (map Z.of_nat (seq 0 (length dims))) = [d0; d1] ->
  returns laid_out
          (generate_marginal_for (Res := Res) dimensions column row name
                                 orientation cursors (Some layout))
          (fun _ => True).
Proof.
  intros Hrem. unfold generate_marginal_for.
  eapply returns_bind; [returns_step | intros l _].
  eapply returns_bind; [returns_step | intros remaining ->].
  rewrite Hrem. repeat returns_step.
Qed.

(** Without cursor lines [generate_fit_marginal_for] returns. *)
Lemma generate_fit_marginal_for_returns dimensions (column_row : Z * Z)
    (name : string) (orientation : PlotOrientation) (layout : LayoutRef) :
  returns laid_out
          (generate_fit_marginal_for (Res := Res) dimensions column_row name
                                     orientation false (Some layout))
          (fun _ => True).
Proof.
  unfold generate_fit_marginal_for. destruct column_row as [column row].
  repeat returns_step.
Qed.

(** With a cursor line and no dimension that remains,
    [generate_fit_marginal_for] raises [IndexError]: there is no last
    dimension to connect the line to. *)
Lemma generate_fit_marginal_for_raises dimensions (column_row : Z * Z)
    (name : string) (orientation : PlotOrientation) (layout : LayoutRef) :
  List.filter (fun i => negb (existsb (Z.eqb i) dimensions))
              (map Z.of_nat (seq 0 (length dims))) = [] ->
  raises laid_out
         (generate_fit_marginal_for (Res := Res) dimensions column_row name
                                    orientation true (Some layout))
         IndexError.
Proof.
  intros Hrem. unfold generate_fit_marginal_for.
  destruct column_row as [column row].
  eapply raises_bind_later; [returns_step | intros l _].
  eapply raises_bind_later; [returns_step | intros remaining ->].
  eapply raises_bind_later; [returns_step | intros widget _].
  eapply raises_bind_later; [returns_step | intros _ _].
  apply raises_bind_now. cbn [uwhen].
  eapply raises_bind_later; [returns_step | intros cursor _].
  eapply raises_bind_later; [returns_step | intros _ _].
  apply raises_bind_now. rewrite Hrem. apply raises_lift.
Qed.

#[local] Hint Resolve generate_fit_marginal_for_returns : returns.

(** Claim C37. On data of three or of four dimensions
    [configure_image_widgets] raises [IndexError]: the view of the fit
    is asked for a cursor line along a dimension that remains when all
    are taken, so that only data of two dimensions can be shown. *)
Theorem configure_image_widgets_raises self :
  has_layout dims content self -> length dims = 3 \/ length dims = 4 ->
  fst (configure_image_widgets self) = Raise IndexError.
Proof.
  intros Hs Hlen. revert self Hs. change (raises laid_out
    (configure_image_widgets (Res := Res)) IndexError).
  unfold configure_image_widgets.
  eapply raises_bind_later; [apply n_dims_returns | intros n ->].
  eapply raises_bind_later;
    [apply (returns_when _ _ _ (fun _ => True)); [| done] | intros _ _].
  { by destruct Hlen as [-> | ->]. }
  eapply raises_bind_later; [apply n_dims_returns | intros n ->].
  destruct Hlen as [Hlen | Hlen]; rewrite Hlen.
  - apply raises_bind_now. cbn [uwhen Z.eqb Z.of_nat Pos.of_succ_nat Pos.succ
                                 Pos.eqb].
    eapply raises_bind_later; [returns_step | intros layout ->].
    eapply raises_bind_later;
      [eapply generate_marginal_for_returns; by rewrite Hlen | intros _ _].
    eapply raises_bind_later; [returns_step | intros layout ->].
    apply raises_bind_now, generate_fit_marginal_for_raises. by rewrite Hlen.
  - eapply raises_bind_later; [returns_step | intros _ _].
    eapply raises_bind_later; [apply n_dims_returns | intros n ->].
    rewrite Hlen. cbn [uwhen Z.eqb Z.of_nat Pos.of_succ_nat Pos.succ Pos.eqb].
    do 3 (eapply raises_bind_later; [returns_step | intros layout ->];
          eapply raises_bind_later;
            [eapply generate_marginal_for_returns; by rewrite Hlen
            | intros _ _]).
    eapply raises_bind_later; [returns_step | intros layout ->].
    apply raises_bind_now, generate_fit_marginal_for_raises. by rewrite Hlen.
Qed.

End Views.

(** ** What the events keep *)

Section Invariants.
Context {F : Type} {Fops : ScalarOps F} {FI : FloatInt F}.
Context {Res Hint : Type} {FU : FitUtilities Res Hint}.
Implicit Types (self tool : FitTool F Res Hint) (w : FitToolWindow F Res Hint).
Implicit Types (new_cursor : list F) (n : nat).
Local Open Scope string_scope.

Lemma map_alter_same {A B} (h : A -> B) (g : A -> A) (i : nat) (l : list A) :
  (forall x, h (g x) = h x) -> map h (alter g i l) = map h l.
Proof.
  intros Hg. revert i. induction l as [| x l IH]; intros [| i]; cbn;
    by rewrite ?Hg, ?IH.
Qed.

(** The data of a tool are those of its frame. *)
Lemma data_dims_frame self tool :
  frame tool = frame self -> data_dims tool = data_dims self.
Proof. unfold frame, data_dims, data. by intros [= -> -> _]. Qed.

(** *** The frame *)

Section Frame.
Variable fr : DataKey * option (FitData F Res) * option LayoutRef
              * option LayoutRef * option LayoutRef
              * list (LayoutRef * LayoutItem * Z * Z) * list (string * nat)
              * list (ViewClass * string * PlotOrientation * list nat)
              * list bool * list (Z * list nat) * list ReactivePlotRecord
              * list string * list string * list Z * option string.

Local Notation "'has_frame'" :=
  (has_frame_of (F := F) (Res := Res) (Hint := Hint) fr) (only parsing).

Lemma show_frame (view : nat) shown : keeps has_frame (show view shown).
Proof.
  apply keeps_write. intros s Hs. unfold has_frame_of, frame in *. cbn.
  by rewrite map_alter_same.
Qed.

Lemma set_location_frame (line : nat) (value : F) :
  keeps has_frame (set_location line value).
Proof.
  apply keeps_write. intros s Hs. unfold has_frame_of, frame in *. cbn.
  by rewrite map_alter_same.
Qed.

#[local] Hint Resolve show_frame set_location_frame : keeps.

Lemma redraw_frame reactive new_cursor (keep_levels : bool) :
  keeps has_frame (redraw reactive new_cursor keep_levels).
Proof. unfold redraw. keeps_with assumption. Qed.

#[local] Hint Resolve redraw_frame : keeps.

Lemma update_cursor_position_frame new_cursor (force keep_levels : bool) :
  keeps has_frame (update_cursor_position new_cursor force keep_levels).
Proof. unfold update_cursor_position. keeps_with assumption. Qed.

Lemma move_cursors_frame new_cursor : keeps has_frame (move_cursors new_cursor).
Proof. unfold move_cursors. keeps_with assumption. Qed.

#[local] Hint Resolve update_cursor_position_frame move_cursors_frame : keeps.

Lemma center_cursor_frame : keeps has_frame center_cursor.
Proof. unfold center_cursor. keeps_with assumption. Qed.

Lemma scroll_frame (delta : Z * Z) : keeps has_frame (scroll delta).
Proof.
  unfold scroll. keeps_with assumption.
Qed.

Lemma reset_intensity_frame : keeps has_frame reset_intensity.
Proof. unfold reset_intensity. keeps_with assumption. Qed.

Lemma connected_cursor_frame (dimension : Z) (line : nat) :
  keeps has_frame (connected_cursor dimension line).
Proof. unfold connected_cursor. keeps_with assumption. Qed.

#[local] Hint Resolve connected_cursor_frame : keeps.

Lemma cursor_moved_frame (line : nat) (value : F) :
  keeps has_frame (cursor_moved line value).
Proof. unfold cursor_moved. keeps_with assumption. Qed.

Lemma copy_parameter_hint_frame : keeps has_frame copy_parameter_hint.
Proof. unfold copy_parameter_hint. keeps_with assumption. Qed.

End Frame.

(** *** The cursor *)

Section Cursor.
Variable P : list F -> Prop.
Local Notation "'sat_P'" :=
  (cursor_sat (F := F) (Res := Res) (Hint := Hint) P) (only parsing).

Lemma cursor_sat_set_cursor new_cursor self :
  P new_cursor ->
  cursor_sat P (set_context (dict_set (context self) "cursor" new_cursor) self).
Proof.
  intros HP. exists new_cursor. split; [| done].
  unfold context_cursor, dict_item. cbn. by rewrite dict_get_set_eq.
Qed.

Lemma cursor_sat_set_value_cursor (value_cursor : list F) self :
  cursor_sat P self ->
  cursor_sat P (set_context (dict_set (context self) "value_cursor" value_cursor)
                            self).
Proof.
  intros (cursor & Hc & HP). exists cursor. split; [| done].
  unfold context_cursor, dict_item in *. cbn. by rewrite dict_get_set_ne.
Qed.

(** The cursor read in a state where it satisfies [P] does. *)
Lemma cursor_sat_read self (cursor : list F) :
  cursor_sat P self -> context_cursor self = Ok cursor -> P cursor.
Proof. intros (c & Hc & HP). rewrite Hc. by intros [= <-]. Qed.

Ltac sat_write :=
  first [assumption
        | by apply cursor_sat_set_cursor
        | by apply cursor_sat_set_value_cursor].

Lemma show_sat (view : nat) (shown : option (Shown F Res)) :
  keeps sat_P (show view shown).
Proof. by apply keeps_write. Qed.

Lemma set_location_sat (line : nat) (value : F) :
  keeps sat_P (set_location line value).
Proof. by apply keeps_write. Qed.

#[local] Hint Resolve show_sat set_location_sat : keeps.

Lemma redraw_sat reactive new_cursor (keep_levels : bool) :
  keeps sat_P (redraw reactive new_cursor keep_levels).
Proof. unfold redraw. keeps_with sat_write. Qed.

#[local] Hint Resolve redraw_sat : keeps.

Lemma update_cursor_position_sat new_cursor (force keep_levels : bool) :
  P new_cursor ->
  keeps sat_P (update_cursor_position new_cursor force keep_levels).
Proof. intros HP. unfold update_cursor_position. keeps_with sat_write. Qed.

(** Once the old cursor is read, the new one is in place, whatever
    happens afterwards. *)
Lemma update_cursor_position_sets new_cursor (force keep_levels : bool) self :
  P new_cursor ->
  (exists old, context_cursor self = Ok old)
  \/ fst (update_cursor_position new_cursor force keep_levels self) = Ok tt ->
  cursor_sat P (snd (update_cursor_position new_cursor force keep_levels self)).
Proof.
  intros HP Hpre. unfold update_cursor_position in *.
  rewrite ubind_read in *.
  destruct (context_cursor self) as [old | e] eqn:Hold;
    [| by destruct Hpre as [[c Hc] | H]].
  rewrite ubind_write.
  match goal with
  | |- cursor_sat _ (snd (?m ?s)) =>
      assert (keeps (cursor_sat P) m) as Hk by keeps_with sat_write;
      apply Hk
  end.
  by apply cursor_sat_set_cursor.
Qed.

Lemma move_cursors_sat new_cursor : keeps sat_P (move_cursors new_cursor).
Proof. unfold move_cursors. keeps_with sat_write. Qed.

Lemma copy_parameter_hint_sat : keeps sat_P copy_parameter_hint.
Proof. unfold copy_parameter_hint. keeps_with sat_write. Qed.

End Cursor.

#[local] Hint Resolve show_sat set_location_sat redraw_sat move_cursors_sat : keeps.

Section CursorLength.
Variable n : nat.
Local Notation "'fits_n'" :=
  (cursor_fits (F := F) (Res := Res) (Hint := Hint) n) (only parsing).

Lemma scroll_fits (delta : Z * Z) : keeps fits_n (scroll delta).
Proof.
  unfold cursor_fits, scroll. apply keeps_bind_read. intros cursor s0 Hs0 _.
  destruct (_ <=? _)%Z; [by apply keeps_write |].
  apply keeps_bind_read. intros cursor' s1 Hs1 Hc.
  keeps_with fail. apply update_cursor_position_sat.
  rewrite length_alter. by apply (cursor_sat_read _ _ _ Hs1).
Qed.

Lemma reset_intensity_fits : keeps fits_n reset_intensity.
Proof.
  unfold cursor_fits, reset_intensity. apply keeps_bind_read.
  intros cursor s0 Hs0 Hc.
  apply update_cursor_position_sat. by apply (cursor_sat_read _ _ _ Hs0).
Qed.

Lemma connected_cursor_fits (dimension : Z) (line : nat) :
  keeps fits_n (connected_cursor dimension line).
Proof.
  unfold cursor_fits, connected_cursor. apply keeps_bind_read.
  intros cursor s0 Hs0 Hc.
  keeps_with fail. apply update_cursor_position_sat.
  rewrite length_insert. by apply (cursor_sat_read _ _ _ Hs0).
Qed.

#[local] Hint Resolve connected_cursor_fits : keeps.

Lemma cursor_moved_fits (line : nat) (value : F) :
  keeps fits_n (cursor_moved line value).
Proof.
  unfold cursor_moved. keeps_with fail. unfold cursor_fits. keeps_with fail.
Qed.

End CursorLength.

(** *** scroll *)

(** A scroll along an axis of the cursor adds the step to the
    entry of the axis and leaves the others, also when the redrawing
    that follows raises. *)
Theorem scroll_moves_cursor self (cursor : list F) (axis d : Z) :
  context_cursor self = Ok cursor ->
  (0 <= axis < Z.of_nat (length cursor))%Z ->
  context_cursor (snd (scroll (axis, d) self))
  = Ok (alter (fun x => (x + s_of_Z d)%sc) (Z.to_nat axis) cursor).
Proof.
  intros Hc Haxis. unfold scroll. rewrite ubind_read, Hc. cbn [fst snd].
  destruct (Z.leb_spec (Z.of_nat (length cursor)) axis); [lia |].
  rewrite ubind_read, Hc. unfold ulift. rewrite ubind_read.
  rewrite py_position_ok by done.
  set (cursor' := alter _ _ cursor).
  assert (cursor_sat (eq cursor')
            (snd (update_cursor_position cursor' false true self)))
    as Hsat by (apply update_cursor_position_sets; [done | left; by exists cursor]).
  unfold ubind.
  destruct (update_cursor_position cursor' false true self) as [[[] | e] s1].
  - destruct (move_cursors_sat (eq cursor') cursor' s1 Hsat) as (c & -> & <-).
    done.
  - by destruct Hsat as (c & -> & <-).
Qed.

(** A scroll along an axis the cursor does not have warns and
    changes nothing else. *)
Theorem scroll_nonexistent_dimension self (cursor : list F) (axis d : Z) :
  context_cursor self = Ok cursor ->
  (Z.of_nat (length cursor) <= axis)%Z ->
  scroll (axis, d) self
  = (Ok tt,
     set_warned (warned self ++ ["Tried to scroll a non-existent dimension."])
                self).
Proof.
  intros Hc Haxis. unfold scroll. rewrite ubind_read, Hc. cbn [fst snd].
  by destruct (Z.leb_spec (Z.of_nat (length cursor)) axis); [| lia].
Qed.

(** *** The tool and its window *)

Section Tool.
Variable tool0 : FitTool F Res Hint.

Lemma tool_inv_keeps {A} (m : ui (FitTool F Res Hint) A) :
  keeps (has_frame_of (frame tool0)) m ->
  (forall n, keeps (cursor_fits n) m) ->
  keeps (tool_inv tool0) m.
Proof.
  intros Hf Hc s [Hfr (dims & Hd & Hfits)]. split; [by apply Hf |].
  exists dims. split; [done | by apply Hc].
Qed.

Lemma center_cursor_inv : keeps (tool_inv tool0) center_cursor.
Proof.
  unfold center_cursor. apply keeps_bind_read.
  intros new_cursor s0 [Hfr (dims & Hd & _)] Hread.
  assert (length new_cursor = length dims) as Hlen.
  { unfold centred in Hread.
    rewrite (data_dims_frame _ _ Hfr), Hd in Hread. cbn [pybind] in Hread.
    by apply pymap_length in Hread. }
  apply keeps_bind; [| intros _].
  - intros s [Hs (dims' & Hd' & Hfits)].
    split; [by apply update_cursor_position_frame |].
    exists dims. split; [done |]. apply update_cursor_position_sat; [done |].
    rewrite Hd in Hd'. by injection Hd' as <-.
  - apply tool_inv_keeps;
      [apply move_cursors_frame | intros n; apply move_cursors_sat].
Qed.

Lemma transpose_to_front_inv (dim : dim_arg) :
  keeps (tool_inv tool0) (transpose_to_front dim).
Proof.
  intros s Hs. by destruct (transpose_to_front_raises dim s) as [e ->].
Qed.

(** What a method keeps, its call through the window keeps. *)
Lemma on_app_keeps {A} (m : ui (FitTool F Res Hint) A) :
  keeps (tool_inv tool0) m -> keeps (window_inv tool0) (on_app m).
Proof.
  intros Hm w (tool & Ha & Hinv). unfold on_app. rewrite Ha.
  specialize (Hm tool Hinv). destruct (m tool) as [r tool']. by exists tool'.
Qed.

Lemma scroll_app_keeps (delta : option (Z * Z)) :
  keeps (window_inv tool0) (scroll_app delta).
Proof.
  intros w Hw. unfold scroll_app. destruct delta as [delta |]; [| done].
  destruct (app w) eqn:Ha; [| done]. revert w Hw Ha. intros w Hw _.
  apply on_app_keeps; [| done].
  apply tool_inv_keeps; [apply scroll_frame | intros n; apply scroll_fits].
Qed.

#[local] Hint Resolve scroll_app_keeps : keeps.

Lemma call_handler_keeps (h : handler) (event : QKeyEvent) :
  keeps (window_inv tool0) (call_handler h event).
Proof.
  destruct h; cbn [call_handler].
  - unfold window_scroll. cbv zeta. keeps_with fail.
  - apply on_app_keeps, tool_inv_keeps;
      [apply reset_intensity_frame | intros n; apply reset_intensity_fits].
  - apply on_app_keeps, center_cursor_inv.
  - apply on_app_keeps, transpose_to_front_inv.
  - apply on_app_keeps, transpose_to_front_inv.
Qed.

#[local] Hint Resolve call_handler_keeps : keeps.

Lemma handle_keeps (ev : event F) : keeps (window_inv tool0) (handle ev).
Proof.
  destruct ev as [e | e | line value |]; cbn [handle].
  - unfold handleKeyPressEvent. keeps_with fail.
  - unfold scroll_z. cbv zeta. keeps_with fail.
  - apply on_app_keeps, tool_inv_keeps;
      [apply cursor_moved_frame | intros n; apply cursor_moved_fits].
  - apply on_app_keeps, tool_inv_keeps;
      [apply copy_parameter_hint_frame | intros n; apply copy_parameter_hint_sat].
Qed.

(** Whatever keys are pressed and lines dragged, and whatever
    exceptions the handlers raise, the window of a started tool keeps
    its application, the application keeps its data, its views, its
    cursor lines and its layouts, and its cursor keeps one entry per
    dimension of the data. *)
Theorem reachable_window_inv w (dims : list string) :
  data_dims tool0 = Ok dims -> cursor_fits (length dims) tool0 ->
  reachable tool0 w -> window_inv tool0 w.
Proof.
  intros Hd Hfits Hreach. induction Hreach as [| w ev _ IH].
  - exists tool0. split; [done |]. split; [done |]. by exists dims.
  - by apply handle_keeps.
Qed.

End Tool.

(** *** Tools that were started *)

(** When [center_cursor] returns, the cursor has one entry per dimension
    of the data. *)
Lemma center_cursor_fits self tool :
  center_cursor self = (Ok tt, tool) ->
  exists dims, data_dims tool = Ok dims /\ cursor_fits (length dims) tool.
Proof.
  unfold center_cursor. rewrite ubind_read. unfold centred.
  destruct (pybind (data_dims self) _) as [new_cursor | e] eqn:Hread; [| done].
  destruct (data_dims self) as [dims | e] eqn:Hd; [| done].
  cbn [pybind] in Hread. apply pymap_length in Hread.
  intros ([] & s1 & Hu & Hm)%ubind_Ok. exists dims.
  pose proof (update_cursor_position_frame (frame self) new_cursor false true
                self eq_refl) as Hfr.
  pose proof (update_cursor_position_sets (fun c => length c = length dims)
                new_cursor false true self Hread) as Hsat.
  rewrite Hu in Hfr, Hsat. cbn [fst snd] in Hfr, Hsat.
  pose proof (move_cursors_frame (frame self) new_cursor s1 Hfr) as Hfr'.
  pose proof (move_cursors_sat _ new_cursor s1 (Hsat (or_intror eq_refl)))
    as Hsat'.
  rewrite Hm in Hfr', Hsat'. split; [| done].
  by rewrite (data_dims_frame self tool Hfr').
Qed.

(** A tool that [_fit_tool] started has data and a cursor with one
    entry per dimension. *)
Lemma fit_tool_fits (data_ : tool_input) (tool0 : FitTool F Res Hint) :
  _fit_tool data_ = Ok tool0 ->
  exists dims, data_dims tool0 = Ok dims /\ cursor_fits (length dims) tool0.
Proof.
  unfold _fit_tool. intros H. py_head H.
  destruct (ubind _ _ _) as [[u | e] tool] eqn:Hrun; [| done].
  injection H as ->.
  apply ubind_Ok in Hrun as (? & s1 & _ & Hrun). unfold start in Hrun.
  do 3 apply ubind_Ok in Hrun as (? & ? & _ & Hrun).
  unfold after_show in Hrun.
  do 4 apply ubind_Ok in Hrun as (? & ? & _ & Hrun).
  match type of Hrun with _ = (Ok ?u, _) => destruct u end.
  by eapply center_cursor_fits.
Qed.

(** Claim C14. The window of a tool that [_fit_tool] started keeps its
    invariant under every sequence of events. *)
Theorem started_window_inv (data_ : tool_input) (tool0 : FitTool F Res Hint) w :
  _fit_tool data_ = Ok tool0 -> reachable tool0 w -> window_inv tool0 w.
Proof.
  intros (dims & Hd & Hfits)%fit_tool_fits Hreach.
  by eapply reachable_window_inv.
Qed.

(** *** The cursor machine *)

Section Machine.

(** The middle and the registrations of a tool are those of its
    frame. *)
Lemma centred_frame self tool :
  frame tool = frame self ->
  centred tool = centred self
  /\ registered_cursors tool = registered_cursors self.
Proof.
  unfold frame, centred, data_dims, data.
  by intros [= -> -> _ _ _ _ _ _ _ ->].
Qed.

(** The cursor after [update_cursor_position] and [move_cursors] is the
    new one, whether they return or raise. *)
Lemma update_and_move self (old new : list F) (force keep_levels : bool) :
  context_cursor self = Ok old ->
  context_cursor
    (snd ((let# _ := update_cursor_position new force keep_levels in
           move_cursors new)%ui self))
  = Ok new.
Proof.
  intros Hc.
  assert (cursor_sat (eq new)
            (snd (update_cursor_position new force keep_levels self)))
    as Hsat by (apply update_cursor_position_sets; [done | left; by exists old]).
  unfold ubind.
  destruct (update_cursor_position new force keep_levels self) as [[[] | e] s1].
  - by destruct (move_cursors_sat (eq new) new s1 Hsat) as (c & -> & <-).
  - by destruct Hsat as (c & -> & <-).
Qed.

Lemma scroll_cursor self (cursor : list F) (axis d : Z) :
  context_cursor self = Ok cursor -> (0 <= axis)%Z ->
  context_cursor (snd (scroll (axis, d) self)) = Ok (scrolled axis d cursor).
Proof.
  intros Hc Haxis. unfold scrolled.
  destruct (Z.leb_spec (Z.of_nat (length cursor)) axis).
  - by rewrite (scroll_nonexistent_dimension _ cursor).
  - by rewrite (scroll_moves_cursor _ cursor) by (done || lia).
Qed.

Lemma reset_intensity_cursor self (cursor : list F) :
  context_cursor self = Ok cursor ->
  context_cursor (snd (reset_intensity self)) = Ok cursor.
Proof.
  intros Hc. unfold reset_intensity. rewrite ubind_read, Hc.
  destruct (update_cursor_position_sets (eq cursor) cursor true false self
              eq_refl) as (c & -> & <-); [left; by exists cursor | done].
Qed.

Lemma center_cursor_cursor self (cursor : list F) :
  context_cursor self = Ok cursor ->
  context_cursor (snd (center_cursor self))
  = Ok (match centred self with Ok c => c | Raise _ => cursor end).
Proof.
  intros Hc. unfold center_cursor. rewrite ubind_read.
  destruct (centred self) as [new | e]; [| done].
  by apply (update_and_move self cursor).
Qed.

Lemma copy_parameter_hint_cursor self (cursor : list F) :
  context_cursor self = Ok cursor ->
  context_cursor (snd (copy_parameter_hint self)) = Ok cursor.
Proof.
  intros Hc.
  destruct (copy_parameter_hint_sat (eq cursor) self) as (c & -> & <-);
    [by exists cursor | done].
Qed.

(** **** A line that is dragged *)

(** No redrawing moves a line. *)
Lemma show_cursors cs (view : nat) (shown : option (Shown F Res)) :
  keeps (fun self : FitTool F Res Hint => cursors self = cs) (show view shown).
Proof. by apply keeps_write. Qed.

#[local] Hint Resolve show_cursors : keeps.

Lemma redraw_cursors cs reactive new_cursor (keep_levels : bool) :
  keeps (fun self : FitTool F Res Hint => cursors self = cs)
        (redraw reactive new_cursor keep_levels).
Proof. unfold redraw. keeps_with done. Qed.

#[local] Hint Resolve redraw_cursors : keeps.

Lemma update_cursor_position_cursors cs new_cursor (force keep_levels : bool) :
  keeps (fun self : FitTool F Res Hint => cursors self = cs)
        (update_cursor_position new_cursor force keep_levels).
Proof. unfold update_cursor_position. keeps_with done. Qed.

(** One report of the line: the lines stay, and the cursor takes the
    value along the dimension, or the report raised before it did. *)
Lemma connected_cursor_drag (line : nat) (value : F) (dimension : Z) self
    (cursor : list F) :
  context_cursor self = Ok cursor -> line_at line value self ->
  let r := connected_cursor dimension line self in
  cursors (snd r) = cursors self
  /\ (context_cursor (snd r) = Ok (drag_along value cursor dimension)
      \/ (exists e, fst r = Raise e) /\ context_cursor (snd r) = Ok cursor).
Proof.
  intros Hc Hline. cbv zeta. unfold connected_cursor, drag_along.
  rewrite ubind_read, Hc, ubind_read.
  destruct (mbind c_location (cursors self !! line)) as [region |] eqn:Hr;
    cbn [or_raise]; [| split; [done | right; split; [by eexists | done]]].
  rewrite (Hline region Hr). unfold ulift. rewrite ubind_read.
  destruct (py_position (length cursor) dimension) as [place | e];
    [| split; [done | by left]].
  split.
  - by apply (update_cursor_position_cursors (cursors self)).
  - left.
    destruct (update_cursor_position_sets (eq (<[place := value]> cursor))
                (<[place := value]> cursor) false true self eq_refl)
      as (c & -> & <-); [left; by exists cursor | done].
Qed.

(** The loop over the registrations: it reports to them in order and
    stops at the first report that raises. *)
Lemma drag_loop (line : nat) (value : F) (registered : list (Z * list nat))
    self (cursor : list F) :
  context_cursor self = Ok cursor -> line_at line value self ->
  exists n,
    context_cursor
      (snd (ufor (fun ic => uwhen (existsb (Nat.eqb line) (snd ic))
                                  (connected_cursor (fst ic) line))
                 registered self))
    = Ok (fold_left (drag_one line value) (take n registered) cursor).
Proof.
  revert self cursor.
  induction registered as [| [dimension lines] registered IH];
    intros self cursor Hc Hline; [by exists 0 |].
  assert (drag_one line value cursor (dimension, lines)
          = if existsb (Nat.eqb line) lines
            then drag_along value cursor dimension else cursor) as Hone by done.
  cbn [ufor fst snd]. unfold ubind.
  destruct (existsb (Nat.eqb line) lines); cbn [uwhen].
  - destruct (connected_cursor_drag line value dimension self cursor Hc Hline)
      as [Hcs [Hmoved | [[e He] Hsame]]];
      destruct (connected_cursor dimension line self) as [[[] | e'] s1];
      cbn [fst snd] in *; try discriminate He.
    + destruct (IH s1 _ Hmoved) as [n Hn]; [by unfold line_at; rewrite Hcs |].
      exists (S n). cbn [take fold_left]. by rewrite Hone.
    + exists 1. cbn [take fold_left]. by rewrite Hone.
    + by exists 0.
  - destruct (IH self cursor Hc Hline) as [n Hn]. exists (S n).
    cbn [take fold_left]. by rewrite Hone.
Qed.

Lemma cursor_moved_cursor (line : nat) (value : F) self (cursor : list F) :
  context_cursor self = Ok cursor ->
  exists n,
    context_cursor (snd (cursor_moved line value self))
    = Ok (fold_left (drag_one line value) (take n (registered_cursors self))
                    cursor).
Proof.
  intros Hc. unfold cursor_moved, set_location.
  rewrite ubind_write, ubind_read. apply drag_loop; [done |].
  intros region. cbn. rewrite list_lookup_alter, decide_True by done.
  destruct (cursors self !! line); [| done]. cbn. by intros [= <-].
Qed.

(** **** The window *)

Lemma on_app_snd {A} (m : ui (FitTool F Res Hint) A) w tool :
  app w = Some tool -> snd (on_app m w) = {| app := Some (snd (m tool)) |}.
Proof. intros Ha. unfold on_app. rewrite Ha. by destruct (m tool). Qed.

(** What a method does to the cursor, its call through the window does
    to the cursor of the window. *)
Lemma on_app_cursor {A} (m : ui (FitTool F Res Hint) A) w tool
    (cursor : list F) :
  app w = Some tool -> context_cursor (snd (m tool)) = Ok cursor ->
  window_cursor (snd (on_app m w)) cursor.
Proof. intros Ha Hc. rewrite (on_app_snd _ _ _ Ha). by eexists. Qed.

Lemma scroll_app_cursor (axis d : Z) w tool (cursor : list F) :
  app w = Some tool -> context_cursor tool = Ok cursor -> (0 <= axis)%Z ->
  window_cursor (snd (scroll_app (Some (axis, d)) w)) (scrolled axis d cursor).
Proof.
  intros Ha Hc Haxis. unfold scroll_app. rewrite Ha.
  by apply (on_app_cursor _ _ tool), scroll_cursor.
Qed.

Variable tool0 : FitTool F Res Hint.
Local Notation "'machine_step'" :=
  (cursor_step (centred tool0) (registered_cursors tool0)) (only parsing).

(** A key moves the cursor of the window as the machine says. *)
Lemma key_refines event w tool (cursor : list F) :
  app w = Some tool -> frame tool = frame tool0 ->
  context_cursor tool = Ok cursor ->
  window_cursor (snd (handleKeyPressEvent event w))
                (key_cursor (centred tool0) event cursor).
Proof.
  intros Ha Hfr Hc. rewrite handleKeyPressEvent_key. unfold key_cursor.
  destruct (centred_frame _ _ Hfr) as [<- _].
  destruct (key event) eqn:Hk;
    try (erewrite window_scroll_arrow by (by rewrite Hk);
         by apply (scroll_app_cursor _ _ _ tool)).
  - by apply (on_app_cursor _ _ tool), reset_intensity_cursor.
  - by apply (on_app_cursor _ _ tool), center_cursor_cursor.
  - destruct (transpose_to_front_raises (DInt (-1)) tool) as [e He].
    apply (on_app_cursor _ _ tool); [done |]. by rewrite He.
  - destruct (transpose_to_front_raises (DInt 1) tool) as [e He].
    apply (on_app_cursor _ _ tool); [done |]. by rewrite He.
  - by exists tool.
  - by exists tool.
  - by exists tool.
Qed.

Lemma scroll_z_refines event w tool (cursor : list F) :
  app w = Some tool -> context_cursor tool = Ok cursor ->
  window_cursor (snd (scroll_z event w)) (scroll_z_cursor event cursor).
Proof.
  intros Ha Hc. unfold scroll_z_cursor.
  destruct (key event) eqn:Hk;
    try (rewrite scroll_z_other_key by (by rewrite Hk); by exists tool).
  - rewrite (scroll_z_key _ _ (-1)) by (by rewrite Hk).
    by apply (scroll_app_cursor _ _ _ tool).
  - rewrite (scroll_z_key _ _ 1) by (by rewrite Hk).
    by apply (scroll_app_cursor _ _ _ tool).
Qed.

(** Every event moves the cursor of the window by a step of the
    machine. *)
Lemma handle_refines (ev : event F) w (cursor : list F) :
  window_inv tool0 w -> window_cursor w cursor ->
  exists cursor', machine_step ev cursor cursor'
                  /\ window_cursor (step w ev) cursor'.
Proof.
  intros (tool & Ha & Hfr & _) (tool' & Ha' & Hc).
  rewrite Ha in Ha'. injection Ha' as <-. unfold step.
  destruct ev as [e | e | line value |]; cbn [handle].
  - eexists. split; [constructor | by eapply key_refines].
  - eexists. split; [constructor | by eapply scroll_z_refines].
  - destruct (cursor_moved_cursor line value tool cursor Hc) as [n Hn].
    destruct (centred_frame _ _ Hfr) as [_ Hreg]. rewrite Hreg in Hn.
    eexists. split; [apply (cursor_drag _ _ line value cursor n) |].
    by apply (on_app_cursor _ _ tool).
  - exists cursor. split; [constructor |].
    by apply (on_app_cursor _ _ tool), copy_parameter_hint_cursor.
Qed.


End Machine.

End Invariants.

(** * The tool on the example *)

Section Examples.
Local Open Scope string_scope.
#[local] Existing Instance ex_float_int.
#[local] Existing Instance ex_utilities.

(** The tool started on the example: the data with the dimension of the
    fit last, an image of the data with two cursor lines, the view of
    the fit at the middle, and the cursor at the middle of both axes. *)
Example fit_tool_started :
  pybind (_fit_tool (Hint := string) (Plain (ADataset ex_fits)))
         (fun tool =>
            Ok (data_dims tool, context tool, views tool,
                map w_class (widgets tool),
                omap (fun w => match w_shown w with
                               | Some (ModelResult r) => Some r
                               | _ => None
                               end) (widgets tool),
                map c_location (cursors tool),
                registered_cursors tool, map r_dims (reactive_views tool)))
  = Ok (Ok ["x"; "eV"],
        [("cursor", [3 # 2; 2 # 2]%Q); ("value_cursor", [3 # 2; 40 # 2]%Q)],
        [("xy", 0); ("fit", 1)],
        [DataArrayImageView; FitInspectionPlot],
        ["fit 1"],
        [Some (3 # 2)%Q; Some (2 # 2)%Q],
        [(0%Z, [0]); (1%Z, [1])],
        [[]; [0; 1]%Z]).
Proof. by vm_compute. Qed.

(** The right arrow moves the cursor along [x] by one place, the first
    cursor line with it, and the view of the fit to the next fit; with
    the modifier of bit 0 the cursor moves by five places and the view
    shows the last fit. *)
Example right_arrow :
  Forall (fun '(modifiers, cursor, fit) =>
            option_map (fun tool =>
                          (dict_get (context tool) "cursor",
                           map c_location (cursors tool),
                           omap w_shown (widgets tool) !! 1))
                       (app (step {| app := Some ex_tool |}
                                  (press Key_Right modifiers)))
            = Some (Some cursor, [head cursor; Some (2 # 2)%Q],
                    Some (ModelResult fit)))
         [(0%Z, [5 # 2; 2 # 2]%Q, "fit 2"); (1%Z, [13 # 2; 2 # 2]%Q, "fit 2")].
Proof. by repeat constructor. Qed.

Lemma safe_slice_in_one_position_witness :
  exists lo,
    safe_slice_in 3 7 8 = (lo, lo + 1)%Z
    /\ (0 <= lo < 3)%Z
    /\ lo = np_clip 7 0 (3 - 1).
Proof. apply safe_slice_in_one_position; lia. Defined.

(** A position on the axis, one below it and one beyond it. *)
Example safe_slice_in_positions :
  map (fun v => safe_slice_in 3 v (v + 1)) [1; -4; 7]%Z
  = [(1, 2); (0, 1); (2, 3)]%Z.
Proof. reflexivity. Qed.

Lemma scroll_z_other_key_witness :
  scroll_z {| key := Key_C; nativeModifiers := 1 |} {| app := Some ex_tool |}
  = (if ((Z.land 1 1 =? 0) && (Z.land 1 2 =? 0))%Z
     then Ok tt else Raise TypeError, {| app := Some ex_tool |}).
Proof. by apply (scroll_z_other_key {| key := Key_C; nativeModifiers := 1 |}). Defined.

(** The keys N and M scroll the third axis, which data of two dimensions
    do not have: the tool warns. *)
Example scroll_z_warns :
  option_map warned
             (app (step {| app := Some ex_tool |}
                        (ScrollZ {| key := Key_N; nativeModifiers := 0 |})))
  = Some ["Tried to scroll a non-existent dimension."].
Proof. by vm_compute. Qed.

Lemma configure_image_widgets_raises_witness :
  fst (configure_image_widgets
         (set_content_layout (Some ContentLayout)
            (set_dataset (Some ex_fits_3d) (__init__ (Hint := string)))))
  = Raise IndexError.
Proof.
  apply (configure_image_widgets_raises ["x"; "y"; "eV"] ContentLayout);
    [by split | by left].
Defined.

(** Fits over two dimensions cannot be shown: the start of the tool
    raises [IndexError]. *)
Example fit_tool_three_dimensions :
  _fit_tool (Hint := string) (Plain (ADataset ex_fits_3d)) = Raise IndexError.
Proof. by vm_compute. Qed.

Lemma scroll_moves_cursor_witness :
  context_cursor (snd (scroll (1, -1)%Z ex_tool))
  = Ok (alter (fun x => (x + s_of_Z (-1))%sc) (Z.to_nat 1) [3 # 2; 2 # 2]%Q).
Proof.
  apply (scroll_moves_cursor ex_tool [3 # 2; 2 # 2]%Q 1 (-1));
    [reflexivity | cbn; lia].
Defined.

Lemma scroll_nonexistent_dimension_witness :
  scroll (2, 1)%Z ex_tool
  = (Ok tt,
     set_warned (warned ex_tool ++ ["Tried to scroll a non-existent dimension."])
                ex_tool).
Proof. by apply (scroll_nonexistent_dimension ex_tool [3 # 2; 2 # 2]%Q). Defined.

Lemma reachable_window_inv_witness :
  window_inv ex_tool
             (step (step {| app := Some ex_tool |} (press Key_Right 0))
                   (press Key_T 0)).
Proof.
  apply (reachable_window_inv ex_tool _ ["x"; "eV"]).
  - reflexivity.
  - by exists [3 # 2; 2 # 2]%Q.
  - do 2 apply reachable_step. apply reachable_start.
Defined.

Lemma started_window_inv_witness :
  window_inv ex_tool (step {| app := Some ex_tool |} (CursorMoved 0 (5 # 2)%Q)).
Proof.
  apply (started_window_inv (Plain (ADataset ex_fits))).
  - by vm_compute.
  - apply reachable_step, reachable_start.
Defined.

(** Fits that leave no dimension of the data over are refused, and stay
    in the tool. *)
Lemma set_data_asserts_witness :
  let fits : FitData Q string :=
    {| fd_vars := [("data", {| g_dims := ["x"]; g_coords := [[0; 1]%Q];
                               g_cells := [1; 2]%Q |})];
       fd_results := Some {| g_dims := ["x"]; g_coords := [[0; 1]%Q];
                             g_cells := ["fit 0"; "fit 1"] |} |} in
  set_data (Hint := string) fits __init__
  = (Raise AssertionError, set_data_key Data (set_dataset (Some fits) __init__)).
Proof. cbv zeta. by apply (set_data_asserts _ _ []). Defined.

Lemma set_data_fit_dimension_last_witness :
  exists dim ds,
    fit_dimensions ex_fits = Ok [dim]
    /\ dataset (snd (set_data (Hint := string) ex_fits __init__)) = Some ds
    /\ Forall (fun nv => dim ∈ g_dims (snd nv) -> last (g_dims (snd nv)) = Some dim)
              (fd_vars ds).
Proof. apply (set_data_fit_dimension_last ex_fits __init__). by vm_compute. Defined.

(** The data of the example come with the energy first and leave
    [set_data] with the energy last. *)
Example set_data_energy_last :
  option_map (fun ds => map (fun nv => g_dims (snd nv)) (fd_vars ds))
             (dataset (snd (set_data (Hint := string) ex_fits __init__)))
  = Some [["x"; "eV"]; ["x"; "eV"]].
Proof. by vm_compute. Qed.


(** The machine on the same events: five places along the first axis,
    then the second entry at the place of the line. *)
Example machine_steps :
  registered_cursors ex_tool = [(0%Z, [0]); (1%Z, [1])]
  /\ key_cursor (centred ex_tool) {| key := Key_Right; nativeModifiers := 1 |}
                [3 # 2; 2 # 2]%Q
     = [13 # 2; 2 # 2]%Q
  /\ fold_left (drag_one 1 (1 # 2)%Q) (registered_cursors ex_tool)
               [13 # 2; 2 # 2]%Q
     = [13 # 2; 1 # 2]%Q
  /\ option_map (fun tool => dict_get (context tool) "cursor")
       (app (step (step {| app := Some ex_tool |} (press Key_Right 1))
                  (CursorMoved 1 (1 # 2)%Q)))
     = Some (Some [13 # 2; 1 # 2]%Q).
Proof. by vm_compute. Qed.

(** The button of the info tab copies the hint of the fit at the
    cursor. *)
Example copy_hint_of_shown_fit :
  option_map clipboard (app (step {| app := Some ex_tool |} CopyHint))
  = Some (Some "hint of fit 1").
Proof. by vm_compute. Qed.

End Examples.
